(** * hamwan-portal: address assignments and their DNS records

    A shallow embedding of [portal/models.py]: the [Host], [IPAddress] and
    [Subnet] models, the DNS synchronisation done by [IPAddress._add_dns] and
    [IPAddress._remove_dns], the [pre_delete] hook and the two [save]
    overrides.  The relational database is an explicit state (tables are
    lists of rows in insertion order), exceptions are an error result, and
    [transaction.atomic] restores the tables when its body raises. *)

From Stdlib Require Import String Ascii List NArith ZArith Lia Bool DecimalString.
Import ListNotations.
Open Scope string_scope.
Open Scope list_scope.

(** ** Python string operations used by the models *)

Module PyStr.

(** [str.lower()] on ASCII text. *)
Definition lower_ascii (c : ascii) : ascii :=
  let n := N_of_ascii c in
  if ((65 <=? n) && (n <=? 90))%N then ascii_of_N (n + 32) else c.

Fixpoint lower (s : string) : string :=
  match s with
  | EmptyString => EmptyString
  | String c s' => String (lower_ascii c) (lower s')
  end.

(** [s.split(c)] for a one-character separator. *)
Fixpoint split (c : ascii) (s : string) : list string :=
  match s with
  | EmptyString => [EmptyString]
  | String a s' =>
      if Ascii.eqb a c then EmptyString :: split c s'
      else match split c s' with
           | [] => [String a EmptyString]
           | w :: ws => String a w :: ws
           end
  end.

(** [s.split(c, 1)]: at most one cut, at the first separator. *)
Fixpoint split1 (c : ascii) (s : string) : list string :=
  match s with
  | EmptyString => [EmptyString]
  | String a s' =>
      if Ascii.eqb a c then [EmptyString; s']
      else match split1 c s' with
           | [] => [String a EmptyString]
           | w :: ws => String a w :: ws
           end
  end.

(** [sep.join(parts)]. *)
Definition join (sep : string) (parts : list string) : string :=
  String.concat sep parts.

(** [s.replace(c, '')] for a one-character pattern. *)
Fixpoint remove_char (c : ascii) (s : string) : string :=
  match s with
  | EmptyString => EmptyString
  | String a s' =>
      if Ascii.eqb a c then remove_char c s' else String a (remove_char c s')
  end.

(** The characters of a string, each as a one-character string: what
    iterating over a [str] yields. *)
Definition chars (s : string) : list string :=
  map (fun a => String a EmptyString) (list_ascii_of_string s).

(** [s[::-1]]. *)
Definition reverse (s : string) : string :=
  string_of_list_ascii (rev (list_ascii_of_string s)).

(** [s[k:]]. *)
Definition drop (k : nat) (s : string) : string :=
  string_of_list_ascii (skipn k (list_ascii_of_string s)).

(** Truth value of a [str]: non-empty. *)
Definition truthy (s : string) : bool :=
  match s with EmptyString => false | _ => true end.

(** [str(n)] for a non-negative [int]. *)
Definition of_N (n : N) : string := NilZero.string_of_uint (N.to_uint n).

(** One hexadecimal digit, lower case, as ['%x'] prints it. *)
Definition hex_digit (d : N) : ascii :=
  match String.get (N.to_nat d) "0123456789abcdef" with
  | Some a => a
  | None => "0"%char
  end.

End PyStr.

(** ** [ipaddress]: addresses, their text forms *)

Module IpAddr.

(** [ipaddress.IPv4Address] and [ipaddress.IPv6Address]: the version and the
    integer [_ip] (32 or 128 bits). *)
Inductive ip_address : Type :=
| IPv4Address (_ip : N)
| IPv6Address (_ip : N).

Definition version (a : ip_address) : N :=
  match a with IPv4Address _ => 4 | IPv6Address _ => 6 end.

Definition eqb (a b : ip_address) : bool :=
  match a, b with
  | IPv4Address x, IPv4Address y => N.eqb x y
  | IPv6Address x, IPv6Address y => N.eqb x y
  | _, _ => false
  end.

(** The byte of [n] at position [k] counted from the least significant. *)
Definition byte_at (n : N) (k : N) : N := N.land (N.shiftr n (8 * k)) 255.

(** The four octets, most significant first ([_ip.to_bytes(4, 'big')]). *)
Definition octets (n : N) : list N :=
  [byte_at n 3; byte_at n 2; byte_at n 1; byte_at n 0].

(** The nibble of [n] at position [k] counted from the least significant. *)
Definition nibble_at (n : N) (k : N) : N := N.land (N.shiftr n (4 * k)) 15.

(** ['%032x' % _ip]: the 32 hexadecimal digits, most significant first. *)
Definition hex32 (n : N) : string :=
  string_of_list_ascii
    (map (fun k => PyStr.hex_digit (nibble_at n (N.of_nat (31 - k)))) (seq 0 32)).

(** [hex_str[x:x+4] for x in range(0, 32, 4)]. *)
Fixpoint groups4 (fuel : nat) (s : string) : list string :=
  match fuel with
  | O => []
  | S f => String.substring 0 4 s :: groups4 f (PyStr.drop 4 s)
  end.

(** [IPv6Address.exploded]. *)
Definition exploded6 (n : N) : string :=
  PyStr.join ":" (groups4 8 (hex32 n)).

(** [str(IPv4Address)]. *)
Definition str4 (n : N) : string :=
  PyStr.join "." (map PyStr.of_N (octets n)).

End IpAddr.

Module IpText.
Import IpAddr.

(** ['%x' % h] for a 16-bit group: no leading zeros, at least one digit. *)
Definition hex_short (h : N) : string :=
  let d k := PyStr.hex_digit (nibble_at h k) in
  if (h <? 16)%N then String (d 0%N) ""
  else if (h <? 256)%N then String (d 1%N) (String (d 0%N) "")
  else if (h <? 4096)%N then String (d 2%N) (String (d 1%N) (String (d 0%N) ""))
  else String (d 3%N) (String (d 2%N) (String (d 1%N) (String (d 0%N) ""))).

(** The eight 16-bit groups, most significant first. *)
Definition hextets (n : N) : list N :=
  map (fun k => N.land (N.shiftr n (16 * N.of_nat (7 - k))) 65535) (seq 0 8).

(** The loop of [_compress_hextets]: the state is
    [(best_start, best_len, start, len)], with [None] for the start [-1]. *)
Definition scan_state : Type := (option nat * nat * option nat * nat)%type.

Definition scan_step (st : scan_state) (index : nat) (hextet : string)
  : scan_state :=
  let '(best_start, best_len, start, len) := st in
  if String.eqb hextet "0" then
    let len := S len in
    let start := match start with None => Some index | Some _ => start end in
    if Nat.ltb best_len len then (start, len, start, len)
    else (best_start, best_len, start, len)
  else (best_start, best_len, None, O).

Fixpoint scan (st : scan_state) (index : nat) (hs : list string) : scan_state :=
  match hs with
  | [] => st
  | h :: hs' => scan (scan_step st index h) (S index) hs'
  end.

(** [IPv6Address._compress_hextets]. *)
Definition compress_hextets (hs : list string) : list string :=
  let '(best_start, best_len, _, _) := scan (None, O, None, O) O hs in
  match best_start with
  | Some b =>
      if Nat.ltb 1 best_len then
        let e := (b + best_len)%nat in
        let hs1 := if Nat.eqb e (List.length hs) then hs ++ [""] else hs in
        let hs2 := firstn b hs1 ++ [""] ++ skipn e hs1 in
        if Nat.eqb b 0 then "" :: hs2 else hs2
      else hs
  | None => hs
  end.

(** [str(IPv6Address)]. *)
Definition str6 (n : N) : string :=
  PyStr.join ":" (compress_hextets (map hex_short (hextets n))).

(** [str(ip)]. *)
Definition str (a : ip_address) : string :=
  match a with
  | IPv4Address n => str4 n
  | IPv6Address n => str6 n
  end.

(** [ip.exploded]: for an IPv4 address it is [str(ip)]. *)
Definition exploded (a : ip_address) : string :=
  match a with
  | IPv4Address n => str4 n
  | IPv6Address n => exploded6 n
  end.

End IpText.

(** ** [ipaddress]: parsing addresses and networks

    [ipaddress] is the standard library's module; the definitions follow its
    code as of CPython 3.9.5 to 3.12 (scoped IPv6 addresses, octets with a
    leading zero refused).  [AddressValueError] and [NetmaskValueError], both
    caught by [ip_network], are the result [None]. *)

Module IpNetwork.
Import IpAddr IpText.

(** ['c' in s]. *)
Fixpoint mem (c : ascii) (s : string) : bool :=
  match s with
  | EmptyString => false
  | String a s' => Ascii.eqb a c || mem c s'
  end.

Fixpoint all_chars (p : ascii -> bool) (s : string) : bool :=
  match s with
  | EmptyString => true
  | String a s' => p a && all_chars p s'
  end.

Definition is_digit (c : ascii) : bool :=
  let n := N_of_ascii c in ((48 <=? n) && (n <=? 57))%N.

(** [s.isascii() and s.isdigit()]: one decimal digit or more. *)
Definition isdigit (s : string) : bool :=
  PyStr.truthy s && all_chars is_digit s.

(** [int(s, 10)] on a string of decimal digits. *)
Definition int10 (s : string) : N :=
  fold_left (fun acc c => (acc * 10 + (N_of_ascii c - 48))%N)
    (list_ascii_of_string s) 0%N.

(** The value of a character of [_HEX_DIGITS]. *)
Definition hex_value (c : ascii) : option N :=
  let n := N_of_ascii c in
  if ((48 <=? n) && (n <=? 57))%N then Some (n - 48)%N
  else if ((97 <=? n) && (n <=? 102))%N then Some (n - 87)%N
  else if ((65 <=? n) && (n <=? 70))%N then Some (n - 55)%N
  else None.

Definition is_hex_digit (c : ascii) : bool :=
  match hex_value c with Some _ => true | None => false end.

(** [int(s, 16)] on a string of hexadecimal digits; the empty string is a
    [ValueError]. *)
Definition int16 (s : string) : option N :=
  if PyStr.truthy s then
    Some (fold_left
            (fun acc c =>
               (acc * 16 + match hex_value c with Some v => v | None => 0 end)%N)
            (list_ascii_of_string s) 0%N)
  else None.

(** All the results of [f] on [xs], or [None] at the first failure. *)
Fixpoint traverse {A B} (f : A -> option B) (xs : list A) : option (list B) :=
  match xs with
  | [] => Some []
  | x :: xs' =>
      match f x with
      | Some y =>
          match traverse f xs' with
          | Some ys => Some (y :: ys)
          | None => None
          end
      | None => None
      end
  end.

(** [IPv4Address._parse_octet]. *)
Definition _parse_octet (octet_str : string) : option N :=
  if negb (PyStr.truthy octet_str) then None
  else if negb (isdigit octet_str) then None
  else if Nat.ltb 3 (String.length octet_str) then None
  else if negb (String.eqb octet_str "0")
          && String.eqb (String.substring 0 1 octet_str) "0" then None
  else
    let octet_int := int10 octet_str in
    if (255 <? octet_int)%N then None else Some octet_int.

(** [int.from_bytes(bs, 'big')]. *)
Definition from_bytes (bs : list N) : N :=
  fold_left (fun acc b => (acc * 256 + b)%N) bs 0%N.

(** [IPv4Address._ip_int_from_string]. *)
Definition ip4_int_from_string (ip_str : string) : option N :=
  if negb (PyStr.truthy ip_str) then None
  else
    let octets := PyStr.split "." ip_str in
    if negb (Nat.eqb (List.length octets) 4) then None
    else
      match traverse _parse_octet octets with
      | Some bs => Some (from_bytes bs)
      | None => None
      end.

(** [IPv4Address(address)._ip] for a [str]. *)
Definition IPv4Address_of_string (addr_str : string) : option N :=
  if mem "/" addr_str then None else ip4_int_from_string addr_str.

(** [_IPv6Base._parse_hextet]. *)
Definition _parse_hextet (hextet_str : string) : option N :=
  if negb (all_chars is_hex_digit hextet_str) then None
  else if Nat.ltb 4 (String.length hextet_str) then None
  else int16 hextet_str.

(** The search for ['::'] in [_ip_int_from_string]: the one empty part that
    is not an end point, [None] when there are two. *)
Fixpoint find_skip (parts : list string) (indices : list nat)
    (skip_index : option nat) : option (option nat) :=
  match indices with
  | [] => Some skip_index
  | i :: rest =>
      if negb (PyStr.truthy (nth i parts "")) then
        match skip_index with
        | Some _ => None
        | None => find_skip parts rest (Some i)
        end
      else find_skip parts rest skip_index
  end.

(** [(parts_hi, parts_lo, parts_skipped)]: the number of parts to copy from
    before and from after the ['::'], and the number of groups it stands
    for. *)
Definition hextet_layout (parts : list string) : option (nat * nat * nat) :=
  let n := List.length parts in
  match find_skip parts (seq 1 (n - 2)) None with
  | None => None
  | Some (Some skip_index) =>
      let parts_hi := skip_index in
      let parts_lo := (n - skip_index - 1)%nat in
      let hi :=
        if negb (PyStr.truthy (nth 0 parts "")) then
          if Nat.eqb (parts_hi - 1) 0 then Some (parts_hi - 1)%nat else None
        else Some parts_hi in
      let lo :=
        if negb (PyStr.truthy (last parts "")) then
          if Nat.eqb (parts_lo - 1) 0 then Some (parts_lo - 1)%nat else None
        else Some parts_lo in
      match hi, lo with
      | Some parts_hi, Some parts_lo =>
          if Nat.leb 8 (parts_hi + parts_lo) then None
          else Some (parts_hi, parts_lo, (8 - (parts_hi + parts_lo))%nat)
      | _, _ => None
      end
  | Some None =>
      if negb (Nat.eqb n 8) then None
      else if negb (PyStr.truthy (nth 0 parts "")) then None
      else if negb (PyStr.truthy (last parts "")) then None
      else Some (n, O, O)
  end.

(** The two loops over the parts: [ip_int <<= 16; ip_int |= _parse_hextet(p)]. *)
Fixpoint parse_hextets (ip_int : N) (parts : list string) : option N :=
  match parts with
  | [] => Some ip_int
  | p :: rest =>
      match _parse_hextet p with
      | Some v => parse_hextets (N.lor (N.shiftl ip_int 16) v) rest
      | None => None
      end
  end.

(** The IPv4-style suffix of an IPv6 address, turned into two groups. *)
Definition ipv4_suffix (parts : list string) : option (list string) :=
  if mem "." (last parts "") then
    match IPv4Address_of_string (last parts "") with
    | Some ipv4_int =>
        Some (removelast parts
              ++ [hex_short (N.land (N.shiftr ipv4_int 16) 65535);
                  hex_short (N.land ipv4_int 65535)])
    | None => None
    end
  else Some parts.

(** [_IPv6Base._ip_int_from_string]. *)
Definition ip6_int_from_string (ip_str : string) : option N :=
  if negb (PyStr.truthy ip_str) then None
  else
    let parts := PyStr.split ":" ip_str in
    if Nat.ltb (List.length parts) 3 then None
    else
      match ipv4_suffix parts with
      | None => None
      | Some parts =>
          if Nat.ltb 9 (List.length parts) then None
          else
            match hextet_layout parts with
            | None => None
            | Some (parts_hi, parts_lo, parts_skipped) =>
                match parse_hextets 0 (firstn parts_hi parts) with
                | None => None
                | Some ip_int =>
                    parse_hextets
                      (N.shiftl ip_int (16 * N.of_nat parts_skipped))
                      (skipn (List.length parts - parts_lo) parts)
                end
            end
      end.

(** [IPv6Address._split_scope_id]: [ip_str.partition('%')]. *)
Definition _split_scope_id (ip_str : string) : option (string * option string) :=
  match PyStr.split1 "%" ip_str with
  | [addr; scope_id] =>
      if negb (PyStr.truthy scope_id) || mem "%" scope_id then None
      else Some (addr, Some scope_id)
  | _ => Some (ip_str, None)
  end.

(** [IPv6Address(address)] for a [str]: [(_ip, _scope_id)]. *)
Definition IPv6Address_of_string (addr_str : string)
  : option (N * option string) :=
  if mem "/" addr_str then None
  else
    match _split_scope_id addr_str with
    | None => None
    | Some (addr, scope_id) =>
        match ip6_int_from_string addr with
        | Some ip => Some (ip, scope_id)
        | None => None
        end
    end.

(** [_split_addr_prefix] on a [str]: the address and the text after the
    ['/'], if there is one. *)
Definition _split_addr_prefix (address : string)
  : option (string * option string) :=
  match PyStr.split "/" address with
  | [addr] => Some (addr, None)
  | [addr; mask] => Some (addr, Some mask)
  | _ => None
  end.

(** [_prefix_from_prefix_string]. *)
Definition _prefix_from_prefix_string (max_prefixlen : N) (prefixlen_str : string)
  : option N :=
  if negb (isdigit prefixlen_str) then None
  else
    let prefixlen := int10 prefixlen_str in
    if (prefixlen <=? max_prefixlen)%N then Some prefixlen else None.

(** [_count_righthand_zero_bits]. *)
Definition _count_righthand_zero_bits (number bits : N) : N :=
  if (number =? 0)%N then bits
  else N.min bits (N.size (N.ldiff (number - 1) number)).

(** [_prefix_from_ip_int]. *)
Definition _prefix_from_ip_int (max_prefixlen ip_int : N) : option N :=
  let trailing_zeroes := _count_righthand_zero_bits ip_int max_prefixlen in
  let prefixlen := (max_prefixlen - trailing_zeroes)%N in
  let leading_ones := N.shiftr ip_int trailing_zeroes in
  let all_ones := (N.shiftl 1 prefixlen - 1)%N in
  if (leading_ones =? all_ones)%N then Some prefixlen else None.

Definition ALL_ONES (max_prefixlen : N) : N := (2 ^ max_prefixlen - 1)%N.

(** [_prefix_from_ip_string]: a netmask or a hostmask in dotted form. *)
Definition _prefix_from_ip_string (ip_str : string) : option N :=
  match ip4_int_from_string ip_str with
  | None => None
  | Some ip_int =>
      match _prefix_from_ip_int 32 ip_int with
      | Some prefixlen => Some prefixlen
      | None => _prefix_from_ip_int 32 (N.lxor ip_int (ALL_ONES 32))
      end
  end.

(** [IPv4Network._make_netmask]: the prefix length. *)
Definition make_netmask4 (arg : option string) : option N :=
  match arg with
  | None => Some 32%N
  | Some arg =>
      match _prefix_from_prefix_string 32 arg with
      | Some prefixlen => Some prefixlen
      | None => _prefix_from_ip_string arg
      end
  end.

(** [IPv6Network._make_netmask]: the prefix length. *)
Definition make_netmask6 (arg : option string) : option N :=
  match arg with
  | None => Some 128%N
  | Some arg => _prefix_from_prefix_string 128 arg
  end.

(** [_ip_int_from_prefix]: the netmask of a prefix length. *)
Definition _ip_int_from_prefix (max_prefixlen prefixlen : N) : N :=
  N.lxor (ALL_ONES max_prefixlen) (N.shiftr (ALL_ONES max_prefixlen) prefixlen).

(** A network object: the network address, for IPv6 its scope, and the prefix
    length. *)
Inductive network : Type :=
| IPv4Network (network_address : N) (prefixlen : N)
| IPv6Network (network_address : N) (scope_id : option string) (prefixlen : N).

(** [IPv4Network(address, strict=False)]. *)
Definition IPv4Network_of_string (address : string) : option network :=
  match _split_addr_prefix address with
  | None => None
  | Some (addr, mask) =>
      match IPv4Address_of_string addr with
      | None => None
      | Some packed =>
          match make_netmask4 mask with
          | None => None
          | Some prefixlen =>
              let netmask := _ip_int_from_prefix 32 prefixlen in
              Some (IPv4Network (N.land packed netmask) prefixlen)
          end
      end
  end.

(** [IPv6Network(address, strict=False)]: an address with host bits set is
    replaced by a new one built from the masked integer, which has no
    scope. *)
Definition IPv6Network_of_string (address : string) : option network :=
  match _split_addr_prefix address with
  | None => None
  | Some (addr, mask) =>
      match IPv6Address_of_string addr with
      | None => None
      | Some (packed, scope_id) =>
          match make_netmask6 mask with
          | None => None
          | Some prefixlen =>
              let netmask := _ip_int_from_prefix 128 prefixlen in
              if negb (N.eqb (N.land packed netmask) packed) then
                Some (IPv6Network (N.land packed netmask) None prefixlen)
              else Some (IPv6Network packed scope_id prefixlen)
          end
      end
  end.

(** [ip_network(address, strict=False)]; [None] is the [ValueError]. *)
Definition ip_network (address : string) : option network :=
  match IPv4Network_of_string address with
  | Some n => Some n
  | None => IPv6Network_of_string address
  end.

(** [str(IPv6Address)] with its scope. *)
Definition str6_scoped (ip : N) (scope_id : option string) : string :=
  match scope_id with
  | Some s => if PyStr.truthy s then (str6 ip ++ "%" ++ s)%string else str6 ip
  | None => str6 ip
  end.

(** [str(network)]: ['%s/%d' % (network_address, prefixlen)]. *)
Definition str_network (n : network) : string :=
  match n with
  | IPv4Network a p => (str4 a ++ "/" ++ PyStr.of_N p)%string
  | IPv6Network a s p => (str6_scoped a s ++ "/" ++ PyStr.of_N p)%string
  end.

End IpNetwork.

(** ** The database and the effects of the ORM *)

(** A row of [dns.models.Domain] (a zone).

    Modelled from the spec: [dns/models.py] is not part of the sources under
    study; the record store is "a simple key-shaped record table" of zones and
    of records with a name, a type, a content and an authoritative flag. *)
Record Domain : Type := mkDomain {
  domain_id : N;
  domain_name : string
}.

(** A row of [dns.models.Record]. *)
Record Record_ : Type := mkRecord {
  record_id : N;
  record_domain : N;
  record_name : string;
  record_type : string;
  record_content : string;
  record_auth : bool
}.

(** A [Host] object: its primary key ([None] before the first save) and its
    name, the only field the synchronisation reads. *)
Record Host : Type := mkHost {
  host_pk : option N;
  host_name : string
}.

(** A row of the [Host] table. *)
Record HostRow : Type := mkHostRow {
  hostrow_pk : N;
  hostrow_name : string
}.

(** An [IPAddress] object.  [ip_host] is the [Host] object the instance
    holds, which may differ from the stored row of that host. *)
Record IPAddress : Type := mkIPAddress {
  ip_pk : option N;
  ip_host : Host;
  ip_interface : option string;
  ip_ip : IpAddr.ip_address;
  ip_auto_dns : option bool;
  ip_primary : bool
}.

(** A row of the [IPAddress] table: [host] is a foreign key. *)
Record IPAddressRow : Type := mkIPAddressRow {
  iprow_pk : N;
  iprow_host_id : N;
  iprow_interface : option string;
  iprow_ip : IpAddr.ip_address;
  iprow_auto_dns : option bool;
  iprow_primary : bool
}.

(** The tables, with the counters of the auto-increment keys. *)
Record Database : Type := mkDatabase {
  hosts : list HostRow;
  ipaddresses : list IPAddressRow;
  records : list Record_;
  domains : list Domain;
  next_host_pk : N;
  next_ip_pk : N;
  next_record_id : N
}.

(** The state of a run: the tables, and a log holding the record table as it
    stood after every statement that wrote to it (the log is not part of the
    database: a rollback does not erase it). *)
Record World : Type := mkWorld {
  db : Database;
  history : list (list Record_)
}.

(** The exceptions the models can meet. *)
Inductive Exception : Type :=
| DoesNotExist (model : string)
| MultipleObjectsReturned (model : string)
| IntegrityError (constraint : string)
| IndexError
| ValueError
| ValidationError (message : string).

Inductive Result (A : Type) : Type :=
| Ok (a : A)
| Raise (e : Exception).
Arguments Ok {A} a.
Arguments Raise {A} e.

(** A computation: from a state to a result and the state it leaves. *)
Definition M (A : Type) : Type := World -> Result A * World.

Definition ret {A} (a : A) : M A := fun w => (Ok a, w).

Definition bind {A B} (m : M A) (k : A -> M B) : M B :=
  fun w => match m w with
           | (Ok a, w') => k a w'
           | (Raise e, w') => (Raise e, w')
           end.

Definition raise {A} (e : Exception) : M A := fun w => (Raise e, w).

Notation "x <- c ;; k" := (bind c (fun x => k))
  (at level 61, c at next level, right associativity).
Notation "c ;;; k" := (bind c (fun _ => k))
  (at level 61, right associativity).

(** [try: body except DoesNotExist: handler]: only that exception of that
    model is caught, the state reached when it was raised is kept. *)
Definition try_except_DoesNotExist {A} (model : string) (body handler : M A)
  : M A :=
  fun w => match body w with
           | (Raise (DoesNotExist m), w') =>
               if String.eqb m model then handler w'
               else (Raise (DoesNotExist m), w')
           | r => r
           end.

(** Writing the record table: the new table is logged. *)
Definition set_records (rs : list Record_) : M unit :=
  fun w =>
    let d := db w in
    (Ok tt,
     mkWorld (mkDatabase (hosts d) (ipaddresses d) rs (domains d)
                (next_host_pk d) (next_ip_pk d) (next_record_id d))
       (history w ++ [rs])).

(** [transaction.atomic]: when the body raises, the tables are restored to
    what they were on entry and the exception goes on to the caller. *)
Definition atomic {A} (body : M A) : M A :=
  fun w => match body w with
           | (Raise e, w') =>
               (Raise e, mkWorld (db w) (history w' ++ [records (db w)]))
           | r => r
           end.

Definition get_db : M Database := fun w => (Ok (db w), w).

(** [for x in xs: body(x)]. *)
Fixpoint for_each {A} (xs : list A) (body : A -> M unit) : M unit :=
  match xs with
  | [] => ret tt
  | x :: xs' => body x ;;; for_each xs' body
  end.

(** [Model.objects.get(...)] over the rows the lookup selects. *)
Definition get_one {A} (model : string) (p : A -> bool) (rows : list A) : M A :=
  match filter p rows with
  | [] => raise (DoesNotExist model)
  | [x] => ret x
  | _ :: _ :: _ => raise (MultipleObjectsReturned model)
  end.

(** Truth value of a primary key ([if self.pk:]): [None] and [0] are false. *)
Definition truthy_pk (pk : option N) : bool :=
  match pk with
  | Some k => negb (N.eqb k 0)
  | None => false
  end.

(** Truth value of the nullable boolean [auto_dns]. *)
Definition truthy_flag (b : option bool) : bool :=
  match b with Some true => true | _ => false end.

(** Truth value of the nullable text [interface]. *)
Definition truthy_text (s : option string) : bool :=
  match s with Some t => PyStr.truthy t | None => false end.

(** [x == y] under the database's case-insensitive match ([__iexact]). *)
Definition iexact (x y : string) : bool :=
  String.eqb (PyStr.lower x) (PyStr.lower y).

(** *** The record store *)

Definition Domain_objects_get (name : string) : M Domain :=
  d <- get_db ;;
  get_one "Domain" (fun z => String.eqb (domain_name z) name) (domains d).

(** [Record.objects.filter(...).delete()]. *)
Definition Record_objects_filter_delete (p : Record_ -> bool) : M unit :=
  d <- get_db ;;
  set_records (filter (fun r => negb (p r)) (records d)).

(** The INSERT of a record: the row takes the next key. *)
Definition Record_objects_create (mk : N -> Record_) : M Record_ :=
  fun w =>
    let d := db w in
    let r := mk (next_record_id d) in
    let rs := records d ++ [r] in
    (Ok r,
     mkWorld (mkDatabase (hosts d) (ipaddresses d) rs (domains d)
                (next_host_pk d) (next_ip_pk d) (N.succ (next_record_id d)))
       (history w ++ [rs])).

(** [Record.objects.get_or_create]: [p] is the
    lookup, [mk] builds the row from the lookup and the defaults. *)
Definition Record_objects_get_or_create (p : Record_ -> bool)
    (mk : N -> Record_) : M (Record_ * bool) :=
  d <- get_db ;;
  match filter p (records d) with
  | [] => r <- Record_objects_create mk ;; ret (r, true)
  | [r] => ret (r, false)
  | _ :: _ :: _ => raise (MultipleObjectsReturned "Record")
  end.

(** [record.save()] of a record that has a key: the UPDATE of its row, or
    its INSERT under that key when no row has it. *)
Definition Record_save (r : Record_) : M unit :=
  d <- get_db ;;
  let same x := N.eqb (record_id x) (record_id r) in
  if existsb same (records d)
  then set_records (map (fun x => if same x then r else x) (records d))
  else set_records (records d ++ [r]).

Definition set_content (r : Record_) (c : string) : Record_ :=
  mkRecord (record_id r) (record_domain r) (record_name r) (record_type r)
    c (record_auth r).

(** *** The host and address tables *)

Definition Host_objects_get (pk : N) : M HostRow :=
  d <- get_db ;;
  get_one "Host" (fun h => N.eqb (hostrow_pk h) pk) (hosts d).

Definition set_hosts (hs : list HostRow) (next : N) : M unit :=
  fun w =>
    let d := db w in
    (Ok tt,
     mkWorld (mkDatabase hs (ipaddresses d) (records d) (domains d)
                next (next_ip_pk d) (next_record_id d))
       (history w)).

Definition set_ipaddresses (rows : list IPAddressRow) (next : N) : M unit :=
  fun w =>
    let d := db w in
    (Ok tt,
     mkWorld (mkDatabase (hosts d) rows (records d) (domains d)
                (next_host_pk d) next (next_record_id d))
       (history w)).

(** An [IPAddress] object read from its row; its [host] is read from the
    host table through the foreign key. *)
Definition load_ipaddress (row : IPAddressRow) : M IPAddress :=
  h <- Host_objects_get (iprow_host_id row) ;;
  ret (mkIPAddress (Some (iprow_pk row))
         (mkHost (Some (hostrow_pk h)) (hostrow_name h))
         (iprow_interface row) (iprow_ip row) (iprow_auto_dns row)
         (iprow_primary row)).

Definition IPAddress_objects_get (pk : N) : M IPAddress :=
  d <- get_db ;;
  row <- get_one "IPAddress" (fun r => N.eqb (iprow_pk r) pk) (ipaddresses d) ;;
  load_ipaddress row.

(** ** The models of [portal/models.py] *)

(** Order of the addresses ([Meta.ordering = ['ip']]): IPv4 before IPv6,
    then by value. *)
Definition ip_leb (a b : IpAddr.ip_address) : bool :=
  match a, b with
  | IpAddr.IPv4Address x, IpAddr.IPv4Address y => N.leb x y
  | IpAddr.IPv6Address x, IpAddr.IPv6Address y => N.leb x y
  | IpAddr.IPv4Address _, IpAddr.IPv6Address _ => true
  | IpAddr.IPv6Address _, IpAddr.IPv4Address _ => false
  end.

Fixpoint insert_by_ip (r : IPAddressRow) (rows : list IPAddressRow)
  : list IPAddressRow :=
  match rows with
  | [] => [r]
  | x :: rows' =>
      if ip_leb (iprow_ip r) (iprow_ip x) then r :: rows
      else x :: insert_by_ip r rows'
  end.

Definition order_by_ip (rows : list IPAddressRow) : list IPAddressRow :=
  fold_right insert_by_ip [] rows.

Fixpoint insert_by_pk (r : IPAddressRow) (rows : list IPAddressRow)
  : list IPAddressRow :=
  match rows with
  | [] => [r]
  | x :: rows' =>
      if N.leb (iprow_pk r) (iprow_pk x) then r :: rows
      else x :: insert_by_pk r rows'
  end.

(** The deletion collector sorts the objects of a model by key. *)
Definition order_by_pk (rows : list IPAddressRow) : list IPAddressRow :=
  fold_right insert_by_pk [] rows.

Definition with_pk (self : IPAddress) (pk : option N) : IPAddress :=
  mkIPAddress pk (ip_host self) (ip_interface self) (ip_ip self)
    (ip_auto_dns self) (ip_primary self).

Section Models.

(** [config.settings.ROOT_DOMAIN]. *)
Variable ROOT_DOMAIN : string.

(** [Host.fqdn]. *)
Definition Host_fqdn (self : Host) : string :=
  (host_name self ++ "." ++ ROOT_DOMAIN)%string.

(** [IPAddress.fqdn]. *)
Definition IPAddress_fqdn (self : IPAddress) : string :=
  match ip_interface self with
  | Some i =>
      if PyStr.truthy i
      then (i ++ "." ++ host_name (ip_host self) ++ "." ++ ROOT_DOMAIN)%string
      else (host_name (ip_host self) ++ "." ++ ROOT_DOMAIN)%string
  | None => (host_name (ip_host self) ++ "." ++ ROOT_DOMAIN)%string
  end.

(** [IPAddress._generate_ptr]. *)
Definition IPAddress__generate_ptr (self : IPAddress) (domain : bool) : string :=
  match ip_ip self with
  | IpAddr.IPv6Address _ =>
      let rev := PyStr.reverse
                   (PyStr.remove_char ":" (IpText.exploded (ip_ip self))) in
      (PyStr.join "." (PyStr.chars (if domain then PyStr.drop 20 rev else rev))
       ++ ".ip6.arpa")%string
  | IpAddr.IPv4Address _ =>
      let rev := List.rev (PyStr.split "." (IpText.str (ip_ip self))) in
      (PyStr.join "." (if domain then skipn 1 rev else rev)
       ++ ".in-addr.arpa")%string
  end.

(** The three lookups of [_remove_dns], for the stored assignment [orig]. *)
Definition forward_lookup (orig : IPAddress) (r : Record_) : bool :=
  iexact (record_name r) (IPAddress_fqdn orig)
  && (String.eqb (record_type r) "A" || String.eqb (record_type r) "AAAA")
  && String.eqb (record_content r) (IpText.str (ip_ip orig)).

Definition cname_lookup (orig : IPAddress) (r : Record_) : bool :=
  iexact (record_name r) (Host_fqdn (ip_host orig))
  && String.eqb (record_type r) "CNAME"
  && iexact (record_content r) (IPAddress_fqdn orig).

Definition ptr_lookup (orig : IPAddress) (r : Record_) : bool :=
  String.eqb (record_name r) (IPAddress__generate_ptr orig false)
  && String.eqb (record_type r) "PTR"
  && iexact (record_content r) (IPAddress_fqdn orig).

(** [IPAddress._remove_dns]. *)
Definition IPAddress__remove_dns (self : IPAddress) : M unit :=
  match ip_pk self with
  | Some pk =>
      orig <- IPAddress_objects_get pk ;;
      Record_objects_filter_delete (forward_lookup orig) ;;;
      (if ip_primary orig
       then Record_objects_filter_delete (cname_lookup orig)
       else ret tt) ;;;
      Record_objects_filter_delete (ptr_lookup orig)
  | None => ret tt
  end.

(** The zone the PTR record goes to: the zone of the boundary name, else the
    zone of that name without its first label, else none. *)
Definition find_ptr_zone (self : IPAddress) : M (option Domain) :=
  let zone := IPAddress__generate_ptr self true in
  try_except_DoesNotExist "Domain"
    (d <- Domain_objects_get zone ;; ret (Some d))
    (match PyStr.split1 "." zone with
     | _ :: zone' :: _ =>
         try_except_DoesNotExist "Domain"
           (d <- Domain_objects_get zone' ;; ret (Some d))
           (ret None)
     | _ => raise IndexError
     end).

(** [IPAddress._add_dns]. *)
Definition IPAddress__add_dns (self : IPAddress) : M unit :=
  (if truthy_pk (ip_pk self) then
     match ip_pk self with
     | Some pk =>
         orig <- IPAddress_objects_get pk ;;
         if negb (String.eqb (PyStr.lower (IPAddress_fqdn orig))
                    (PyStr.lower (IPAddress_fqdn self)))
         then IPAddress__remove_dns self
         else ret tt
     | None => ret tt
     end
   else ret tt) ;;;
  let ip_obj := ip_ip self in
  root <- Domain_objects_get ROOT_DOMAIN ;;
  let name := PyStr.lower (IPAddress_fqdn self) in
  let type := if N.eqb (IpAddr.version ip_obj) 6 then "AAAA" else "A" in
  let content := IpText.str (ip_ip self) in
  new_a <- Record_objects_get_or_create
             (fun r => N.eqb (record_domain r) (domain_id root)
                       && String.eqb (record_name r) name
                       && String.eqb (record_type r) type
                       && String.eqb (record_content r) content)
             (fun id => mkRecord id (domain_id root) name type content true) ;;
  Record_save (fst new_a) ;;;
  domain <- find_ptr_zone self ;;
  match domain with
  | Some domain =>
      let name := IPAddress__generate_ptr self false in
      new_ptr <- Record_objects_get_or_create
                   (fun r => N.eqb (record_domain r) (domain_id domain)
                             && String.eqb (record_name r) name
                             && String.eqb (record_type r) "PTR")
                   (fun id => mkRecord id (domain_id domain) name "PTR"
                                (PyStr.lower (IPAddress_fqdn self)) true) ;;
      let '(new_ptr, created) := new_ptr in
      Record_save (if created then new_ptr
                   else set_content new_ptr (PyStr.lower (IPAddress_fqdn self)))
  | None => ret tt
  end ;;;
  if ip_primary self && truthy_text (ip_interface self) then
    root <- Domain_objects_get ROOT_DOMAIN ;;
    let name := PyStr.lower (Host_fqdn (ip_host self)) in
    new_cname <- Record_objects_get_or_create
                   (fun r => N.eqb (record_domain r) (domain_id root)
                             && String.eqb (record_name r) name
                             && String.eqb (record_type r) "CNAME")
                   (fun id => mkRecord id (domain_id root) name "CNAME"
                                (PyStr.lower (IPAddress_fqdn self)) true) ;;
    let '(new_cname, created) := new_cname in
    Record_save (if created then new_cname
                 else set_content new_cname (PyStr.lower (IPAddress_fqdn self)))
  else ret tt.

(** [remote_dns_hook], the receiver of [pre_delete] for [IPAddress]. *)
Definition remote_dns_hook (instance : IPAddress) : M unit :=
  if truthy_flag (ip_auto_dns instance)
  then IPAddress__remove_dns instance
  else ret tt.

(** The DELETE of the row of an address. *)
Definition delete_ipaddress_row (pk : N) : M unit :=
  d <- get_db ;;
  set_ipaddresses
    (filter (fun r => negb (N.eqb (iprow_pk r) pk)) (ipaddresses d))
    (next_ip_pk d).

(** [Model.delete] on an [IPAddress]: inside one transaction the
    [pre_delete] signal is sent, then the row is deleted; the object comes
    back with its key cleared. *)
Definition IPAddress_delete (self : IPAddress) : M IPAddress :=
  match ip_pk self with
  | None => raise ValueError
  | Some pk =>
      atomic (remote_dns_hook self ;;; delete_ipaddress_row pk) ;;;
      ret (with_pk self None)
  end.

Definition row_of (self : IPAddress) (pk host_id : N) : IPAddressRow :=
  mkIPAddressRow pk host_id (ip_interface self) (ip_ip self)
    (ip_auto_dns self) (ip_primary self).

(** [Model.save] on an [IPAddress] (the call to [super().save]): the host
    must be saved and stored, the address must be that of no other row; a
    set key updates its row or inserts under that key, no key inserts under
    the next one. *)
Definition IPAddress_super_save (self : IPAddress) : M IPAddress :=
  d <- get_db ;;
  match host_pk (ip_host self) with
  | None => raise ValueError
  | Some host_id =>
      let others pk :=
        filter (fun r => negb (N.eqb (iprow_pk r) pk)) (ipaddresses d) in
      let pk := match ip_pk self with Some k => k | None => next_ip_pk d end in
      if existsb (fun r => IpAddr.eqb (iprow_ip r) (ip_ip self)) (others pk)
      then raise (IntegrityError "ip")
      else if negb (existsb (fun h => N.eqb (hostrow_pk h) host_id) (hosts d))
      then raise (IntegrityError "host_id")
      else
        let row := row_of self pk host_id in
        match ip_pk self with
        | Some _ =>
            (if existsb (fun r => N.eqb (iprow_pk r) pk) (ipaddresses d)
             then set_ipaddresses
                    (map (fun r => if N.eqb (iprow_pk r) pk then row else r)
                       (ipaddresses d))
                    (next_ip_pk d)
             else set_ipaddresses (ipaddresses d ++ [row]) (next_ip_pk d)) ;;;
            ret self
        | None =>
            set_ipaddresses (ipaddresses d ++ [row]) (N.succ (next_ip_pk d)) ;;;
            ret (with_pk self (Some pk))
        end
  end.

(** [IPAddress.save], under [transaction.atomic]. *)
Definition IPAddress_save (self : IPAddress) : M IPAddress :=
  atomic
    (self <- (if truthy_pk (ip_pk self)
              then self <- IPAddress_delete self ;; ret (with_pk self None)
              else ret self) ;;
     (if truthy_flag (ip_auto_dns self)
      then IPAddress__add_dns self
      else ret tt) ;;;
     IPAddress_super_save self).

(** [self.ipaddresses.all()]: the rows of the host in the order of the
    model, each object holding [self] as its [host]. *)
Definition Host_ipaddresses_all (self : Host) : M (list IPAddress) :=
  d <- get_db ;;
  match host_pk self with
  | None => raise ValueError
  | Some pk =>
      ret (map (fun r => mkIPAddress (Some (iprow_pk r)) self
                           (iprow_interface r) (iprow_ip r)
                           (iprow_auto_dns r) (iprow_primary r))
             (order_by_ip
                (filter (fun r => N.eqb (iprow_host_id r) pk) (ipaddresses d))))
  end.

(** [Model.save] on a [Host] (the call to [super().save]): the name is
    unique. *)
Definition Host_super_save (self : Host) : M Host :=
  d <- get_db ;;
  let pk := match host_pk self with Some k => k | None => next_host_pk d end in
  if existsb (fun h => negb (N.eqb (hostrow_pk h) pk)
                       && String.eqb (hostrow_name h) (host_name self))
       (hosts d)
  then raise (IntegrityError "name")
  else
    let row := mkHostRow pk (host_name self) in
    match host_pk self with
    | Some _ =>
        (if existsb (fun h => N.eqb (hostrow_pk h) pk) (hosts d)
         then set_hosts
                (map (fun h => if N.eqb (hostrow_pk h) pk then row else h)
                   (hosts d))
                (next_host_pk d)
         else set_hosts (hosts d ++ [row]) (next_host_pk d)) ;;;
        ret self
    | None =>
        set_hosts (hosts d ++ [row]) (N.succ (next_host_pk d)) ;;;
        ret (mkHost (Some pk) (host_name self))
    end.

(** Whether [Host.save] sees a change of name. *)
Definition name_changed (orig_name : option string) (self : Host) : bool :=
  match orig_name with
  | Some n => PyStr.truthy n && negb (String.eqb n (host_name self))
  | None => false
  end.

(** The first loop of [Host.save]. *)
Definition Host_save_remove (self : Host) : M unit :=
  ips <- Host_ipaddresses_all self ;;
  for_each ips (fun ipaddress =>
    if truthy_flag (ip_auto_dns ipaddress)
    then IPAddress__remove_dns ipaddress
    else ret tt).

(** The second loop of [Host.save]. *)
Definition Host_save_resave (self : Host) : M unit :=
  ips <- Host_ipaddresses_all self ;;
  for_each ips (fun ipaddress => IPAddress_save ipaddress ;;; ret tt).

(** [Host.save]. *)
Definition Host_save (self : Host) : M Host :=
  orig_name <- match host_pk self with
               | Some pk =>
                   orig <- Host_objects_get pk ;;
                   let orig_name := Some (hostrow_name orig) in
                   (if name_changed orig_name self
                    then Host_save_remove self
                    else ret tt) ;;;
                   ret orig_name
               | None => ret None
               end ;;
  self' <- Host_super_save self ;;
  (if name_changed orig_name self
   then Host_save_resave self'
   else ret tt) ;;;
  ret self'.

(** [Model.delete] on a [Host]: the foreign key of [IPAddress] cascades.  The
    collector reads the addresses of the host from their rows; inside one
    transaction it sends [pre_delete] for each of them, then deletes their
    rows and the row of the host. *)
Definition Host_delete (self : Host) : M Host :=
  match host_pk self with
  | None => raise ValueError
  | Some pk =>
      atomic
        (d <- get_db ;;
         let rows := order_by_pk
                       (filter (fun r => N.eqb (iprow_host_id r) pk)
                          (ipaddresses d)) in
         for_each rows (fun r =>
           instance <- load_ipaddress r ;; remote_dns_hook instance) ;;;
         for_each rows (fun r => delete_ipaddress_row (iprow_pk r)) ;;;
         d <- get_db ;;
         set_hosts (filter (fun h => negb (N.eqb (hostrow_pk h) pk)) (hosts d))
           (next_host_pk d)) ;;;
      ret (mkHost None (host_name self))
  end.

End Models.

(** ** Regular expressions and the validators

    The part of Python's [re] the two validators use, with no flag set.  A
    position in the subject is the characters before it, nearest first, and
    the characters after it; [ends r p] lists the positions where a match of
    [r] that starts at [p] can end. *)

Module Re.

Inductive regex : Type :=
| Chr (c : ascii)                               (* a literal character *)
| Any                                           (* [.] *)
| Cls (ranges : list (ascii * ascii))           (* [[a-z...]] *)
| Bol                                           (* [^] *)
| Eol                                           (* [$] *)
| Seq (r1 r2 : regex)
| Rep (r : regex) (min : nat) (max : option nat) (* [{m,n}], [*], [+] *)
| Ahead (r : regex)                             (* [(?=...)] *)
| NotAhead (r : regex)                          (* [(?!...)] *)
| NotBehind (c : ascii).                        (* [(?<!c)] *)

Definition position : Type := (list ascii * list ascii)%type.

Definition newline : ascii := "010"%char.

Definition in_range (a : ascii) (range : ascii * ascii) : bool :=
  ((N_of_ascii (fst range) <=? N_of_ascii a)
   && (N_of_ascii a <=? N_of_ascii (snd range)))%N.

(** One character, if it passes the test. *)
Definition take (test : ascii -> bool) (p : position) : list position :=
  match p with
  | (before, a :: after) => if test a then [(a :: before, after)] else []
  | (_, []) => []
  end.

(** Exactly [n] matches in a row. *)
Fixpoint times (step : position -> list position) (n : nat) (p : position)
  : list position :=
  match n with
  | O => [p]
  | S n' => flat_map (times step n') (step p)
  end.

(** From none to [n] matches in a row. *)
Fixpoint up_to (step : position -> list position) (n : nat) (p : position)
  : list position :=
  p :: match n with
       | O => []
       | S n' => flat_map (up_to step n') (step p)
       end.

(** [$]: the end of the subject, or just before a newline that ends it. *)
Definition at_end (p : position) : bool :=
  match snd p with
  | [] => true
  | [a] => Ascii.eqb a newline
  | _ => false
  end.

Definition found (l : list position) : bool :=
  match l with [] => false | _ => true end.

(** A repetition without a maximum goes on as long as the subject has
    characters left. *)
Fixpoint ends (r : regex) (p : position) : list position :=
  match r with
  | Chr c => take (Ascii.eqb c) p
  | Any => take (fun a => negb (Ascii.eqb a newline)) p
  | Cls ranges => take (fun a => existsb (in_range a) ranges) p
  | Bol => match fst p with [] => [p] | _ => [] end
  | Eol => if at_end p then [p] else []
  | Seq r1 r2 => flat_map (ends r2) (ends r1 p)
  | Rep r min max =>
      let more := match max with
                  | Some n => (n - min)%nat
                  | None => List.length (snd p)
                  end in
      flat_map (up_to (ends r) more) (times (ends r) min p)
  | Ahead r => if found (ends r p) then [p] else []
  | NotAhead r => if found (ends r p) then [] else [p]
  | NotBehind c =>
      match fst p with
      | a :: _ => if Ascii.eqb a c then [] else [p]
      | [] => [p]
      end
  end.

(** The positions of a subject, from its start to its end. *)
Fixpoint positions (before after : list ascii) : list position :=
  (before, after) ::
  match after with
  | [] => []
  | a :: after' => positions (a :: before) after'
  end.

(** [regex.search(subject)], as a truth value. *)
Definition search (r : regex) (subject : string) : bool :=
  existsb (fun p => found (ends r p)) (positions [] (list_ascii_of_string subject)).

Fixpoint seq_of (rs : list regex) : regex :=
  match rs with
  | [] => Rep Any 0 (Some 0)
  | [r] => r
  | r :: rs' => Seq r (seq_of rs')
  end.

End Re.

(** [RegexValidator(regex, message)] called on a value. *)
Definition RegexValidator (regex : Re.regex) (message : string) (value : string)
  : Result unit :=
  if Re.search regex value then Ok tt else Raise (ValidationError message).

(** [[a-zA-Z0-9-]] and [[0-9]]. *)
Definition name_chars : Re.regex :=
  Re.Cls [("a", "z"); ("A", "Z"); ("0", "9"); ("-", "-")]%char.
Definition digits : Re.regex := Re.Cls [("0", "9")]%char.

(** [^(?=^.{1,253}$)(^((?!-)[a-zA-Z0-9-]{1,63}(?<!-)\.)*[a-zA-Z0-9-]{1,63}$)$] *)
Definition domain_regex : Re.regex :=
  Re.seq_of
    [Re.Bol;
     Re.Ahead (Re.seq_of [Re.Bol; Re.Rep Re.Any 1 (Some 253); Re.Eol]);
     Re.seq_of
       [Re.Bol;
        Re.Rep (Re.seq_of [Re.NotAhead (Re.Chr "-"); Re.Rep name_chars 1 (Some 63);
                           Re.NotBehind "-"; Re.Chr "."])
          0 None;
        Re.Rep name_chars 1 (Some 63);
        Re.Eol];
     Re.Eol].

Definition domain_validator : string -> Result unit :=
  RegexValidator domain_regex "Enter a valid hostname.".

(** [^(?![0-9]+$)(?!-)[a-zA-Z0-9-]{,63}(?<!-)$] *)
Definition hostname_regex : Re.regex :=
  Re.seq_of
    [Re.Bol;
     Re.NotAhead (Re.seq_of [Re.Rep digits 1 None; Re.Eol]);
     Re.NotAhead (Re.Chr "-");
     Re.Rep name_chars 0 (Some 63);
     Re.NotBehind "-";
     Re.Eol].

Definition hostname_validator : string -> Result unit :=
  RegexValidator hostname_regex
    "Only lowercase letters and numbers are allowed.".

(** ** [Subnet] *)

(** A [Subnet] object: the owner, the network as the text [str(self.network)]
    and the notes. *)
Record Subnet : Type := mkSubnet {
  subnet_owner : option N;
  subnet_network : string;
  subnet_notes : string
}.

(** [Subnet.clean]: it returns the object with its network rewritten; a
    [ValueError] of [ip_network] becomes a [ValidationError].  The message
    of the [ValueError], which the source appends in parentheses, is left
    out. *)
Definition Subnet_clean (self : Subnet) : Result Subnet :=
  match IpNetwork.ip_network (subnet_network self) with
  | Some network_obj =>
      Ok (mkSubnet (subnet_owner self) (IpNetwork.str_network network_obj)
            (subnet_notes self))
  | None => Raise (ValidationError "Invalid network format.")
  end.

(** Whitespace for [str.split()]: the characters [str.isspace] accepts,
    among the code points below 256 (a character of a text is taken as its
    code point). *)
Definition is_space (c : ascii) : bool :=
  let n := N_of_ascii c in
  (((9 <=? n) && (n <=? 13)) || ((28 <=? n) && (n <=? 32))
   || (n =? 133) || (n =? 160))%N.

(** [s.split()], the scan from the left: [word] is the word read so far. *)
Fixpoint split_whitespace (word s : string) : list string :=
  match s with
  | EmptyString => if PyStr.truthy word then [word] else []
  | String a s' =>
      if is_space a
      then (if PyStr.truthy word then word :: split_whitespace "" s'
            else split_whitespace "" s')
      else split_whitespace (word ++ String a "") s'
  end.

(** [Subnet.notes_short]: [self.notes and self.notes.split()[0]]. *)
Definition Subnet_notes_short (self : Subnet) : Result string :=
  if PyStr.truthy (subnet_notes self) then
    match split_whitespace "" (subnet_notes self) with
    | first :: _ => Ok first
    | [] => Raise IndexError
    end
  else Ok (subnet_notes self).

(** [l.index(x)] on a list of addresses: the first position whose element
    equals [x]; [None] is the [ValueError]. *)
Fixpoint list_index (x : IpAddr.ip_address) (l : list IpAddr.ip_address)
  : option nat :=
  match l with
  | [] => None
  | y :: l' =>
      if IpAddr.eqb y x then Some O
      else match list_index x l' with
           | Some i => Some (S i)
           | None => None
           end
  end.

(** [l[i] = v] for a position of the list. *)
Fixpoint list_set {A} (i : nat) (v : A) (l : list A) : list A :=
  match l, i with
  | [], _ => []
  | _ :: l', O => v :: l'
  | y :: l', S i' => y :: list_set i' v l'
  end.

(** [Subnet._hosts_html], up to the rendering of the template: the value of
    ['addresses'] in the context handed to [render_to_string], and [None]
    when nothing is rendered.

    Modelled from the spec for what [portal/network.py], which is not part
    of the sources under study, provides: [version] is
    [self.network.version], [iterhosts] the addresses
    [self.network.iterhosts()] yields ("every host address in the network"),
    of the type of the address of an assignment, and [hosts_in_use] the
    assignments [self._hosts_in_use()] returns. *)
Definition Subnet__hosts_html (version : N) (iterhosts : list IpAddr.ip_address)
    (hosts_in_use : list IPAddress)
  : option (list (IpAddr.ip_address * option IPAddress)) :=
  if N.eqb version 4 then
    let addresses := iterhosts in
    let in_use :=
      fold_left
        (fun in_use host =>
           match list_index (ip_ip host) addresses with
           | Some i => list_set i (Some host) in_use
           | None => in_use
           end)
        hosts_in_use (repeat None (List.length addresses)) in
    Some (combine addresses in_use)
  else None.

(** ** Sample data

    A small installation with root domain [example.com], the reverse zone
    [0.0.10.in-addr.arpa] and one host [foo]; the samples below are used to
    run the models. *)

Module Sample.
Open Scope N_scope.

Definition root : string := "example.com".

Definition zones : list Domain :=
  [mkDomain 1 "example.com"; mkDomain 2 "0.0.10.in-addr.arpa"].

Definition foo : Host := mkHost (Some 1) "foo".

(** The address 10.0.0.5. *)
Definition ten_5 : IpAddr.ip_address := IpAddr.IPv4Address 167772165.

(** Nothing assigned yet. *)
Definition w_empty : World :=
  mkWorld (mkDatabase [mkHostRow 1 "foo"] [] [] zones 2 1 1) [].

(** The assignment of 10.0.0.5 to [foo], not saved yet. *)
Definition new_5 : IPAddress :=
  mkIPAddress None foo None ten_5 (Some true) false.

(** The same assignment once stored under key 1. *)
Definition stored_5 : IPAddress :=
  mkIPAddress (Some 1) foo None ten_5 (Some true) false.

Definition a_foo : Record_ :=
  mkRecord 1 1 "foo.example.com" "A" "10.0.0.5" true.

Definition ptr_foo : Record_ :=
  mkRecord 2 2 "5.0.0.10.in-addr.arpa" "PTR" "foo.example.com" true.

(** The tables after [new_5] was saved. *)
Definition db_5 (rs : list Record_) (next : N) : Database :=
  mkDatabase [mkHostRow 1 "foo"]
    [mkIPAddressRow 1 1 None ten_5 (Some true) false] rs zones 2 2 next.

Definition w_5 : World := mkWorld (db_5 [a_foo; ptr_foo] 3) [].

(** As [w_5], with two more records that share a name with those of the
    assignment: an A record of another address at [foo.example.com], and a
    PTR record whose name is the reverse name in upper case. *)
Definition a_other : Record_ :=
  mkRecord 3 1 "foo.example.com" "A" "192.0.2.1" true.

Definition ptr_upper : Record_ :=
  mkRecord 4 2 "5.0.0.10.IN-ADDR.ARPA" "PTR" "foo.example.com" true.

Definition w_5_more : World :=
  mkWorld (db_5 [a_foo; ptr_foo; a_other; ptr_upper] 5) [].

(** A second assignment of 10.0.0.5, on interface [eth0] of [foo]: the
    address is taken. *)
Definition duplicate_5 : IPAddress :=
  mkIPAddress None foo (Some "eth0") ten_5 (Some true) false.

(** An assignment whose key is that of no row. *)
Definition missing_9 : IPAddress :=
  mkIPAddress (Some 9%N) foo None ten_5 (Some true) false.

(** As [w_empty], without a reverse zone. *)
Definition w_no_reverse : World :=
  mkWorld (mkDatabase [mkHostRow 1 "foo"] [] [] [mkDomain 1 "example.com"] 2 1 1)
    [].

(** As [w_empty], with the reverse zone of 10.0.0.0/16 in place of that of
    10.0.0.0/24. *)
Definition w_slash16 : World :=
  mkWorld
    (mkDatabase [mkHostRow 1 "foo"] [] []
       [mkDomain 1 "example.com"; mkDomain 2 "0.10.in-addr.arpa"] 2 1 1)
    [].

(** The stored assignment of 10.0.0.5, edited to be on interface [eth0]. *)
Definition moved_5 : IPAddress :=
  mkIPAddress (Some 1) foo (Some "eth0") ten_5 (Some true) false.

(** The host [foo], renamed to [bar] and not saved yet. *)
Definition bar : Host := mkHost (Some 1) "bar".

(** As [w_5], with one more A record at [foo.example.com], of an address
    that is not assigned. *)
Definition w_5_stray : World := mkWorld (db_5 [a_foo; ptr_foo; a_other] 4) [].

(** The stored rows of [w_5]. *)
Definition row_5 : IPAddressRow := mkIPAddressRow 1 1 None ten_5 (Some true) false.
Definition foo_row : HostRow := mkHostRow 1 "foo".
Definition bar_row : HostRow := mkHostRow 1 "bar".

(** A subnet entered with host bits set, and its cleaned form. *)
Definition slop_22 : Subnet := mkSubnet None "10.0.1.0/22" "".
Definition net_22 : Subnet := mkSubnet None "10.0.0.0/22" "".

(** An IPv6 subnet with a scope and one with an IPv4-style suffix. *)
Definition scoped_64 : Subnet := mkSubnet None "FE80::%eth0/64" "".
Definition mapped_96 : Subnet := mkSubnet None "::ffff:10.0.1.0/112" "".

(** The assignment of [w_5] with [auto_dns] switched off and an interface
    set. *)
Definition quiet_5 : IPAddress :=
  mkIPAddress (Some 1) foo (Some "eth0") ten_5 (Some false) false.

(** A new assignment of the address of [w_5], with [auto_dns] off. *)
Definition quiet_dup_5 : IPAddress :=
  mkIPAddress None foo (Some "eth1") ten_5 (Some false) false.

(** One host and no zone at all. *)
Definition w_no_zone : World :=
  mkWorld (mkDatabase [mkHostRow 1 "foo"] [] [] [] 2 1 1) [].

(** As [missing_9], with [auto_dns] off. *)
Definition quiet_9 : IPAddress :=
  mkIPAddress (Some 9) foo None ten_5 (Some false) false.

(** A new primary assignment of 10.0.0.5 to [foo] on the interface
    [eth0]. *)
Definition new_eth0 : IPAddress :=
  mkIPAddress None foo (Some "eth0") ten_5 (Some true) true.

End Sample.

(** * Properties *)

(** ** Facts about the string operations *)

Module PyStrFacts.
Import PyStr.

(** No character of [s] is [c]. *)
Fixpoint free_of (c : ascii) (s : string) : bool :=
  match s with
  | EmptyString => true
  | String a s' => negb (Ascii.eqb a c) && free_of c s'
  end.

Lemma split_free c s : free_of c s = true -> split c s = [s].
Proof.
  induction s as [|a s IH]; simpl; [reflexivity|].
  intros H. apply andb_true_iff in H as [Ha Hs].
  apply negb_true_iff in Ha. rewrite Ha, (IH Hs). reflexivity.
Qed.

Lemma split_app c s t :
  free_of c s = true ->
  split c (s ++ String c t)%string = s :: split c t.
Proof.
  induction s as [|a s IH]; simpl.
  - intros _. rewrite Ascii.eqb_refl. reflexivity.
  - intros H. apply andb_true_iff in H as [Ha Hs].
    apply negb_true_iff in Ha. rewrite Ha, (IH Hs). reflexivity.
Qed.

Lemma join_cons sep p q ps :
  join sep (p :: q :: ps) = (p ++ sep ++ join sep (q :: ps))%string.
Proof. reflexivity. Qed.

Lemma split_join c parts :
  parts <> [] ->
  Forall (fun p => free_of c p = true) parts ->
  split c (join (String c "") parts) = parts.
Proof.
  induction parts as [|p ps IH]; [congruence|].
  intros _ H. inversion H as [|? ? Hp Hps]; subst.
  destruct ps as [|q ps].
  - simpl. apply split_free, Hp.
  - rewrite (join_cons (String c "") p q ps). 
    change (String c "" ++ join (String c "") (q :: ps))%string
      with (String c (join (String c "") (q :: ps))).
    rewrite split_app by exact Hp. f_equal. apply IH; [discriminate|exact Hps].
Qed.

Lemma uint_free_dot d : free_of "." (NilEmpty.string_of_uint d) = true.
Proof. induction d; simpl; auto. Qed.

Lemma of_N_free_dot n : free_of "." (of_N n) = true.
Proof.
  unfold of_N, NilZero.string_of_uint.
  destruct (N.to_uint n) eqn:E; try reflexivity; apply uint_free_dot.
Qed.

Lemma append_assoc (s t u : string) :
  ((s ++ t) ++ u = s ++ (t ++ u))%string.
Proof. induction s as [|a s IH]; simpl; [reflexivity|now rewrite IH]. Qed.

Lemma append_nil_r (s : string) : (s ++ "")%string = s.
Proof. induction s as [|a s IH]; simpl; [reflexivity|now rewrite IH]. Qed.

Lemma list_of_append (s t : string) :
  list_ascii_of_string (s ++ t)
  = list_ascii_of_string s ++ list_ascii_of_string t.
Proof. induction s as [|a s IH]; simpl; [reflexivity|now rewrite IH]. Qed.

Lemma list_of_string_inj (s t : string) :
  list_ascii_of_string s = list_ascii_of_string t -> s = t.
Proof.
  intros H. rewrite <- (string_of_list_ascii_of_string s),
    <- (string_of_list_ascii_of_string t). now rewrite H.
Qed.

Lemma append_inv_tail (s t u : string) :
  (s ++ u = t ++ u)%string -> s = t.
Proof.
  intros H. apply list_of_string_inj.
  apply (f_equal list_ascii_of_string) in H. rewrite !list_of_append in H.
  now apply app_inv_tail in H.
Qed.

Lemma append_inv_head (s t u : string) :
  (u ++ s = u ++ t)%string -> s = t.
Proof.
  intros H. apply list_of_string_inj.
  apply (f_equal list_ascii_of_string) in H. rewrite !list_of_append in H.
  now apply app_inv_head in H.
Qed.

Lemma lower_append (s t : string) :
  lower (s ++ t) = (lower s ++ lower t)%string.
Proof. induction s as [|a s IH]; simpl; [reflexivity|now rewrite IH]. Qed.

Lemma length_append (s t : string) :
  String.length (s ++ t) = (String.length s + String.length t)%nat.
Proof. induction s as [|a s IH]; simpl; [reflexivity|now rewrite IH]. Qed.

Lemma length_lower (s : string) : String.length (lower s) = String.length s.
Proof. induction s as [|a s IH]; simpl; [reflexivity|now rewrite IH]. Qed.

End PyStrFacts.

(** ** Facts about the address forms *)

Module IpFacts.
Import IpAddr PyStr PyStrFacts.

Lemma nibble_at_div n k : nibble_at n k = ((n / 16 ^ k) mod 16)%N.
Proof.
  unfold nibble_at. change 15%N with (N.ones 4).
  rewrite N.land_ones, N.shiftr_div_pow2, N.pow_mul_r. reflexivity.
Qed.

Lemma byte_at_div n k : byte_at n k = ((n / 256 ^ k) mod 256)%N.
Proof.
  unfold byte_at. change 255%N with (N.ones 8).
  rewrite N.land_ones, N.shiftr_div_pow2, N.pow_mul_r. reflexivity.
Qed.

(** The integer of the address [w.x.y.z]. *)
Definition of_octets (w x y z : N) : N :=
  (w * 2 ^ 24 + x * 2 ^ 16 + y * 2 ^ 8 + z)%N.

Lemma octets_of_octets w x y z :
  (w < 256 -> x < 256 -> y < 256 -> z < 256 ->
   octets (of_octets w x y z) = [w; x; y; z])%N.
Proof.
  intros Hw Hx Hy Hz. unfold octets, of_octets. rewrite !byte_at_div.
  change (256 ^ 3)%N with 16777216%N. change (256 ^ 2)%N with 65536%N.
  change (256 ^ 1)%N with 256%N. change (256 ^ 0)%N with 1%N.
  change (2 ^ 24)%N with 16777216%N. change (2 ^ 16)%N with 65536%N.
  change (2 ^ 8)%N with 256%N.
  repeat f_equal.
  all: zify; Z.to_euclidean_division_equations; lia.
Qed.

Lemma hex_digit_not_colon d : Ascii.eqb (hex_digit d) ":" = false.
Proof.
  unfold hex_digit.
  destruct (N.to_nat d) as [|k]; [reflexivity|].
  do 16 (destruct k as [|k]; [reflexivity|]). reflexivity.
Qed.

Lemma remove_char_keep c a s :
  Ascii.eqb a c = false -> remove_char c (String a s) = String a (remove_char c s).
Proof. intros H. simpl. now rewrite H. Qed.

Lemma remove_char_skip c s : remove_char c (String c s) = remove_char c s.
Proof. simpl. now rewrite Ascii.eqb_refl. Qed.

(** Removing the colons of the exploded form gives back the 32 digits. *)
Lemma remove_colons_groups (cs : list ascii) :
  length cs = 32%nat ->
  Forall (fun a => Ascii.eqb a ":" = false) cs ->
  remove_char ":" (join ":" (groups4 8 (string_of_list_ascii cs)))
  = string_of_list_ascii cs.
Proof.
  intros Hlen Hcs.
  do 32 (destruct cs as [|? cs]; [simpl in Hlen; discriminate Hlen|]).
  destruct cs; [|simpl in Hlen; discriminate Hlen].
  repeat match goal with
         | H : Forall _ (_ :: _) |- _ =>
             let Ha := fresh "Ha" in
             inversion H as [|? ? Ha ?]; subst; clear H
         end.
  cbn -[remove_char].
  repeat (rewrite remove_char_skip || rewrite remove_char_keep by assumption).
  reflexivity.
Qed.

Lemma chars_of_list l :
  chars (string_of_list_ascii l) = map (fun a => String a "") l.
Proof. unfold chars. rewrite list_ascii_of_string_of_list_ascii. reflexivity. Qed.

Lemma reverse_of_list l :
  reverse (string_of_list_ascii l) = string_of_list_ascii (rev l).
Proof. unfold reverse. rewrite list_ascii_of_string_of_list_ascii. reflexivity. Qed.

Lemma drop_of_list k l :
  drop k (string_of_list_ascii l) = string_of_list_ascii (skipn k l).
Proof. unfold drop. rewrite list_ascii_of_string_of_list_ascii. reflexivity. Qed.

(** The digits of [hex32], last first, are the nibbles from the lowest up. *)
Lemma rev_digits (f : N -> ascii) :
  rev (map (fun k => f (N.of_nat (31 - k))) (seq 0 32))
  = map (fun k => f (N.of_nat k)) (seq 0 32).
Proof. reflexivity. Qed.

Lemma skipn_digits (f : N -> ascii) :
  skipn 20 (map (fun k => f (N.of_nat k)) (seq 0 32))
  = map (fun k => f (N.of_nat k)) (seq 20 12).
Proof. reflexivity. Qed.

End IpFacts.

Section GeneratePtr.
Import IpAddr PyStr PyStrFacts IpFacts.

(** The label of the nibble of [n] at position [k], lowest first. *)
Definition nibble_label (n : N) (k : nat) : string :=
  String (hex_digit ((n / 16 ^ N.of_nat k) mod 16)%N) "".

Lemma generate_ptr_v6 (self : IPAddress) (n : N) (domain : bool) :
  ip_ip self = IPv6Address n ->
  IPAddress__generate_ptr self domain
  = (join "." (map (nibble_label n) (if domain then seq 20 12 else seq 0 32))
     ++ ".ip6.arpa")%string.
Proof.
  intros E. unfold IPAddress__generate_ptr. rewrite E.
  unfold IpText.exploded, exploded6, hex32.
  rewrite remove_colons_groups.
  2:{ rewrite length_map, length_seq. reflexivity. }
  2:{ apply Forall_map, Forall_forall. intros k _. apply hex_digit_not_colon. }
  rewrite reverse_of_list,
    (rev_digits (fun k => hex_digit (nibble_at n k))).
  f_equal. f_equal.
  destruct domain.
  - rewrite drop_of_list, (skipn_digits (fun k => hex_digit (nibble_at n k))),
      chars_of_list, map_map.
    apply map_ext. intros k. unfold nibble_label. now rewrite nibble_at_div.
  - rewrite chars_of_list, map_map.
    apply map_ext. intros k. unfold nibble_label. now rewrite nibble_at_div.
Qed.

Lemma generate_ptr_v4 (self : IPAddress) (w x y z : N) (domain : bool) :
  (w < 256)%N -> (x < 256)%N -> (y < 256)%N -> (z < 256)%N ->
  ip_ip self = IPv4Address (of_octets w x y z) ->
  IPAddress__generate_ptr self domain
  = (join "." (map of_N (if domain then [y; x; w] else [z; y; x; w]))
     ++ ".in-addr.arpa")%string.
Proof.
  intros Hw Hx Hy Hz E. unfold IPAddress__generate_ptr. rewrite E.
  unfold IpText.str, str4. rewrite octets_of_octets by assumption.
  rewrite split_join.
  - destruct domain; reflexivity.
  - discriminate.
  - repeat constructor; apply of_N_free_dot.
Qed.

(** C8. For an IPv4 address w.x.y.z the reverse name is
    z.y.x.w.in-addr.arpa in host form and y.x.w.in-addr.arpa at the domain
    boundary; for an IPv6 address it is the 32 nibbles, lowest first, joined
    by dots and followed by .ip6.arpa in host form, and at the domain
    boundary the same without its first 20 labels, which leaves the 12
    highest nibbles. *)
Theorem generate_ptr_reverse_names (self : IPAddress) :
  (forall w x y z : N,
      (w < 256)%N -> (x < 256)%N -> (y < 256)%N -> (z < 256)%N ->
      ip_ip self = IPv4Address (of_octets w x y z) ->
      IpText.str (ip_ip self)
      = (of_N w ++ "." ++ of_N x ++ "." ++ of_N y ++ "." ++ of_N z)%string
      /\ IPAddress__generate_ptr self false
         = (of_N z ++ "." ++ of_N y ++ "." ++ of_N x ++ "." ++ of_N w
            ++ ".in-addr.arpa")%string
      /\ IPAddress__generate_ptr self true
         = (of_N y ++ "." ++ of_N x ++ "." ++ of_N w
            ++ ".in-addr.arpa")%string)
  /\ (forall n : N,
         ip_ip self = IPv6Address n ->
         let labels := map (nibble_label n) (seq 0 32) in
         IPAddress__generate_ptr self false
         = (join "." labels ++ ".ip6.arpa")%string
         /\ IPAddress__generate_ptr self true
            = (join "." (skipn 20 labels) ++ ".ip6.arpa")%string
         /\ length (skipn 20 labels) = 12%nat).
Proof.
  split.
  - intros w x y z Hw Hx Hy Hz E. split; [|split].
    + rewrite E. unfold IpText.str, str4.
      rewrite octets_of_octets by assumption. cbn [map join String.concat].
      reflexivity.
    + rewrite (generate_ptr_v4 self w x y z false) by assumption.
      cbn [map join String.concat]. now rewrite <- !append_assoc.
    + rewrite (generate_ptr_v4 self w x y z true) by assumption.
      cbn [map join String.concat]. now rewrite <- !append_assoc.
  - intros n E labels. split; [|split].
    + apply (generate_ptr_v6 self n false E).
    + apply (generate_ptr_v6 self n true E).
    + reflexivity.
Qed.

Lemma generate_ptr_reverse_names_witness :
  IPAddress__generate_ptr Sample.stored_5 false = "5.0.0.10.in-addr.arpa"
  /\ IPAddress__generate_ptr Sample.stored_5 true = "0.0.10.in-addr.arpa".
Proof.
  destruct (proj1 (generate_ptr_reverse_names Sample.stored_5) 10 0 0 5
              eq_refl eq_refl eq_refl eq_refl eq_refl)%N as (_ & H1 & H2).
  exact (conj H1 H2).
Defined.

End GeneratePtr.


(** ** Reasoning about computations *)

Definition with_records (d : Database) (rs : list Record_) : Database :=
  mkDatabase (hosts d) (ipaddresses d) rs (domains d)
    (next_host_pk d) (next_ip_pk d) (next_record_id d).

Definition with_ipaddresses (d : Database) (rows : list IPAddressRow) (next : N)
  : Database :=
  mkDatabase (hosts d) rows (records d) (domains d)
    (next_host_pk d) next (next_record_id d).

Lemma bind_Ok {A B} (m : M A) (k : A -> M B) w a w' :
  m w = (Ok a, w') -> bind m k w = k a w'.
Proof. intros H. unfold bind. now rewrite H. Qed.

Lemma bind_Raise {A B} (m : M A) (k : A -> M B) w e w' :
  m w = (Raise e, w') -> bind m k w = (Raise e, w').
Proof. intros H. unfold bind. now rewrite H. Qed.

Lemma bind_inv_Ok {A B} (m : M A) (k : A -> M B) w b w2 :
  bind m k w = (Ok b, w2) ->
  exists a w1, m w = (Ok a, w1) /\ k a w1 = (Ok b, w2).
Proof.
  unfold bind. destruct (m w) as [[a|e] w1]; intros H.
  - now exists a, w1.
  - discriminate.
Qed.

Lemma filter_delete_run p w :
  Record_objects_filter_delete p w
  = (Ok tt,
     mkWorld (with_records (db w) (filter (fun r => negb (p r)) (records (db w))))
       (history w ++ [filter (fun r => negb (p r)) (records (db w))])).
Proof. reflexivity. Qed.

Section RemoveDns.
Variable ROOT_DOMAIN : string.

Local Abbreviation fqdn := (IPAddress_fqdn ROOT_DOMAIN).

(** What [_remove_dns] looks for, as propositions. *)
Definition is_forward_of (orig : IPAddress) (r : Record_) : Prop :=
  PyStr.lower (record_name r) = PyStr.lower (fqdn orig)
  /\ (record_type r = "A" \/ record_type r = "AAAA")
  /\ record_content r = IpText.str (ip_ip orig).

Definition is_cname_of (orig : IPAddress) (r : Record_) : Prop :=
  ip_primary orig = true
  /\ PyStr.lower (record_name r)
     = PyStr.lower (Host_fqdn ROOT_DOMAIN (ip_host orig))
  /\ record_type r = "CNAME"
  /\ PyStr.lower (record_content r) = PyStr.lower (fqdn orig).

Definition is_ptr_of (orig : IPAddress) (r : Record_) : Prop :=
  record_name r = IPAddress__generate_ptr orig false
  /\ record_type r = "PTR"
  /\ PyStr.lower (record_content r) = PyStr.lower (fqdn orig).

Lemma forward_lookup_spec orig r :
  forward_lookup ROOT_DOMAIN orig r = true <-> is_forward_of orig r.
Proof.
  unfold forward_lookup, is_forward_of, iexact.
  rewrite !andb_true_iff, orb_true_iff, !String.eqb_eq. tauto.
Qed.

Lemma cname_lookup_spec orig r :
  ip_primary orig = true ->
  cname_lookup ROOT_DOMAIN orig r = true <-> is_cname_of orig r.
Proof.
  unfold cname_lookup, is_cname_of, iexact.
  rewrite !andb_true_iff, !String.eqb_eq. tauto.
Qed.

Lemma ptr_lookup_spec orig r :
  ptr_lookup ROOT_DOMAIN orig r = true <-> is_ptr_of orig r.
Proof.
  unfold ptr_lookup, is_ptr_of, iexact.
  rewrite !andb_true_iff, !String.eqb_eq. tauto.
Qed.

(** The records [_remove_dns] deletes for the stored assignment [orig]. *)
Definition removed_by (orig : IPAddress) (r : Record_) : bool :=
  forward_lookup ROOT_DOMAIN orig r
  || (ip_primary orig && cname_lookup ROOT_DOMAIN orig r)
  || ptr_lookup ROOT_DOMAIN orig r.

Lemma removed_by_spec orig r :
  removed_by orig r = true
  <-> is_forward_of orig r \/ is_cname_of orig r \/ is_ptr_of orig r.
Proof.
  unfold removed_by. rewrite !orb_true_iff, andb_true_iff.
  rewrite forward_lookup_spec, ptr_lookup_spec.
  destruct (ip_primary orig) eqn:P.
  - rewrite cname_lookup_spec by exact P. tauto.
  - unfold is_cname_of. rewrite P. intuition congruence.
Qed.

Lemma filter_filter {A} (p q : A -> bool) l :
  filter p (filter q l) = filter (fun x => q x && p x) l.
Proof.
  induction l as [|x l IH]; simpl; [reflexivity|].
  destruct (q x); simpl; [destruct (p x)|]; now rewrite IH.
Qed.

(** The run of [_remove_dns] on a stored assignment. *)
Lemma remove_dns_run (self orig : IPAddress) (pk : N) (w : World) :
  ip_pk self = Some pk ->
  IPAddress_objects_get pk w = (Ok orig, w) ->
  exists hist,
    IPAddress__remove_dns ROOT_DOMAIN self w
    = (Ok tt,
       mkWorld
         (with_records (db w)
            (filter (fun r => negb (removed_by orig r)) (records (db w))))
         (history w ++ hist)).
Proof.
  intros Hpk Hget. unfold IPAddress__remove_dns. rewrite Hpk.
  rewrite (bind_Ok _ _ _ _ _ Hget).
  unfold bind at 1. rewrite filter_delete_run.
  destruct (ip_primary orig) eqn:P.
  - unfold bind at 1. rewrite filter_delete_run. rewrite filter_delete_run.
    cbn [db records history with_records]. rewrite !filter_filter.
    eexists. f_equal. f_equal.
    + unfold with_records; cbn. f_equal. apply filter_ext. intros r.
      unfold removed_by. rewrite P. cbn. rewrite !negb_orb. reflexivity.
    + rewrite <- !app_assoc. reflexivity.
  - unfold bind at 1. cbn [ret]. rewrite filter_delete_run.
    cbn [db records history with_records]. rewrite !filter_filter.
    eexists. f_equal. f_equal.
    + unfold with_records; cbn. f_equal. apply filter_ext. intros r.
      unfold removed_by. rewrite P. cbn [andb].
      now rewrite orb_false_r, negb_orb.
    + rewrite <- !app_assoc. reflexivity.
Qed.

End RemoveDns.

(** ** Removal of the records of an assignment *)

Section RemoveDnsClaims.
Variable ROOT_DOMAIN : string.

(** The PTR lookup as the specification words it, with the name matched
    without regard to case like the names of the other two lookups. *)
Definition spec_is_ptr_of (orig : IPAddress) (r : Record_) : Prop :=
  PyStr.lower (record_name r)
  = PyStr.lower (IPAddress__generate_ptr orig false)
  /\ record_type r = "PTR"
  /\ PyStr.lower (record_content r)
     = PyStr.lower (IPAddress_fqdn ROOT_DOMAIN orig).

(** C3, amended. For a stored assignment, [_remove_dns] deletes the A/AAAA
    records whose name matches the stored FQDN without regard to case and
    whose content is the stored address; if the stored assignment is primary,
    the CNAME records whose name matches the host FQDN and whose content
    matches the stored FQDN, both without regard to case; and the PTR records
    whose name is exactly the host-form reverse name and whose content
    matches the stored FQDN without regard to case.  Every other record
    stays, in its place, and no other table changes. *)
Theorem remove_dns_deletes_exactly (self orig : IPAddress) (pk : N) (w : World) :
  ip_pk self = Some pk ->
  IPAddress_objects_get pk w = (Ok orig, w) ->
  exists w',
    IPAddress__remove_dns ROOT_DOMAIN self w = (Ok tt, w')
    /\ (forall r,
           In r (records (db w'))
           <-> In r (records (db w))
               /\ ~ (is_forward_of ROOT_DOMAIN orig r
                     \/ is_cname_of ROOT_DOMAIN orig r
                     \/ is_ptr_of ROOT_DOMAIN orig r))
    /\ records (db w')
       = filter (fun r => negb (removed_by ROOT_DOMAIN orig r)) (records (db w))
    /\ db w' = with_records (db w) (records (db w')).
Proof.
  intros Hpk Hget.
  destruct (remove_dns_run ROOT_DOMAIN self orig pk w Hpk Hget) as [hist Hrun].
  eexists. split; [exact Hrun|]. cbn [db records with_records].
  split; [|split; reflexivity].
  intros r. rewrite filter_In, negb_true_iff, <- removed_by_spec.
  destruct (removed_by ROOT_DOMAIN orig r); intuition congruence.
Qed.

(** C10. [_remove_dns] on an assignment without a key does nothing: the
    state is the one it started from and no exception is raised. *)
Theorem remove_dns_without_pk_is_noop (self : IPAddress) (w : World) :
  ip_pk self = None ->
  IPAddress__remove_dns ROOT_DOMAIN self w = (Ok tt, w).
Proof. intros Hpk. unfold IPAddress__remove_dns. now rewrite Hpk. Qed.

End RemoveDnsClaims.

Lemma remove_dns_deletes_exactly_witness :
  ip_pk Sample.stored_5 = Some 1%N
  /\ IPAddress_objects_get 1 Sample.w_5_more = (Ok Sample.stored_5, Sample.w_5_more)
  /\ exists w',
      IPAddress__remove_dns Sample.root Sample.stored_5 Sample.w_5_more
      = (Ok tt, w')
      /\ records (db w') = [Sample.a_other; Sample.ptr_upper].
Proof.
  split; [reflexivity|]. split; [reflexivity|].
  destruct (remove_dns_deletes_exactly Sample.root Sample.stored_5
              Sample.stored_5 1 Sample.w_5_more eq_refl eq_refl)
    as (w' & Hrun & _ & Hrec & _).
  exists w'. split; [exact Hrun|]. rewrite Hrec. reflexivity.
Defined.

(** C3 as worded fails: with names matched without regard to case, the PTR
    record named [5.0.0.10.IN-ADDR.ARPA] with content [foo.example.com] is
    one to delete for the assignment of 10.0.0.5 to [foo], but it is still
    in the table after [_remove_dns]. *)
Lemma remove_dns_ptr_name_case_counterexample :
  ~ (forall r,
        In r (records (db (snd (IPAddress__remove_dns Sample.root
                                   Sample.stored_5 Sample.w_5_more)))) ->
        ~ (is_forward_of Sample.root Sample.stored_5 r
           \/ is_cname_of Sample.root Sample.stored_5 r
           \/ spec_is_ptr_of Sample.root Sample.stored_5 r)).
Proof.
  intros H. apply (H Sample.ptr_upper).
  - cbn. right. left. reflexivity.
  - right. right. repeat split.
Qed.

Lemma remove_dns_without_pk_is_noop_witness :
  ip_pk Sample.new_5 = None
  /\ IPAddress__remove_dns Sample.root Sample.new_5 Sample.w_5 = (Ok tt, Sample.w_5).
Proof.
  split; [reflexivity|].
  apply (remove_dns_without_pk_is_noop Sample.root Sample.new_5 Sample.w_5 eq_refl).
Defined.

(** ** Reading the tables *)

(** The result of [Model.objects.get] as a function of the rows. *)
Definition find_one {A} (model : string) (p : A -> bool) (rows : list A)
  : Result A :=
  match filter p rows with
  | [] => Raise (DoesNotExist model)
  | [x] => Ok x
  | _ :: _ :: _ => Raise (MultipleObjectsReturned model)
  end.

Lemma get_one_run {A} model (p : A -> bool) rows w :
  get_one model p rows w = (find_one model p rows, w).
Proof.
  unfold get_one, find_one.
  destruct (filter p rows) as [|x [|y l]]; reflexivity.
Qed.

Definition stored_host (d : Database) (pk : N) : Result HostRow :=
  find_one "Host" (fun h => N.eqb (hostrow_pk h) pk) (hosts d).

Definition stored_domain (d : Database) (name : string) : Result Domain :=
  find_one "Domain" (fun z => String.eqb (domain_name z) name) (domains d).

(** The object a row is read as, given the row of its host. *)
Definition object_of (h : HostRow) (row : IPAddressRow) : IPAddress :=
  mkIPAddress (Some (iprow_pk row))
    (mkHost (Some (hostrow_pk h)) (hostrow_name h))
    (iprow_interface row) (iprow_ip row) (iprow_auto_dns row)
    (iprow_primary row).

Definition loaded (d : Database) (row : IPAddressRow) : Result IPAddress :=
  match stored_host d (iprow_host_id row) with
  | Ok h => Ok (object_of h row)
  | Raise e => Raise e
  end.

Definition stored_ip (d : Database) (pk : N) : Result IPAddress :=
  match find_one "IPAddress" (fun r => N.eqb (iprow_pk r) pk) (ipaddresses d) with
  | Ok row => loaded d row
  | Raise e => Raise e
  end.

Lemma Host_objects_get_run pk w :
  Host_objects_get pk w = (stored_host (db w) pk, w).
Proof.
  unfold Host_objects_get, bind, get_db. now rewrite get_one_run.
Qed.

Lemma Domain_objects_get_run name w :
  Domain_objects_get name w = (stored_domain (db w) name, w).
Proof.
  unfold Domain_objects_get, bind, get_db. now rewrite get_one_run.
Qed.

Lemma load_ipaddress_run row w :
  load_ipaddress row w = (loaded (db w) row, w).
Proof.
  unfold load_ipaddress, bind, loaded. rewrite Host_objects_get_run.
  destruct (stored_host (db w) (iprow_host_id row)); reflexivity.
Qed.

Lemma IPAddress_objects_get_run pk w :
  IPAddress_objects_get pk w = (stored_ip (db w) pk, w).
Proof.
  unfold IPAddress_objects_get, bind, get_db, stored_ip.
  rewrite get_one_run.
  destruct (find_one _ _ _); [apply load_ipaddress_run|reflexivity].
Qed.

(** A key that occurs once selects its row. *)
Lemma filter_unique_key {A} (key : A -> N) (rows : list A) (r : A) :
  NoDup (map key rows) -> In r rows ->
  filter (fun x => N.eqb (key x) (key r)) rows = [r].
Proof.
  induction rows as [|x rows IH]; intros Hnd Hin; [contradiction|].
  inversion Hnd as [|? ? Hx Hnd']; subst. simpl.
  destruct Hin as [->|Hin].
  - rewrite N.eqb_refl. f_equal.
    assert (E : forall l, ~ In (key r) (map key l) ->
                          filter (fun x => N.eqb (key x) (key r)) l = []).
    { induction l as [|y l IHl]; simpl; intros Hn; [reflexivity|].
      destruct (N.eqb_spec (key y) (key r)) as [E|E].
      - exfalso. apply Hn. now left.
      - apply IHl. intros Hc. apply Hn. now right. }
    apply E, Hx.
  - destruct (N.eqb_spec (key x) (key r)) as [E|E].
    + exfalso. apply Hx. rewrite E. now apply in_map.
    + now apply IH.
Qed.

Lemma atomic_Ok {A} (body : M A) w a w' :
  body w = (Ok a, w') -> atomic body w = (Ok a, w').
Proof. intros H. unfold atomic. now rewrite H. Qed.

Lemma atomic_Raise {A} (body : M A) w e w' :
  body w = (Raise e, w') ->
  atomic body w = (Raise e, mkWorld (db w) (history w' ++ [records (db w)])).
Proof. intros H. unfold atomic. now rewrite H. Qed.

Lemma delete_ipaddress_row_run pk w :
  delete_ipaddress_row pk w
  = (Ok tt,
     mkWorld (with_ipaddresses (db w)
                (filter (fun r => negb (N.eqb (iprow_pk r) pk))
                   (ipaddresses (db w)))
                (next_ip_pk (db w)))
       (history w)).
Proof. reflexivity. Qed.

Lemma in_insert_by_pk r x rows :
  In x (insert_by_pk r rows) <-> x = r \/ In x rows.
Proof.
  induction rows as [|y rows IH]; simpl; [intuition|].
  destruct (N.leb _ _); simpl; [intuition|]. rewrite IH. intuition.
Qed.

Lemma in_order_by_pk x rows : In x (order_by_pk rows) <-> In x rows.
Proof.
  induction rows as [|y rows IH]; simpl; [tauto|].
  rewrite in_insert_by_pk, IH. intuition.
Qed.

Lemma in_insert_by_ip r x rows :
  In x (insert_by_ip r rows) <-> x = r \/ In x rows.
Proof.
  induction rows as [|y rows IH]; simpl; [intuition|].
  destruct (ip_leb _ _); simpl; [intuition|]. rewrite IH. intuition.
Qed.

Lemma in_order_by_ip x rows : In x (order_by_ip rows) <-> In x rows.
Proof.
  induction rows as [|y rows IH]; simpl; [tauto|].
  rewrite in_insert_by_ip, IH. intuition.
Qed.

(** ** Deletion of an assignment *)

Section Deletion.
Variable ROOT_DOMAIN : string.

Local Abbreviation removed := (removed_by ROOT_DOMAIN).

(** The records the [pre_delete] signals of the rows [rows] delete, when the
    host of all of them is stored as [h]. *)
Definition removed_for (h : HostRow) (rows : list IPAddressRow) (r : Record_)
  : bool :=
  existsb (fun row => truthy_flag (iprow_auto_dns row)
                      && removed (object_of h row) r) rows.

Lemma hook_run (instance orig : IPAddress) (pk : N) (w : World) :
  ip_pk instance = Some pk ->
  stored_ip (db w) pk = Ok orig ->
  exists hist,
    remote_dns_hook ROOT_DOMAIN instance w
    = (Ok tt,
       mkWorld
         (with_records (db w)
            (filter (fun r => negb (truthy_flag (ip_auto_dns instance)
                                    && removed orig r))
               (records (db w))))
         (history w ++ hist)).
Proof.
  intros Hpk Hget. unfold remote_dns_hook.
  destruct (truthy_flag (ip_auto_dns instance)).
  - apply (remove_dns_run ROOT_DOMAIN instance orig pk w Hpk).
    now rewrite IPAddress_objects_get_run, Hget.
  - exists []. cbn [ret andb negb]. rewrite app_nil_r.
    replace (filter (fun _ => true) (records (db w))) with (records (db w)).
    + destruct w as [[] ?]; reflexivity.
    + induction (records (db w)) as [|x l IH]; simpl; congruence.
Qed.

(** The signals sent for the rows of a host. *)
Lemma signals_run (h : HostRow) (rows : list IPAddressRow) :
  forall w,
    (forall row, In row rows ->
                 loaded (db w) row = Ok (object_of h row)
                 /\ stored_ip (db w) (iprow_pk row) = Ok (object_of h row)) ->
    exists hist,
      for_each rows (fun r =>
        instance <- load_ipaddress r ;; remote_dns_hook ROOT_DOMAIN instance) w
      = (Ok tt,
         mkWorld
           (with_records (db w)
              (filter (fun r => negb (removed_for h rows r)) (records (db w))))
           (history w ++ hist)).
Proof.
  induction rows as [|row rows IH]; intros w Hrows.
  - exists []. cbn [for_each ret removed_for existsb negb]. rewrite app_nil_r.
    replace (filter (fun _ => true) (records (db w))) with (records (db w)).
    + destruct w as [[] ?]; reflexivity.
    + induction (records (db w)) as [|x l IHl]; simpl; congruence.
  - destruct (Hrows row (or_introl eq_refl)) as [Hload Hget].
    cbn [for_each]. unfold bind at 1. unfold bind at 1.
    rewrite load_ipaddress_run, Hload.
    destruct (hook_run (object_of h row) (object_of h row) (iprow_pk row) w
                eq_refl Hget) as [hist1 Hhook].
    rewrite Hhook.
    match goal with |- context [for_each rows ?b ?w1] =>
      destruct (IH w1) as [hist2 Hrest] end.
    { intros row' Hin. apply (Hrows row' (or_intror Hin)). }
    rewrite Hrest. exists (hist1 ++ hist2).
    cbn [db records history with_records hosts ipaddresses domains
         next_host_pk next_ip_pk next_record_id].
    rewrite filter_filter, <- app_assoc. f_equal. f_equal.
    unfold with_records. cbn. f_equal. apply filter_ext. intros r.
    unfold removed_for. cbn [existsb ip_auto_dns object_of].
    now rewrite negb_orb.
Qed.

(** Deleting rows of the address table leaves the other tables and the log
    as they were. *)
Lemma delete_rows_run (rows : list IPAddressRow) :
  forall w,
    exists w',
      for_each rows (fun r => delete_ipaddress_row (iprow_pk r)) w = (Ok tt, w')
      /\ records (db w') = records (db w)
      /\ hosts (db w') = hosts (db w)
      /\ next_host_pk (db w') = next_host_pk (db w)
      /\ history w' = history w.
Proof.
  induction rows as [|row rows IH]; intros w.
  - exists w. cbn. auto.
  - cbn [for_each]. unfold bind. rewrite delete_ipaddress_row_run.
    match goal with |- context [for_each rows ?b ?w1] =>
      destruct (IH w1) as (w' & Hrun & Hr & Hh & Hn & Hl) end.
    exists w'. rewrite Hrun. cbn in *. auto.
Qed.

Lemma filter_true {A} (l : list A) : filter (fun _ => true) l = l.
Proof. induction l as [|x l IH]; simpl; congruence. Qed.

(** C7. Deleting an assignment runs the removal of its DNS records if and
    only if its [auto_dns] flag is set when it is deleted.  Explicit
    deletion: with the flag unset the record table and its log are untouched,
    with the flag set exactly the records of the stored assignment are
    deleted.  Deletion cascaded from the host: the records deleted are
    exactly those of the host's stored assignments whose flag is set. *)
Theorem delete_removes_records_iff_auto_dns (w : World) :
  (forall self pk,
      ip_pk self = Some pk ->
      truthy_flag (ip_auto_dns self) = false ->
      exists w',
        IPAddress_delete ROOT_DOMAIN self w = (Ok (with_pk self None), w')
        /\ records (db w') = records (db w)
        /\ history w' = history w)
  /\ (forall self pk orig,
         ip_pk self = Some pk ->
         truthy_flag (ip_auto_dns self) = true ->
         IPAddress_objects_get pk w = (Ok orig, w) ->
         exists w',
           IPAddress_delete ROOT_DOMAIN self w = (Ok (with_pk self None), w')
           /\ records (db w')
              = filter (fun r => negb (removed orig r)) (records (db w)))
  /\ (forall self pk h,
         host_pk self = Some pk ->
         Host_objects_get pk w = (Ok h, w) ->
         NoDup (map iprow_pk (ipaddresses (db w))) ->
         exists w',
           Host_delete ROOT_DOMAIN self w = (Ok (mkHost None (host_name self)), w')
           /\ forall r,
               In r (records (db w'))
               <-> In r (records (db w))
                   /\ ~ exists row,
                         In row (ipaddresses (db w))
                         /\ iprow_host_id row = pk
                         /\ truthy_flag (iprow_auto_dns row) = true
                         /\ removed (object_of h row) r = true).
Proof.
  split; [|split].
  - intros self pk Hpk Hflag. unfold IPAddress_delete. rewrite Hpk.
    eexists. split.
    + unfold bind at 1. erewrite atomic_Ok.
      2:{ unfold remote_dns_hook. rewrite Hflag. reflexivity. }
      reflexivity.
    + split; reflexivity.
  - intros self pk orig Hpk Hflag Hget.
    rewrite IPAddress_objects_get_run in Hget.
    assert (Hst : stored_ip (db w) pk = Ok orig) by congruence.
    destruct (hook_run self orig pk w Hpk Hst) as [hist Hhook].
    unfold IPAddress_delete. rewrite Hpk.
    eexists. split.
    + unfold bind at 1. erewrite atomic_Ok.
      2:{ unfold bind. rewrite Hhook. reflexivity. }
      reflexivity.
    + cbn. rewrite Hflag. reflexivity.
  - intros self pk h Hpk Hhost Hnd.
    rewrite Host_objects_get_run in Hhost.
    assert (Hh : stored_host (db w) pk = Ok h) by congruence.
    set (rows := order_by_pk
                   (filter (fun r => N.eqb (iprow_host_id r) pk)
                      (ipaddresses (db w)))).
    assert (Hrows : forall row, In row rows <->
                      In row (ipaddresses (db w)) /\ iprow_host_id row = pk).
    { intros row. unfold rows. rewrite in_order_by_pk, filter_In.
      now rewrite N.eqb_eq. }
    destruct (signals_run h rows w) as [hist Hsig].
    { intros row Hin. apply Hrows in Hin as [Hin Hid].
      assert (Hl : loaded (db w) row = Ok (object_of h row)).
      { unfold loaded. now rewrite Hid, Hh. }
      split; [exact Hl|]. unfold stored_ip, find_one.
      now rewrite (filter_unique_key iprow_pk _ row Hnd Hin). }
    match type of Hsig with _ = (_, ?w1) =>
      destruct (delete_rows_run rows w1) as (w2 & Hdel & Hr & Hhs & Hn & Hl) end.
    unfold Host_delete. rewrite Hpk. eexists. split.
    + unfold bind at 1. erewrite atomic_Ok.
      2:{ unfold bind at 1. cbn [get_db]. fold rows.
          unfold bind at 1. rewrite Hsig.
          unfold bind at 1. rewrite Hdel.
          unfold bind at 1. cbn [get_db]. reflexivity. }
      reflexivity.
    + intros r. cbn [db records set_hosts snd]. rewrite Hr.
      cbn [db records with_records].
      rewrite filter_In, negb_true_iff.
      unfold removed_for.
      split; intros [Hin Hno]; (split; [exact Hin|]).
      * intros (row & Hrow & Hid & Hflag & Hrem).
        assert (E : existsb (fun row => truthy_flag (iprow_auto_dns row)
                               && removed (object_of h row) r) rows = true).
        { apply existsb_exists. exists row. split.
          - apply Hrows. now split.
          - now rewrite Hflag, Hrem. }
        congruence.
      * apply not_true_is_false. intros E.
        apply existsb_exists in E as (row & Hrow & E).
        apply andb_true_iff in E as [Hflag Hrem].
        apply Hrows in Hrow as [Hrow Hid].
        apply Hno. now exists row.
Qed.

End Deletion.

Lemma delete_removes_records_iff_auto_dns_witness :
  (exists w',
      IPAddress_delete Sample.root
        (mkIPAddress (Some 1%N) Sample.foo None Sample.ten_5 (Some false) false)
        Sample.w_5
      = (Ok (mkIPAddress None Sample.foo None Sample.ten_5 (Some false) false), w')
      /\ records (db w') = [Sample.a_foo; Sample.ptr_foo])
  /\ (exists w',
         IPAddress_delete Sample.root Sample.stored_5 Sample.w_5
         = (Ok Sample.new_5, w')
         /\ records (db w') = [])
  /\ (exists w',
         Host_delete Sample.root Sample.foo Sample.w_5
         = (Ok (mkHost None "foo"), w')
         /\ ~ In Sample.a_foo (records (db w'))).
Proof.
  destruct (delete_removes_records_iff_auto_dns Sample.root Sample.w_5)
    as (Hoff & Hon & Hcascade).
  split; [|split].
  - destruct (Hoff (mkIPAddress (Some 1%N) Sample.foo None Sample.ten_5
                      (Some false) false) 1%N eq_refl eq_refl)
      as (w' & Hrun & Hrec & _).
    exists w'. split; [exact Hrun|exact Hrec].
  - destruct (Hon Sample.stored_5 1%N Sample.stored_5 eq_refl eq_refl eq_refl)
      as (w' & Hrun & Hrec).
    exists w'. split; [exact Hrun|]. rewrite Hrec. reflexivity.
  - destruct (Hcascade Sample.foo 1%N (mkHostRow 1 "foo") eq_refl eq_refl)
      as (w' & Hrun & Hrec).
    { simpl. repeat constructor. simpl. tauto. }
    exists w'. split; [exact Hrun|].
    intros Hin. apply Hrec in Hin as [_ Hno]. apply Hno.
    exists (mkIPAddressRow 1 1 None Sample.ten_5 (Some true) false).
    repeat split. simpl. now left.
Defined.

(** ** Transactions *)

Section Atomicity.
Variable ROOT_DOMAIN : string.

Lemma atomic_Raise_inv {A} (body : M A) w e w' :
  atomic body w = (Raise e, w') -> db w' = db w.
Proof.
  unfold atomic. destruct (body w) as [[a|e0] w1]; intros H.
  - discriminate.
  - injection H as _ <-. reflexivity.
Qed.

(** C2. A save (create, or update by delete-then-recreate) and a delete of
    an assignment are all or nothing on the tables of assignments and of
    records: when the operation raises, every table is what it was before
    the call, so no record was created or removed and the row of the
    assignment is in its prior state. *)
Theorem save_and_delete_roll_back (w : World) :
  (forall self e w',
      IPAddress_save ROOT_DOMAIN self w = (Raise e, w') -> db w' = db w)
  /\ (forall self e w',
         IPAddress_delete ROOT_DOMAIN self w = (Raise e, w') -> db w' = db w)
  /\ (forall self e w',
         Host_delete ROOT_DOMAIN self w = (Raise e, w') -> db w' = db w).
Proof.
  split; [|split].
  - intros self e w' H. unfold IPAddress_save in H.
    apply (atomic_Raise_inv _ _ _ _ H).
  - intros self e w' H. unfold IPAddress_delete in H.
    destruct (ip_pk self) as [pk|].
    + unfold bind in H.
      destruct (atomic _ w) as [[a|e0] w1] eqn:E.
      * discriminate.
      * injection H as _ <-. apply (atomic_Raise_inv _ _ _ _ E).
    + injection H as _ <-. reflexivity.
  - intros self e w' H. unfold Host_delete in H.
    destruct (host_pk self) as [pk|].
    + unfold bind at 1 in H.
      destruct (atomic _ w) as [[a|e0] w1] eqn:E.
      * discriminate.
      * injection H as _ <-. apply (atomic_Raise_inv _ _ _ _ E).
    + injection H as _ <-. reflexivity.
Qed.

End Atomicity.

Lemma save_and_delete_roll_back_witness :
  (exists w',
      IPAddress_save Sample.root Sample.duplicate_5 Sample.w_5
      = (Raise (IntegrityError "ip"), w')
      /\ db w' = db Sample.w_5
      /\ In (mkRecord 3 1 "eth0.foo.example.com" "A" "10.0.0.5" true)
           (concat (history w')))
  /\ (exists w',
         IPAddress_delete Sample.root Sample.missing_9 Sample.w_5
         = (Raise (DoesNotExist "IPAddress"), w')
         /\ db w' = db Sample.w_5).
Proof.
  destruct (save_and_delete_roll_back Sample.root Sample.w_5)
    as (Hsave & Hdelete & _).
  split.
  - exists (snd (IPAddress_save Sample.root Sample.duplicate_5 Sample.w_5)).
    split; [reflexivity|]. split.
    + apply (Hsave Sample.duplicate_5 (IntegrityError "ip")). reflexivity.
    + vm_compute. tauto.
  - exists (snd (IPAddress_delete Sample.root Sample.missing_9 Sample.w_5)).
    split; [reflexivity|].
    apply (Hdelete Sample.missing_9 (DoesNotExist "IPAddress")). reflexivity.
Defined.

(** ** Writes to the record table *)

(** The state after the record table was set to [rs] and the key counter to
    [next]: the new table is logged. *)
Definition put_records (w : World) (rs : list Record_) (next : N) : World :=
  mkWorld
    (mkDatabase (hosts (db w)) (ipaddresses (db w)) rs (domains (db w))
       (next_host_pk (db w)) (next_ip_pk (db w)) next)
    (history w ++ [rs]).

(** The three writes the models make. *)
Definition delete_w (p : Record_ -> bool) (w : World) : World :=
  put_records w (filter (fun r => negb (p r)) (records (db w)))
    (next_record_id (db w)).

Definition insert_w (r : Record_) (w : World) : World :=
  put_records w (records (db w) ++ [r]) (N.succ (next_record_id (db w))).

Definition same_id (r x : Record_) : bool := N.eqb (record_id x) (record_id r).

Definition update_w (r : Record_) (w : World) : World :=
  put_records w (map (fun x => if same_id r x then r else x) (records (db w)))
    (next_record_id (db w)).

Definition has_id (r : Record_) (w : World) : Prop :=
  existsb (same_id r) (records (db w)) = true.

Lemma filter_delete_is_delete_w p w :
  Record_objects_filter_delete p w = (Ok tt, delete_w p w).
Proof. reflexivity. Qed.

Lemma create_is_insert_w mk w :
  Record_objects_create mk w
  = (Ok (mk (next_record_id (db w))), insert_w (mk (next_record_id (db w))) w).
Proof. reflexivity. Qed.

Lemma save_is_update_w r w :
  has_id r w -> Record_save r w = (Ok tt, update_w r w).
Proof.
  intros H. unfold Record_save, bind, get_db. unfold has_id, same_id in H.
  now rewrite H.
Qed.

Lemma get_or_create_run p mk w :
  Record_objects_get_or_create p mk w
  = match filter p (records (db w)) with
    | [] => (Ok (mk (next_record_id (db w)), true),
             insert_w (mk (next_record_id (db w))) w)
    | [r] => (Ok (r, false), w)
    | _ :: _ :: _ => (Raise (MultipleObjectsReturned "Record"), w)
    end.
Proof.
  unfold Record_objects_get_or_create, bind, get_db.
  destruct (filter p (records (db w))) as [|r [|r' l]]; reflexivity.
Qed.

Lemma has_id_insert r w : has_id r (insert_w r w).
Proof.
  unfold has_id, insert_w, put_records. cbn [db records].
  rewrite existsb_app. cbn. unfold same_id. now rewrite N.eqb_refl, orb_true_r.
Qed.

Lemma has_id_of_in r rs : In r rs -> existsb (same_id r) rs = true.
Proof.
  intros H. apply existsb_exists. exists r. split; [exact H|].
  unfold same_id. apply N.eqb_refl.
Qed.

(** ** Assertions on computations *)

(** From a state in [P], the computation ends in [Q] when it returns and in
    [E] when it raises. *)
Definition hoare {A} (P : World -> Prop) (m : M A)
    (Q : A -> World -> Prop) (E : World -> Prop) : Prop :=
  forall w, P w ->
            match m w with
            | (Ok a, w') => Q a w'
            | (Raise _, w') => E w'
            end.

Lemma hoare_ret {A} (P : World -> Prop) (a : A) (E : World -> Prop) :
  hoare P (ret a) (fun x w => x = a /\ P w) E.
Proof. intros w H. cbn. auto. Qed.

Lemma hoare_raise {A} (P : World -> Prop) e (Q : A -> World -> Prop) :
  hoare P (raise e) Q P.
Proof. intros w H. exact H. Qed.

Lemma hoare_bind {A B} (P : World -> Prop) (m : M A) (k : A -> M B)
    (Q : A -> World -> Prop) (R : B -> World -> Prop) (E : World -> Prop) :
  hoare P m Q E -> (forall a, hoare (Q a) (k a) R E) ->
  hoare P (bind m k) R E.
Proof.
  intros Hm Hk w HP. unfold bind. specialize (Hm w HP).
  destruct (m w) as [[a|e] w1]; [apply (Hk a w1 Hm)|exact Hm].
Qed.

Lemma hoare_weaken {A} (P P' : World -> Prop) (m : M A)
    (Q Q' : A -> World -> Prop) (E E' : World -> Prop) :
  hoare P m Q E ->
  (forall w, P' w -> P w) -> (forall a w, Q a w -> Q' a w) ->
  (forall w, E w -> E' w) ->
  hoare P' m Q' E'.
Proof.
  intros H HP HQ HE w Hw. specialize (H w (HP w Hw)).
  destruct (m w) as [[a|e] w1]; auto.
Qed.

Lemma hoare_for_each {A} (I : World -> Prop) (xs : list A) (body : A -> M unit) :
  (forall x, In x xs -> hoare I (body x) (fun _ => I) I) ->
  hoare I (for_each xs body) (fun _ => I) I.
Proof.
  induction xs as [|x xs IH]; intros Hb.
  - intros w H. exact H.
  - cbn [for_each]. apply (hoare_bind I _ _ (fun _ => I)).
    + apply Hb. now left.
    + intros u. apply IH. intros y Hy. apply Hb. now right.
Qed.

Lemma hoare_try {A} (P : World -> Prop) model (body handler : M A)
    (Q : A -> World -> Prop) (E : World -> Prop) :
  hoare P body Q E -> hoare E handler Q E ->
  hoare P (try_except_DoesNotExist model body handler) Q E.
Proof.
  intros Hb Hh w HP. unfold try_except_DoesNotExist. specialize (Hb w HP).
  destruct (body w) as [[a|e] w1]; [exact Hb|].
  destruct e; try exact Hb.
  destruct (String.eqb model0 model); [apply (Hh w1 Hb)|exact Hb].
Qed.

(** A computation that only reads. *)
Definition reads {A} (m : M A) : Prop := forall w, snd (m w) = w.

Lemma hoare_reads {A} (P : World -> Prop) (m : M A) :
  reads m -> hoare P m (fun a w => P w /\ m w = (Ok a, w)) P.
Proof.
  intros Hr w HP. specialize (Hr w).
  destruct (m w) as [[a|e] w1] eqn:E; cbn in Hr; subst; auto.
Qed.

Lemma reads_get_one {A} model (p : A -> bool) rows : reads (get_one model p rows).
Proof. intros w. now rewrite get_one_run. Qed.

Lemma reads_Domain_get name : reads (Domain_objects_get name).
Proof. intros w. now rewrite Domain_objects_get_run. Qed.

Lemma reads_IPAddress_get pk : reads (IPAddress_objects_get pk).
Proof. intros w. now rewrite IPAddress_objects_get_run. Qed.

Lemma reads_Host_get pk : reads (Host_objects_get pk).
Proof. intros w. now rewrite Host_objects_get_run. Qed.

Lemma reads_ret {A} (a : A) : reads (ret a).
Proof. intros w. reflexivity. Qed.

Lemma reads_raise {A} e : reads (@raise A e).
Proof. intros w. reflexivity. Qed.

Lemma reads_bind {A B} (m : M A) (k : A -> M B) :
  reads m -> (forall a, reads (k a)) -> reads (bind m k).
Proof.
  intros Hm Hk w. unfold bind. specialize (Hm w).
  destruct (m w) as [[a|e] w1]; cbn in Hm; subst; [apply Hk|reflexivity].
Qed.

Lemma reads_try {A} model (body handler : M A) :
  reads body -> reads handler ->
  reads (try_except_DoesNotExist model body handler).
Proof.
  intros Hb Hh w. unfold try_except_DoesNotExist. specialize (Hb w).
  destruct (body w) as [[a|e] w1]; cbn in Hb; subst; [reflexivity|].
  destruct e; try reflexivity.
  destruct (String.eqb model0 model); [apply Hh|reflexivity].
Qed.

Lemma reads_find_ptr_zone self : reads (find_ptr_zone self).
Proof.
  unfold find_ptr_zone. apply reads_try.
  - apply reads_bind; [apply reads_Domain_get|intros; apply reads_ret].
  - destruct (PyStr.split1 _ _) as [|x [|y l]]; try apply reads_raise.
    apply reads_try; [|apply reads_ret].
    apply reads_bind; [apply reads_Domain_get|intros; apply reads_ret].
Qed.

(** ** What [_add_dns] writes *)

Section Written.
Variable ROOT_DOMAIN : string.

Local Abbreviation fqdn := (IPAddress_fqdn ROOT_DOMAIN).

Definition forward_type (self : IPAddress) : string :=
  if N.eqb (IpAddr.version (ip_ip self)) 6 then "AAAA" else "A".

(** The forward record of an assignment. *)
Definition forward_of (self : IPAddress) (r : Record_) : Prop :=
  record_name r = PyStr.lower (fqdn self)
  /\ record_type r = forward_type self
  /\ record_content r = IpText.str (ip_ip self).

(** Its PTR record. *)
Definition ptr_record_of (self : IPAddress) (r : Record_) : Prop :=
  record_name r = IPAddress__generate_ptr self false
  /\ record_type r = "PTR"
  /\ record_content r = PyStr.lower (fqdn self).

(** The CNAME of its host, when the assignment is primary and has an
    interface. *)
Definition cname_record_of (self : IPAddress) (r : Record_) : Prop :=
  ip_primary self = true
  /\ truthy_text (ip_interface self) = true
  /\ record_name r = PyStr.lower (Host_fqdn ROOT_DOMAIN (ip_host self))
  /\ record_type r = "CNAME"
  /\ record_content r = PyStr.lower (fqdn self).

Definition written_by (self : IPAddress) (r : Record_) : Prop :=
  forward_of self r \/ ptr_record_of self r \/ cname_record_of self r.

End Written.

(** ** Invariants of the record table *)

(** [r] is a row of the table, up to its content. *)
Definition patch_of (r : Record_) (w : World) : Prop :=
  exists r0, In r0 (records (db w)) /\ r = set_content r0 (record_content r).

Lemma set_content_same r : set_content r (record_content r) = r.
Proof. destruct r; reflexivity. Qed.

Lemma patch_of_in r w : In r (records (db w)) -> patch_of r w.
Proof. intros H. exists r. split; [exact H|]. now rewrite set_content_same. Qed.

Lemma patch_of_set_content r c w :
  In r (records (db w)) -> patch_of (set_content r c) w.
Proof. intros H. exists r. split; [exact H|]. reflexivity. Qed.

(** What [save] is called on: a row of the table as it is, or a PTR or
    CNAME row of the table with another content. *)
Definition saved_row (r : Record_) (w : World) : Prop :=
  In r (records (db w))
  \/ (patch_of r w /\ (record_type r = "PTR" \/ record_type r = "CNAME")).

Lemma saved_row_patch r w : saved_row r w -> patch_of r w.
Proof. intros [H|[H _]]; [now apply patch_of_in|exact H]. Qed.

Lemma patch_of_has_id r w : patch_of r w -> has_id r w.
Proof.
  intros (r0 & Hin & E). apply existsb_exists. exists r0. split; [exact Hin|].
  unfold same_id. rewrite E. cbn. apply N.eqb_refl.
Qed.

Section Closure.
Variable ROOT_DOMAIN : string.

(** [I] is kept by the deletions made for the stored assignments in
    [Dorig], by the insertion and the update of the records in [W], by
    changes to the other tables and by rollbacks. *)
Variable I : World -> Prop.
Variable Dorig : IPAddress -> Prop.
Variable W : Record_ -> Prop.

Hypothesis I_frame :
  forall w w', I w -> records (db w') = records (db w) ->
               next_record_id (db w') = next_record_id (db w) ->
               history w' = history w -> I w'.
Hypothesis I_delete :
  forall w orig, I w -> Dorig orig ->
    I (delete_w (forward_lookup ROOT_DOMAIN orig) w)
    /\ (ip_primary orig = true -> I (delete_w (cname_lookup ROOT_DOMAIN orig) w))
    /\ I (delete_w (ptr_lookup ROOT_DOMAIN orig) w).
Hypothesis I_insert :
  forall w r, I w -> W r -> record_id r = next_record_id (db w) ->
              I (insert_w r w).
Hypothesis I_update :
  forall w r, I w -> W r -> saved_row r w -> I (update_w r w).
Hypothesis I_rollback :
  forall w0 w, I w0 -> I w ->
               I (mkWorld (db w0) (history w ++ [records (db w0)])).

(** The stored assignment of the key of [self], if any, is in [Dorig]. *)
Definition orig_in_Dorig (self : IPAddress) (w : World) : Prop :=
  forall pk orig, ip_pk self = Some pk -> stored_ip (db w) pk = Ok orig ->
                  Dorig orig.

(** The same, asked only of an assignment whose [auto_dns] is set: the
    others have no record deleted. *)
Definition orig_ok (self : IPAddress) (w : World) : Prop :=
  truthy_flag (ip_auto_dns self) = true -> orig_in_Dorig self w.

Lemma remove_dns_keeps (self : IPAddress) :
  hoare (fun w => I w /\ orig_in_Dorig self w)
    (IPAddress__remove_dns ROOT_DOMAIN self) (fun _ => I) I.
Proof.
  intros w [HI HD]. unfold IPAddress__remove_dns.
  destruct (ip_pk self) as [pk|] eqn:Hpk; [|exact HI].
  unfold bind at 1. rewrite IPAddress_objects_get_run.
  destruct (stored_ip (db w) pk) as [orig|e] eqn:Hst; [|exact HI].
  specialize (HD pk orig Hpk Hst).
  unfold bind at 1. rewrite filter_delete_is_delete_w.
  destruct (I_delete w orig HI HD) as (H1 & _ & _).
  destruct (ip_primary orig) eqn:P.
  - unfold bind at 1. rewrite filter_delete_is_delete_w.
    destruct (I_delete _ orig H1 HD) as (_ & H2 & _).
    rewrite filter_delete_is_delete_w.
    apply (I_delete _ orig (H2 P) HD).
  - unfold bind at 1. cbn [ret]. rewrite filter_delete_is_delete_w.
    apply (I_delete _ orig H1 HD).
Qed.

Lemma hook_keeps (self : IPAddress) :
  hoare (fun w => I w /\ orig_ok self w)
    (remote_dns_hook ROOT_DOMAIN self) (fun _ => I) I.
Proof.
  unfold remote_dns_hook, orig_ok. destruct (truthy_flag _).
  - intros w [HI HD]. apply remove_dns_keeps. split; [exact HI|now apply HD].
  - intros w [HI _]. exact HI.
Qed.

Lemma atomic_keeps {A} (P : World -> Prop) (body : M A) (Q : A -> World -> Prop) :
  (forall w, P w -> I w) ->
  hoare P body Q I -> hoare P (atomic body) Q I.
Proof.
  intros HP Hb w Hw. unfold atomic. specialize (Hb w Hw).
  destruct (body w) as [[a|e] w1]; [exact Hb|].
  apply I_rollback; [apply HP, Hw|exact Hb].
Qed.

Lemma delete_keeps (self : IPAddress) :
  hoare (fun w => I w /\ orig_ok self w)
    (IPAddress_delete ROOT_DOMAIN self)
    (fun s w => I w /\ s = with_pk self None) I.
Proof.
  unfold IPAddress_delete. destruct (ip_pk self) as [pk|] eqn:Hpk.
  - apply (hoare_bind _ _ _ (fun _ => I)).
    + apply atomic_keeps; [tauto|].
      apply (hoare_bind _ _ _ (fun _ => I)).
      * apply hook_keeps.
      * intros u w HI. rewrite delete_ipaddress_row_run.
        apply (I_frame w); [exact HI|reflexivity..].
    + intros u w HI. cbn. auto.
  - intros w [HI _]. exact HI.
Qed.

Lemma super_save_keeps (self : IPAddress) :
  hoare I (IPAddress_super_save self) (fun _ => I) I.
Proof.
  intros w HI. unfold IPAddress_super_save. unfold bind at 1. cbn [get_db].
  destruct (host_pk (ip_host self)) as [host_id|]; [|exact HI].
  destruct (existsb _ _); [exact HI|].
  destruct (negb _); [exact HI|].
  destruct (ip_pk self) as [pk|].
  - destruct (existsb _ _); cbn; (apply (I_frame w); [exact HI|reflexivity..]).
  - cbn. apply (I_frame w); [exact HI|reflexivity..].
Qed.

(** [get_or_create] returns a row of the table: the one it found, which
    satisfies the lookup, or the one it made. *)
Lemma get_or_create_keeps (p : Record_ -> bool) (mk : N -> Record_) :
  (forall id, W (mk id)) -> (forall id, record_id (mk id) = id) ->
  hoare I (Record_objects_get_or_create p mk)
    (fun rc w => I w /\ In (fst rc) (records (db w))
                 /\ (if snd rc then exists id, fst rc = mk id
                     else p (fst rc) = true))
    I.
Proof.
  intros HW Hid w HI. rewrite get_or_create_run.
  destruct (filter p (records (db w))) as [|r [|r' l]] eqn:E.
  - split; [|split].
    + apply I_insert; [exact HI|apply HW|apply Hid].
    + cbn. apply in_or_app. right. now left.
    + cbn. eexists. reflexivity.
  - assert (Hin : In r (filter p (records (db w)))) by (rewrite E; now left).
    apply filter_In in Hin as [Hin Hp]. cbn. auto.
  - exact HI.
Qed.

Lemma save_keeps (r : Record_) :
  W r ->
  hoare (fun w => I w /\ saved_row r w) (Record_save r) (fun _ => I) I.
Proof.
  intros HW w [HI Hp].
  rewrite save_is_update_w by now apply patch_of_has_id, saved_row_patch.
  now apply I_update.
Qed.

(** [get_or_create] followed by the save of the row, with its content set
    to [c] when the row was found: the pattern of the PTR and CNAME
    records. *)
Lemma upsert_keeps (p : Record_ -> bool) (mk : N -> Record_) (c : string)
    (R : Record_ -> Prop) :
  (forall r, R r -> W r) ->
  (forall id, R (mk id)) -> (forall id, record_id (mk id) = id) ->
  (forall r, p r = true -> R (set_content r c)) ->
  (forall r, p r = true -> record_type r = "PTR" \/ record_type r = "CNAME") ->
  hoare I
    (new <- Record_objects_get_or_create p mk ;;
     let '(new, created) := new in
     Record_save (if created then new else set_content new c))
    (fun _ => I) I.
Proof.
  intros HRW Hmk Hid Hp Htype.
  eapply hoare_bind.
  - apply (get_or_create_keeps p mk); [intros; apply HRW, Hmk|exact Hid].
  - intros [r created]. cbn [fst snd].
    destruct created.
    + intros w (HI & Hin & [id ->]).
      apply (save_keeps (mk id)); [apply HRW, Hmk|].
      split; [exact HI|now left].
    + intros w (HI & Hin & Hpr).
      apply (save_keeps (set_content r c)); [apply HRW, Hp, Hpr|].
      split; [exact HI|right]. split; [now apply patch_of_set_content|].
      apply (Htype r Hpr).
Qed.

Lemma bind_assoc {A B C} (m : M A) (k : A -> M B) (h : B -> M C) w :
  bind m (fun a => bind (k a) h) w = bind (bind m k) h w.
Proof. unfold bind. destruct (m w) as [[a|e] w1]; reflexivity. Qed.

Lemma hoare_ext {A} (P : World -> Prop) (m m' : M A) Q E :
  (forall w, m' w = m w) -> hoare P m Q E -> hoare P m' Q E.
Proof. intros Hext H w HP. rewrite Hext. now apply H. Qed.

Lemma hoare_keep_reads {A} (m : M A) :
  reads m -> hoare I m (fun _ => I) I.
Proof.
  intros Hr.
  eapply hoare_weaken;
    [apply (hoare_reads I m Hr)|auto|intros a w [H _]; exact H|auto].
Qed.

(** The forward record: [get_or_create], then the save of the row as it
    is. *)
Lemma forward_keeps (p : Record_ -> bool) (mk : N -> Record_)
    (R : Record_ -> Prop) :
  (forall r, R r -> W r) ->
  (forall id, R (mk id)) -> (forall id, record_id (mk id) = id) ->
  (forall r, p r = true -> R r) ->
  hoare I
    (new_a <- Record_objects_get_or_create p mk ;; Record_save (fst new_a))
    (fun _ => I) I.
Proof.
  intros HRW Hmk Hid Hp.
  eapply hoare_bind.
  - apply (get_or_create_keeps p mk); [intros; apply HRW, Hmk|exact Hid].
  - intros [r created]. cbn [fst snd]. intros w (HI & Hin & Hc).
    apply (save_keeps r).
    + apply HRW. destruct created; [destruct Hc as [id ->]; apply Hmk|now apply Hp].
    + split; [exact HI|now left].
Qed.

Lemma add_dns_keeps (self : IPAddress) :
  truthy_pk (ip_pk self) = false ->
  (forall r, written_by ROOT_DOMAIN self r -> W r) ->
  hoare I (IPAddress__add_dns ROOT_DOMAIN self) (fun _ => I) I.
Proof.
  intros Hpk HW. unfold IPAddress__add_dns. rewrite Hpk.
  apply (hoare_bind I _ _ (fun _ => I)); [intros w H; exact H|]. intros _.
  apply (hoare_bind I _ _ (fun _ => I));
    [apply hoare_keep_reads, reads_Domain_get|]. intros root.
  eapply hoare_ext; [intros w; apply bind_assoc|].
  apply (hoare_bind I _ _ (fun _ => I)).
  { apply (forward_keeps _ _ (forward_of ROOT_DOMAIN self)).
    - intros r Hr. apply HW. now left.
    - intros id. repeat split.
    - reflexivity.
    - intros r Hr. apply andb_true_iff in Hr as [Hr Hc].
      apply andb_true_iff in Hr as [Hr Ht].
      apply andb_true_iff in Hr as [_ Hn].
      apply String.eqb_eq in Hn, Ht, Hc. now repeat split. }
  intros _.
  apply (hoare_bind I _ _ (fun _ => I));
    [apply hoare_keep_reads, reads_find_ptr_zone|]. intros domain.
  apply (hoare_bind I _ _ (fun _ => I)).
  { destruct domain as [domain|]; [|intros w H; exact H].
    apply (upsert_keeps _ _ _ (ptr_record_of ROOT_DOMAIN self)).
    - intros r Hr. apply HW. right. now left.
    - intros id. repeat split.
    - reflexivity.
    - intros r Hr. apply andb_true_iff in Hr as [Hr Ht].
      apply andb_true_iff in Hr as [_ Hn].
      apply String.eqb_eq in Hn, Ht. now repeat split.
    - intros r Hr. apply andb_true_iff in Hr as [_ Ht].
      apply String.eqb_eq in Ht. now left. }
  intros _.
  destruct (ip_primary self && truthy_text (ip_interface self)) eqn:Hprim;
    [|intros w H; exact H].
  apply andb_true_iff in Hprim as [Hprim Hif].
  apply (hoare_bind I _ _ (fun _ => I));
    [apply hoare_keep_reads, reads_Domain_get|]. intros root'.
  apply (upsert_keeps _ _ _ (cname_record_of ROOT_DOMAIN self)).
  - intros r Hr. apply HW. right. now right.
  - intros id. repeat split; assumption.
  - reflexivity.
  - intros r Hr. apply andb_true_iff in Hr as [Hr Ht].
    apply andb_true_iff in Hr as [_ Hn].
    apply String.eqb_eq in Hn, Ht. now repeat split.
  - intros r Hr. apply andb_true_iff in Hr as [_ Ht].
    apply String.eqb_eq in Ht. now right.
Qed.

(** [IPAddress.save] keeps the invariant, whether it returns or raises. *)
Lemma IPAddress_save_keeps (self : IPAddress) :
  (truthy_flag (ip_auto_dns self) = true ->
   forall r, written_by ROOT_DOMAIN self r -> W r) ->
  hoare (fun w => I w /\ orig_ok self w)
    (IPAddress_save ROOT_DOMAIN self) (fun _ => I) I.
Proof.
  intros HW. unfold IPAddress_save. apply atomic_keeps; [tauto|].
  apply (hoare_bind _ _ _
           (fun s w => I w /\ truthy_pk (ip_pk s) = false
                       /\ ip_auto_dns s = ip_auto_dns self
                       /\ forall r, written_by ROOT_DOMAIN s r
                                    -> written_by ROOT_DOMAIN self r)).
  - destruct (truthy_pk (ip_pk self)) eqn:Hpk.
    + apply (hoare_bind _ _ _ (fun s w => I w /\ s = with_pk self None));
        [apply delete_keeps|].
      intros s w [HI ->]. cbn. repeat split; [exact HI|auto].
    + intros w [HI _]. cbn. auto.
  - intros s.
    apply (hoare_bind _ _ _ (fun _ => I)).
    + destruct (truthy_flag (ip_auto_dns s)) eqn:Hflag.
      * intros w (HI & Hpk & Hsame & HWs).
        apply add_dns_keeps; [exact Hpk| |exact HI].
        intros r Hr. apply HW; [now rewrite <- Hsame|now apply HWs].
      * intros w (HI & _). exact HI.
    + intros _. apply super_save_keeps.
Qed.

End Closure.



(** ** The stages of [_add_dns] *)

Section Stages.
Variable ROOT_DOMAIN : string.

Local Abbreviation fqdn := (IPAddress_fqdn ROOT_DOMAIN).

(** The lookup of the forward record and the row made when it finds none. *)
Definition forward_key (root : Domain) (self : IPAddress) (r : Record_) : bool :=
  N.eqb (record_domain r) (domain_id root)
  && String.eqb (record_name r) (PyStr.lower (fqdn self))
  && String.eqb (record_type r) (forward_type self)
  && String.eqb (record_content r) (IpText.str (ip_ip self)).

Definition forward_row (root : Domain) (self : IPAddress) (id : N) : Record_ :=
  mkRecord id (domain_id root) (PyStr.lower (fqdn self)) (forward_type self)
    (IpText.str (ip_ip self)) true.

Definition ptr_key (zone : Domain) (self : IPAddress) (r : Record_) : bool :=
  N.eqb (record_domain r) (domain_id zone)
  && String.eqb (record_name r) (IPAddress__generate_ptr self false)
  && String.eqb (record_type r) "PTR".

Definition ptr_row (zone : Domain) (self : IPAddress) (id : N) : Record_ :=
  mkRecord id (domain_id zone) (IPAddress__generate_ptr self false) "PTR"
    (PyStr.lower (fqdn self)) true.

Definition cname_key (root : Domain) (self : IPAddress) (r : Record_) : bool :=
  N.eqb (record_domain r) (domain_id root)
  && String.eqb (record_name r)
       (PyStr.lower (Host_fqdn ROOT_DOMAIN (ip_host self)))
  && String.eqb (record_type r) "CNAME".

Definition cname_row (root : Domain) (self : IPAddress) (id : N) : Record_ :=
  mkRecord id (domain_id root)
    (PyStr.lower (Host_fqdn ROOT_DOMAIN (ip_host self))) "CNAME"
    (PyStr.lower (fqdn self)) true.

(** The block of the forward record. *)
Definition add_forward (self : IPAddress) : M unit :=
  root <- Domain_objects_get ROOT_DOMAIN ;;
  new_a <- Record_objects_get_or_create (forward_key root self)
             (forward_row root self) ;;
  Record_save (fst new_a).

(** The block of the PTR record. *)
Definition add_ptr (self : IPAddress) : M unit :=
  domain <- find_ptr_zone self ;;
  match domain with
  | Some domain =>
      new_ptr <- Record_objects_get_or_create (ptr_key domain self)
                   (ptr_row domain self) ;;
      let '(new_ptr, created) := new_ptr in
      Record_save (if created then new_ptr
                   else set_content new_ptr (PyStr.lower (fqdn self)))
  | None => ret tt
  end.

(** The block of the CNAME record. *)
Definition add_cname (self : IPAddress) : M unit :=
  if ip_primary self && truthy_text (ip_interface self) then
    root <- Domain_objects_get ROOT_DOMAIN ;;
    new_cname <- Record_objects_get_or_create (cname_key root self)
                   (cname_row root self) ;;
    let '(new_cname, created) := new_cname in
    Record_save (if created then new_cname
                 else set_content new_cname (PyStr.lower (fqdn self)))
  else ret tt.

(** Without a key, [_add_dns] is its three blocks in turn. *)
Lemma add_dns_stages (self : IPAddress) (w : World) :
  truthy_pk (ip_pk self) = false ->
  IPAddress__add_dns ROOT_DOMAIN self w
  = (add_forward self ;;; add_ptr self ;;; add_cname self) w.
Proof.
  intros Hpk. unfold IPAddress__add_dns. rewrite Hpk.
  unfold add_forward, add_ptr, forward_key, forward_row, forward_type.
  unfold bind. cbn [ret].
  destruct (Domain_objects_get ROOT_DOMAIN w) as [[root|e] w1]; [|reflexivity].
  destruct (Record_objects_get_or_create _ _ w1) as [[new_a|e] w2];
    [|reflexivity].
  destruct (Record_save (fst new_a) w2) as [[u|e] w3]; [|reflexivity].
  destruct (find_ptr_zone self w3) as [[domain|e] w4]; reflexivity.
Qed.

Lemma in_update_w r w : In r (records (db w)) -> In r (records (db (update_w r w))).
Proof.
  intros H. cbn. apply in_map_iff. exists r. split; [|exact H].
  unfold same_id. now rewrite N.eqb_refl.
Qed.

(** The block of the forward record, when it returns, leaves the forward
    record in the table, in the zone of the root domain, and the zones as
    they were. *)
Lemma add_forward_Ok (self : IPAddress) (w w1 : World) :
  add_forward self w = (Ok tt, w1) ->
  domains (db w1) = domains (db w)
  /\ exists root r,
      stored_domain (db w) ROOT_DOMAIN = Ok root
      /\ In r (records (db w1))
      /\ record_domain r = domain_id root
      /\ forward_of ROOT_DOMAIN self r.
Proof.
  unfold add_forward. unfold bind at 1. rewrite Domain_objects_get_run.
  destruct (stored_domain (db w) ROOT_DOMAIN) as [root|e]; [|discriminate].
  unfold bind. rewrite get_or_create_run.
  destruct (filter _ (records (db w))) as [|r [|r' l]] eqn:E; [| |discriminate].
  - cbn [fst]. rewrite save_is_update_w by apply has_id_insert.
    intros H. injection H as <-. split; [reflexivity|].
    exists root, (forward_row root self (next_record_id (db w))).
    split; [reflexivity|]. split.
    + apply in_update_w. cbn. apply in_or_app. right. now left.
    + split; [reflexivity|]. repeat split.
  - assert (Hin : In r (filter (forward_key root self) (records (db w))))
      by (rewrite E; now left).
    apply filter_In in Hin as [Hin Hk]. cbn [fst].
    rewrite save_is_update_w by now apply has_id_of_in.
    intros H. injection H as <-. split; [reflexivity|].
    exists root, r. split; [reflexivity|]. split; [now apply in_update_w|].
    unfold forward_key in Hk.
    apply andb_true_iff in Hk as [Hk Hc]. apply andb_true_iff in Hk as [Hk Ht].
    apply andb_true_iff in Hk as [Hd Hn].
    apply N.eqb_eq in Hd. apply String.eqb_eq in Hn, Ht, Hc.
    now repeat split.
Qed.

End Stages.

(** ** The zone of the PTR record *)

Section PtrZone.
Variable ROOT_DOMAIN : string.
Import PyStrFacts.

Lemma free_of_append c s t : free_of c (s ++ String c t) = false.
Proof.
  induction s as [|a s IH]; simpl.
  - now rewrite Ascii.eqb_refl.
  - rewrite IH. apply andb_false_r.
Qed.

(** [split1] cuts at the first separator. *)
Lemma split1_cut c s :
  free_of c s = false ->
  exists label rest,
    PyStr.split1 c s = [label; rest]
    /\ s = (label ++ String c rest)%string
    /\ free_of c label = true.
Proof.
  induction s as [|a s IH]; simpl; [discriminate|].
  destruct (Ascii.eqb_spec a c) as [->|Hne].
  - intros _. exists "", s. auto.
  - cbn [negb andb]. intros H.
    destruct (IH H) as (label & rest & Hs & E & Hf).
    exists (String a label), rest. rewrite Hs. split; [reflexivity|].
    split; [now rewrite E|]. simpl.
    destruct (Ascii.eqb_spec a c); [contradiction|exact Hf].
Qed.

Lemma generate_ptr_has_dot self domain :
  free_of "." (IPAddress__generate_ptr self domain) = false.
Proof.
  unfold IPAddress__generate_ptr.
  destruct (ip_ip self); apply (free_of_append ".").
Qed.

Lemma stored_domain_cases d name :
  (exists z, stored_domain d name = Ok z)
  \/ stored_domain d name = Raise (DoesNotExist "Domain")
  \/ stored_domain d name = Raise (MultipleObjectsReturned "Domain").
Proof.
  unfold stored_domain, find_one.
  destruct (filter _ _) as [|z [|z' l]]; eauto.
Qed.

(** C5. When no zone is named by the boundary form of the reverse name, the
    lookup is made once more, for that name without its first label, and the
    outcome of that second lookup is the outcome of the search.  When it
    finds no zone either, the block of the PTR record returns without a
    write and without an exception, and the forward record written before
    it is in the table. *)
Theorem ptr_zone_fallback (self : IPAddress) (w : World) :
  stored_domain (db w) (IPAddress__generate_ptr self true)
  = Raise (DoesNotExist "Domain") ->
  exists label zone',
    IPAddress__generate_ptr self true = (label ++ "." ++ zone')%string
    /\ free_of "." label = true
    /\ find_ptr_zone self w
       = (match stored_domain (db w) zone' with
          | Ok d => Ok (Some d)
          | Raise (DoesNotExist _) => Ok None
          | Raise e => Raise e
          end, w)
    /\ (stored_domain (db w) zone' = Raise (DoesNotExist "Domain") ->
        truthy_pk (ip_pk self) = false ->
        forall w1,
          add_forward ROOT_DOMAIN self w = (Ok tt, w1) ->
          (exists r, In r (records (db w1)) /\ forward_of ROOT_DOMAIN self r)
          /\ add_ptr ROOT_DOMAIN self w1 = (Ok tt, w1)
          /\ IPAddress__add_dns ROOT_DOMAIN self w
             = add_cname ROOT_DOMAIN self w1).
Proof.
  intros Hzone.
  destruct (split1_cut "." _ (generate_ptr_has_dot self true))
    as (label & zone' & Hsplit & Hname & Hfree).
  exists label, zone'. split; [exact Hname|]. split; [exact Hfree|].
  assert (Hfind : forall w1, domains (db w1) = domains (db w) ->
            find_ptr_zone self w1
            = (match stored_domain (db w) zone' with
               | Ok d => Ok (Some d)
               | Raise (DoesNotExist _) => Ok None
               | Raise e => Raise e
               end, w1)).
  { intros w1 Hdom. unfold find_ptr_zone, try_except_DoesNotExist.
    unfold bind at 1. rewrite Domain_objects_get_run.
    unfold stored_domain in *. rewrite Hdom, Hzone. cbn [String.eqb Ascii.eqb Bool.eqb].
    rewrite Hsplit. unfold bind. rewrite Domain_objects_get_run.
    unfold stored_domain. rewrite Hdom.
    destruct (stored_domain_cases (db w) zone') as [[z Hz]|[Hz|Hz]];
      unfold stored_domain in Hz; rewrite Hz; reflexivity. }
  split; [now apply Hfind|].
  intros Hzone' Hpk w1 Hfwd.
  destruct (add_forward_Ok ROOT_DOMAIN self w w1 Hfwd)
    as (Hdom & root & r & _ & Hin & _ & Hr).
  assert (Hptr : add_ptr ROOT_DOMAIN self w1 = (Ok tt, w1)).
  { unfold add_ptr, bind. rewrite (Hfind w1 Hdom), Hzone'. reflexivity. }
  split; [now exists r|]. split; [exact Hptr|].
  rewrite add_dns_stages by exact Hpk.
  unfold bind at 1. rewrite Hfwd. unfold bind at 1. now rewrite Hptr.
Qed.

End PtrZone.

Lemma ptr_zone_fallback_witness :
  stored_domain (db Sample.w_no_reverse)
    (IPAddress__generate_ptr Sample.new_5 true)
  = Raise (DoesNotExist "Domain")
  /\ find_ptr_zone Sample.new_5 Sample.w_no_reverse
     = (Ok None, Sample.w_no_reverse)
  /\ exists w',
      IPAddress__add_dns Sample.root Sample.new_5 Sample.w_no_reverse
      = (Ok tt, w')
      /\ records (db w') = [Sample.a_foo].
Proof.
  split; [reflexivity|].
  destruct (ptr_zone_fallback Sample.root Sample.new_5 Sample.w_no_reverse
              eq_refl) as (label & zone' & Hname & Hfree & Hfind & Hrun).
  assert (E : PyStr.split1 "." (IPAddress__generate_ptr Sample.new_5 true)
              = [label; zone']).
  { rewrite Hname. clear -Hfree.
    induction label as [|a l IH]; [reflexivity|].
    simpl in Hfree. apply andb_true_iff in Hfree as [Ha Hl].
    apply negb_true_iff in Ha. simpl. rewrite Ha.
    simpl in IH. now rewrite (IH Hl). }
  injection E as <- <-. split; [exact Hfind|].
  exists (snd (IPAddress__add_dns Sample.root Sample.new_5 Sample.w_no_reverse)).
  split; [|reflexivity].
  destruct (Hrun eq_refl eq_refl _ eq_refl) as (_ & _ & ->). reflexivity.
Defined.



(** ** Creating the records of a new assignment *)

Lemma filter_nil {A} (p : A -> bool) l :
  Forall (fun x => p x = false) l -> filter p l = [].
Proof.
  induction 1 as [|x l Hx _ IH]; simpl; [reflexivity|]. now rewrite Hx.
Qed.

Lemma map_update_fresh r rs :
  Forall (fun x => record_id x <> record_id r) rs ->
  map (fun x => if same_id r x then r else x) (rs ++ [r]) = rs ++ [r].
Proof.
  intros H. rewrite map_app. cbn. unfold same_id at 2. rewrite N.eqb_refl.
  f_equal. induction H as [|x l Hx _ IH]; simpl; [reflexivity|].
  unfold same_id at 1. destruct (N.eqb_spec (record_id x) (record_id r));
    [contradiction|]. now rewrite IH.
Qed.

(** A row is inserted and saved: the table grows by that row. *)
Lemma insert_then_update r w :
  Forall (fun x => (record_id x < next_record_id (db w))%N) (records (db w)) ->
  record_id r = next_record_id (db w) ->
  records (db (update_w r (insert_w r w))) = records (db w) ++ [r]
  /\ next_record_id (db (update_w r (insert_w r w)))
     = N.succ (next_record_id (db w)).
Proof.
  intros Hwf Hid. cbn. split; [|reflexivity]. apply map_update_fresh.
  eapply Forall_impl; [|exact Hwf]. cbn. intros x Hx. lia.
Qed.

Section Create.
Variable ROOT_DOMAIN : string.

(** The block of the forward record when no row matches its lookup. *)
Lemma add_forward_fresh (self : IPAddress) (root : Domain) (w : World) :
  stored_domain (db w) ROOT_DOMAIN = Ok root ->
  filter (forward_key ROOT_DOMAIN root self) (records (db w)) = [] ->
  add_forward ROOT_DOMAIN self w
  = (Ok tt,
     let row := forward_row ROOT_DOMAIN root self (next_record_id (db w)) in
     update_w row (insert_w row w)).
Proof.
  intros Hroot Hnone. unfold add_forward, bind.
  rewrite Domain_objects_get_run, Hroot, get_or_create_run, Hnone.
  cbn [fst]. now rewrite save_is_update_w by apply has_id_insert.
Qed.

(** The block of the PTR record when the zone of the boundary name exists
    and no row matches the lookup. *)
Lemma add_ptr_fresh (self : IPAddress) (zone : Domain) (w : World) :
  stored_domain (db w) (IPAddress__generate_ptr self true) = Ok zone ->
  filter (ptr_key zone self) (records (db w)) = [] ->
  add_ptr ROOT_DOMAIN self w
  = (Ok tt,
     let row := ptr_row ROOT_DOMAIN zone self (next_record_id (db w)) in
     update_w row (insert_w row w)).
Proof.
  intros Hzone Hnone. unfold add_ptr. unfold bind at 1.
  unfold find_ptr_zone, try_except_DoesNotExist. unfold bind at 1.
  rewrite Domain_objects_get_run, Hzone. cbn [ret].
  unfold bind. rewrite get_or_create_run, Hnone.
  now rewrite save_is_update_w by apply has_id_insert.
Qed.

End Create.

Lemma existsb_filter_false {A} (p q : A -> bool) l :
  existsb p l = false -> existsb p (filter q l) = false.
Proof.
  induction l as [|x l IH]; simpl; [reflexivity|].
  intros H. apply orb_false_iff in H as [Hx Hl].
  destruct (q x); simpl; [rewrite Hx|]; auto.
Qed.

(** C4, amended. Creating the assignment of 10.0.0.5 to host [foo], without
    interface and with [auto_dns] set, under the root domain [example.com],
    when the zone [0.0.10.in-addr.arpa] exists and no record has yet one of
    the two names: the save creates exactly an A record
    [foo.example.com -> 10.0.0.5] in the zone of the root domain,
    authoritative, and a PTR record
    [5.0.0.10.in-addr.arpa -> foo.example.com], whose content has no
    trailing dot. *)
Theorem create_assignment_records (hp : N) (root zone : Domain) (w : World) :
  let self := mkIPAddress None (mkHost (Some hp) "foo") None Sample.ten_5
                (Some true) false in
  let n := next_record_id (db w) in
  stored_domain (db w) "example.com" = Ok root ->
  stored_domain (db w) "0.0.10.in-addr.arpa" = Ok zone ->
  existsb (fun h => N.eqb (hostrow_pk h) hp) (hosts (db w)) = true ->
  existsb (fun r => IpAddr.eqb (iprow_ip r) Sample.ten_5) (ipaddresses (db w))
  = false ->
  Forall (fun r => (record_id r < n)%N
                   /\ record_name r <> "foo.example.com"
                   /\ record_name r <> "5.0.0.10.in-addr.arpa")
    (records (db w)) ->
  exists w',
    IPAddress_save "example.com" self w
    = (Ok (with_pk self (Some (next_ip_pk (db w)))), w')
    /\ records (db w')
       = records (db w)
         ++ [mkRecord n (domain_id root) "foo.example.com" "A" "10.0.0.5" true;
             mkRecord (N.succ n) (domain_id zone) "5.0.0.10.in-addr.arpa"
               "PTR" "foo.example.com" true]
    /\ ipaddresses (db w')
       = ipaddresses (db w)
         ++ [mkIPAddressRow (next_ip_pk (db w)) hp None Sample.ten_5
               (Some true) false].
Proof.
  intros self n Hroot Hzone Hhost Hfree Hrs.
  set (a := mkRecord n (domain_id root) "foo.example.com" "A" "10.0.0.5" true).
  set (p := mkRecord (N.succ n) (domain_id zone) "5.0.0.10.in-addr.arpa"
              "PTR" "foo.example.com" true).
  set (w1 := update_w a (insert_w a w)).
  set (w2 := update_w p (insert_w p w1)).
  assert (Hwf : Forall (fun x => (record_id x < next_record_id (db w))%N)
                  (records (db w))).
  { eapply Forall_impl; [|exact Hrs]. cbn. tauto. }
  destruct (insert_then_update a w Hwf eq_refl) as [Hr1 Hn1]. fold w1 in Hr1, Hn1.
  assert (Hwf1 : Forall (fun x => (record_id x < next_record_id (db w1))%N)
                   (records (db w1))).
  { rewrite Hr1, Hn1. apply Forall_app. split.
    - eapply Forall_impl; [|exact Hwf]. cbn. intros x Hx. lia.
    - repeat constructor. cbn. fold n. lia. }
  assert (Hid : record_id p = next_record_id (db w1)) by now rewrite Hn1.
  destruct (insert_then_update p w1 Hwf1 Hid) as [Hr2 Hn2]. fold w2 in Hr2, Hn2.
  assert (Hfwd : add_forward "example.com" self w = (Ok tt, w1)).
  { apply (add_forward_fresh "example.com" self root w Hroot).
    apply filter_nil. eapply Forall_impl; [|exact Hrs]. cbn.
    intros r (_ & Hname & _). unfold forward_key.
    change (PyStr.lower (IPAddress_fqdn "example.com" self))
      with "foo.example.com".
    destruct (String.eqb_spec (record_name r) "foo.example.com");
      [contradiction|]. now rewrite andb_false_r. }
  assert (Hptr : add_ptr "example.com" self w1 = (Ok tt, w2)).
  { unfold w2, p, n. rewrite <- Hn1.
    apply (add_ptr_fresh "example.com" self zone w1).
    - exact Hzone.
    - rewrite Hr1. apply filter_nil. apply Forall_app. split.
      + eapply Forall_impl; [|exact Hrs]. cbn.
        intros r (_ & _ & Hname). unfold ptr_key.
        change (IPAddress__generate_ptr self false)
          with "5.0.0.10.in-addr.arpa".
        destruct (String.eqb_spec (record_name r) "5.0.0.10.in-addr.arpa");
          [contradiction|]. now rewrite andb_false_r.
      + repeat constructor. unfold ptr_key. cbn. now rewrite andb_false_r. }
  assert (Hadd : IPAddress__add_dns "example.com" self w = (Ok tt, w2)).
  { rewrite add_dns_stages by reflexivity.
    unfold bind at 1. rewrite Hfwd. unfold bind at 1. now rewrite Hptr. }
  eexists. split; [|split].
  - unfold IPAddress_save. apply atomic_Ok.
    change (truthy_pk (ip_pk self)) with false. cbv iota.
    unfold bind at 1. cbn [ret].
    change (truthy_flag (ip_auto_dns self)) with true. cbv iota.
    unfold bind at 1. rewrite Hadd.
    unfold IPAddress_super_save, bind, get_db.
    change (host_pk (ip_host self)) with (Some hp).
    change (ip_pk self) with (@None N). change (ip_ip self) with Sample.ten_5.
    cbv iota beta.
    change (hosts (db w2)) with (hosts (db w)).
    change (ipaddresses (db w2)) with (ipaddresses (db w)).
    change (next_ip_pk (db w2)) with (next_ip_pk (db w)).
    rewrite (existsb_filter_false _ _ _ Hfree). rewrite Hhost. cbn. reflexivity.
  - cbn [db records set_ipaddresses]. cbn -[w2 a p]. 
    change (records (db w2) = records (db w) ++ [a; p]).
    rewrite Hr2, Hr1, <- app_assoc. reflexivity.
  - reflexivity.
Qed.

Lemma create_assignment_records_witness :
  exists w',
    IPAddress_save Sample.root Sample.new_5 Sample.w_empty
    = (Ok Sample.stored_5, w')
    /\ records (db w') = [Sample.a_foo; Sample.ptr_foo].
Proof.
  destruct (create_assignment_records 1 (mkDomain 1 "example.com")
              (mkDomain 2 "0.0.10.in-addr.arpa") Sample.w_empty
              eq_refl eq_refl eq_refl eq_refl (Forall_nil _))
    as (w' & Hrun & Hrec & _).
  exists w'. split; [exact Hrun|exact Hrec].
Defined.

(** C4 as worded fails on the content of the PTR record: no PTR record of
    the new assignment has the content [foo.example.com.] with a trailing
    dot. *)
Lemma create_assignment_trailing_dot_counterexample :
  ~ exists r,
      In r (records (db (snd (IPAddress_save Sample.root Sample.new_5
                                Sample.w_empty))))
      /\ record_name r = "5.0.0.10.in-addr.arpa"
      /\ record_type r = "PTR"
      /\ record_content r = "foo.example.com.".
Proof.
  intros (r & Hin & _ & _ & Hc). vm_compute in Hin.
  destruct Hin as [<-|[<-|[]]]; discriminate Hc.
Qed.

(** ** Stale rows and new rows in the log of the record table *)

Section Log.
Variable ROOT_DOMAIN : string.

(** [old] are the stale rows of the table an operation starts from, [n0] is
    the key counter at that point and [h0] the log. *)
Variable old : list Record_.
Variable n0 : N.
Variable h0 : list (list Record_).

Hypothesis old_below : forall r0, In r0 old -> (record_id r0 < n0)%N.

(** A row that is one of the stale rows, perhaps with another content. *)
Definition is_stale (r : Record_) : Prop :=
  exists r0, In r0 old /\ record_id r = record_id r0.

(** A row made during the operation. *)
Definition is_fresh (r : Record_) : Prop := (n0 <= record_id r)%N.

(** A table in which no stale row stands beside a new row. *)
Definition unmixed (s : list Record_) : Prop :=
  forall r1 r2, In r1 s -> In r2 s -> is_stale r1 -> is_fresh r2 -> False.

Definition no_fresh (s : list Record_) : Prop :=
  forall r, In r s -> (record_id r < n0)%N.

Definition no_stale (s : list Record_) : Prop :=
  forall r, In r s -> ~ is_stale r.

(** Every table logged since [h0] is unmixed. *)
Definition logs_unmixed (w : World) : Prop :=
  exists hist, history w = h0 ++ hist /\ Forall unmixed hist.

Lemma no_fresh_unmixed s : no_fresh s -> unmixed s.
Proof. intros H r1 r2 _ H2 _ Hf. specialize (H r2 H2). unfold is_fresh in Hf. lia. Qed.

Lemma no_stale_unmixed s : no_stale s -> unmixed s.
Proof. intros H r1 r2 H1 _ Hs _. exact (H r1 H1 Hs). Qed.

Lemma logs_put w rs next :
  logs_unmixed w -> unmixed rs -> logs_unmixed (put_records w rs next).
Proof.
  intros (hist & E & H) Hrs. exists (hist ++ [rs]). cbn. split.
  - now rewrite E, app_assoc.
  - apply Forall_app. split; [exact H|]. now constructor.
Qed.

(** Before anything is created: no new row yet. *)
Definition before_create (w : World) : Prop :=
  no_fresh (records (db w)) /\ logs_unmixed w.

(** After the stale rows were deleted. *)
Definition after_delete (w : World) : Prop :=
  no_stale (records (db w)) /\ (n0 <= next_record_id (db w))%N
  /\ logs_unmixed w.

Lemma no_fresh_filter p s : no_fresh s -> no_fresh (filter p s).
Proof. intros H r Hr. apply filter_In in Hr as [Hr _]. now apply H. Qed.

Lemma no_stale_filter p s : no_stale s -> no_stale (filter p s).
Proof. intros H r Hr. apply filter_In in Hr as [Hr _]. now apply H. Qed.

Lemma before_create_delete p w : before_create w -> before_create (delete_w p w).
Proof.
  intros [Hf Hl]. split.
  - cbn. now apply no_fresh_filter.
  - apply logs_put; [exact Hl|]. now apply no_fresh_unmixed, no_fresh_filter.
Qed.

Lemma before_create_frame w w' :
  before_create w -> records (db w') = records (db w) ->
  next_record_id (db w') = next_record_id (db w) ->
  history w' = history w -> before_create w'.
Proof.
  intros [Hf Hl] Hr _ Hh. unfold before_create, logs_unmixed.
  now rewrite Hr, Hh.
Qed.

Lemma before_create_rollback w1 w :
  before_create w1 -> before_create w ->
  before_create (mkWorld (db w1) (history w ++ [records (db w1)])).
Proof.
  intros [Hf1 _] [_ (hist & E & H)]. split; [exact Hf1|].
  exists (hist ++ [records (db w1)]). cbn. split.
  - now rewrite E, app_assoc.
  - apply Forall_app. split; [exact H|]. constructor; [|constructor].
    now apply no_fresh_unmixed.
Qed.

Lemma after_delete_delete p w : after_delete w -> after_delete (delete_w p w).
Proof.
  intros (Hs & Hn & Hl). split; [|split].
  - cbn. now apply no_stale_filter.
  - exact Hn.
  - apply logs_put; [exact Hl|]. now apply no_stale_unmixed, no_stale_filter.
Qed.

Lemma fresh_not_stale r : is_fresh r -> ~ is_stale r.
Proof.
  intros Hf (r0 & Hin & E). specialize (old_below r0 Hin).
  unfold is_fresh in Hf. lia.
Qed.

Lemma after_delete_insert r w :
  after_delete w -> record_id r = next_record_id (db w) ->
  after_delete (insert_w r w).
Proof.
  intros (Hs & Hn & Hl) Hid.
  assert (Hs' : no_stale (records (db w) ++ [r])).
  { intros x Hx. apply in_app_or in Hx as [Hx|[<-|[]]]; [now apply Hs|].
    apply fresh_not_stale. unfold is_fresh. lia. }
  split; [exact Hs'|split].
  - cbn. lia.
  - apply logs_put; [exact Hl|]. now apply no_stale_unmixed.
Qed.

Lemma after_delete_update r w :
  after_delete w -> patch_of r w -> after_delete (update_w r w).
Proof.
  intros (Hs & Hn & Hl) (r0 & Hin & E).
  assert (Hs' : no_stale (map (fun x => if same_id r x then r else x)
                            (records (db w)))).
  { intros x Hx. apply in_map_iff in Hx as (y & <- & Hy).
    destruct (same_id r y); [|now apply Hs].
    intros (r1 & H1 & E1). apply (Hs r0 Hin). exists r1. split; [exact H1|].
    rewrite <- E1, E. reflexivity. }
  split; [exact Hs'|split].
  - exact Hn.
  - apply logs_put; [exact Hl|]. now apply no_stale_unmixed.
Qed.

Lemma after_delete_frame w w' :
  after_delete w -> records (db w') = records (db w) ->
  next_record_id (db w') = next_record_id (db w) ->
  history w' = history w -> after_delete w'.
Proof.
  intros (Hs & Hn & Hl) Hr Hn' Hh. unfold after_delete, logs_unmixed.
  now rewrite Hr, Hn', Hh.
Qed.

Lemma after_delete_rollback w1 w :
  after_delete w1 -> after_delete w ->
  after_delete (mkWorld (db w1) (history w ++ [records (db w1)])).
Proof.
  intros (Hs1 & Hn1 & _) (_ & _ & hist & E & H). split; [exact Hs1|split].
  - exact Hn1.
  - exists (hist ++ [records (db w1)]). cbn. split.
    + now rewrite E, app_assoc.
    + apply Forall_app. split; [exact H|]. constructor; [|constructor].
      now apply no_stale_unmixed.
Qed.

End Log.

(** ** Deletion comes before creation *)

Section Order.
Variable ROOT_DOMAIN : string.
Variable old : list Record_.
Variable n0 : N.
Variable h0 : list (list Record_).
Hypothesis old_below : forall r0, In r0 old -> (record_id r0 < n0)%N.

Local Abbreviation before := (before_create old n0 h0).
Local Abbreviation after := (after_delete old n0 h0).

Lemma before_deletes w (orig : IPAddress) :
  before w -> True ->
  before (delete_w (forward_lookup ROOT_DOMAIN orig) w)
  /\ (ip_primary orig = true -> before (delete_w (cname_lookup ROOT_DOMAIN orig) w))
  /\ before (delete_w (ptr_lookup ROOT_DOMAIN orig) w).
Proof. intros H _. split; [|split]; intros; now apply before_create_delete. Qed.

Lemma after_deletes w (orig : IPAddress) :
  after w -> True ->
  after (delete_w (forward_lookup ROOT_DOMAIN orig) w)
  /\ (ip_primary orig = true -> after (delete_w (cname_lookup ROOT_DOMAIN orig) w))
  /\ after (delete_w (ptr_lookup ROOT_DOMAIN orig) w).
Proof. intros H _. split; [|split]; intros; now apply after_delete_delete. Qed.

Lemma any_orig self w : orig_ok (fun _ => True) self w.
Proof. intros _ pk orig _ _. exact I. Qed.

(** The removal of records never makes a new row. *)
Lemma hook_before (self : IPAddress) :
  hoare before (remote_dns_hook ROOT_DOMAIN self) (fun _ => before) before.
Proof.
  intros w H.
  apply (hook_keeps ROOT_DOMAIN before (fun _ => True) before_deletes self w).
  split; [exact H|apply any_orig].
Qed.

Lemma delete_before (self : IPAddress) :
  hoare before (IPAddress_delete ROOT_DOMAIN self)
    (fun s w => before w /\ s = with_pk self None) before.
Proof.
  intros w H.
  apply (delete_keeps ROOT_DOMAIN before (fun _ => True)
           (before_create_frame old n0 h0) before_deletes
           (before_create_rollback old n0 h0) self w).
  split; [exact H|apply any_orig].
Qed.

(** A save without [auto_dns] never makes a new row. *)
Lemma save_before (self : IPAddress) :
  truthy_flag (ip_auto_dns self) = false ->
  hoare before (IPAddress_save ROOT_DOMAIN self) (fun _ => before) before.
Proof.
  intros Hflag w H.
  apply (IPAddress_save_keeps ROOT_DOMAIN before (fun _ => True) (fun _ => False)
           (before_create_frame old n0 h0) before_deletes
           ltac:(intros ? ? ? []) ltac:(intros ? ? ? [])
           (before_create_rollback old n0 h0) self).
  - intros Hc. congruence.
  - split; [exact H|apply any_orig].
Qed.

(** Once the stale rows are gone, a save never brings one back. *)
Lemma save_after (self : IPAddress) :
  hoare after (IPAddress_save ROOT_DOMAIN self) (fun _ => after) after.
Proof.
  intros w H.
  apply (IPAddress_save_keeps ROOT_DOMAIN after (fun _ => True) (fun _ => True)
           (after_delete_frame old n0 h0) after_deletes
           (fun w r Hw _ Hid => after_delete_insert old n0 h0 old_below r w Hw Hid)
           (fun w r Hw _ Hp =>
              after_delete_update old n0 h0 r w Hw (saved_row_patch r w Hp))
           (after_delete_rollback old n0 h0) self).
  - intros _ r _. exact I.
  - split; [exact H|apply any_orig].
Qed.

Lemma add_dns_after (self : IPAddress) :
  truthy_pk (ip_pk self) = false ->
  hoare after (IPAddress__add_dns ROOT_DOMAIN self) (fun _ => after) after.
Proof.
  intros Hpk.
  apply (add_dns_keeps ROOT_DOMAIN after (fun _ => True)
           (fun w r Hw _ Hid => after_delete_insert old n0 h0 old_below r w Hw Hid)
           (fun w r Hw _ Hp =>
              after_delete_update old n0 h0 r w Hw (saved_row_patch r w Hp))
           self Hpk).
  intros r _. exact I.
Qed.

Lemma super_save_after (self : IPAddress) :
  hoare after (IPAddress_super_save self) (fun _ => after) after.
Proof. apply super_save_keeps, after_delete_frame. Qed.

End Order.

Lemma NoDup_map_eq {A B} (f : A -> B) (l : list A) x y :
  NoDup (map f l) -> In x l -> In y l -> f x = f y -> x = y.
Proof.
  induction l as [|a l IH]; intros Hnd Hx Hy E; [contradiction|].
  inversion Hnd as [|? ? Ha Hnd']; subst.
  destruct Hx as [->|Hx], Hy as [->|Hy].
  - reflexivity.
  - exfalso. apply Ha. rewrite E. now apply in_map.
  - exfalso. apply Ha. rewrite <- E. now apply in_map.
  - now apply IH.
Qed.

Section Update.
Variable ROOT_DOMAIN : string.

(** A row of a logged table that is a stale row of the table [w0] had: a
    row [_remove_dns] is to delete for the stored assignment [orig]. *)
Definition stale_row (w0 : World) (orig : IPAddress) (r : Record_) : Prop :=
  exists r0,
    In r0 (records (db w0))
    /\ (is_forward_of ROOT_DOMAIN orig r0
        \/ is_cname_of ROOT_DOMAIN orig r0
        \/ is_ptr_of ROOT_DOMAIN orig r0)
    /\ record_id r = record_id r0.

(** A row created after [w0]: keys are given out in increasing order. *)
Definition new_row (w0 : World) (r : Record_) : Prop :=
  (next_record_id (db w0) <= record_id r)%N.

(** From [w0] to [w'], no table written holds a stale row and a new row. *)
Definition never_mixed (stale : Record_ -> Prop) (w0 w' : World) : Prop :=
  exists hist,
    history w' = history w0 ++ hist
    /\ forall s, In s hist ->
         forall r_old r_new, In r_old s -> In r_new s ->
                             stale r_old -> new_row w0 r_new -> False.

(** The keys of the records are distinct and below the counter. *)
Definition records_wf (w : World) : Prop :=
  NoDup (map record_id (records (db w)))
  /\ Forall (fun r => (record_id r < next_record_id (db w))%N) (records (db w)).

Lemma logs_never_mixed (stale : Record_ -> Prop) old w0 w' :
  (forall r, stale r -> is_stale old r) ->
  logs_unmixed old (next_record_id (db w0)) (history w0) w' ->
  never_mixed stale w0 w'.
Proof.
  intros Hst (hist & E & H). exists hist. split; [exact E|].
  intros s Hs r1 r2 H1 H2 Hr1 Hr2.
  rewrite Forall_forall in H. apply (H s Hs r1 r2 H1 H2); [now apply Hst|exact Hr2].
Qed.

Lemma delete_run (self orig : IPAddress) (pk : N) (w : World) :
  ip_pk self = Some pk ->
  stored_ip (db w) pk = Ok orig ->
  exists w',
    IPAddress_delete ROOT_DOMAIN self w = (Ok (with_pk self None), w')
    /\ records (db w')
       = filter (fun r => negb (truthy_flag (ip_auto_dns self)
                                && removed_by ROOT_DOMAIN orig r))
           (records (db w))
    /\ next_record_id (db w') = next_record_id (db w).
Proof.
  intros Hpk Hst.
  destruct (hook_run ROOT_DOMAIN self orig pk w Hpk Hst) as [hist Hhook].
  unfold IPAddress_delete. rewrite Hpk. eexists. split.
  - unfold bind at 1. erewrite atomic_Ok.
    2:{ unfold bind. rewrite Hhook. reflexivity. }
    reflexivity.
  - split; reflexivity.
Qed.

(** The update of a stored assignment. *)
Lemma update_never_mixes (self orig : IPAddress) (pk : N) (w : World) :
  ip_pk self = Some pk -> pk <> 0%N ->
  IPAddress_objects_get pk w = (Ok orig, w) ->
  records_wf w ->
  never_mixed (stale_row w orig) w (snd (IPAddress_save ROOT_DOMAIN self w)).
Proof.
  intros Hpk Hnz Hget [Hnd Hlt].
  rewrite IPAddress_objects_get_run in Hget.
  assert (Hst : stored_ip (db w) pk = Ok orig) by congruence.
  set (old := filter (removed_by ROOT_DOMAIN orig) (records (db w))).
  set (n0 := next_record_id (db w)).
  rewrite Forall_forall in Hlt.
  assert (Hold : forall r0, In r0 old -> (record_id r0 < n0)%N).
  { intros r0 H. apply filter_In in H as [H _]. now apply Hlt. }
  apply (logs_never_mixed _ old).
  { intros r (r0 & Hin & Hr0 & E). exists r0. split; [|exact E].
    apply filter_In. split; [exact Hin|]. now apply removed_by_spec. }
  fold n0.
  assert (Hbefore : before_create old n0 (history w) w).
  { split; [exact Hlt|]. exists []. split; [now rewrite app_nil_r|constructor]. }
  destruct (truthy_flag (ip_auto_dns self)) eqn:Hflag.
  2:{ pose proof (save_before ROOT_DOMAIN old n0 (history w) self Hflag w Hbefore)
        as H.
      destruct (IPAddress_save ROOT_DOMAIN self w) as [[a|e] w']; apply H. }
  destruct (delete_run self orig pk w Hpk Hst) as (wA & Hdel & HrA & HnA).
  pose proof (delete_before ROOT_DOMAIN old n0 (history w) self w Hbefore) as HA.
  rewrite Hdel in HA. destruct HA as [[_ HlA] _].
  assert (Hafter : after_delete old n0 (history w) wA).
  { split; [|split; [rewrite HnA; unfold n0; lia|exact HlA]].
    rewrite HrA, Hflag. intros r Hr (r0 & Hr0 & E).
    apply filter_In in Hr as [Hr Hkeep]. apply filter_In in Hr0 as [Hr0 Hgone].
    assert (r = r0) by now apply (NoDup_map_eq record_id (records (db w))).
    subst r0. cbn in Hkeep. now rewrite Hgone in Hkeep. }
  unfold IPAddress_save, atomic.
  assert (Htruthy : truthy_pk (ip_pk self) = true).
  { rewrite Hpk. cbn. now apply negb_true_iff, N.eqb_neq. }
  rewrite Htruthy. unfold bind at 1. unfold bind at 1. rewrite Hdel.
  cbn [ret]. set (s := with_pk (with_pk self None) None).
  change (ip_auto_dns s) with (ip_auto_dns self). rewrite Hflag.
  assert (HB : hoare (after_delete old n0 (history w))
                 (IPAddress__add_dns ROOT_DOMAIN s ;;; IPAddress_super_save s)
                 (fun _ => after_delete old n0 (history w))
                 (after_delete old n0 (history w))).
  { apply (hoare_bind _ _ _ (fun _ => after_delete old n0 (history w))).
    - apply (add_dns_after ROOT_DOMAIN old n0 (history w) Hold s). reflexivity.
    - intros u. apply super_save_after. }
  specialize (HB wA Hafter).
  destruct ((IPAddress__add_dns ROOT_DOMAIN s ;;; IPAddress_super_save s) wA)
    as [[a|e] wB].
  - cbn [snd]. apply HB.
  - cbn [snd]. destruct HB as (_ & _ & hist & E & H). exists (hist ++ [records (db w)]).
    cbn. split; [now rewrite E, app_assoc|].
    apply Forall_app. split; [exact H|]. constructor; [|constructor].
    apply no_fresh_unmixed. exact Hlt.
Qed.

End Update.

(** ** Renaming a host *)

Section Rename.
Variable ROOT_DOMAIN : string.

(** The objects [self.ipaddresses.all()] yields for the rows [rows]. *)
Definition instances (self : Host) (rows : list IPAddressRow) : list IPAddress :=
  map (fun r => mkIPAddress (Some (iprow_pk r)) self (iprow_interface r)
                  (iprow_ip r) (iprow_auto_dns r) (iprow_primary r)) rows.

(** The rows of the host with key [pk], in the order of the model. *)
Definition owned_rows (d : Database) (pk : N) : list IPAddressRow :=
  order_by_ip (filter (fun r => N.eqb (iprow_host_id r) pk) (ipaddresses d)).

Lemma in_owned_rows d pk row :
  In row (owned_rows d pk) <-> In row (ipaddresses d) /\ iprow_host_id row = pk.
Proof.
  unfold owned_rows. rewrite in_order_by_ip, filter_In. now rewrite N.eqb_eq.
Qed.

Lemma Host_ipaddresses_all_run (self : Host) (pk : N) (w : World) :
  host_pk self = Some pk ->
  Host_ipaddresses_all self w = (Ok (instances self (owned_rows (db w) pk)), w).
Proof. intros Hpk. unfold Host_ipaddresses_all, bind, get_db. now rewrite Hpk. Qed.

Lemma reads_Host_ipaddresses_all self : reads (Host_ipaddresses_all self).
Proof.
  intros w. unfold Host_ipaddresses_all, bind, get_db.
  destruct (host_pk self); reflexivity.
Qed.

(** [super().save] of a host writes to the host table only. *)
Lemma Host_super_save_frame (self : Host) (w : World) :
  let w' := snd (Host_super_save self w) in
  records (db w') = records (db w)
  /\ next_record_id (db w') = next_record_id (db w)
  /\ history w' = history w
  /\ ipaddresses (db w') = ipaddresses (db w).
Proof.
  unfold Host_super_save, bind, get_db.
  destruct (existsb _ _); [cbn; auto|].
  destruct (host_pk self) as [pk|]; [destruct (existsb _ _)|]; cbn; auto.
Qed.

(** The first loop of [Host.save], when every row of the host is stored
    under its key with the host row [h]. *)
Lemma remove_loop_run (self : Host) (h : HostRow) (rows : list IPAddressRow) :
  forall w,
    (forall row, In row rows ->
                 stored_ip (db w) (iprow_pk row) = Ok (object_of h row)) ->
    exists hist,
      for_each (instances self rows)
        (fun ipaddress =>
           if truthy_flag (ip_auto_dns ipaddress)
           then IPAddress__remove_dns ROOT_DOMAIN ipaddress
           else ret tt) w
      = (Ok tt,
         mkWorld
           (with_records (db w)
              (filter (fun r => negb (removed_for ROOT_DOMAIN h rows r))
                 (records (db w))))
           (history w ++ hist)).
Proof.
  induction rows as [|row rows IH]; intros w Hrows.
  - exists []. cbn [instances map for_each ret removed_for existsb negb].
    rewrite app_nil_r, filter_true. destruct w as [[] ?]; reflexivity.
  - cbn [instances map for_each]. unfold bind at 1.
    match goal with |- context [if _ then _ ?i else _] =>
      destruct (hook_run ROOT_DOMAIN i (object_of h row) (iprow_pk row) w
                  eq_refl (Hrows row (or_introl eq_refl))) as [hist1 Hhook]
    end.
    unfold remote_dns_hook in Hhook. rewrite Hhook.
    match goal with |- context [for_each ?l ?b ?w1] =>
      destruct (IH w1) as [hist2 Hrest] end.
    { intros row' Hin. apply (Hrows row' (or_intror Hin)). }
    fold (instances self rows). rewrite Hrest. exists (hist1 ++ hist2).
    cbn [db records history with_records hosts ipaddresses domains
         next_host_pk next_ip_pk next_record_id].
    rewrite filter_filter, <- app_assoc. f_equal. f_equal.
    unfold with_records. cbn. f_equal. apply filter_ext. intros r.
    unfold removed_for. cbn [existsb ip_auto_dns object_of].
    now rewrite negb_orb.
Qed.

Lemma stored_owned_row (h : HostRow) (pk : N) (w : World) row :
  stored_host (db w) pk = Ok h ->
  NoDup (map iprow_pk (ipaddresses (db w))) ->
  In row (owned_rows (db w) pk) ->
  stored_ip (db w) (iprow_pk row) = Ok (object_of h row).
Proof.
  intros Hh Hnd Hin. apply in_owned_rows in Hin as [Hin Hid].
  unfold stored_ip, find_one.
  rewrite (filter_unique_key iprow_pk _ row Hnd Hin).
  unfold loaded. now rewrite Hid, Hh.
Qed.

(** The rows of the table [w] had that the first loop of [Host.save] is to
    delete: the records of the stored assignments of the host whose
    [auto_dns] is set, under the stored name of the host. *)
Definition stale_of_host (h : HostRow) (pk : N) (w : World) : list Record_ :=
  filter (removed_for ROOT_DOMAIN h (owned_rows (db w) pk)) (records (db w)).

Lemma Host_super_save_after old n0 h0 (self : Host) :
  hoare (after_delete old n0 h0) (Host_super_save self)
    (fun _ => after_delete old n0 h0) (after_delete old n0 h0).
Proof.
  intros w H. destruct (Host_super_save_frame self w) as (Hr & Hn & Hh & _).
  destruct (Host_super_save self w) as [[a|e] w']; cbn [snd] in *;
    now apply (after_delete_frame old n0 h0 w).
Qed.

Lemma resave_after old n0 h0 (self : Host) :
  (forall r0, In r0 old -> (record_id r0 < n0)%N) ->
  hoare (after_delete old n0 h0) (Host_save_resave ROOT_DOMAIN self)
    (fun _ => after_delete old n0 h0) (after_delete old n0 h0).
Proof.
  intros Hold. unfold Host_save_resave.
  apply (hoare_bind _ _ _ (fun _ => after_delete old n0 h0)).
  - apply hoare_keep_reads, reads_Host_ipaddresses_all.
  - intros ips. apply hoare_for_each. intros ip _.
    apply (hoare_bind _ _ _ (fun _ => after_delete old n0 h0)).
    + now apply save_after.
    + intros u w H. exact H.
Qed.

(** After a change of name, [Host.save] ends, by a return or by an
    exception, in a state without a stale row, having logged no table with
    a stale row beside a new one. *)
Lemma rename_after_delete (self : Host) (pk : N) (h : HostRow) (w : World) :
  host_pk self = Some pk ->
  stored_host (db w) pk = Ok h ->
  name_changed (Some (hostrow_name h)) self = true ->
  NoDup (map iprow_pk (ipaddresses (db w))) ->
  records_wf w ->
  after_delete (stale_of_host h pk w) (next_record_id (db w)) (history w)
    (snd (Host_save ROOT_DOMAIN self w)).
Proof.
  intros Hpk Hh Hchanged Hnd [Hids Hlt].
  set (old := stale_of_host h pk w). set (n0 := next_record_id (db w)).
  rewrite Forall_forall in Hlt.
  assert (Hold : forall r0, In r0 old -> (record_id r0 < n0)%N).
  { intros r0 H. apply filter_In in H as [H _]. now apply Hlt. }
  destruct (remove_loop_run self h (owned_rows (db w) pk) w) as [hist Hloop].
  { intros row Hin. now apply (stored_owned_row h pk). }
  match type of Hloop with _ = (_, ?x) => set (w1 := x) in * end.
  assert (Hbefore : before_create old n0 (history w) w).
  { split; [exact Hlt|]. exists []. split; [now rewrite app_nil_r|constructor]. }
  assert (Hb1 : before_create old n0 (history w) w1).
  { pose proof (hoare_for_each (before_create old n0 (history w))
                  (instances self (owned_rows (db w) pk)) _
                  (fun x _ => hook_before ROOT_DOMAIN old n0 (history w) x)
                  w Hbefore) as H.
    unfold remote_dns_hook in H. rewrite Hloop in H. exact H. }
  assert (Hafter : after_delete old n0 (history w) w1).
  { destruct Hb1 as [_ Hl]. split; [|split; [cbn; unfold n0; lia|exact Hl]].
    intros r Hr (r0 & Hr0 & E). cbn in Hr.
    apply filter_In in Hr as [Hr Hkeep]. apply filter_In in Hr0 as [Hr0 Hgone].
    assert (r = r0) by now apply (NoDup_map_eq record_id (records (db w))).
    subst r0. now rewrite Hgone in Hkeep. }
  unfold Host_save. rewrite Hpk.
  unfold bind at 1. unfold bind at 1. rewrite Host_objects_get_run, Hh.
  rewrite Hchanged. unfold bind at 1.
  unfold Host_save_remove at 1. unfold bind at 1.
  rewrite (Host_ipaddresses_all_run self pk w Hpk), Hloop. cbn [ret].
  fold w1.
  assert (HK : hoare (after_delete old n0 (history w))
                 (self' <- Host_super_save self ;;
                  (if name_changed (Some (hostrow_name h)) self
                   then Host_save_resave ROOT_DOMAIN self'
                   else ret tt) ;;;
                  ret self')
                 (fun _ => after_delete old n0 (history w))
                 (after_delete old n0 (history w))).
  { apply (hoare_bind _ _ _ (fun _ => after_delete old n0 (history w)));
      [apply Host_super_save_after|].
    intros self'.
    apply (hoare_bind _ _ _ (fun _ => after_delete old n0 (history w))).
    - rewrite Hchanged. now apply resave_after.
    - intros u w' H. exact H. }
  specialize (HK w1 Hafter).
  match goal with |- context [snd ?x] => destruct x as [[a|e] w'] end;
    exact HK.
Qed.

End Rename.


Section OrderClaim.
Variable ROOT_DOMAIN : string.

(** A stale row of some stored assignment of the host [pk] whose [auto_dns]
    is set, [h] being the stored row of the host. *)
Definition stale_row_of_host (w0 : World) (h : HostRow) (pk : N) (r : Record_)
  : Prop :=
  exists row,
    In row (ipaddresses (db w0))
    /\ iprow_host_id row = pk
    /\ truthy_flag (iprow_auto_dns row) = true
    /\ stale_row ROOT_DOMAIN w0 (object_of h row) r.

(** C6. In the update of a stored assignment and in the renaming of a host,
    the stale records, those derived from the stored values, are deleted
    before any record is created: of all the tables written during the
    operation, none holds a stale row together with a row created by the
    operation. *)
Theorem stale_records_deleted_before_creation (w : World) :
  records_wf w ->
  (forall self pk orig,
      ip_pk self = Some pk -> pk <> 0%N ->
      IPAddress_objects_get pk w = (Ok orig, w) ->
      never_mixed (stale_row ROOT_DOMAIN w orig) w
        (snd (IPAddress_save ROOT_DOMAIN self w)))
  /\ (forall self pk h,
         host_pk self = Some pk ->
         Host_objects_get pk w = (Ok h, w) ->
         name_changed (Some (hostrow_name h)) self = true ->
         NoDup (map iprow_pk (ipaddresses (db w))) ->
         never_mixed (stale_row_of_host w h pk) w
           (snd (Host_save ROOT_DOMAIN self w))).
Proof.
  intros Hwf. split.
  - intros self pk orig Hpk Hnz Hget.
    now apply (update_never_mixes ROOT_DOMAIN self orig pk).
  - intros self pk h Hpk Hget Hchanged Hnd.
    rewrite Host_objects_get_run in Hget.
    assert (Hh : stored_host (db w) pk = Ok h) by congruence.
    destruct (rename_after_delete ROOT_DOMAIN self pk h w Hpk Hh Hchanged Hnd Hwf)
      as (_ & _ & Hlog).
    apply (logs_never_mixed _ (stale_of_host ROOT_DOMAIN h pk w)); [|exact Hlog].
    intros r (row & Hrow & Hid & Hflag & r0 & Hr0 & Hmatch & E).
    exists r0. split; [|exact E].
    apply filter_In. split; [exact Hr0|].
    apply existsb_exists. exists row. split.
    + apply in_owned_rows. now split.
    + rewrite Hflag. cbn. now apply removed_by_spec.
Qed.

End OrderClaim.

Lemma stale_records_deleted_before_creation_witness :
  records_wf Sample.w_5
  /\ never_mixed (stale_row Sample.root Sample.w_5 Sample.stored_5) Sample.w_5
       (snd (IPAddress_save Sample.root Sample.moved_5 Sample.w_5))
  /\ never_mixed (stale_row_of_host Sample.root Sample.w_5 (mkHostRow 1 "foo") 1)
       Sample.w_5
       (snd (Host_save Sample.root Sample.bar Sample.w_5)).
Proof.
  assert (Hwf : records_wf Sample.w_5).
  { split.
    - simpl. repeat constructor; simpl; intuition discriminate.
    - simpl. repeat constructor; simpl; lia. }
  destruct (stale_records_deleted_before_creation Sample.root Sample.w_5 Hwf)
    as [Hupdate Hrename].
  split; [exact Hwf|]. split.
  - apply (Hupdate Sample.moved_5 1%N Sample.stored_5 eq_refl);
      [discriminate|reflexivity].
  - apply (Hrename Sample.bar 1%N (mkHostRow 1 "foo") eq_refl eq_refl eq_refl).
    simpl. repeat constructor. simpl. tauto.
Defined.

(** ** Computations that write to the record table only *)

Definition same_tables (w w' : World) : Prop :=
  hosts (db w') = hosts (db w)
  /\ ipaddresses (db w') = ipaddresses (db w)
  /\ domains (db w') = domains (db w)
  /\ next_host_pk (db w') = next_host_pk (db w)
  /\ next_ip_pk (db w') = next_ip_pk (db w).

Lemma same_tables_refl w : same_tables w w.
Proof. repeat split. Qed.

Lemma same_tables_trans w1 w2 w3 :
  same_tables w1 w2 -> same_tables w2 w3 -> same_tables w1 w3.
Proof.
  intros (A1 & A2 & A3 & A4 & A5) (B1 & B2 & B3 & B4 & B5).
  repeat split; congruence.
Qed.

Definition records_only {A} (m : M A) : Prop :=
  forall w, same_tables w (snd (m w)).

Lemma records_only_reads {A} (m : M A) : reads m -> records_only m.
Proof. intros H w. rewrite H. apply same_tables_refl. Qed.

Lemma records_only_bind {A B} (m : M A) (k : A -> M B) :
  records_only m -> (forall a, records_only (k a)) -> records_only (bind m k).
Proof.
  intros Hm Hk w. unfold bind. specialize (Hm w).
  destruct (m w) as [[a|e] w1]; [|exact Hm].
  eapply same_tables_trans; [exact Hm|apply Hk].
Qed.

Lemma records_only_filter_delete p : records_only (Record_objects_filter_delete p).
Proof. intros w. repeat split. Qed.

Lemma records_only_get_or_create p mk :
  records_only (Record_objects_get_or_create p mk).
Proof.
  intros w. rewrite get_or_create_run.
  destruct (filter p (records (db w))) as [|r [|r' l]]; repeat split.
Qed.

Lemma records_only_save r : records_only (Record_save r).
Proof.
  intros w. unfold Record_save, bind, get_db.
  destruct (existsb _ _); repeat split.
Qed.

Lemma records_only_upsert p mk c :
  records_only
    (new <- Record_objects_get_or_create p mk ;;
     let '(new, created) := new in
     Record_save (if created then new else set_content new c)).
Proof.
  apply records_only_bind; [apply records_only_get_or_create|].
  intros [r created]. apply records_only_save.
Qed.

Section RecordsOnly.
Variable ROOT_DOMAIN : string.

Lemma records_only_remove_dns self :
  records_only (IPAddress__remove_dns ROOT_DOMAIN self).
Proof.
  unfold IPAddress__remove_dns. destruct (ip_pk self) as [pk|].
  - apply records_only_bind;
      [apply records_only_reads, reads_IPAddress_get|]. intros orig.
    apply records_only_bind; [apply records_only_filter_delete|]. intros _.
    apply records_only_bind.
    + destruct (ip_primary orig);
        [apply records_only_filter_delete|apply records_only_reads, reads_ret].
    + intros _. apply records_only_filter_delete.
  - apply records_only_reads, reads_ret.
Qed.

Lemma records_only_hook self : records_only (remote_dns_hook ROOT_DOMAIN self).
Proof.
  unfold remote_dns_hook. destruct (truthy_flag _).
  - apply records_only_remove_dns.
  - apply records_only_reads, reads_ret.
Qed.

Lemma records_only_add_forward self : records_only (add_forward ROOT_DOMAIN self).
Proof.
  unfold add_forward.
  apply records_only_bind; [apply records_only_reads, reads_Domain_get|].
  intros root.
  apply records_only_bind; [apply records_only_get_or_create|].
  intros new_a. apply records_only_save.
Qed.

Lemma records_only_add_ptr self : records_only (add_ptr ROOT_DOMAIN self).
Proof.
  unfold add_ptr.
  apply records_only_bind; [apply records_only_reads, reads_find_ptr_zone|].
  intros [domain|]; [apply records_only_upsert|apply records_only_reads, reads_ret].
Qed.

Lemma records_only_add_cname self : records_only (add_cname ROOT_DOMAIN self).
Proof.
  unfold add_cname. destruct (_ && _).
  - apply records_only_bind; [apply records_only_reads, reads_Domain_get|].
    intros root. apply records_only_upsert.
  - apply records_only_reads, reads_ret.
Qed.

End RecordsOnly.

(** ** Keeping a record through later writes *)

Lemma map_update_ids r rs :
  map record_id (map (fun x => if same_id r x then r else x) rs)
  = map record_id rs.
Proof.
  rewrite map_map. apply map_ext. intros x. unfold same_id.
  destruct (N.eqb_spec (record_id x) (record_id r)); congruence.
Qed.

Lemma NoDup_filter_map {A B} (f : A -> B) p (l : list A) :
  NoDup (map f l) -> NoDup (map f (filter p l)).
Proof.
  induction l as [|x l IH]; simpl; intros H; [constructor|].
  inversion H as [|? ? Hx Hl]; subst.
  destruct (p x); simpl; [constructor|]; auto.
  intros Hin. apply Hx. apply in_map_iff in Hin as (y & E & Hy).
  apply filter_In in Hy as [Hy _]. rewrite <- E. now apply in_map.
Qed.

Lemma records_wf_delete p w : records_wf w -> records_wf (delete_w p w).
Proof.
  intros [Hnd Hlt]. split; cbn.
  - now apply NoDup_filter_map.
  - rewrite Forall_forall in *. intros r Hr.
    apply filter_In in Hr as [Hr _]. now apply Hlt.
Qed.

Lemma records_wf_insert r w :
  records_wf w -> record_id r = next_record_id (db w) ->
  records_wf (insert_w r w).
Proof.
  intros [Hnd Hlt] Hid. rewrite Forall_forall in Hlt. split; cbn.
  - rewrite map_app. cbn. apply NoDup_app; [exact Hnd|repeat constructor; auto|].
    intros x Hx [<-|[]]. apply in_map_iff in Hx as (y & E & Hy).
    specialize (Hlt y Hy). lia.
  - apply Forall_app. split.
    + rewrite Forall_forall. intros x Hx. specialize (Hlt x Hx). lia.
    + repeat constructor. lia.
Qed.

Lemma records_wf_update r w :
  records_wf w -> patch_of r w -> records_wf (update_w r w).
Proof.
  intros [Hnd Hlt] (r0 & Hr0 & E). rewrite Forall_forall in Hlt. split; cbn.
  - now rewrite map_update_ids.
  - rewrite Forall_forall. intros x Hx. apply in_map_iff in Hx as (y & <- & Hy).
    destruct (same_id r y); [|now apply Hlt].
    rewrite E. cbn. now apply Hlt.
Qed.

Lemma records_wf_frame w w' :
  records_wf w -> records (db w') = records (db w) ->
  next_record_id (db w') = next_record_id (db w) -> records_wf w'.
Proof. intros H Hr Hn. unfold records_wf. now rewrite Hr, Hn. Qed.

(** With distinct keys, the save of a row replaces that row only. *)
Lemma in_update_other r x w :
  records_wf w -> In x (records (db w)) -> record_id x <> record_id r ->
  In x (records (db (update_w r w))).
Proof.
  intros _ Hx Hne. cbn. apply in_map_iff. exists x. split; [|exact Hx].
  unfold same_id. now destruct (N.eqb_spec (record_id x) (record_id r)).
Qed.

Lemma update_row_as_is r w :
  records_wf w -> In r (records (db w)) ->
  records (db (update_w r w)) = records (db w).
Proof.
  intros [Hnd _] Hr. cbn.
  rewrite <- (map_id (records (db w))) at 2. apply map_ext_in.
  intros x Hx. unfold same_id.
  destruct (N.eqb_spec (record_id x) (record_id r)) as [E|E]; [|reflexivity].
  symmetry. now apply (NoDup_map_eq record_id (records (db w))).
Qed.

Section Keep.

(** [T] is the record to keep, [W] are the records that may be written. *)
Variable T : Record_ -> Prop.
Variable W : Record_ -> Prop.

(** A PTR or CNAME row in [T] whose content is set by a write in [W] is
    still in [T]. *)
Hypothesis T_patch :
  forall r c, T r -> W (set_content r c) ->
              record_type r = "PTR" \/ record_type r = "CNAME" ->
              T (set_content r c).

Definition has (w : World) : Prop :=
  records_wf w /\ exists r, In r (records (db w)) /\ T r.

Lemma has_frame w w' :
  has w -> records (db w') = records (db w) ->
  next_record_id (db w') = next_record_id (db w) ->
  history w' = history w -> has w'.
Proof.
  intros [Hwf (r & Hr & Ht)] Hrec Hn _. split.
  - now apply (records_wf_frame w).
  - exists r. now rewrite Hrec.
Qed.

Lemma has_insert w r :
  has w -> W r -> record_id r = next_record_id (db w) -> has (insert_w r w).
Proof.
  intros [Hwf (x & Hx & Ht)] _ Hid. split; [now apply records_wf_insert|].
  exists x. split; [|exact Ht]. cbn. apply in_or_app. now left.
Qed.

Lemma has_update w r :
  has w -> W r -> saved_row r w -> has (update_w r w).
Proof.
  intros [Hwf (x & Hx & Ht)] HW Hs. split.
  { apply records_wf_update; [exact Hwf|now apply saved_row_patch]. }
  destruct Hs as [Hin|[(r0 & Hr0 & E) Htype]].
  - exists x. rewrite update_row_as_is by assumption. now split.
  - destruct (N.eq_dec (record_id x) (record_id r)) as [Hid|Hid].
    + assert (x = r0).
      { apply (NoDup_map_eq record_id (records (db w))); try assumption.
        - apply Hwf.
        - rewrite Hid, E. reflexivity. }
      subst r0. exists r. split.
      * cbn. apply in_map_iff. exists x. split; [|exact Hx].
        unfold same_id. now rewrite Hid, N.eqb_refl.
      * rewrite E. apply T_patch; [exact Ht|now rewrite <- E|].
        rewrite E in Htype. exact Htype.
    + exists x. split; [now apply in_update_other|exact Ht].
Qed.

Lemma has_rollback w0 w :
  has w0 -> has w -> has (mkWorld (db w0) (history w ++ [records (db w0)])).
Proof. intros H _. exact H. Qed.

End Keep.

(** ** The blocks of [_add_dns], one by one *)

Section Blocks.
Variable ROOT_DOMAIN : string.
Variable I : World -> Prop.
Variable W : Record_ -> Prop.

Hypothesis I_insert :
  forall w r, I w -> W r -> record_id r = next_record_id (db w) ->
              I (insert_w r w).
Hypothesis I_update :
  forall w r, I w -> W r -> saved_row r w -> I (update_w r w).

Lemma add_forward_keeps (self : IPAddress) :
  (forall r, forward_of ROOT_DOMAIN self r -> W r) ->
  hoare I (add_forward ROOT_DOMAIN self) (fun _ => I) I.
Proof.
  intros HW. unfold add_forward.
  apply (hoare_bind I _ _ (fun _ => I));
    [apply hoare_keep_reads, reads_Domain_get|]. intros root.
  apply (forward_keeps I W I_insert I_update _ _ (forward_of ROOT_DOMAIN self)).
  - exact HW.
  - intros id. repeat split.
  - reflexivity.
  - intros r Hr. unfold forward_key in Hr.
    apply andb_true_iff in Hr as [Hr Hc].
    apply andb_true_iff in Hr as [Hr Ht].
    apply andb_true_iff in Hr as [_ Hn].
    apply String.eqb_eq in Hn, Ht, Hc. now repeat split.
Qed.

Lemma add_ptr_keeps (self : IPAddress) :
  (forall r, ptr_record_of ROOT_DOMAIN self r -> W r) ->
  hoare I (add_ptr ROOT_DOMAIN self) (fun _ => I) I.
Proof.
  intros HW. unfold add_ptr.
  apply (hoare_bind I _ _ (fun _ => I));
    [apply hoare_keep_reads, reads_find_ptr_zone|]. intros domain.
  destruct domain as [domain|]; [|intros w H; exact H].
  apply (upsert_keeps I W I_insert I_update _ _ _
           (ptr_record_of ROOT_DOMAIN self)).
  - exact HW.
  - intros id. repeat split.
  - reflexivity.
  - intros r Hr. unfold ptr_key in Hr. apply andb_true_iff in Hr as [Hr Ht].
    apply andb_true_iff in Hr as [_ Hn].
    apply String.eqb_eq in Hn, Ht. now repeat split.
  - intros r Hr. apply andb_true_iff in Hr as [_ Ht].
    apply String.eqb_eq in Ht. now left.
Qed.

Lemma add_cname_keeps (self : IPAddress) :
  (forall r, cname_record_of ROOT_DOMAIN self r -> W r) ->
  hoare I (add_cname ROOT_DOMAIN self) (fun _ => I) I.
Proof.
  intros HW. unfold add_cname.
  destruct (ip_primary self && truthy_text (ip_interface self)) eqn:Hprim;
    [|intros w H; exact H].
  apply andb_true_iff in Hprim as [Hprim Hif].
  apply (hoare_bind I _ _ (fun _ => I));
    [apply hoare_keep_reads, reads_Domain_get|]. intros root.
  apply (upsert_keeps I W I_insert I_update _ _ _
           (cname_record_of ROOT_DOMAIN self)).
  - exact HW.
  - intros id. repeat split; assumption.
  - reflexivity.
  - intros r Hr. unfold cname_key in Hr. apply andb_true_iff in Hr as [Hr Ht].
    apply andb_true_iff in Hr as [_ Hn].
    apply String.eqb_eq in Hn, Ht. now repeat split.
  - intros r Hr. apply andb_true_iff in Hr as [_ Ht].
    apply String.eqb_eq in Ht. now right.
Qed.

End Blocks.

(** ** What the blocks leave in the table *)

Section BlocksOk.
Variable ROOT_DOMAIN : string.

(** The zone the PTR record goes to, as a function of the zones. *)
Definition zone_for (d : Database) (self : IPAddress) : Result (option Domain) :=
  fst (find_ptr_zone self (mkWorld d [])).

Lemma find_ptr_zone_run self w :
  find_ptr_zone self w = (zone_for (db w) self, w).
Proof.
  unfold zone_for, find_ptr_zone, try_except_DoesNotExist, bind.
  rewrite !Domain_objects_get_run. cbn [db].
  destruct (stored_domain (db w) _) as [z|e]; [reflexivity|].
  destruct e; try reflexivity.
  destruct (String.eqb model "Domain"); [|reflexivity].
  destruct (PyStr.split1 _ _) as [|x [|y l]]; try reflexivity.
  rewrite !Domain_objects_get_run. cbn [db].
  destruct (stored_domain (db w) y) as [z|e]; [reflexivity|].
  destruct e; try reflexivity.
  destruct (String.eqb model0 "Domain"); reflexivity.
Qed.

Lemma in_update_w_patched r r0 w :
  In r0 (records (db w)) -> record_id r = record_id r0 ->
  In r (records (db (update_w r w))).
Proof.
  intros Hin E. cbn. apply in_map_iff. exists r0. split; [|exact Hin].
  unfold same_id. now rewrite E, N.eqb_refl.
Qed.

(** After [get_or_create] and the save, the saved row is in the table. *)
Lemma upsert_Ok p mk c w w' :
  (new <- Record_objects_get_or_create p mk ;;
   let '(new, created) := new in
   Record_save (if created then new else set_content new c)) w = (Ok tt, w') ->
  exists r,
    In r (records (db w'))
    /\ ((exists id, r = mk id) \/ (exists r0, p r0 = true /\ r = set_content r0 c)).
Proof.
  unfold bind. rewrite get_or_create_run.
  destruct (filter p (records (db w))) as [|r0 [|r1 l]] eqn:E; [| |discriminate].
  - rewrite save_is_update_w by apply has_id_insert.
    intros H. injection H as <-. eexists. split.
    + apply in_update_w. cbn. apply in_or_app. right. now left.
    + left. eexists. reflexivity.
  - assert (Hin : In r0 (filter p (records (db w)))) by (rewrite E; now left).
    apply filter_In in Hin as [Hin Hp].
    rewrite save_is_update_w.
    2:{ apply patch_of_has_id. now apply patch_of_set_content. }
    intros H. injection H as <-. exists (set_content r0 c). split.
    + now apply (in_update_w_patched _ r0).
    + right. now exists r0.
Qed.

Lemma add_ptr_Ok (self : IPAddress) (zone : Domain) (w w' : World) :
  zone_for (db w) self = Ok (Some zone) ->
  add_ptr ROOT_DOMAIN self w = (Ok tt, w') ->
  exists r, In r (records (db w')) /\ ptr_record_of ROOT_DOMAIN self r.
Proof.
  intros Hzone. unfold add_ptr. unfold bind at 1.
  rewrite find_ptr_zone_run, Hzone. intros H.
  apply upsert_Ok in H as (r & Hin & [[id ->]|(r0 & Hk & ->)]).
  - eexists. split; [exact Hin|]. repeat split.
  - eexists. split; [exact Hin|]. unfold ptr_key in Hk.
    apply andb_true_iff in Hk as [Hk Ht]. apply andb_true_iff in Hk as [_ Hn].
    apply String.eqb_eq in Hn, Ht. now repeat split.
Qed.

Lemma add_cname_Ok (self : IPAddress) (w w' : World) :
  ip_primary self = true -> truthy_text (ip_interface self) = true ->
  add_cname ROOT_DOMAIN self w = (Ok tt, w') ->
  exists r, In r (records (db w')) /\ cname_record_of ROOT_DOMAIN self r.
Proof.
  intros Hprim Hif. unfold add_cname. rewrite Hprim, Hif. cbn [andb].
  unfold bind at 1. rewrite Domain_objects_get_run.
  destruct (stored_domain (db w) ROOT_DOMAIN) as [root|e]; [|discriminate].
  intros H.
  apply upsert_Ok in H as (r & Hin & [[id ->]|(r0 & Hk & ->)]).
  - eexists. split; [exact Hin|]. now repeat split.
  - eexists. split; [exact Hin|]. unfold cname_key in Hk.
    apply andb_true_iff in Hk as [Hk Ht]. apply andb_true_iff in Hk as [_ Hn].
    apply String.eqb_eq in Hn, Ht. now repeat split.
Qed.

End BlocksOk.

(** ** A save that returns *)

Section SaveOk.
Variable ROOT_DOMAIN : string.

Lemma add_dns_Ok_stages (self : IPAddress) (w w' : World) :
  truthy_pk (ip_pk self) = false ->
  IPAddress__add_dns ROOT_DOMAIN self w = (Ok tt, w') ->
  exists w1 w2,
    add_forward ROOT_DOMAIN self w = (Ok tt, w1)
    /\ add_ptr ROOT_DOMAIN self w1 = (Ok tt, w2)
    /\ add_cname ROOT_DOMAIN self w2 = (Ok tt, w').
Proof.
  intros Hpk H. rewrite add_dns_stages in H by exact Hpk.
  apply bind_inv_Ok in H as ([] & w1 & H1 & H).
  apply bind_inv_Ok in H as ([] & w2 & H2 & H3).
  now exists w1, w2.
Qed.

(** [super().save] of an assignment without a key, when it returns: the row
    is appended under the next key. *)
Lemma super_save_Ok (s s' : IPAddress) (w w' : World) :
  ip_pk s = None ->
  IPAddress_super_save s w = (Ok s', w') ->
  exists host_id,
    host_pk (ip_host s) = Some host_id
    /\ ipaddresses (db w')
       = ipaddresses (db w) ++ [row_of s (next_ip_pk (db w)) host_id]
    /\ next_ip_pk (db w') = N.succ (next_ip_pk (db w))
    /\ hosts (db w') = hosts (db w)
    /\ domains (db w') = domains (db w)
    /\ records (db w') = records (db w)
    /\ next_record_id (db w') = next_record_id (db w)
    /\ history w' = history w.
Proof.
  intros Hpk. unfold IPAddress_super_save, bind, get_db. rewrite Hpk.
  destruct (host_pk (ip_host s)) as [host_id|]; [|discriminate].
  destruct (existsb _ _); [discriminate|].
  destruct (negb _); [discriminate|].
  cbn. intros H. injection H as _ <-. exists host_id. cbn. repeat split.
Qed.

(** The run of [Model.delete] on a stored assignment. *)
Lemma delete_run_tables (self orig : IPAddress) (pk : N) (w : World) :
  ip_pk self = Some pk ->
  stored_ip (db w) pk = Ok orig ->
  exists wA,
    IPAddress_delete ROOT_DOMAIN self w = (Ok (with_pk self None), wA)
    /\ records (db wA)
       = filter (fun r => negb (truthy_flag (ip_auto_dns self)
                                && removed_by ROOT_DOMAIN orig r))
           (records (db w))
    /\ next_record_id (db wA) = next_record_id (db w)
    /\ ipaddresses (db wA)
       = filter (fun r => negb (N.eqb (iprow_pk r) pk)) (ipaddresses (db w))
    /\ next_ip_pk (db wA) = next_ip_pk (db w)
    /\ hosts (db wA) = hosts (db w)
    /\ domains (db wA) = domains (db w).
Proof.
  intros Hpk Hst.
  destruct (hook_run ROOT_DOMAIN self orig pk w Hpk Hst) as [hist Hhook].
  unfold IPAddress_delete. rewrite Hpk. eexists. split.
  - unfold bind at 1. erewrite atomic_Ok.
    2:{ unfold bind. rewrite Hhook. reflexivity. }
    reflexivity.
  - cbn. repeat split.
Qed.

(** The stages of [IPAddress.save] on a stored assignment, when it
    returns. *)
Lemma save_Ok_stages (self orig s' : IPAddress) (pk : N) (w w' : World) :
  ip_pk self = Some pk -> pk <> 0%N ->
  stored_ip (db w) pk = Ok orig ->
  IPAddress_save ROOT_DOMAIN self w = (Ok s', w') ->
  exists wA wB,
    IPAddress_delete ROOT_DOMAIN self w = (Ok (with_pk self None), wA)
    /\ (if truthy_flag (ip_auto_dns self)
        then IPAddress__add_dns ROOT_DOMAIN (with_pk self None)
        else ret tt) wA = (Ok tt, wB)
    /\ IPAddress_super_save (with_pk self None) wB = (Ok s', w').
Proof.
  intros Hpk Hnz Hst Hsave.
  destruct (delete_run_tables self orig pk w Hpk Hst) as (wA & Hdel & _).
  unfold IPAddress_save, atomic in Hsave.
  assert (Htruthy : truthy_pk (ip_pk self) = true).
  { rewrite Hpk. cbn. now apply negb_true_iff, N.eqb_neq. }
  rewrite Htruthy in Hsave.
  unfold bind at 1 in Hsave. unfold bind at 1 in Hsave.
  rewrite Hdel in Hsave. cbn [ret] in Hsave.
  change (with_pk (with_pk self None) None) with (with_pk self None) in Hsave.
  change (ip_auto_dns (with_pk self None)) with (ip_auto_dns self) in Hsave.
  unfold bind in Hsave.
  destruct ((if truthy_flag (ip_auto_dns self)
             then IPAddress__add_dns ROOT_DOMAIN (with_pk self None)
             else ret tt) wA) as [[[]|e] wB] eqn:Hadd; [|discriminate].
  destruct (IPAddress_super_save (with_pk self None) wB) as [[a|e] wC] eqn:Hsup;
    [|discriminate].
  injection Hsave as <- <-. now exists wA, wB.
Qed.

End SaveOk.

(** ** One step of the second loop of [Host.save] *)

(** The keys of the assignments are distinct, positive and below the
    counter. *)
Definition ip_wf (w : World) : Prop :=
  NoDup (map iprow_pk (ipaddresses (db w)))
  /\ Forall (fun r => (0 < iprow_pk r < next_ip_pk (db w))%N)
       (ipaddresses (db w)).

Section Step.
Variable ROOT_DOMAIN : string.

(** The stored row of the host, after its new name was saved. *)
Variable h : HostRow.

(** The object the second loop holds for the row [b], and the object it
    hands to [_add_dns]. *)
Definition held (b : IPAddressRow) : IPAddress := object_of h b.
Definition renewed (b : IPAddressRow) : IPAddress := with_pk (object_of h b) None.

Lemma stored_row (w : World) (b : IPAddressRow) :
  stored_host (db w) (hostrow_pk h) = Ok h ->
  ip_wf w -> In b (ipaddresses (db w)) -> iprow_host_id b = hostrow_pk h ->
  stored_ip (db w) (iprow_pk b) = Ok (held b).
Proof.
  intros Hh [Hnd _] Hin Hid. unfold stored_ip, find_one.
  rewrite (filter_unique_key iprow_pk _ b Hnd Hin).
  unfold loaded. now rewrite Hid, Hh.
Qed.

Lemma add_dns_tables (self : IPAddress) (w w' : World) :
  truthy_pk (ip_pk self) = false ->
  IPAddress__add_dns ROOT_DOMAIN self w = (Ok tt, w') -> same_tables w w'.
Proof.
  intros Hpk H.
  destruct (add_dns_Ok_stages ROOT_DOMAIN self w w' Hpk H)
    as (w1 & w2 & H1 & H2 & H3).
  pose proof (records_only_add_forward ROOT_DOMAIN self w) as T1.
  pose proof (records_only_add_ptr ROOT_DOMAIN self w1) as T2.
  pose proof (records_only_add_cname ROOT_DOMAIN self w2) as T3.
  rewrite H1 in T1. rewrite H2 in T2. rewrite H3 in T3. cbn [snd] in *.
  eapply same_tables_trans; [exact T1|].
  eapply same_tables_trans; [exact T2|exact T3].
Qed.

(** The tables of hosts and assignments after the step. *)
Lemma step_tables (b : IPAddressRow) (s' : IPAddress) (w w' : World) :
  stored_host (db w) (hostrow_pk h) = Ok h ->
  ip_wf w -> In b (ipaddresses (db w)) -> iprow_host_id b = hostrow_pk h ->
  IPAddress_save ROOT_DOMAIN (held b) w = (Ok s', w') ->
  hosts (db w') = hosts (db w)
  /\ domains (db w') = domains (db w)
  /\ ip_wf w'
  /\ forall c, In c (ipaddresses (db w)) -> iprow_pk c <> iprow_pk b ->
               In c (ipaddresses (db w')).
Proof.
  intros Hh Hwf Hin Hid Hsave.
  pose proof (stored_row w b Hh Hwf Hin Hid) as Hst.
  destruct Hwf as [Hnd Hlt]. rewrite Forall_forall in Hlt.
  assert (Hnz : iprow_pk b <> 0%N) by (specialize (Hlt b Hin); lia).
  destruct (save_Ok_stages ROOT_DOMAIN (held b) (held b) s' (iprow_pk b) w w'
              eq_refl Hnz Hst Hsave) as (wA & wB & Hdel & Hadd & Hsup).
  destruct (delete_run_tables ROOT_DOMAIN (held b) (held b) (iprow_pk b) w
              eq_refl Hst) as (wA' & Hdel' & _ & _ & HipA & HnA & HhA & HdA).
  assert (wA' = wA) by congruence. subst wA'.
  assert (HAB : same_tables wA wB).
  { destruct (truthy_flag (ip_auto_dns (held b))).
    - now apply (add_dns_tables (with_pk (held b) None)).
    - injection Hadd as <-. apply same_tables_refl. }
  destruct HAB as (HhB & HipB & HdB & _ & HnB).
  destruct (super_save_Ok (with_pk (held b) None) s' wB w' eq_refl Hsup)
    as (host_id & _ & Hip' & Hn' & Hh' & Hd' & _).
  split; [congruence|]. split; [congruence|]. split.
  - split.
    + rewrite Hip', HipB, HipA, map_app. cbn.
      apply NoDup_app; [now apply NoDup_filter_map|repeat constructor; auto|].
      intros x Hx [<-|[]]. apply in_map_iff in Hx as (y & E & Hy).
      apply filter_In in Hy as [Hy _]. specialize (Hlt y Hy).
      rewrite HnB, HnA in E. lia.
    + rewrite Hip', Hn', HipB, HipA, HnB, HnA. apply Forall_app. split.
      * rewrite Forall_forall. intros y Hy. apply filter_In in Hy as [Hy _].
        specialize (Hlt y Hy). lia.
      * repeat constructor; cbn; specialize (Hlt b Hin); lia.
  - intros c Hc Hne. rewrite Hip', HipB, HipA. apply in_or_app. left.
    apply filter_In. split; [exact Hc|]. apply negb_true_iff.
    now apply N.eqb_neq.
Qed.

Lemma has_delete (T : Record_ -> Prop) p w :
  has T w -> (forall r, T r -> p r = false) -> has T (delete_w p w).
Proof.
  intros [Hwf (r & Hr & Ht)] Hp. split; [now apply records_wf_delete|].
  exists r. split; [|exact Ht]. cbn. apply filter_In. split; [exact Hr|].
  now rewrite (Hp r Ht).
Qed.

Lemma removed_by_false orig r :
  removed_by ROOT_DOMAIN orig r = false ->
  forward_lookup ROOT_DOMAIN orig r = false
  /\ (ip_primary orig = true -> cname_lookup ROOT_DOMAIN orig r = false)
  /\ ptr_lookup ROOT_DOMAIN orig r = false.
Proof.
  unfold removed_by. intros H. apply orb_false_iff in H as [H Hp].
  apply orb_false_iff in H as [Hf Hc]. repeat split; try assumption.
  intros P. now rewrite P in Hc.
Qed.

(** The distinct keys of the records are kept by the step. *)
Lemma step_records_wf (self s' : IPAddress) (w w' : World) :
  records_wf w ->
  IPAddress_save ROOT_DOMAIN self w = (Ok s', w') -> records_wf w'.
Proof.
  intros Hwf Hsave.
  pose proof (IPAddress_save_keeps ROOT_DOMAIN records_wf (fun _ => True)
                (fun _ => True)
                (fun w w' H Hr Hn _ => records_wf_frame w w' H Hr Hn)
                (fun w orig H _ =>
                   conj (records_wf_delete _ w H)
                     (conj (fun _ => records_wf_delete _ w H)
                        (records_wf_delete _ w H)))
                (fun w r H _ Hid => records_wf_insert r w H Hid)
                (fun w r H _ Hs => records_wf_update r w H (saved_row_patch r w Hs))
                (fun w0 w H _ => H) self (fun _ _ _ => I) w) as H.
  rewrite Hsave in H. apply H. split; [exact Hwf|].
  intros _ pk orig _ _. exact I.
Qed.

(** A record in [T] is kept by the step, when the removal for the stored
    row does not match it and the writes for the row do not alter it. *)
Lemma step_keeps (T : Record_ -> Prop) (b : IPAddressRow) (s' : IPAddress)
    (w w' : World) :
  (truthy_flag (iprow_auto_dns b) = true ->
   forall r c, T r -> written_by ROOT_DOMAIN (renewed b) (set_content r c) ->
               record_type r = "PTR" \/ record_type r = "CNAME" ->
               T (set_content r c)) ->
  (truthy_flag (iprow_auto_dns b) = true ->
   forall r, T r -> removed_by ROOT_DOMAIN (held b) r = false) ->
  stored_ip (db w) (iprow_pk b) = Ok (held b) ->
  has T w ->
  IPAddress_save ROOT_DOMAIN (held b) w = (Ok s', w') ->
  has T w'.
Proof.
  intros Hpatch Hrem Hst Hhas Hsave.
  set (W := fun r => truthy_flag (iprow_auto_dns b) = true
                     /\ written_by ROOT_DOMAIN (renewed b) r).
  pose proof (IPAddress_save_keeps ROOT_DOMAIN (has T)
                (fun orig => forall r, T r ->
                                       removed_by ROOT_DOMAIN orig r = false)
                W
                (has_frame T)
                (fun w orig H HD =>
                   conj (has_delete T _ w H
                           (fun r Ht => proj1 (removed_by_false orig r (HD r Ht))))
                     (conj (fun P => has_delete T _ w H
                              (fun r Ht =>
                                 proj1 (proj2 (removed_by_false orig r (HD r Ht))) P))
                        (has_delete T _ w H
                           (fun r Ht =>
                              proj2 (proj2 (removed_by_false orig r (HD r Ht)))))))
                (has_insert T W)
                (has_update T W
                   (fun r c Ht HW Hty => Hpatch (proj1 HW) r c Ht (proj2 HW) Hty))
                (has_rollback T) (held b) (fun Hflag r Hr => conj Hflag Hr) w)
    as H.
  rewrite Hsave in H. apply H. split; [exact Hhas|].
  intros Hflag pk orig Hpk Horig. cbn in Hpk. injection Hpk as <-.
  assert (orig = held b) by congruence. subst orig. now apply Hrem.
Qed.

Lemma stored_domain_domains d d' name :
  domains d = domains d' -> stored_domain d name = stored_domain d' name.
Proof. intros H. unfold stored_domain. now rewrite H. Qed.

Lemma zone_for_domains d d' self :
  domains d = domains d' -> zone_for d self = zone_for d' self.
Proof.
  intros H. unfold zone_for, find_ptr_zone, try_except_DoesNotExist, bind.
  rewrite !Domain_objects_get_run. cbn [db fst].
  rewrite (stored_domain_domains d d' _ H).
  destruct (stored_domain d' _) as [z|e]; [reflexivity|].
  destruct e; try reflexivity.
  destruct (String.eqb model "Domain"); [|reflexivity].
  destruct (PyStr.split1 _ _) as [|x [|y l]]; try reflexivity.
  rewrite !Domain_objects_get_run. cbn [db fst].
  rewrite (stored_domain_domains d d' _ H).
  destruct (stored_domain d' y) as [z|e]; [reflexivity|].
  destruct e; try reflexivity.
  destruct (String.eqb model0 "Domain"); reflexivity.
Qed.

Lemma records_wf_run {A} (m : M A) (w : World) :
  hoare records_wf m (fun _ => records_wf) records_wf ->
  records_wf w -> records_wf (snd (m w)).
Proof.
  intros Hm Hw. specialize (Hm w Hw). now destruct (m w) as [[a|e] w'].
Qed.

Lemma forward_not_patched self r :
  forward_of ROOT_DOMAIN self r ->
  record_type r = "PTR" \/ record_type r = "CNAME" -> False.
Proof.
  intros (_ & Ht & _) H. unfold forward_type in Ht.
  destruct (N.eqb _ _); rewrite Ht in H; destruct H; discriminate.
Qed.

(** What a step leaves in the table for its own row, when [auto_dns] is
    set: the forward record; the PTR record when a zone is found for it; the
    CNAME record when the row is primary and has an interface. *)
Lemma step_establishes (b : IPAddressRow) (s' : IPAddress) (w w' : World) :
  stored_ip (db w) (iprow_pk b) = Ok (held b) ->
  iprow_pk b <> 0%N ->
  records_wf w ->
  truthy_flag (iprow_auto_dns b) = true ->
  IPAddress_save ROOT_DOMAIN (held b) w = (Ok s', w') ->
  (exists r, In r (records (db w')) /\ forward_of ROOT_DOMAIN (renewed b) r)
  /\ (forall z, zone_for (db w) (renewed b) = Ok (Some z) ->
                exists r, In r (records (db w'))
                          /\ ptr_record_of ROOT_DOMAIN (renewed b) r)
  /\ (iprow_primary b = true -> truthy_text (iprow_interface b) = true ->
      exists r, In r (records (db w'))
                /\ cname_record_of ROOT_DOMAIN (renewed b) r).
Proof.
  intros Hst Hnz Hwf Hflag Hsave.
  destruct (save_Ok_stages ROOT_DOMAIN (held b) (held b) s' (iprow_pk b) w w'
              eq_refl Hnz Hst Hsave) as (wA & wB & Hdel & Hadd & Hsup).
  destruct (delete_run_tables ROOT_DOMAIN (held b) (held b) (iprow_pk b) w
              eq_refl Hst) as (wA' & Hdel' & HrA & HnA & _ & _ & _ & HdA).
  assert (wA' = wA) by congruence. subst wA'.
  change (truthy_flag (ip_auto_dns (held b)))
    with (truthy_flag (iprow_auto_dns b)) in Hadd.
  rewrite Hflag in Hadd. fold (renewed b) in Hadd, Hsup.
  destruct (add_dns_Ok_stages ROOT_DOMAIN (renewed b) wA wB eq_refl Hadd)
    as (w1 & w2 & H1 & H2 & H3).
  destruct (super_save_Ok (renewed b) s' wB w' eq_refl Hsup)
    as (_ & _ & _ & _ & _ & _ & Hrec' & _).
  assert (HwfA : records_wf wA).
  { destruct Hwf as [Hnd Hlt]. split.
    - rewrite HrA. now apply NoDup_filter_map.
    - rewrite HrA, HnA. rewrite Forall_forall in *. intros r Hr.
      apply filter_In in Hr as [Hr _]. now apply Hlt. }
  assert (Hwf1 : records_wf w1).
  { pose proof (records_wf_run (add_forward ROOT_DOMAIN (renewed b)) wA
                  (add_forward_keeps ROOT_DOMAIN records_wf (fun _ => True)
                     (fun w r H _ Hid => records_wf_insert r w H Hid)
                     (fun w r H _ Hs =>
                        records_wf_update r w H (saved_row_patch r w Hs))
                     (renewed b) (fun _ _ => I)) HwfA) as H.
    now rewrite H1 in H. }
  assert (Hwf2 : records_wf w2).
  { pose proof (records_wf_run (add_ptr ROOT_DOMAIN (renewed b)) w1
                  (add_ptr_keeps ROOT_DOMAIN records_wf (fun _ => True)
                     (fun w r H _ Hid => records_wf_insert r w H Hid)
                     (fun w r H _ Hs =>
                        records_wf_update r w H (saved_row_patch r w Hs))
                     (renewed b) (fun _ _ => I)) Hwf1) as H.
    now rewrite H2 in H. }
  pose proof (records_only_add_forward ROOT_DOMAIN (renewed b) wA) as T1.
  rewrite H1 in T1. cbn [snd] in T1. destruct T1 as (_ & _ & Hd1 & _).
  (* the forward record *)
  destruct (add_forward_Ok ROOT_DOMAIN (renewed b) wA w1 H1)
    as (_ & root & rf & _ & Hrf & _ & Hfwd).
  assert (Hf1 : has (forward_of ROOT_DOMAIN (renewed b)) w1).
  { split; [exact Hwf1|now exists rf]. }
  assert (Hf2 : has (forward_of ROOT_DOMAIN (renewed b)) w2).
  { pose proof (add_ptr_keeps ROOT_DOMAIN
                  (has (forward_of ROOT_DOMAIN (renewed b)))
                  (ptr_record_of ROOT_DOMAIN (renewed b))
                  (has_insert _ _)
                  (has_update _ _
                     (fun r c Ht _ Hty =>
                        False_ind _ (forward_not_patched _ r Ht Hty)))
                  (renewed b) (fun r Hr => Hr) w1 Hf1) as H.
    now rewrite H2 in H. }
  assert (Hf3 : has (forward_of ROOT_DOMAIN (renewed b)) wB).
  { pose proof (add_cname_keeps ROOT_DOMAIN
                  (has (forward_of ROOT_DOMAIN (renewed b)))
                  (cname_record_of ROOT_DOMAIN (renewed b))
                  (has_insert _ _)
                  (has_update _ _
                     (fun r c Ht _ Hty =>
                        False_ind _ (forward_not_patched _ r Ht Hty)))
                  (renewed b) (fun r Hr => Hr) w2 Hf2) as H.
    now rewrite H3 in H. }
  split; [|split].
  - destruct Hf3 as [_ (r & Hr & Ht)]. exists r. now rewrite Hrec'.
  - intros z Hz.
    assert (Hz1 : zone_for (db w1) (renewed b) = Ok (Some z)).
    { rewrite <- Hz. apply zone_for_domains. congruence. }
    destruct (add_ptr_Ok ROOT_DOMAIN (renewed b) z w1 w2 Hz1 H2)
      as (rp & Hrp & Hptr).
    assert (Hp2 : has (ptr_record_of ROOT_DOMAIN (renewed b)) w2).
    { split; [exact Hwf2|now exists rp]. }
    pose proof (add_cname_keeps ROOT_DOMAIN
                  (has (ptr_record_of ROOT_DOMAIN (renewed b)))
                  (cname_record_of ROOT_DOMAIN (renewed b))
                  (has_insert _ _)
                  (has_update _ _
                     (fun r c Ht Hw _ =>
                        match Ht, Hw with
                        | conj _ (conj Ht _), conj _ (conj _ (conj _ (conj Hc _))) =>
                            False_ind _
                              (eq_ind "PTR"
                                 (fun s => s = "CNAME" -> False)
                                 (fun E => ltac:(discriminate E)) _
                                 (eq_sym Ht) Hc)
                        end))
                  (renewed b) (fun r Hr => Hr) w2 Hp2) as H.
    rewrite H3 in H. destruct H as [_ (r & Hr & Ht)].
    exists r. now rewrite Hrec'.
  - intros Hprim Hif.
    destruct (add_cname_Ok ROOT_DOMAIN (renewed b) w2 wB Hprim Hif H3)
      as (rc & Hrc & Hc).
    exists rc. now rewrite Hrec'.
Qed.

End Step.

(** ** The records of one row through the step of another *)

Section Kept.
Variable ROOT_DOMAIN : string.
Variable h : HostRow.

Local Abbreviation held := (held h).
Local Abbreviation renewed := (renewed h).

(** The text of the address of a row and its reverse name. *)
Definition text_of (row : IPAddressRow) : string := IpText.str (iprow_ip row).

Definition reverse_of (row : IPAddressRow) : string :=
  IPAddress__generate_ptr (held row) false.

Lemma forward_type_cases self :
  forward_type self = "A" \/ forward_type self = "AAAA".
Proof. unfold forward_type. destruct (N.eqb _ _); auto. Qed.

Lemma eqb_false_of_neq (s t : string) : s <> t -> String.eqb s t = false.
Proof. intros H. now apply String.eqb_neq. Qed.

(** The removal for [b] spares the forward record of [a]. *)
Lemma forward_spared (a b : IPAddressRow) (r : Record_) :
  text_of a <> text_of b ->
  forward_of ROOT_DOMAIN (renewed a) r ->
  removed_by ROOT_DOMAIN (held b) r = false.
Proof.
  intros Hne (Hn & Ht & Hc). unfold removed_by.
  assert (Hf : forward_lookup ROOT_DOMAIN (held b) r = false).
  { unfold forward_lookup. rewrite Hc.
    replace (String.eqb (IpText.str (ip_ip (renewed a)))
               (IpText.str (ip_ip (held b)))) with false.
    - apply andb_false_r.
    - symmetry. now apply eqb_false_of_neq. }
  assert (Hcn : cname_lookup ROOT_DOMAIN (held b) r = false).
  { unfold cname_lookup. rewrite Ht.
    destruct (forward_type_cases (renewed a)) as [-> | ->];
      cbn [String.eqb Ascii.eqb Bool.eqb]; now rewrite andb_false_r. }
  assert (Hp : ptr_lookup ROOT_DOMAIN (held b) r = false).
  { unfold ptr_lookup. rewrite Ht.
    destruct (forward_type_cases (renewed a)) as [-> | ->];
      cbn [String.eqb Ascii.eqb Bool.eqb]; now rewrite andb_false_r. }
  now rewrite Hf, Hcn, Hp, andb_false_r.
Qed.

(** The removal for [b] spares the PTR record of [a]. *)
Lemma ptr_spared (a b : IPAddressRow) (r : Record_) :
  reverse_of a <> reverse_of b ->
  ptr_record_of ROOT_DOMAIN (renewed a) r ->
  removed_by ROOT_DOMAIN (held b) r = false.
Proof.
  intros Hne (Hn & Ht & Hc). unfold removed_by.
  assert (Hf : forward_lookup ROOT_DOMAIN (held b) r = false).
  { unfold forward_lookup. rewrite Ht. cbn [String.eqb Ascii.eqb Bool.eqb orb].
    now rewrite andb_false_r. }
  assert (Hcn : cname_lookup ROOT_DOMAIN (held b) r = false).
  { unfold cname_lookup. rewrite Ht. cbn [String.eqb Ascii.eqb Bool.eqb].
    now rewrite andb_false_r. }
  assert (Hp : ptr_lookup ROOT_DOMAIN (held b) r = false).
  { unfold ptr_lookup. rewrite Hn.
    replace (String.eqb (IPAddress__generate_ptr (renewed a) false)
               (IPAddress__generate_ptr (held b) false)) with false.
    - reflexivity.
    - symmetry. apply eqb_false_of_neq. exact Hne. }
  now rewrite Hf, Hcn, Hp, andb_false_r.
Qed.

Lemma forward_kept (a b : IPAddressRow) (s' : IPAddress) (w w' : World) :
  text_of a <> text_of b ->
  stored_ip (db w) (iprow_pk b) = Ok (held b) ->
  has (forward_of ROOT_DOMAIN (renewed a)) w ->
  IPAddress_save ROOT_DOMAIN (held b) w = (Ok s', w') ->
  has (forward_of ROOT_DOMAIN (renewed a)) w'.
Proof.
  intros Hne Hst Hhas Hsave.
  apply (step_keeps ROOT_DOMAIN h _ b s' w w'); try assumption.
  - intros _ r c Ht _ Hty.
    destruct (forward_not_patched ROOT_DOMAIN _ r Ht Hty).
  - intros _ r Ht. now apply (forward_spared a b).
Qed.

Lemma ptr_kept (a b : IPAddressRow) (s' : IPAddress) (w w' : World) :
  reverse_of a <> reverse_of b ->
  stored_ip (db w) (iprow_pk b) = Ok (held b) ->
  has (ptr_record_of ROOT_DOMAIN (renewed a)) w ->
  IPAddress_save ROOT_DOMAIN (held b) w = (Ok s', w') ->
  has (ptr_record_of ROOT_DOMAIN (renewed a)) w'.
Proof.
  intros Hne Hst Hhas Hsave.
  apply (step_keeps ROOT_DOMAIN h _ b s' w w'); try assumption.
  - intros _ r c (Hn & Ht & Hc) Hw _. exfalso.
    destruct Hw as [(_ & Ht' & _)|[(Hn' & _)|(_ & _ & _ & Ht' & _)]].
    + change (record_type (set_content r c)) with (record_type r) in Ht'.
      rewrite Ht in Ht'.
      destruct (forward_type_cases (renewed b)) as [E|E]; rewrite E in Ht';
        discriminate.
    + change (record_name (set_content r c)) with (record_name r) in Hn'.
      apply Hne. unfold reverse_of.
      change (IPAddress__generate_ptr (renewed a) false
              = IPAddress__generate_ptr (renewed b) false).
      congruence.
    + change (record_type (set_content r c)) with (record_type r) in Ht'.
      rewrite Ht in Ht'. discriminate.
  - intros _ r Ht. now apply (ptr_spared a b).
Qed.

Lemma fqdn_without (self : IPAddress) :
  truthy_text (ip_interface self) = false ->
  IPAddress_fqdn ROOT_DOMAIN self = Host_fqdn ROOT_DOMAIN (ip_host self).
Proof.
  unfold IPAddress_fqdn, Host_fqdn, truthy_text.
  destruct (ip_interface self) as [i|]; [|reflexivity].
  intros H. now rewrite H.
Qed.

Lemma fqdn_with (self : IPAddress) :
  truthy_text (ip_interface self) = true ->
  exists i, (0 < String.length i)%nat
            /\ IPAddress_fqdn ROOT_DOMAIN self
               = (i ++ "." ++ Host_fqdn ROOT_DOMAIN (ip_host self))%string.
Proof.
  unfold IPAddress_fqdn, Host_fqdn, truthy_text.
  destruct (ip_interface self) as [i|]; [|discriminate].
  intros H. rewrite H. exists i. split; [|reflexivity].
  destruct i; [discriminate|cbn; lia].
Qed.

(** A row that is primary and has an interface, with [auto_dns] set: its
    save writes the CNAME of the host. *)
Definition writes_cname (b : IPAddressRow) : Prop :=
  truthy_flag (iprow_auto_dns b) = true
  /\ iprow_primary b = true
  /\ truthy_text (iprow_interface b) = true.

(** The CNAME of the host, written for one of [rows]. *)
Definition cname_of_rows (rows : list IPAddressRow) (r : Record_) : Prop :=
  exists x, In x rows /\ truthy_flag (iprow_auto_dns x) = true
            /\ cname_record_of ROOT_DOMAIN (renewed x) r.

(** The removal for a row that does not write the CNAME spares it. *)
Lemma cname_spared (rows : list IPAddressRow) (b : IPAddressRow) (r : Record_) :
  ~ writes_cname b -> truthy_flag (iprow_auto_dns b) = true ->
  cname_of_rows rows r ->
  removed_by ROOT_DOMAIN (held b) r = false.
Proof.
  intros Hnot Hflag (x & _ & _ & _ & Hif & Hn & Ht & Hc). unfold removed_by.
  assert (Hf : forward_lookup ROOT_DOMAIN (held b) r = false).
  { unfold forward_lookup. rewrite Ht. cbn [String.eqb Ascii.eqb Bool.eqb orb].
    now rewrite andb_false_r. }
  assert (Hp : ptr_lookup ROOT_DOMAIN (held b) r = false).
  { unfold ptr_lookup. rewrite Ht. cbn [String.eqb Ascii.eqb Bool.eqb].
    now rewrite andb_false_r. }
  rewrite Hf, Hp, orb_false_r. cbn [orb].
  destruct (ip_primary (held b)) eqn:Hprim; [|reflexivity]. cbn [andb].
  assert (Hno : truthy_text (ip_interface (held b)) = false).
  { destruct (truthy_text (ip_interface (held b))) eqn:E; [|reflexivity].
    exfalso. apply Hnot. now repeat split. }
  unfold cname_lookup, iexact. rewrite Hc, (fqdn_without (held b) Hno).
  destruct (fqdn_with (renewed x) Hif) as (i & Hi & Efq). rewrite Efq.
  replace (String.eqb
             (PyStr.lower
                (PyStr.lower
                   (i ++ "." ++ Host_fqdn ROOT_DOMAIN (ip_host (renewed x)))))
             (PyStr.lower (Host_fqdn ROOT_DOMAIN (ip_host (held b)))))
    with false; [apply andb_false_r|].
  symmetry. apply eqb_false_of_neq. intros E.
  apply (f_equal String.length) in E.
  rewrite !PyStrFacts.length_lower, !PyStrFacts.length_append in E.
  change (ip_host (renewed x)) with (ip_host (held b)) in E. lia.
Qed.

Lemma cname_settled (rows : list IPAddressRow) (b : IPAddressRow)
    (s' : IPAddress) (w w' : World) :
  In b rows ->
  stored_ip (db w) (iprow_pk b) = Ok (held b) ->
  iprow_pk b <> 0%N ->
  records_wf w ->
  IPAddress_save ROOT_DOMAIN (held b) w = (Ok s', w') ->
  (writes_cname b \/ (~ writes_cname b /\ has (cname_of_rows rows) w)) ->
  has (cname_of_rows rows) w'.
Proof.
  intros Hin Hst Hnz Hwf Hsave [(Hflag & Hprim & Hif)|[Hnot Hhas]].
  - destruct (step_establishes ROOT_DOMAIN h b s' w w' Hst Hnz Hwf Hflag Hsave)
      as (_ & _ & Hc).
    destruct (Hc Hprim Hif) as (r & Hr & Hcr). split.
    + now apply (step_records_wf ROOT_DOMAIN (held b) s' w).
    + exists r. split; [exact Hr|]. now exists b.
  - apply (step_keeps ROOT_DOMAIN h _ b s' w w'); try assumption.
    + intros Hflag r c (x & Hx & Hfx & Hcx) Hw _. exfalso. apply Hnot.
      destruct Hcx as (_ & _ & _ & Ht & _).
      destruct Hw as [(_ & Ht' & _)|[(_ & Ht' & _)|(Hp & Hi & _)]].
      * change (record_type (set_content r c)) with (record_type r) in Ht'.
        rewrite Ht in Ht'.
        destruct (forward_type_cases (renewed b)) as [E|E]; rewrite E in Ht';
          discriminate.
      * change (record_type (set_content r c)) with (record_type r) in Ht'.
        rewrite Ht in Ht'. discriminate.
      * now repeat split.
    + intros Hflag r Ht. now apply (cname_spared rows b).
Qed.

End Kept.

(** ** The second loop of [Host.save] *)

Lemma NoDup_map_middle {A B} (f : A -> B) (l1 l2 : list A) (x : A) :
  NoDup (map f (l1 ++ x :: l2)) ->
  (forall a, In a l1 -> f a <> f x) /\ (forall c, In c l2 -> f c <> f x).
Proof.
  rewrite map_app. cbn. intros H. apply NoDup_remove_2 in H.
  split; intros y Hy E; apply H, in_or_app; [left|right];
    rewrite <- E; now apply in_map.
Qed.

Lemma stored_host_hosts d d' pk :
  hosts d = hosts d' -> stored_host d pk = stored_host d' pk.
Proof. intros H. unfold stored_host. now rewrite H. Qed.

Section Resave.
Variable ROOT_DOMAIN : string.
Variable h : HostRow.
Variable d0 : Database.
Variable rows : list IPAddressRow.

Hypothesis rows_of_host : forall c, In c rows -> iprow_host_id c = hostrow_pk h.
Hypothesis distinct_texts : NoDup (map text_of rows).
Hypothesis distinct_reverse : NoDup (map (reverse_of h) rows).

Local Abbreviation held := (held h).
Local Abbreviation renewed := (renewed h).

(** What the loop has achieved once the rows [done] are saved again. *)
Definition settled (done : list IPAddressRow) (w : World) : Prop :=
  (forall a, In a done -> truthy_flag (iprow_auto_dns a) = true ->
             has (forward_of ROOT_DOMAIN (renewed a)) w
             /\ forall z, zone_for d0 (renewed a) = Ok (Some z) ->
                          has (ptr_record_of ROOT_DOMAIN (renewed a)) w)
  /\ ((exists a, In a done /\ writes_cname a) ->
      has (cname_of_rows ROOT_DOMAIN h rows) w).

Lemma writes_cname_dec (b : IPAddressRow) : writes_cname b \/ ~ writes_cname b.
Proof.
  unfold writes_cname.
  destruct (truthy_flag (iprow_auto_dns b)), (iprow_primary b),
    (truthy_text (iprow_interface b)); intuition discriminate.
Qed.

Lemma resave_loop (todo : list IPAddressRow) :
  forall done w w',
    rows = done ++ todo ->
    stored_host (db w) (hostrow_pk h) = Ok h ->
    domains (db w) = domains d0 ->
    ip_wf w -> records_wf w ->
    (forall c, In c todo -> In c (ipaddresses (db w))) ->
    settled done w ->
    for_each (map held todo)
      (fun ipaddress => IPAddress_save ROOT_DOMAIN ipaddress ;;; ret tt) w
    = (Ok tt, w') ->
    records_wf w' /\ settled rows w'.
Proof.
  induction todo as [|b rest IH];
    intros done w w' Hrows Hh Hdom Hipwf Hwf Htodo Hset Hrun.
  - cbn in Hrun. injection Hrun as <-. rewrite app_nil_r in Hrows.
    subst done. now split.
  - cbn [map for_each] in Hrun.
    apply bind_inv_Ok in Hrun as ([] & wb & Hstep & Hrest).
    apply bind_inv_Ok in Hstep as (s' & wbi & Hsave & Hret).
    injection Hret as ->.
    assert (Hb : In b (ipaddresses (db w))) by (apply Htodo; now left).
    assert (Hbrow : In b rows) by (rewrite Hrows; apply in_elt).
    pose proof (rows_of_host b Hbrow) as Hid.
    pose proof (stored_row h w b Hh Hipwf Hb Hid) as Hst.
    assert (Hnz : iprow_pk b <> 0%N).
    { destruct Hipwf as [_ Hlt]. rewrite Forall_forall in Hlt.
      specialize (Hlt b Hb). lia. }
    destruct (step_tables ROOT_DOMAIN h b s' w wb Hh Hipwf Hb Hid Hsave)
      as (Hhosts & Hdoms & Hipwf' & Hkept).
    pose proof (step_records_wf ROOT_DOMAIN (held b) s' w wb Hwf Hsave) as Hwf'.
    pose proof distinct_texts as Htexts. pose proof distinct_reverse as Hrev.
    rewrite Hrows in Htexts, Hrev.
    destruct (NoDup_map_middle text_of done rest b Htexts) as [Htd Htr].
    destruct (NoDup_map_middle (reverse_of h) done rest b Hrev) as [Hrd _].
    apply (IH (done ++ [b]) wb w').
    + now rewrite <- app_assoc.
    + now rewrite (stored_host_hosts (db wb) (db w)).
    + congruence.
    + exact Hipwf'.
    + exact Hwf'.
    + intros c Hc. apply Hkept; [apply Htodo; now right|].
      intros E. apply (Htr c Hc).
      assert (c = b); [|now subst].
      apply (NoDup_map_eq iprow_pk (ipaddresses (db w)));
        [apply Hipwf|apply Htodo; now right|exact Hb|exact E].
    + destruct Hset as [Hrec Hcn]. split.
      * intros a Ha Hflag. apply in_app_or in Ha as [Ha|[<-|[]]].
        -- destruct (Hrec a Ha Hflag) as [Hf Hp]. split.
           ++ now apply (forward_kept ROOT_DOMAIN h a b s' w wb (Htd a Ha)).
           ++ intros z Hz.
              now apply (ptr_kept ROOT_DOMAIN h a b s' w wb (Hrd a Ha) Hst
                           (Hp z Hz)).
        -- destruct (step_establishes ROOT_DOMAIN h b s' w wb Hst Hnz Hwf
                       Hflag Hsave) as (Hf & Hp & _).
           split; [now split|].
           intros z Hz. split; [exact Hwf'|]. apply (Hp z).
           rewrite <- Hz. now apply zone_for_domains.
      * intros (a & Ha & Hwa).
        apply (cname_settled ROOT_DOMAIN h rows b s' w wb Hbrow Hst Hnz Hwf
                 Hsave).
        destruct (writes_cname_dec b) as [Hyes|Hno]; [now left|right].
        split; [exact Hno|]. apply Hcn.
        apply in_app_or in Ha as [Ha|[<-|[]]]; [now exists a|contradiction].
    + exact Hrest.
Qed.

End Resave.

(** ** The records of a renamed host *)

Lemma filter_map_replace {A} (key : A -> N) (pk : N) (row old : A) (l : list A) :
  key row = pk ->
  filter (fun x => N.eqb (key x) pk) l = [old] ->
  filter (fun x => N.eqb (key x) pk)
    (map (fun x => if N.eqb (key x) pk then row else x) l) = [row].
Proof.
  intros Hrow. induction l as [|x l IH]; simpl; [discriminate|].
  destruct (N.eqb_spec (key x) pk) as [E|E]; simpl.
  - rewrite Hrow, N.eqb_refl. intros H. injection H as _ H. f_equal.
    clear IH. induction l as [|y l IHl]; simpl in *; [reflexivity|].
    destruct (N.eqb_spec (key y) pk) as [Ey|Ey]; [discriminate|].
    simpl. destruct (N.eqb_spec (key y) pk); [contradiction|]. now apply IHl.
  - destruct (N.eqb_spec (key x) pk); [contradiction|]. exact IH.
Qed.

(** [super().save] of a stored host, when it returns: the row of the host
    holds the new name. *)
Lemma Host_super_save_Ok (self self' : Host) (pk : N) (h : HostRow)
    (w w' : World) :
  host_pk self = Some pk ->
  stored_host (db w) pk = Ok h ->
  Host_super_save self w = (Ok self', w') ->
  self' = self
  /\ stored_host (db w') pk = Ok (mkHostRow pk (host_name self))
  /\ ipaddresses (db w') = ipaddresses (db w)
  /\ next_ip_pk (db w') = next_ip_pk (db w)
  /\ domains (db w') = domains (db w)
  /\ records (db w') = records (db w)
  /\ next_record_id (db w') = next_record_id (db w).
Proof.
  intros Hpk Hh. unfold Host_super_save, bind, get_db. rewrite Hpk.
  destruct (existsb _ _); [discriminate|].
  unfold stored_host, find_one in Hh.
  destruct (filter (fun h0 => N.eqb (hostrow_pk h0) pk) (hosts (db w)))
    as [|h0 [|h1 l]] eqn:E; try discriminate.
  assert (Hex : existsb (fun h0 => N.eqb (hostrow_pk h0) pk) (hosts (db w)) = true).
  { apply existsb_exists. exists h0.
    assert (Hin : In h0 (filter (fun h0 => N.eqb (hostrow_pk h0) pk)
                           (hosts (db w)))) by (rewrite E; now left).
    now apply filter_In in Hin. }
  rewrite Hex. cbn. intros H. injection H as <- <-. cbn.
  repeat split. unfold stored_host, find_one. cbn.
  now rewrite (filter_map_replace hostrow_pk pk
                 (mkHostRow pk (host_name self)) h0 _ eq_refl E).
Qed.

Lemma instances_held (self : Host) (pk : N) (rows : list IPAddressRow) :
  host_pk self = Some pk ->
  instances self rows = map (held (mkHostRow pk (host_name self))) rows.
Proof.
  intros Hpk. destruct self as [p n]. cbn in Hpk. subst p. reflexivity.
Qed.

Section RenameClaim.
Variable ROOT_DOMAIN : string.

(** C1, amended. Renaming a stored host (a save with another name) first
    removes the records of every owned assignment whose [auto_dns] is set,
    then saves the new name, then saves every owned assignment again.  When
    the save returns: none of the records that were matched for those
    assignments under the old name is left (records that only share the old
    name stay); and for every owned assignment whose [auto_dns] is set the
    forward record under the new name is in the table, with its PTR record
    when a zone is found for it, and with a CNAME of the host when it is
    primary and has an interface.  The owned addresses have distinct texts
    and reverse names, and keys are distinct and below their counters. *)
Theorem rename_host_records (self self' : Host) (pk : N) (h : HostRow)
    (w w' : World) :
  let rows := owned_rows (db w) pk in
  let h' := mkHostRow pk (host_name self) in
  host_pk self = Some pk ->
  Host_objects_get pk w = (Ok h, w) ->
  name_changed (Some (hostrow_name h)) self = true ->
  ip_wf w -> records_wf w ->
  NoDup (map text_of rows) -> NoDup (map (reverse_of h') rows) ->
  Host_save ROOT_DOMAIN self w = (Ok self', w') ->
  (exists w1 w2,
      Host_save_remove ROOT_DOMAIN self w = (Ok tt, w1)
      /\ records (db w1)
         = filter (fun r => negb (removed_for ROOT_DOMAIN h rows r))
             (records (db w))
      /\ Host_super_save self w1 = (Ok self', w2)
      /\ stored_host (db w2) pk = Ok h'
      /\ Host_save_resave ROOT_DOMAIN self' w2 = (Ok tt, w'))
  /\ (forall r, In r (records (db w')) ->
                ~ stale_row_of_host ROOT_DOMAIN w h pk r)
  /\ (forall a, In a rows -> truthy_flag (iprow_auto_dns a) = true ->
        (exists r, In r (records (db w'))
                   /\ forward_of ROOT_DOMAIN (renewed h' a) r)
        /\ (forall z, zone_for (db w) (renewed h' a) = Ok (Some z) ->
              exists r, In r (records (db w'))
                        /\ ptr_record_of ROOT_DOMAIN (renewed h' a) r)
        /\ (iprow_primary a = true ->
            truthy_text (iprow_interface a) = true ->
            exists r, In r (records (db w'))
                      /\ cname_of_rows ROOT_DOMAIN h' rows r)).
Proof.
  intros rows h' Hpk Hget Hchanged Hipwf Hwf Htexts Hrev Hsave.
  rewrite Host_objects_get_run in Hget.
  assert (Hh : stored_host (db w) pk = Ok h) by congruence. clear Hget.
  destruct (remove_loop_run ROOT_DOMAIN self h rows w) as [hist Hloop].
  { intros row Hin. apply (stored_owned_row h pk w row Hh); [apply Hipwf|exact Hin]. }
  match type of Hloop with _ = (_, ?x) => set (w1 := x) in * end.
  assert (Hremove : Host_save_remove ROOT_DOMAIN self w = (Ok tt, w1)).
  { unfold Host_save_remove, bind.
    rewrite (Host_ipaddresses_all_run self pk w Hpk). exact Hloop. }
  (* the stages of the save *)
  pose proof Hsave as Hsave0.
  unfold Host_save in Hsave. rewrite Hpk in Hsave.
  apply bind_inv_Ok in Hsave as (orig_name & wa & H1 & H2).
  unfold bind at 1 in H1. rewrite Host_objects_get_run, Hh in H1.
  rewrite Hchanged in H1. unfold bind in H1. rewrite Hremove in H1.
  cbn in H1. injection H1 as <- <-.
  apply bind_inv_Ok in H2 as (s2 & w2 & Hsup & H3).
  rewrite Hchanged in H3.
  apply bind_inv_Ok in H3 as ([] & w3 & Hres & Hret).
  injection Hret as -> ->.
  destruct (Host_super_save_Ok self self' pk h w1 w2 Hpk Hh Hsup)
    as (-> & Hh2 & Hip2 & Hn2 & Hd2 & Hr2 & Hnr2).
  (* the second loop *)
  assert (Hwf2 : records_wf w2).
  { destruct Hwf as [Hnd Hlt]. split.
    - rewrite Hr2. cbn. now apply NoDup_filter_map.
    - rewrite Hr2, Hnr2. cbn. rewrite Forall_forall in *. intros r Hr.
      apply filter_In in Hr as [Hr _]. now apply Hlt. }
  assert (Hloop2 : for_each (map (held h') rows)
                     (fun ipaddress =>
                        IPAddress_save ROOT_DOMAIN ipaddress ;;; ret tt) w2
                   = (Ok tt, w')).
  { unfold Host_save_resave, bind in Hres.
    rewrite (Host_ipaddresses_all_run self pk w2 Hpk) in Hres.
    unfold owned_rows in Hres. rewrite Hip2 in Hres.
    rewrite <- (instances_held self pk _ Hpk). exact Hres. }
  destruct (resave_loop ROOT_DOMAIN h' (db w) rows
              (fun c Hc => proj2 (proj1 (in_owned_rows (db w) pk c) Hc))
              Htexts Hrev rows [] w2 w' eq_refl Hh2 Hd2)
    as [_ [Hrec Hcn]].
  { unfold ip_wf. rewrite Hip2, Hn2. exact Hipwf. }
  { exact Hwf2. }
  { intros c Hc. rewrite Hip2. now apply in_owned_rows in Hc. }
  { split; [intros a []|intros (a & [] & _)]. }
  { exact Hloop2. }
  split; [|split].
  - exists w1, w2. repeat split; assumption.
  - pose proof (rename_after_delete ROOT_DOMAIN self pk h w Hpk Hh Hchanged
                  (proj1 Hipwf) Hwf) as Hafter.
    rewrite Hsave0 in Hafter. destruct Hafter as (Hns & _).
    intros r Hr (row & Hrow & Hid & Hflag & r0 & Hr0 & Hmatch & E).
    apply (Hns r Hr). exists r0. split; [|exact E].
    apply filter_In. split; [exact Hr0|].
    apply existsb_exists. exists row. split.
    + apply in_owned_rows. now split.
    + rewrite Hflag. cbn. now apply removed_by_spec.
  - intros a Ha Hflag. destruct (Hrec a Ha Hflag) as [[_ Hf] Hp].
    split; [exact Hf|]. split.
    + intros z Hz. apply (Hp z Hz).
    + intros Hprim Hif. apply Hcn. exists a. now repeat split.
Qed.

End RenameClaim.

Lemma rename_host_records_witness :
  let w' := snd (Host_save Sample.root Sample.bar Sample.w_5) in
  Host_save Sample.root Sample.bar Sample.w_5 = (Ok Sample.bar, w')
  /\ (forall r, In r (records (db w')) ->
                ~ stale_row_of_host Sample.root Sample.w_5 Sample.foo_row 1 r)
  /\ (exists r, In r (records (db w'))
                /\ record_name r = "bar.example.com"
                /\ record_type r = "A" /\ record_content r = "10.0.0.5")
  /\ (exists r, In r (records (db w'))
                /\ record_name r = "5.0.0.10.in-addr.arpa"
                /\ record_type r = "PTR"
                /\ record_content r = "bar.example.com").
Proof.
  intros w'.
  assert (Hipwf : ip_wf Sample.w_5).
  { split; simpl; repeat constructor; simpl; try tauto; lia. }
  assert (Hwf : records_wf Sample.w_5).
  { split; simpl; repeat constructor; simpl; try lia; intuition discriminate. }
  assert (Hnd : forall s : string, NoDup [s]).
  { intros s. repeat constructor. simpl. tauto. }
  assert (Hrun : Host_save Sample.root Sample.bar Sample.w_5
                 = (Ok Sample.bar, w')) by (vm_compute; reflexivity).
  clearbody w'.
  destruct (rename_host_records Sample.root Sample.bar Sample.bar 1
              Sample.foo_row Sample.w_5 w' eq_refl eq_refl eq_refl Hipwf Hwf
              (Hnd _) (Hnd _) Hrun) as (_ & Habsent & Hexist).
  split; [exact Hrun|]. split; [exact Habsent|].
  destruct (Hexist Sample.row_5 (or_introl eq_refl) eq_refl)
    as ((rf & Hrf & Hnf & Htf & Hcf) & Hptr & _).
  split.
  - exists rf; exact (conj Hrf (conj Hnf (conj Htf Hcf))).
  - destruct (Hptr (mkDomain 2 "0.0.10.in-addr.arpa") eq_refl)
      as (rp & Hrp & Hnp & Htp & Hcp).
    exists rp; exact (conj Hrp (conj Hnp (conj Htp Hcp))).
Defined.

(** C1 as worded fails: an A record at [foo.example.com] whose content is
    not the address of an assignment of the host is still there after the
    host [foo] was renamed to [bar]. *)
Lemma rename_host_stray_record_counterexample :
  fst (Host_save Sample.root Sample.bar Sample.w_5_stray) = Ok Sample.bar
  /\ ~ (forall r,
           In r (records (db (snd (Host_save Sample.root Sample.bar
                                     Sample.w_5_stray)))) ->
           PyStr.lower (record_name r) <> "foo.example.com"
           /\ PyStr.lower (record_content r) <> "foo.example.com").
Proof.
  split; [vm_compute; reflexivity|].
  intros H. destruct (H Sample.a_other) as [Hn _].
  - vm_compute. tauto.
  - apply Hn. reflexivity.
Qed.

(** ** Parsing the text of a network *)

Section Ipv4Text.
Import PyStr PyStrFacts IpAddr IpText IpNetwork.

Lemma mem_free c s : mem c s = negb (free_of c s).
Proof.
  induction s as [|a s IH]; simpl; [reflexivity|].
  rewrite IH, negb_andb, negb_involutive. reflexivity.
Qed.

Lemma free_app c s t :
  free_of c (s ++ t) = free_of c s && free_of c t.
Proof.
  induction s as [|a s IH]; simpl; [reflexivity|].
  now rewrite IH, andb_assoc.
Qed.

Lemma free_join c sep parts :
  free_of c sep = true ->
  Forall (fun p => free_of c p = true) parts ->
  free_of c (join sep parts) = true.
Proof.
  intros Hsep H. induction H as [|p ps Hp Hps IH]; [reflexivity|].
  destruct ps as [|q ps]; [exact Hp|].
  rewrite join_cons, !free_app, Hp, Hsep. exact IH.
Qed.

Lemma all_chars_free p c s :
  all_chars p s = true -> p c = false -> free_of c s = true.
Proof.
  intros H Hc. induction s as [|a s IH]; simpl in *; [reflexivity|].
  apply andb_true_iff in H as [Ha Hs]. rewrite (IH Hs), andb_true_r.
  destruct (Ascii.eqb_spec a c); [congruence|reflexivity].
Qed.

Lemma all_chars_app p s t :
  all_chars p (s ++ t) = all_chars p s && all_chars p t.
Proof.
  induction s as [|a s IH]; simpl; [reflexivity|].
  now rewrite IH, andb_assoc.
Qed.

Lemma truthy_app s t : truthy s = true -> truthy (s ++ t) = true.
Proof. destruct s; [discriminate|reflexivity]. Qed.

Lemma truthy_join sep p ps : truthy p = true -> truthy (join sep (p :: ps)) = true.
Proof.
  intros H. destruct ps as [|q ps]; [exact H|].
  rewrite join_cons. now apply truthy_app.
Qed.

(** A property checked on every number below a bound. *)
Lemma forall_below (P : N -> bool) (k : nat) :
  forallb P (map N.of_nat (seq 0 k)) = true ->
  forall n, (n < N.of_nat k)%N -> P n = true.
Proof.
  intros H n Hn. rewrite forallb_forall in H. apply H.
  apply in_map_iff. exists (N.to_nat n). split; [apply N2Nat.id|].
  apply in_seq. lia.
Qed.

(** *** Decimal numbers *)

Lemma uint_digits d : all_chars is_digit (NilEmpty.string_of_uint d) = true.
Proof. induction d; simpl; auto. Qed.

Lemma of_N_digits n : isdigit (of_N n) = true.
Proof.
  unfold isdigit, of_N, NilZero.string_of_uint.
  destruct (N.to_uint n) eqn:E; try reflexivity;
    (apply andb_true_iff; split; [reflexivity|]);
    change (all_chars is_digit (NilEmpty.string_of_uint u) = true);
    apply uint_digits.
Qed.

Lemma of_N_truthy n : truthy (of_N n) = true.
Proof. pose proof (of_N_digits n) as H. unfold isdigit in H. now apply andb_true_iff in H. Qed.

Lemma of_N_free c n : is_digit c = false -> free_of c (of_N n) = true.
Proof.
  intros Hc. pose proof (of_N_digits n) as H. unfold isdigit in H.
  apply andb_true_iff in H as [_ H]. exact (all_chars_free _ _ _ H Hc).
Qed.

(** *** IPv4 addresses *)

Lemma parse_octet_of_N b : (b < 256)%N -> _parse_octet (of_N b) = Some b.
Proof.
  intros Hb.
  pose (P := fun b => match _parse_octet (of_N b) with
                      | Some v => N.eqb v b
                      | None => false
                      end).
  assert (E : forallb P (map N.of_nat (seq 0 256)) = true)
    by (vm_compute; reflexivity).
  pose proof (forall_below P 256 E b Hb) as H. unfold P in H. destruct (_parse_octet (of_N b)); [|discriminate].
  apply N.eqb_eq in H. now subst.
Qed.

Lemma byte_at_lt n k : (byte_at n k < 256)%N.
Proof. rewrite IpFacts.byte_at_div. apply N.mod_lt. discriminate. Qed.

Lemma from_bytes_octets n : (n < 2 ^ 32)%N -> from_bytes (octets n) = n.
Proof.
  intros Hn. unfold from_bytes, octets. cbn [fold_left].
  rewrite !IpFacts.byte_at_div.
  change (256 ^ 3)%N with 16777216%N. change (256 ^ 2)%N with 65536%N.
  change (256 ^ 1)%N with 256%N. change (256 ^ 0)%N with 1%N.
  change (2 ^ 32)%N with 4294967296%N in Hn.
  zify; Z.to_euclidean_division_equations; lia.
Qed.

Lemma traverse_map {A B} (f : A -> option B) (g : B -> A) (ys : list B) :
  Forall (fun y => f (g y) = Some y) ys -> traverse f (map g ys) = Some ys.
Proof.
  intros H. induction H as [|y ys Hy Hys IH]; [reflexivity|].
  cbn [map traverse]. now rewrite Hy, IH.
Qed.

Lemma str4_free c n : is_digit c = false -> Ascii.eqb "." c = false ->
  free_of c (str4 n) = true.
Proof.
  intros Hc Hd. unfold str4. apply free_join.
  - change (negb (Ascii.eqb "." c) && true = true). now rewrite Hd.
  - apply Forall_forall. intros p Hp. apply in_map_iff in Hp as (b & <- & _).
    now apply of_N_free.
Qed.

Lemma str4_truthy n : truthy (str4 n) = true.
Proof. unfold str4, octets. cbn [map]. apply truthy_join, of_N_truthy. Qed.

(** The text of an IPv4 address is read back as that address. *)
Lemma ip4_int_from_string_str4 n :
  (n < 2 ^ 32)%N -> ip4_int_from_string (str4 n) = Some n.
Proof.
  intros Hn. unfold ip4_int_from_string. rewrite str4_truthy. cbn [negb].
  unfold str4. rewrite split_join.
  - rewrite length_map. cbn [octets List.length Nat.eqb negb].
    rewrite traverse_map.
    + now rewrite from_bytes_octets.
    + unfold octets. repeat constructor; apply parse_octet_of_N, byte_at_lt.
  - discriminate.
  - apply Forall_forall. intros p Hp. apply in_map_iff in Hp as (b & <- & _).
    apply of_N_free_dot.
Qed.

(** *** Prefix lengths *)

Lemma prefix_of_N mx p :
  (mx <= 128)%N -> (p <= mx)%N ->
  _prefix_from_prefix_string mx (of_N p) = Some p.
Proof.
  intros Hmx Hp. unfold _prefix_from_prefix_string.
  rewrite of_N_digits. cbn [negb].
  pose (P := fun p => N.eqb (int10 (of_N p)) p).
  assert (E : forallb P (map N.of_nat (seq 0 129)) = true)
    by (vm_compute; reflexivity).
  assert (H : P p = true) by (apply (forall_below P 129 E); simpl; lia).
  unfold P in H. apply N.eqb_eq in H. rewrite H.
  apply N.leb_le in Hp. now rewrite Hp.
Qed.

End Ipv4Text.

(** ** The groups of an IPv6 address *)

(** The compression of the groups and the search for ['::'] look at a group
    only to tell whether it is ["0"] and whether it is empty: a renaming of
    the groups that keeps these two tests commutes with both. *)
Section Relabel.
Import PyStr PyStrFacts IpAddr IpText IpNetwork.
Variable f : string -> string.
Hypothesis f_zero : forall t, String.eqb (f t) "0" = String.eqb t "0".
Hypothesis f_truthy : forall t, truthy (f t) = truthy t.

Lemma relabel_empty : f "" = "".
Proof. pose proof (f_truthy "") as H. destruct (f ""); [reflexivity|discriminate]. Qed.

Lemma relabel_zero : f "0" = "0".
Proof. apply String.eqb_eq. now rewrite f_zero. Qed.

Lemma scan_map st i l : scan st i (map f l) = scan st i l.
Proof.
  revert st i. induction l as [|h l IH]; intros st i; [reflexivity|].
  cbn [map scan]. rewrite IH. f_equal.
  unfold scan_step. destruct st as [[[bs bl] s] n]. now rewrite f_zero.
Qed.

Lemma compress_hextets_map l :
  compress_hextets (map f l) = map f (compress_hextets l).
Proof.
  unfold compress_hextets. rewrite scan_map, length_map.
  destruct (scan (None, 0%nat, None, 0%nat) 0 l) as [[[bs bl] s] n].
  destruct bs as [b|]; [|reflexivity].
  destruct (Nat.ltb 1 bl); [|reflexivity].
  assert (E : forall hs1, firstn b (map f hs1) ++ [""] ++ skipn (b + bl) (map f hs1)
                          = map f (firstn b hs1 ++ [""] ++ skipn (b + bl) hs1)).
  { intros hs1. rewrite !map_app, firstn_map, skipn_map. cbn [map].
    now rewrite relabel_empty. }
  assert (E' : map f l ++ [""] = map f (l ++ [""])).
  { rewrite map_app. cbn [map]. now rewrite relabel_empty. }
  destruct (Nat.eqb (b + bl) (List.length l)); destruct (Nat.eqb b 0);
    rewrite ?E', E; cbn [map]; rewrite ?relabel_empty; reflexivity.
Qed.

Lemma nth_relabel i l : nth i (map f l) "" = f (nth i l "").
Proof.
  transitivity (nth i (map f l) (f "")); [now rewrite relabel_empty|apply map_nth].
Qed.

Lemma last_relabel l : last (map f l) "" = f (last l "").
Proof.
  induction l as [|a [|b l] IH]; [cbn; now rewrite relabel_empty|reflexivity|].
  exact IH.
Qed.

Lemma find_skip_map parts indices skip_index :
  find_skip (map f parts) indices skip_index = find_skip parts indices skip_index.
Proof.
  revert skip_index. induction indices as [|i rest IH]; intros s; [reflexivity|].
  cbn [find_skip]. rewrite nth_relabel, f_truthy, !IH. reflexivity.
Qed.

Lemma hextet_layout_map parts :
  hextet_layout (map f parts) = hextet_layout parts.
Proof.
  unfold hextet_layout.
  rewrite length_map, find_skip_map, nth_relabel, last_relabel, !f_truthy.
  reflexivity.
Qed.

End Relabel.

Section Groups.
Import PyStr PyStrFacts IpAddr IpText IpNetwork.

(** The groups a compression looks at, by name: ["0"] for a zero group and
    one letter for each other position. *)
Definition labels : list string := ["a"; "b"; "c"; "d"; "e"; "f"; "g"; "h"].

Definition shape_of (p : string * string) : string :=
  if String.eqb (fst p) "0" then "0" else snd p.

Definition shape (xs : list string) : list string :=
  map shape_of (combine xs labels).

Fixpoint relabel_in (pairs : list (string * string)) (t : string) : string :=
  match pairs with
  | [] => t
  | (x, lab) :: rest =>
      if String.eqb t lab then (if String.eqb x "0" then t else x)
      else relabel_in rest t
  end.

Definition relabel (xs : list string) : string -> string :=
  relabel_in (combine xs labels).

Definition good_pair (p : string * string) : Prop :=
  truthy (fst p) = true /\ truthy (snd p) = true /\ String.eqb (snd p) "0" = false.

Lemma relabel_in_tests pairs t :
  Forall good_pair pairs ->
  String.eqb (relabel_in pairs t) "0" = String.eqb t "0"
  /\ truthy (relabel_in pairs t) = truthy t.
Proof.
  intros H. induction H as [|[x lab] rest (Hx & Hl & Hz) _ IH]; [auto|].
  cbn [relabel_in fst snd] in *.
  destruct (String.eqb_spec t lab) as [->|_]; [|exact IH].
  destruct (String.eqb x "0") eqn:E; [auto|].
  rewrite E, Hz, Hx, Hl. auto.
Qed.

Lemma relabel_in_zero pairs :
  Forall good_pair pairs -> relabel_in pairs "0" = "0".
Proof.
  intros H. apply String.eqb_eq.
  now rewrite (proj1 (relabel_in_tests pairs "0" H)).
Qed.

Lemma relabel_in_own pairs x lab :
  NoDup (map snd pairs) -> In (x, lab) pairs -> String.eqb x "0" = false ->
  relabel_in pairs lab = x.
Proof.
  intros Hnd Hin Hx. induction pairs as [|[x' lab'] rest IH]; [contradiction|].
  cbn [map snd] in Hnd. inversion Hnd as [|? ? Hnot Hnd']; subst.
  cbn [relabel_in]. destruct Hin as [E|Hin].
  - injection E as -> ->. now rewrite String.eqb_refl, Hx.
  - destruct (String.eqb_spec lab lab') as [->|_]; [|now apply IH].
    exfalso. apply Hnot. apply in_map_iff. now exists (x, lab').
Qed.

Lemma relabel_in_shape pairs :
  Forall good_pair pairs -> NoDup (map snd pairs) ->
  map (relabel_in pairs) (map shape_of pairs) = map fst pairs.
Proof.
  intros Hg Hnd. rewrite map_map. apply map_ext_in. intros [x lab] Hin.
  unfold shape_of. cbn [fst snd].
  destruct (String.eqb_spec x "0") as [->|Hne].
  - now apply relabel_in_zero.
  - apply relabel_in_own; [exact Hnd|exact Hin|].
    now apply String.eqb_neq.
Qed.

Lemma combine_labels xs :
  List.length xs = 8%nat -> Forall (fun x => truthy x = true) xs ->
  map fst (combine xs labels) = xs
  /\ Forall good_pair (combine xs labels)
  /\ NoDup (map snd (combine xs labels)).
Proof.
  intros Hlen Hxs.
  do 8 (destruct xs as [|? xs]; [discriminate|]).
  destruct xs; [|discriminate].
  repeat match goal with
         | H : Forall _ (_ :: _) |- _ =>
             let Hx := fresh "Hx" in
             apply Forall_cons_iff in H; destruct H as [Hx H]
         end.
  split; [reflexivity|]. split.
  - cbn [combine labels]. repeat constructor; assumption.
  - cbn. repeat constructor; cbn; intuition discriminate.
Qed.

(** The test made of each shape: the compressed groups have from three to
    nine parts, and the parts before and after the ['::'], with ["0"] for
    each skipped group, are the groups. *)
Definition list_eqb (l l' : list string) : bool :=
  Nat.eqb (List.length l) (List.length l')
  && forallb (fun p => String.eqb (fst p) (snd p)) (combine l l').

Definition expands_to (c l : list string) : bool :=
  Nat.leb 3 (List.length c) && Nat.leb (List.length c) 9
  && match hextet_layout c with
     | Some (hi, lo, sk) =>
         list_eqb (firstn hi c ++ repeat "0" sk ++ skipn (List.length c - lo) c) l
     | None => false
     end.

Lemma list_eqb_eq l l' : list_eqb l l' = true -> l = l'.
Proof.
  unfold list_eqb. revert l'.
  induction l as [|a l IH]; intros [|b l'] H; try discriminate; [reflexivity|].
  cbn in H. apply andb_true_iff in H as [Hlen H].
  apply andb_true_iff in H as [Hab H]. apply String.eqb_eq in Hab. subst.
  f_equal. apply IH. now rewrite Hlen, H.
Qed.

Lemma shapes_expand (b0 b1 b2 b3 b4 b5 b6 b7 : bool) :
  let z (b : bool) lab := if b then "0" else lab in
  let l := [z b0 "a"; z b1 "b"; z b2 "c"; z b3 "d";
            z b4 "e"; z b5 "f"; z b6 "g"; z b7 "h"] in
  expands_to (compress_hextets l) l = true.
Proof.
  destruct b0, b1, b2, b3, b4, b5, b6, b7; vm_compute; reflexivity.
Qed.

Lemma shape_expands xs :
  List.length xs = 8%nat ->
  expands_to (compress_hextets (shape xs)) (shape xs) = true.
Proof.
  intros Hlen.
  do 8 (destruct xs as [|? xs]; [discriminate|]).
  destruct xs; [|discriminate].
  apply shapes_expand.
Qed.

End Groups.

Section Ipv6Text.
Import PyStr PyStrFacts IpAddr IpText IpNetwork.

Lemma in_firstn {A} (x : A) n l : In x (firstn n l) -> In x l.
Proof. intros H. rewrite <- (firstn_skipn n l). apply in_or_app. now left. Qed.

Lemma in_skipn {A} (x : A) n l : In x (skipn n l) -> In x l.
Proof. intros H. rewrite <- (firstn_skipn n l). apply in_or_app. now right. Qed.

(** The compressed groups are groups of the list, or empty. *)
Lemma compress_hextets_incl l t :
  In t (compress_hextets l) -> In t l \/ t = "".
Proof.
  unfold compress_hextets.
  destruct (scan (None, 0%nat, None, 0%nat) 0 l) as [[[bs bl] s] n].
  destruct bs as [b|]; [|auto].
  destruct (Nat.ltb 1 bl); [|auto].
  assert (H1 : forall hs1, (forall x, In x hs1 -> In x l \/ x = "") ->
                           In t (firstn b hs1 ++ [""] ++ skipn (b + bl) hs1) ->
                           In t l \/ t = "").
  { intros hs1 Hhs H. apply in_app_or in H as [H|H].
    - apply Hhs. exact (in_firstn _ _ _ H).
    - apply in_app_or in H as [[<-|[]]|H]; [now right|].
      apply Hhs. exact (in_skipn _ _ _ H). }
  assert (H2 : forall x, In x (l ++ [""]) -> In x l \/ x = "").
  { intros x H. apply in_app_or in H as [H|[<-|[]]]; auto. }
  assert (H3 : forall x, In x l -> In x l \/ x = "") by auto.
  destruct (Nat.eqb (b + bl) (List.length l)); destruct (Nat.eqb b 0%nat);
    intros H.
  - destruct H as [<-|H]; [now right|exact (H1 _ H2 H)].
  - exact (H1 _ H2 H).
  - destruct H as [<-|H]; [now right|exact (H1 _ H3 H)].
  - exact (H1 _ H3 H).
Qed.

Lemma compress_hextets_Forall (P : string -> Prop) l :
  P "" -> Forall P l -> Forall P (compress_hextets l).
Proof.
  intros H0 H. apply Forall_forall. intros t Ht.
  apply compress_hextets_incl in Ht as [Ht| ->]; [|exact H0].
  rewrite Forall_forall in H. now apply H.
Qed.

Lemma last_Forall (P : string -> Prop) l : P "" -> Forall P l -> P (last l "").
Proof.
  intros H0 H. induction H as [|a l Ha Hl IH]; [exact H0|].
  destruct l; [exact Ha|exact IH].
Qed.

Lemma truthy_join2 sep p q ps : truthy sep = true ->
  truthy (join sep (p :: q :: ps)) = true.
Proof.
  intros H. rewrite join_cons. destruct p; [|reflexivity].
  change (truthy (sep ++ join sep (q :: ps)) = true). now apply truthy_app.
Qed.

Lemma parse_hextets_app acc l l' :
  parse_hextets acc (l ++ l')
  = match parse_hextets acc l with
    | Some a => parse_hextets a l'
    | None => None
    end.
Proof.
  revert acc. induction l as [|p l IH]; intros acc; [reflexivity|].
  cbn [app parse_hextets]. destruct (_parse_hextet p); [apply IH|reflexivity].
Qed.

Lemma parse_hextets_zeros acc k l :
  parse_hextets acc (repeat "0" k ++ l)
  = parse_hextets (N.shiftl acc (16 * N.of_nat k)) l.
Proof.
  revert acc. induction k as [|k IH]; intros acc.
  - cbn [repeat app]. now rewrite N.mul_0_r, N.shiftl_0_r.
  - cbn [repeat app].
    change (parse_hextets acc ("0" :: repeat "0" k ++ l))
      with (parse_hextets (N.lor (N.shiftl acc 16) 0) (repeat "0" k ++ l)).
    rewrite N.lor_0_r, IH, N.shiftl_shiftl. f_equal. f_equal. lia.
Qed.

(** The text of compressed groups is read back as the groups. *)
Lemma groups_read_back xs :
  List.length xs = 8%nat ->
  Forall (fun x => truthy x = true) xs ->
  Forall (fun x => free_of ":" x = true) xs ->
  Forall (fun x => free_of "." x = true) xs ->
  ip6_int_from_string (join ":" (compress_hextets xs)) = parse_hextets 0 xs.
Proof.
  intros Hlen Ht Hc Hd.
  destruct (combine_labels xs Hlen Ht) as (Hfst & Hgood & Hnd).
  pose proof (relabel_in_shape _ Hgood Hnd) as Hmap. rewrite Hfst in Hmap.
  fold (shape xs) in Hmap. fold (relabel xs) in Hmap.
  assert (Hz : forall t, String.eqb (relabel xs t) "0" = String.eqb t "0")
    by (intros t; apply relabel_in_tests, Hgood).
  assert (Hy : forall t, truthy (relabel xs t) = truthy t)
    by (intros t; apply relabel_in_tests, Hgood).
  pose proof (shape_expands xs Hlen) as Hex. unfold expands_to in Hex.
  apply andb_true_iff in Hex as [Hex Hlay].
  apply andb_true_iff in Hex as [H3 H9].
  destruct (hextet_layout (compress_hextets (shape xs)))
    as [[[hi lo] sk]|] eqn:El; [|discriminate].
  apply list_eqb_eq in Hlay.
  apply (f_equal (map (relabel xs))) in Hlay.
  rewrite !map_app, <- firstn_map, <- skipn_map, map_repeat in Hlay.
  rewrite (relabel_zero _ Hz), <- (compress_hextets_map _ Hz Hy), Hmap in Hlay.
  rewrite <- (length_map (relabel xs)), <- (compress_hextets_map _ Hz Hy), Hmap
    in H3, H9, Hlay.
  rewrite <- (hextet_layout_map _ Hy), <- (compress_hextets_map _ Hz Hy), Hmap
    in El.
  set (c := compress_hextets xs) in *.
  assert (Hcc : Forall (fun x => free_of ":" x = true) c)
    by (apply compress_hextets_Forall; [reflexivity|exact Hc]).
  assert (Hcd : Forall (fun x => free_of "." x = true) c)
    by (apply compress_hextets_Forall; [reflexivity|exact Hd]).
  assert (Hne : c <> []) by (intros E; rewrite E in H3; discriminate).
  unfold ip6_int_from_string.
  destruct c as [|p [|q ps]] eqn:Ec; [discriminate|discriminate|].
  rewrite truthy_join2 by reflexivity. rewrite <- Ec in *. cbn [negb].
  rewrite (split_join ":" c Hne Hcc).
  apply Nat.leb_le in H3, H9.
  destruct (Nat.ltb_spec (List.length c) 3) as [Hlt|_]; [lia|].
  unfold ipv4_suffix. rewrite mem_free.
  rewrite (last_Forall (fun x => free_of "." x = true) c eq_refl Hcd).
  cbn [negb].
  destruct (Nat.ltb_spec 9 (List.length c)) as [Hlt|_]; [lia|].
  rewrite El.
  transitivity (parse_hextets 0 (firstn hi c ++ repeat "0" sk
                                 ++ skipn (List.length c - lo) c));
    [|now rewrite Hlay].
  rewrite parse_hextets_app.
  destruct (parse_hextets 0 (firstn hi c)); [|reflexivity].
  now rewrite parse_hextets_zeros.
Qed.

End Ipv6Text.

Section Ipv6Value.
Import PyStr PyStrFacts IpAddr IpText IpNetwork.

Definition hextet_ok (h : N) : bool :=
  match _parse_hextet (hex_short h) with
  | Some v => N.eqb v h
  | None => false
  end
  && truthy (hex_short h)
  && free_of ":" (hex_short h) && free_of "." (hex_short h)
  && free_of "%" (hex_short h) && free_of "/" (hex_short h).

(** A property checked on every number of [k] bits. *)
Fixpoint all_bits (k : nat) (P : N -> bool) : bool :=
  match k with
  | O => P 0%N
  | S k' => all_bits k' (fun n => P (2 * n)%N) && all_bits k' (fun n => P (2 * n + 1)%N)
  end.

Lemma all_bits_below k :
  forall P, all_bits k P = true -> forall n, (n < 2 ^ N.of_nat k)%N -> P n = true.
Proof.
  induction k as [|k IH]; intros P H n Hn.
  - cbn in Hn. assert (n = 0%N) as -> by lia. exact H.
  - cbn [all_bits] in H. apply andb_true_iff in H as [H0 H1].
    rewrite Nat2N.inj_succ, N.pow_succ_r' in Hn.
    destruct (N.even n) eqn:Ev.
    + apply N.even_spec in Ev as [m ->]. apply (IH _ H0 m). lia.
    + assert (Od : N.odd n = true) by (rewrite <- N.negb_even, Ev; reflexivity).
      apply N.odd_spec in Od as [m ->]. apply (IH _ H1 m). lia.
Qed.

(** Every 16-bit group is read back from its text, which is not empty and
    holds none of the separators. *)
Lemma hextets_ok h : (h < 65536)%N -> hextet_ok h = true.
Proof.
  assert (E : all_bits 16 hextet_ok = true) by (vm_compute; reflexivity).
  intros Hh. apply (all_bits_below 16 hextet_ok E). exact Hh.
Qed.

Lemma hextet_facts h :
  (h < 65536)%N ->
  _parse_hextet (hex_short h) = Some h
  /\ truthy (hex_short h) = true
  /\ free_of ":" (hex_short h) = true /\ free_of "." (hex_short h) = true
  /\ free_of "%" (hex_short h) = true /\ free_of "/" (hex_short h) = true.
Proof.
  intros Hh. pose proof (hextets_ok h Hh) as H. unfold hextet_ok in H.
  repeat (apply andb_true_iff in H; destruct H as [H ?]).
  destruct (_parse_hextet (hex_short h)); [|discriminate].
  apply N.eqb_eq in H. subst. auto 10.
Qed.

Lemma hextets_lt n : Forall (fun h => (h < 65536)%N) (hextets n).
Proof.
  unfold hextets. apply Forall_forall. intros h Hh.
  apply in_map_iff in Hh as (k & <- & _).
  change 65535%N with (N.ones 16). rewrite N.land_ones.
  apply N.mod_lt. discriminate.
Qed.

Lemma hextets_length n : List.length (hextets n) = 8%nat.
Proof. reflexivity. Qed.

Lemma lor_shiftl_add a h :
  (h < 65536)%N -> N.lor (N.shiftl a 16) h = (a * 65536 + h)%N.
Proof.
  intros Hh.
  assert (E : N.land (N.shiftl a 16) h = 0%N).
  { apply N.bits_inj. intros i. rewrite N.land_spec, N.bits_0.
    destruct (N.lt_ge_cases i 16) as [Hi|Hi].
    - now rewrite N.shiftl_spec_low.
    - rewrite <- (N.mod_small h (2 ^ 16)) by exact Hh.
      rewrite N.mod_pow2_bits_high by exact Hi. apply andb_false_r. }
  rewrite <- N.lxor_lor by exact E. rewrite <- N.add_nocarry_lxor by exact E.
  now rewrite N.shiftl_mul_pow2.
Qed.

Definition of_hextets (acc : N) (hs : list N) : N :=
  fold_left (fun a h => (a * 65536 + h)%N) hs acc.

Lemma parse_hextets_values acc hs :
  Forall (fun h => (h < 65536)%N) hs ->
  parse_hextets acc (map hex_short hs) = Some (of_hextets acc hs).
Proof.
  intros H. revert acc. induction H as [|h hs Hh Hhs IH]; intros acc; [reflexivity|].
  cbn [map parse_hextets]. destruct (hextet_facts h Hh) as (-> & _).
  rewrite lor_shiftl_add by exact Hh. apply IH.
Qed.

Lemma of_hextets_hextets n : (n < 2 ^ 128)%N -> of_hextets 0 (hextets n) = n.
Proof.
  intros Hn. unfold of_hextets, hextets. cbn [seq map fold_left Nat.sub].
  change 65535%N with (N.ones 16).
  rewrite !N.land_ones, !N.shiftr_div_pow2.
  change (16 * N.of_nat 7)%N with 112%N. change (16 * N.of_nat 6)%N with 96%N.
  change (16 * N.of_nat 5)%N with 80%N. change (16 * N.of_nat 4)%N with 64%N.
  change (16 * N.of_nat 3)%N with 48%N. change (16 * N.of_nat 2)%N with 32%N.
  change (16 * N.of_nat 1)%N with 16%N. change (16 * N.of_nat 0)%N with 0%N.
  assert (D : forall j k, (2 ^ j * 65536 = 2 ^ k)%N ->
                          (n / 2 ^ j / 65536 = n / 2 ^ k)%N).
  { intros j k E. now rewrite N.Div0.div_div, E. }
  pose proof (D 112 128 eq_refl)%N as D7. pose proof (D 96 112 eq_refl)%N as D6.
  pose proof (D 80 96 eq_refl)%N as D5. pose proof (D 64 80 eq_refl)%N as D4.
  pose proof (D 48 64 eq_refl)%N as D3. pose proof (D 32 48 eq_refl)%N as D2.
  pose proof (D 16 32 eq_refl)%N as D1. pose proof (D 0 16 eq_refl)%N as D0.
  rewrite (N.div_small n (2 ^ 128)) in D7 by exact Hn.
  change (2 ^ 0)%N with 1%N in *. rewrite N.div_1_r in *.
  change (2 ^ 16)%N with 65536%N in *.
  assert (S : forall x, ((x / 65536) * 65536 + x mod 65536 = x)%N).
  { intros x. rewrite (N.div_mod x 65536) at 3 by discriminate. lia. }
  rewrite <- D7, S, <- D6, S, <- D5, S, <- D4, S, <- D3, S, <- D2, S, <- D1, S.
  apply S.
Qed.

(** The text of an IPv6 address is read back as that address. *)
Lemma ip6_int_from_string_str6 n :
  (n < 2 ^ 128)%N -> ip6_int_from_string (str6 n) = Some n.
Proof.
  intros Hn. unfold str6.
  pose proof (hextets_lt n) as Hlt.
  rewrite groups_read_back.
  - rewrite parse_hextets_values by exact Hlt. now rewrite of_hextets_hextets.
  - now rewrite length_map.
  - apply Forall_map. revert Hlt. apply Forall_impl. intros h Hh.
    apply (hextet_facts h Hh).
  - apply Forall_map. revert Hlt. apply Forall_impl. intros h Hh.
    apply (hextet_facts h Hh).
  - apply Forall_map. revert Hlt. apply Forall_impl. intros h Hh.
    apply (hextet_facts h Hh).
Qed.

Lemma str6_free n :
  free_of "." (str6 n) = true /\ free_of "%" (str6 n) = true
  /\ free_of "/" (str6 n) = true.
Proof.
  pose proof (hextets_lt n) as Hlt. unfold str6.
  repeat split; (apply free_join; [reflexivity|]);
    (apply compress_hextets_Forall; [reflexivity|]);
    apply Forall_map; revert Hlt; apply Forall_impl; intros h Hh;
    apply (hextet_facts h Hh).
Qed.

(** The text of an IPv6 address holds a colon. *)
Lemma str6_colon n : (n < 2 ^ 128)%N -> free_of ":" (str6 n) = false.
Proof.
  intros Hn. pose proof (ip6_int_from_string_str6 n Hn) as H.
  destruct (free_of ":" (str6 n)) eqn:E; [|reflexivity].
  unfold ip6_int_from_string in H. rewrite (split_free _ _ E) in H.
  destruct (truthy (str6 n)); discriminate.
Qed.

End Ipv6Value.

(** ** Networks and their text *)

Section NetworkText.
Import PyStr PyStrFacts IpAddr IpText IpNetwork.

(** What [ip_network] returns with [strict=False]: a prefix length within
    the width of the address, an address with no bit set below the prefix
    and, if there is a scope, one that can be written after a ['%']. *)
Definition scope_ok (scope_id : option string) : Prop :=
  match scope_id with
  | Some s => truthy s = true /\ free_of "%" s = true /\ free_of "/" s = true
  | None => True
  end.

Definition host_bits_zero (net : network) : Prop :=
  match net with
  | IPv4Network a p =>
      (p <= 32)%N /\ N.land a (_ip_int_from_prefix 32 p) = a
  | IPv6Network a s p =>
      (p <= 128)%N /\ N.land a (_ip_int_from_prefix 128 p) = a /\ scope_ok s
  end.

Lemma netmask_width b p :
  N.land (_ip_int_from_prefix b p) (N.ones b) = _ip_int_from_prefix b p.
Proof.
  unfold _ip_int_from_prefix, ALL_ONES. rewrite <- N.pred_sub, <- N.ones_equiv.
  apply N.bits_inj. intros i.
  rewrite N.land_spec, N.lxor_spec, N.shiftr_spec by apply N.le_0_l.
  destruct (N.lt_ge_cases i b) as [Hi|Hi].
  - rewrite (N.ones_spec_low b i) by exact Hi. apply andb_true_r.
  - rewrite !N.ones_spec_high by lia. reflexivity.
Qed.

Lemma masked_lt b a p :
  N.land a (_ip_int_from_prefix b p) = a -> (a < 2 ^ b)%N.
Proof.
  intros H. rewrite <- H, <- netmask_width, N.land_assoc, N.land_ones.
  apply N.mod_lt. apply N.pow_nonzero. discriminate.
Qed.

Lemma masked_masked a m : N.land (N.land a m) m = N.land a m.
Proof. now rewrite <- N.land_assoc, N.land_diag. Qed.

(** *** What the parsers return *)

Lemma prefix_string_le mx s p :
  _prefix_from_prefix_string mx s = Some p -> (p <= mx)%N.
Proof.
  unfold _prefix_from_prefix_string. destruct (isdigit s); [|discriminate].
  cbn [negb]. destruct (N.leb_spec (int10 s) mx); [|discriminate].
  intros E. injection E as <-. assumption.
Qed.

Lemma prefix_ip_int_le mx n p : _prefix_from_ip_int mx n = Some p -> (p <= mx)%N.
Proof.
  unfold _prefix_from_ip_int.
  destruct (N.eqb _ _); [|discriminate]. intros E. injection E as <-. lia.
Qed.

Lemma make_netmask4_le m p : make_netmask4 m = Some p -> (p <= 32)%N.
Proof.
  destruct m as [arg|]; cbn [make_netmask4].
  - destruct (_prefix_from_prefix_string 32 arg) eqn:E.
    + intros E'. injection E' as <-. exact (prefix_string_le _ _ _ E).
    + unfold _prefix_from_ip_string.
      destruct (ip4_int_from_string arg); [|discriminate].
      destruct (_prefix_from_ip_int 32 n) eqn:E1.
      * intros E'. injection E' as <-. exact (prefix_ip_int_le _ _ _ E1).
      * apply prefix_ip_int_le.
  - intros E. injection E as <-. lia.
Qed.

Lemma make_netmask6_le m p : make_netmask6 m = Some p -> (p <= 128)%N.
Proof.
  destruct m as [arg|]; cbn [make_netmask6].
  - apply prefix_string_le.
  - intros E. injection E as <-. lia.
Qed.

Lemma split1_free c s : free_of c s = true -> split1 c s = [s].
Proof.
  induction s as [|a s IH]; simpl; [reflexivity|].
  intros H. apply andb_true_iff in H as [Ha Hs].
  apply negb_true_iff in Ha. rewrite Ha, (IH Hs). reflexivity.
Qed.

Lemma split1_app c s t :
  free_of c s = true -> split1 c (s ++ String c t) = [s; t].
Proof.
  induction s as [|a s IH]; simpl.
  - intros _. now rewrite Ascii.eqb_refl.
  - intros H. apply andb_true_iff in H as [Ha Hs].
    apply negb_true_iff in Ha. rewrite Ha, (IH Hs). reflexivity.
Qed.

Lemma split_scope_ok s a sc :
  free_of "/" s = true -> _split_scope_id s = Some (a, sc) -> scope_ok sc.
Proof.
  intros Hs. unfold _split_scope_id.
  destruct (free_of "%" s) eqn:Ef.
  - rewrite (split1_free _ _ Ef). intros E. injection E as <- <-. exact I.
  - destruct (split1_cut "%" s Ef) as (label & rest & -> & E & _).
    destruct (truthy rest) eqn:Et; [|discriminate].
    rewrite mem_free. destruct (free_of "%" rest) eqn:Er; [|discriminate].
    cbn [negb orb]. intros E'. injection E' as <- <-.
    rewrite E, free_app in Hs. apply andb_true_iff in Hs as [_ Hs].
    cbn [free_of] in Hs. apply andb_true_iff in Hs as [_ Hs]. cbn. auto.
Qed.

Lemma IPv4Network_zero T net :
  IPv4Network_of_string T = Some net -> host_bits_zero net.
Proof.
  unfold IPv4Network_of_string.
  destruct (_split_addr_prefix T) as [[addr mask]|]; [|discriminate].
  destruct (IPv4Address_of_string addr) as [packed|]; [|discriminate].
  destruct (make_netmask4 mask) as [p|] eqn:Em; [|discriminate].
  intros E. injection E as <-. split.
  - exact (make_netmask4_le _ _ Em).
  - apply masked_masked.
Qed.

Lemma IPv6Network_zero T net :
  IPv6Network_of_string T = Some net -> host_bits_zero net.
Proof.
  unfold IPv6Network_of_string.
  destruct (_split_addr_prefix T) as [[addr mask]|]; [|discriminate].
  unfold IPv6Address_of_string. rewrite mem_free.
  destruct (free_of "/" addr) eqn:Ef; [|discriminate]. cbn [negb].
  destruct (_split_scope_id addr) as [[a sc]|] eqn:Es; [|discriminate].
  destruct (ip6_int_from_string a) as [packed|]; [|discriminate].
  destruct (make_netmask6 mask) as [p|] eqn:Em; [|discriminate].
  pose proof (make_netmask6_le _ _ Em) as Hp.
  destruct (N.eqb_spec (N.land packed (_ip_int_from_prefix 128 p)) packed) as [E|_];
    cbn [negb]; intros E'; injection E' as <-.
  - split; [exact Hp|]. split; [exact E|]. exact (split_scope_ok _ _ _ Ef Es).
  - split; [exact Hp|]. split; [apply masked_masked|exact I].
Qed.

Lemma ip_network_zero T net : ip_network T = Some net -> host_bits_zero net.
Proof.
  unfold ip_network. destruct (IPv4Network_of_string T) eqn:E4.
  - intros E. injection E as <-. exact (IPv4Network_zero _ _ E4).
  - apply IPv6Network_zero.
Qed.

(** *** The text of a network is read back *)

Lemma traverse_digits l bs :
  traverse _parse_octet l = Some bs ->
  Forall (fun s => all_chars is_digit s = true) l.
Proof.
  revert bs. induction l as [|s l IH]; intros bs H; [constructor|].
  cbn [traverse] in H.
  destruct (_parse_octet s) eqn:Es; [|discriminate].
  destruct (traverse _parse_octet l) eqn:El; [|discriminate].
  constructor; [|exact (IH _ eq_refl)].
  unfold _parse_octet, isdigit in Es.
  destruct (truthy s); [|discriminate]. cbn [negb andb] in Es.
  destruct (all_chars is_digit s); [reflexivity|discriminate].
Qed.

Definition digit_or_dot (c : ascii) : bool := is_digit c || Ascii.eqb c ".".

Lemma split_digits s :
  Forall (fun p => all_chars is_digit p = true) (split "." s) ->
  all_chars digit_or_dot s = true.
Proof.
  induction s as [|a s IH]; [reflexivity|].
  cbn [split all_chars]. unfold digit_or_dot at 1.
  destruct (Ascii.eqb a ".") eqn:Ea.
  - intros H. inversion H; subst. rewrite orb_true_r. now apply IH.
  - destruct (split "." s) as [|w ws] eqn:Es.
    + intros H. inversion H as [|? ? Hw _]; subst. cbn [all_chars] in Hw.
      apply andb_true_iff in Hw as [-> _]. apply IH. constructor.
    + intros H. inversion H as [|? ? Hw Hws]; subst. cbn [all_chars] in Hw.
      apply andb_true_iff in Hw as [-> Hw]. apply IH. now constructor.
Qed.

(** A text with a colon is not an IPv4 address. *)
Lemma ip4_rejects_colon s : free_of ":" s = false -> ip4_int_from_string s = None.
Proof.
  intros Hc. unfold ip4_int_from_string.
  destruct (negb (truthy s)); [reflexivity|].
  destruct (negb _); [reflexivity|].
  destruct (traverse _parse_octet (split "." s)) eqn:E; [|reflexivity].
  apply traverse_digits, split_digits in E.
  rewrite (all_chars_free _ ":" _ E eq_refl) in Hc. discriminate.
Qed.

Lemma split_addr_prefix_text addr p :
  free_of "/" addr = true ->
  _split_addr_prefix (addr ++ "/" ++ of_N p) = Some (addr, Some (of_N p)).
Proof.
  intros H. unfold _split_addr_prefix.
  change (addr ++ "/" ++ of_N p)%string with (addr ++ String "/" (of_N p))%string.
  rewrite split_app by exact H.
  rewrite split_free by (now apply of_N_free). reflexivity.
Qed.

Lemma str6_scoped_free a s :
  scope_ok s -> free_of "/" (str6_scoped a s) = true.
Proof.
  intros Hs. destruct (str6_free a) as (_ & _ & H).
  destruct s as [s|]; cbn [str6_scoped]; [|exact H].
  destruct Hs as (-> & _ & Hs). rewrite !free_app, H, Hs. reflexivity.
Qed.

Lemma str6_scoped_colon a s :
  (a < 2 ^ 128)%N -> free_of ":" (str6_scoped a s) = false.
Proof.
  intros Ha. pose proof (str6_colon a Ha) as H.
  destruct s as [s|]; cbn [str6_scoped]; [|exact H].
  destruct (truthy s); [|exact H]. now rewrite free_app, H.
Qed.

Lemma split_scope_text a s :
  scope_ok s -> _split_scope_id (str6_scoped a s) = Some (str6 a, s).
Proof.
  intros Hs. destruct (str6_free a) as (_ & H & _). unfold _split_scope_id.
  destruct s as [s|]; cbn [str6_scoped].
  - destruct Hs as (Ht & Hp & _). rewrite Ht.
    change (str6 a ++ "%" ++ s)%string with (str6 a ++ String "%" s)%string.
    rewrite split1_app by exact H. now rewrite Ht, mem_free, Hp.
  - now rewrite split1_free by exact H.
Qed.

(** The text of a network without host bits is read back as that network. *)
Lemma ip_network_str net :
  host_bits_zero net -> ip_network (str_network net) = Some net.
Proof.
  destruct net as [a p|a s p]; cbn [host_bits_zero str_network].
  - intros (Hp & Ha). pose proof (masked_lt _ _ _ Ha) as Hlt.
    unfold ip_network, IPv4Network_of_string.
    rewrite split_addr_prefix_text by (now apply str4_free).
    unfold IPv4Address_of_string.
    rewrite mem_free, (str4_free "/" a eq_refl eq_refl). cbn [negb].
    rewrite (ip4_int_from_string_str4 a Hlt). cbn [make_netmask4].
    rewrite prefix_of_N by lia. now rewrite Ha.
  - intros (Hp & Ha & Hs). pose proof (masked_lt _ _ _ Ha) as Hlt.
    pose proof (str6_scoped_free a s Hs) as Hf.
    unfold ip_network, IPv4Network_of_string, IPv6Network_of_string.
    rewrite split_addr_prefix_text by exact Hf.
    unfold IPv4Address_of_string, IPv6Address_of_string.
    rewrite mem_free, Hf. cbn [negb].
    rewrite (ip4_rejects_colon _ (str6_scoped_colon a s Hlt)).
    rewrite (split_scope_text a s Hs), (ip6_int_from_string_str6 a Hlt).
    cbn [make_netmask6]. rewrite prefix_of_N by lia.
    now rewrite Ha, N.eqb_refl.
Qed.

End NetworkText.

Section CleanClaim.
Import IpNetwork.

(** C9. [Subnet.clean] on a text that [ip_network] reads as a network (with
    [strict=False]) stores the text of that network, whose address has no
    bit set below the prefix; on the object it returns, [clean] reads the
    same network and returns the object unchanged.  On any other text it
    raises a [ValidationError]. *)
Theorem clean_is_idempotent (self : Subnet) :
  (forall net,
      ip_network (subnet_network self) = Some net ->
      exists self',
        Subnet_clean self = Ok self'
        /\ subnet_network self' = str_network net
        /\ host_bits_zero net
        /\ ip_network (subnet_network self') = Some net
        /\ Subnet_clean self' = Ok self')
  /\ (ip_network (subnet_network self) = None ->
      Subnet_clean self = Raise (ValidationError "Invalid network format.")).
Proof.
  split.
  - intros net E. pose proof (ip_network_zero _ _ E) as Hz.
    pose proof (ip_network_str net Hz) as Hr.
    exists (mkSubnet (subnet_owner self) (str_network net) (subnet_notes self)).
    unfold Subnet_clean. rewrite E. cbn [subnet_network subnet_owner subnet_notes].
    rewrite Hr. auto.
  - intros E. unfold Subnet_clean. now rewrite E.
Qed.

Lemma clean_is_idempotent_witness :
  ip_network (subnet_network Sample.slop_22)
  = Some (IPv4Network 167772160 22)
  /\ Subnet_clean Sample.slop_22 = Ok Sample.net_22
  /\ Subnet_clean Sample.net_22 = Ok Sample.net_22.
Proof.
  assert (E : ip_network (subnet_network Sample.slop_22)
              = Some (IPv4Network 167772160 22)) by (vm_compute; reflexivity).
  destruct (proj1 (clean_is_idempotent Sample.slop_22) _ E)
    as (self' & H1 & H2 & _ & _ & H3).
  assert (E' : self' = Sample.net_22).
  { assert (Ec : Subnet_clean Sample.slop_22 = Ok Sample.net_22)
      by (vm_compute; reflexivity).
    congruence. }
  rewrite E' in H1, H3. exact (conj E (conj H1 H3)).
Defined.

(** An IPv6 network keeps its scope when no host bit was set; an IPv4-style
    suffix is written as two groups. *)
Example clean_scoped_64 :
  Subnet_clean Sample.scoped_64 = Ok (mkSubnet None "fe80::%eth0/64" "").
Proof. vm_compute. reflexivity. Qed.

Example clean_mapped_96 :
  Subnet_clean Sample.mapped_96 = Ok (mkSubnet None "::ffff:a00:0/112" "").
Proof. vm_compute. reflexivity. Qed.

Example clean_two_slashes :
  Subnet_clean (mkSubnet None "10.0.0.0/32/1" "")
  = Raise (ValidationError "Invalid network format.").
Proof. vm_compute. reflexivity. Qed.

End CleanClaim.

(** * Further properties of the models *)

(** ** Saves that leave the records alone *)

(** The record table and its key counter are the same in both states. *)
Definition same_records (w w' : World) : Prop :=
  records (db w') = records (db w)
  /\ next_record_id (db w') = next_record_id (db w).

Lemma same_records_trans w1 w2 w3 :
  same_records w1 w2 -> same_records w2 w3 -> same_records w1 w3.
Proof. intros [A1 A2] [B1 B2]. split; congruence. Qed.

Lemma super_save_same_records self w :
  same_records w (snd (IPAddress_super_save self w)).
Proof.
  unfold IPAddress_super_save, bind, get_db.
  destruct (host_pk (ip_host self)); [|now split].
  destruct (existsb _ _); [now split|].
  destruct (negb _); [now split|].
  destruct (ip_pk self); [destruct (existsb _ _)|]; now split.
Qed.

Section QuietSave.
Variable ROOT_DOMAIN : string.

(** [Model.delete] on an assignment whose [auto_dns] is not set. *)
Lemma delete_quiet self w :
  truthy_flag (ip_auto_dns self) = false ->
  same_records w (snd (IPAddress_delete ROOT_DOMAIN self w))
  /\ forall s w1, IPAddress_delete ROOT_DOMAIN self w = (Ok s, w1) ->
                  s = with_pk self None.
Proof.
  intros Hflag. unfold IPAddress_delete.
  destruct (ip_pk self) as [pk|]; [|split; [now split|discriminate]].
  unfold remote_dns_hook. rewrite Hflag.
  unfold bind, atomic. cbn [ret]. rewrite delete_ipaddress_row_run.
  split; [now split|]. intros s w1 E. now injection E as <- _.
Qed.

(** X1. [IPAddress.save] of an assignment whose [auto_dns] is not set leaves
    the record table as it was, whether the save returns or raises: no
    record is created, and the records an earlier save made for the stored
    row stay. *)
Theorem save_without_auto_dns_keeps_records (self : IPAddress) (w : World) :
  truthy_flag (ip_auto_dns self) = false ->
  records (db (snd (IPAddress_save ROOT_DOMAIN self w))) = records (db w)
  /\ next_record_id (db (snd (IPAddress_save ROOT_DOMAIN self w)))
     = next_record_id (db w).
Proof.
  intros Hflag. change (same_records w (snd (IPAddress_save ROOT_DOMAIN self w))).
  unfold IPAddress_save, atomic.
  match goal with |- context [match ?b w with _ => _ end] =>
    destruct (b w) as [[s'|e] w'] eqn:E end; [|now split].
  cbn [snd]. unfold bind at 1 in E.
  destruct (truthy_pk (ip_pk self)).
  - destruct (delete_quiet self w Hflag) as [Hd Hs].
    unfold bind at 1 in E.
    destruct (IPAddress_delete ROOT_DOMAIN self w) as [[s|e] w1] eqn:Ed;
      [|discriminate].
    rewrite (Hs s w1 eq_refl) in E. cbn [ret] in E.
    change (ip_auto_dns (with_pk (with_pk self None) None))
      with (ip_auto_dns self) in E.
    rewrite Hflag in E. unfold bind in E. cbn [ret] in E.
    pose proof (super_save_same_records (with_pk (with_pk self None) None) w1)
      as Hsup.
    destruct (IPAddress_super_save _ w1) as [[s2|e] w2]; [|discriminate].
    injection E as _ <-. exact (same_records_trans _ _ _ Hd Hsup).
  - cbn [ret] in E. rewrite Hflag in E. unfold bind in E. cbn [ret] in E.
    pose proof (super_save_same_records self w) as Hsup.
    destruct (IPAddress_super_save self w) as [[s2|e] w2]; [|discriminate].
    injection E as _ <-. exact Hsup.
Qed.

End QuietSave.

Lemma save_without_auto_dns_keeps_records_witness :
  records (db (snd (IPAddress_save Sample.root Sample.quiet_5 Sample.w_5)))
  = [Sample.a_foo; Sample.ptr_foo].
Proof.
  exact (proj1 (save_without_auto_dns_keeps_records Sample.root
                  Sample.quiet_5 Sample.w_5
                  eq_refl)).
Defined.

(** ** The row of a saved assignment *)

Section SavedRow.
Variable ROOT_DOMAIN : string.

(** [Model.delete] on an assignment with a key, when it returns: the row of
    that key is gone, the other tables are as they were. *)
Lemma delete_Ok_tables (self s : IPAddress) (pk : N) (w w1 : World) :
  ip_pk self = Some pk ->
  IPAddress_delete ROOT_DOMAIN self w = (Ok s, w1) ->
  s = with_pk self None
  /\ ipaddresses (db w1)
     = filter (fun r => negb (N.eqb (iprow_pk r) pk)) (ipaddresses (db w))
  /\ next_ip_pk (db w1) = next_ip_pk (db w)
  /\ hosts (db w1) = hosts (db w)
  /\ domains (db w1) = domains (db w).
Proof.
  intros Hpk. unfold IPAddress_delete. rewrite Hpk.
  unfold bind at 1. unfold atomic. unfold bind at 1.
  pose proof (records_only_hook ROOT_DOMAIN self w) as (Hh & Hi & Hd & _ & Hn).
  destruct (remote_dns_hook ROOT_DOMAIN self w) as [[[]|e] wh]; [|discriminate].
  cbn [snd] in *. rewrite delete_ipaddress_row_run. cbn [ret].
  intros E. injection E as <- <-. cbn. rewrite Hi, Hn, Hh, Hd. auto.
Qed.

(** [super().save] of an assignment without a key returns the object with
    the next key. *)
Lemma super_save_new_key (s s' : IPAddress) (w w' : World) :
  ip_pk s = None ->
  IPAddress_super_save s w = (Ok s', w') ->
  s' = with_pk s (Some (next_ip_pk (db w))).
Proof.
  intros Hpk. unfold IPAddress_super_save, bind, get_db. rewrite Hpk.
  destruct (host_pk (ip_host s)); [|discriminate].
  destruct (existsb _ _); [discriminate|].
  destruct (negb _); [discriminate|].
  cbn. intros E. now injection E as <- _.
Qed.

(** The second stage of [IPAddress.save], when it returns, leaves the tables
    of hosts, assignments and zones as they were. *)
Lemma add_stage_tables (s : IPAddress) (w w' : World) :
  truthy_pk (ip_pk s) = false ->
  (if truthy_flag (ip_auto_dns s) then IPAddress__add_dns ROOT_DOMAIN s
   else ret tt) w = (Ok tt, w') ->
  same_tables w w'.
Proof.
  intros Hpk. destruct (truthy_flag (ip_auto_dns s)).
  - apply (add_dns_tables ROOT_DOMAIN s w w' Hpk).
  - intros E. injection E as <-. apply same_tables_refl.
Qed.

(** X2. [IPAddress.save] of a stored assignment replaces its row: when the
    save returns, the object has the next key of the table, its row is the
    last one, and no row has the former key any more. *)
Theorem save_gives_a_fresh_key (self orig s' : IPAddress) (pk : N)
    (w w' : World) :
  ip_pk self = Some pk -> pk <> 0%N ->
  stored_ip (db w) pk = Ok orig ->
  (pk < next_ip_pk (db w))%N ->
  IPAddress_save ROOT_DOMAIN self w = (Ok s', w') ->
  exists host_id,
    host_pk (ip_host self) = Some host_id
    /\ s' = with_pk self (Some (next_ip_pk (db w)))
    /\ ipaddresses (db w')
       = filter (fun r => negb (N.eqb (iprow_pk r) pk)) (ipaddresses (db w))
         ++ [row_of self (next_ip_pk (db w)) host_id]
    /\ next_ip_pk (db w') = N.succ (next_ip_pk (db w))
    /\ forall r, In r (ipaddresses (db w')) -> iprow_pk r <> pk.
Proof.
  intros Hpk Hnz Hst Hlt Hsave.
  destruct (save_Ok_stages ROOT_DOMAIN self orig s' pk w w' Hpk Hnz Hst Hsave)
    as (wA & wB & Hdel & Hadd & Hsup).
  destruct (delete_Ok_tables self _ pk w wA Hpk Hdel) as (_ & HiA & HnA & _ & _).
  destruct (add_stage_tables (with_pk self None) wA wB eq_refl Hadd)
    as (_ & HiB & _ & _ & HnB).
  destruct (super_save_Ok (with_pk self None) s' wB w' eq_refl Hsup)
    as (host_id & Hhost & Hi & Hn & _).
  pose proof (super_save_new_key (with_pk self None) s' wB w' eq_refl Hsup) as Hs.
  rewrite HiB, HiA, HnB, HnA in Hi. rewrite HnB, HnA in Hn, Hs.
  exists host_id. split; [exact Hhost|]. split; [exact Hs|].
  split; [exact Hi|]. split; [exact Hn|].
  intros r Hr. rewrite Hi in Hr. apply in_app_or in Hr as [Hr|[<-|[]]].
  - apply filter_In in Hr as [_ Hr]. apply negb_true_iff in Hr.
    now apply N.eqb_neq.
  - cbn. lia.
Qed.

End SavedRow.

Lemma save_gives_a_fresh_key_witness :
  exists w',
    IPAddress_save Sample.root Sample.moved_5 Sample.w_5
    = (Ok (with_pk Sample.moved_5 (Some 2%N)), w')
    /\ map iprow_pk (ipaddresses (db w')) = [2%N].
Proof.
  pose (w' := snd (IPAddress_save Sample.root Sample.moved_5 Sample.w_5)).
  pose (s' := with_pk Sample.moved_5 (Some 2%N)).
  assert (Hrun : IPAddress_save Sample.root Sample.moved_5 Sample.w_5 = (Ok s', w'))
    by (vm_compute; reflexivity).
  clearbody w'.
  destruct (save_gives_a_fresh_key Sample.root Sample.moved_5 Sample.stored_5 s'
              1 Sample.w_5 w' eq_refl ltac:(discriminate) eq_refl eq_refl Hrun)
    as (host_id & _ & _ & Hi & _).
  exists w'. split; [exact Hrun|]. rewrite Hi. reflexivity.
Defined.

(** ** Saves that cannot return *)

Section SaveFails.
Variable ROOT_DOMAIN : string.

(** [super().save] when another row holds the address. *)
Lemma super_save_taken (s : IPAddress) (row : IPAddressRow) (w : World) :
  In row (ipaddresses (db w)) ->
  IpAddr.eqb (iprow_ip row) (ip_ip s) = true ->
  iprow_pk row <> match ip_pk s with Some k => k | None => next_ip_pk (db w) end ->
  exists e,
    IPAddress_super_save s w = (Raise e, w)
    /\ (host_pk (ip_host s) <> None -> e = IntegrityError "ip").
Proof.
  intros Hin Hip Hpk. unfold IPAddress_super_save, bind, get_db.
  destruct (host_pk (ip_host s)) as [host_id|].
  - assert (E : existsb (fun r => IpAddr.eqb (iprow_ip r) (ip_ip s))
                  (filter (fun r => negb (N.eqb (iprow_pk r)
                     match ip_pk s with Some k => k | None => next_ip_pk (db w) end))
                     (ipaddresses (db w))) = true).
    { apply existsb_exists. exists row. split; [|exact Hip].
      apply filter_In. split; [exact Hin|].
      apply negb_true_iff. now apply N.eqb_neq. }
    rewrite E. exists (IntegrityError "ip"). now split.
  - exists ValueError. split; [reflexivity|]. intros H. now elim H.
Qed.

(** The body of [IPAddress.save] after its first stage. *)
Definition save_rest (s : IPAddress) : M IPAddress :=
  (if truthy_flag (ip_auto_dns s) then IPAddress__add_dns ROOT_DOMAIN s
   else ret tt) ;;;
  IPAddress_super_save s.

Lemma save_rest_taken (s : IPAddress) (row : IPAddressRow) (w : World) :
  ip_pk s = None ->
  In row (ipaddresses (db w)) ->
  IpAddr.eqb (iprow_ip row) (ip_ip s) = true ->
  iprow_pk row <> next_ip_pk (db w) ->
  exists e w',
    save_rest s w = (Raise e, w')
    /\ (truthy_flag (ip_auto_dns s) = false -> host_pk (ip_host s) <> None ->
        e = IntegrityError "ip").
Proof.
  intros Hpk Hin Hip Hne. unfold save_rest, bind.
  destruct ((if truthy_flag (ip_auto_dns s)
             then IPAddress__add_dns ROOT_DOMAIN s else ret tt) w)
    as [[[]|e] w1] eqn:E.
  - assert (Hpk' : truthy_pk (ip_pk s) = false) by now rewrite Hpk.
    destruct (add_stage_tables ROOT_DOMAIN s w w1 Hpk' E) as (_ & Hi & _ & _ & Hn).
    destruct (super_save_taken s row w1) as (e & Hrun & He).
    + now rewrite Hi.
    + exact Hip.
    + now rewrite Hpk, Hn.
    + rewrite Hrun. exists e, w1. split; [reflexivity|]. intros _. exact He.
  - exists e, w1. split; [reflexivity|]. intros Hflag. rewrite Hflag in E.
    discriminate.
Qed.

(** X3. [IPAddress.save] of an assignment whose address another row holds
    never returns: it raises, and every table is what it was.  For a new
    assignment of a saved host with [auto_dns] not set, the exception is the
    [IntegrityError] of the unique address. *)
Theorem save_refuses_a_taken_address (self : IPAddress) (row : IPAddressRow)
    (w : World) :
  In row (ipaddresses (db w)) ->
  IpAddr.eqb (iprow_ip row) (ip_ip self) = true ->
  ip_pk self <> Some (iprow_pk row) ->
  iprow_pk row <> next_ip_pk (db w) ->
  exists e w',
    IPAddress_save ROOT_DOMAIN self w = (Raise e, w')
    /\ db w' = db w
    /\ (ip_pk self = None -> truthy_flag (ip_auto_dns self) = false ->
        host_pk (ip_host self) <> None -> e = IntegrityError "ip").
Proof.
  intros Hin Hip Hself Hnext.
  assert (Hbody : exists e w1,
             (s <- (if truthy_pk (ip_pk self)
                    then s <- IPAddress_delete ROOT_DOMAIN self ;;
                         ret (with_pk s None)
                    else ret self) ;;
              save_rest s) w = (Raise e, w1)
             /\ (ip_pk self = None -> truthy_flag (ip_auto_dns self) = false ->
                 host_pk (ip_host self) <> None -> e = IntegrityError "ip")).
  { unfold bind at 1. destruct (truthy_pk (ip_pk self)) eqn:Htruthy.
    - destruct (ip_pk self) as [pk|] eqn:Hpk; [|discriminate].
      unfold bind at 1.
      destruct (IPAddress_delete ROOT_DOMAIN self w) as [[s|e] w1] eqn:Hdel.
      + destruct (delete_Ok_tables ROOT_DOMAIN self s pk w w1 Hpk Hdel)
          as (-> & Hi & Hn & _ & _).
        cbn [ret].
        destruct (save_rest_taken (with_pk (with_pk self None) None) row w1)
          as (e & w2 & Hrun & _).
        * reflexivity.
        * rewrite Hi. apply filter_In. split; [exact Hin|].
          apply negb_true_iff, N.eqb_neq. congruence.
        * exact Hip.
        * now rewrite Hn.
        * exists e, w2. split; [exact Hrun|]. discriminate.
      + exists e, w1. split; [reflexivity|]. discriminate.
    - cbn [ret]. destruct (ip_pk self) as [pk|] eqn:Hpk.
      + (* a key that counts as none: the row is updated in place *)
        unfold save_rest, bind.
        destruct ((if truthy_flag (ip_auto_dns self)
                   then IPAddress__add_dns ROOT_DOMAIN self else ret tt) w)
          as [[[]|e] w1] eqn:E.
        * assert (Hpk' : truthy_pk (ip_pk self) = false) by now rewrite Hpk.
          destruct (add_stage_tables ROOT_DOMAIN self w w1 Hpk' E)
            as (_ & Hi & _ & _ & Hn).
          destruct (super_save_taken self row w1) as (e & Hrun & _).
          -- now rewrite Hi.
          -- exact Hip.
          -- rewrite Hpk. congruence.
          -- rewrite Hrun. exists e, w1. split; [reflexivity|]. discriminate.
        * exists e, w1. split; [reflexivity|]. discriminate.
      + destruct (save_rest_taken self row w Hpk Hin Hip Hnext)
          as (e & w1 & Hrun & He).
        exists e, w1. split; [exact Hrun|]. intros _. exact He. }
  destruct Hbody as (e & w1 & Hrun & He).
  exists e. eexists. split; [|split; [|exact He]].
  - unfold IPAddress_save. apply atomic_Raise. exact Hrun.
  - reflexivity.
Qed.

Lemma add_dns_no_root (s : IPAddress) (w : World) (e : Exception) :
  truthy_pk (ip_pk s) = false ->
  stored_domain (db w) ROOT_DOMAIN = Raise e ->
  IPAddress__add_dns ROOT_DOMAIN s w = (Raise e, w).
Proof.
  intros Hpk Hroot. rewrite add_dns_stages by exact Hpk.
  unfold bind at 1. unfold add_forward. unfold bind at 1.
  now rewrite Domain_objects_get_run, Hroot.
Qed.

(** X4. Without exactly one zone named [ROOT_DOMAIN], [IPAddress.save] of an
    assignment with [auto_dns] set never returns: it raises, and every table
    is what it was.  For an assignment without a key the exception is that
    of the lookup of the zone ([Domain.DoesNotExist] when there is none): it
    is not caught the way a missing reverse zone is. *)
Theorem save_needs_the_root_zone (self : IPAddress) (w : World) (e : Exception) :
  stored_domain (db w) ROOT_DOMAIN = Raise e ->
  truthy_flag (ip_auto_dns self) = true ->
  exists e' w',
    IPAddress_save ROOT_DOMAIN self w = (Raise e', w')
    /\ db w' = db w
    /\ (truthy_pk (ip_pk self) = false -> e' = e).
Proof.
  intros Hroot Hflag.
  assert (Hbody : exists e' w1,
             (s <- (if truthy_pk (ip_pk self)
                    then s <- IPAddress_delete ROOT_DOMAIN self ;;
                         ret (with_pk s None)
                    else ret self) ;;
              save_rest s) w = (Raise e', w1)
             /\ (truthy_pk (ip_pk self) = false -> e' = e)).
  { unfold bind at 1. destruct (truthy_pk (ip_pk self)) eqn:Htruthy.
    - destruct (ip_pk self) as [pk|] eqn:Hpk; [|discriminate].
      unfold bind at 1.
      destruct (IPAddress_delete ROOT_DOMAIN self w) as [[s|e0] w1] eqn:Hdel.
      + destruct (delete_Ok_tables ROOT_DOMAIN self s pk w w1 Hpk Hdel)
          as (-> & _ & _ & _ & Hd).
        cbn [ret]. unfold save_rest.
        change (ip_auto_dns (with_pk (with_pk self None) None))
          with (ip_auto_dns self).
        rewrite Hflag. unfold bind. rewrite add_dns_no_root with (e := e).
        * exists e, w1. split; [reflexivity|]. discriminate.
        * reflexivity.
        * unfold stored_domain in *. now rewrite Hd.
      + exists e0, w1. split; [reflexivity|]. discriminate.
    - cbn [ret]. unfold save_rest. rewrite Hflag. unfold bind.
      rewrite (add_dns_no_root self w e Htruthy Hroot).
      exists e, w. split; [reflexivity|]. auto. }
  destruct Hbody as (e' & w1 & Hrun & He).
  exists e'. eexists. split; [|split; [|exact He]].
  - unfold IPAddress_save. apply atomic_Raise. exact Hrun.
  - reflexivity.
Qed.

End SaveFails.

Lemma save_refuses_a_taken_address_witness :
  exists w',
    IPAddress_save Sample.root Sample.quiet_dup_5 Sample.w_5
    = (Raise (IntegrityError "ip"), w')
    /\ db w' = db Sample.w_5.
Proof.
  destruct (save_refuses_a_taken_address Sample.root Sample.quiet_dup_5
              Sample.row_5 Sample.w_5 (or_introl eq_refl) eq_refl
              ltac:(discriminate) ltac:(discriminate))
    as (e & w' & Hrun & Hdb & He).
  exists w'. rewrite <- (He eq_refl eq_refl ltac:(discriminate)).
  exact (conj Hrun Hdb).
Defined.

Lemma save_needs_the_root_zone_witness :
  exists w',
    IPAddress_save Sample.root Sample.new_5 Sample.w_no_zone
    = (Raise (DoesNotExist "Domain"), w')
    /\ db w' = db Sample.w_no_zone.
Proof.
  destruct (save_needs_the_root_zone Sample.root Sample.new_5 Sample.w_no_zone
              (DoesNotExist "Domain") eq_refl eq_refl)
    as (e & w' & Hrun & Hdb & He).
  exists w'. rewrite <- (He eq_refl). exact (conj Hrun Hdb).
Defined.

(** ** Saving a host *)

Section HostSave.
Variable ROOT_DOMAIN : string.

(** X5. [Host.save] reaches the assignments and the records only on a change
    of a name that was not empty: for a new host, for a host saved under
    the name it has, and for a host whose stored name is empty, the tables
    of assignments and of records and the log are what they were, whether
    the save returns or raises. *)
Theorem host_save_without_rename (self : Host) (w : World) :
  (forall pk h, host_pk self = Some pk -> stored_host (db w) pk = Ok h ->
                hostrow_name h = host_name self \/ hostrow_name h = "") ->
  let w' := snd (Host_save ROOT_DOMAIN self w) in
  records (db w') = records (db w)
  /\ ipaddresses (db w') = ipaddresses (db w)
  /\ history w' = history w.
Proof.
  intros Hname. cbv zeta.
  assert (Hrun : Host_save ROOT_DOMAIN self w
                 = (self' <- Host_super_save self ;; ret self') w
                 \/ exists e, Host_save ROOT_DOMAIN self w = (Raise e, w)).
  { unfold Host_save, bind, ret.
    destruct (host_pk self) as [pk|] eqn:Hpk.
    - rewrite !Host_objects_get_run.
      destruct (stored_host (db w) pk) as [h|e] eqn:Hst;
        [|right; exists e; reflexivity].
      assert (Hch : name_changed (Some (hostrow_name h)) self = false).
      { unfold name_changed.
        destruct (Hname pk h eq_refl Hst) as [E|E]; rewrite E.
        - now rewrite String.eqb_refl, andb_false_r.
        - reflexivity. }
      rewrite ?Hch. left.
      destruct (Host_super_save self w) as [[s|e] w1]; rewrite ?Hch; reflexivity.
    - left. cbn [name_changed].
      destruct (Host_super_save self w) as [[s|e] w1]; reflexivity. }
  destruct Hrun as [-> | [e ->]]; [|auto].
  pose proof (Host_super_save_frame self w) as (Hr & _ & Hh & Hi).
  unfold bind. cbn [ret].
  destruct (Host_super_save self w) as [[s|e] w1]; cbn [snd] in *; auto.
Qed.

(** X6. [Host.save] of an object whose key no row of the host table has
    raises [Host.DoesNotExist] and writes nothing: the object is not
    inserted under that key. *)
Theorem host_save_unknown_key (self : Host) (pk : N) (w : World) :
  host_pk self = Some pk ->
  (forall h, In h (hosts (db w)) -> hostrow_pk h <> pk) ->
  Host_save ROOT_DOMAIN self w = (Raise (DoesNotExist "Host"), w).
Proof.
  intros Hpk Hnone. unfold Host_save. rewrite Hpk.
  unfold bind at 1. unfold bind at 1. rewrite Host_objects_get_run.
  unfold stored_host, find_one.
  replace (filter (fun h => N.eqb (hostrow_pk h) pk) (hosts (db w))) with (@nil HostRow);
    [reflexivity|].
  symmetry. apply filter_nil. apply Forall_forall. intros h Hh.
  apply N.eqb_neq. now apply Hnone.
Qed.

End HostSave.

Lemma host_save_without_rename_witness :
  records (db (snd (Host_save Sample.root Sample.foo Sample.w_5)))
  = [Sample.a_foo; Sample.ptr_foo]
  /\ ipaddresses (db (snd (Host_save Sample.root Sample.foo Sample.w_5)))
     = [Sample.row_5].
Proof.
  destruct (host_save_without_rename Sample.root Sample.foo Sample.w_5)
    as (Hr & Hi & _).
  - intros pk h Hpk Hst. left. injection Hpk as <-.
    vm_compute in Hst. now injection Hst as <-.
  - exact (conj Hr Hi).
Defined.

Lemma host_save_unknown_key_witness :
  Host_save Sample.root (mkHost (Some 7%N) "baz") Sample.w_5
  = (Raise (DoesNotExist "Host"), Sample.w_5).
Proof.
  apply (host_save_unknown_key Sample.root (mkHost (Some 7%N) "baz") 7
           Sample.w_5 eq_refl).
  intros h [<-|[]]. discriminate.
Defined.

(** ** Removing twice, deleting what is not stored *)

Section RemoveAgain.
Variable ROOT_DOMAIN : string.

Lemma filter_idem {A} (p : A -> bool) l : filter p (filter p l) = filter p l.
Proof.
  rewrite filter_filter. apply filter_ext. intros x. apply andb_diag.
Qed.

(** X7. [IPAddress._remove_dns] run a second time removes nothing more: the
    tables after two runs in a row are the tables after one, and the second
    run raises only if the first did. *)
Theorem remove_dns_twice (self : IPAddress) (w : World) :
  let once := IPAddress__remove_dns ROOT_DOMAIN self in
  fst ((once ;;; once) w) = fst (once w)
  /\ db (snd ((once ;;; once) w)) = db (snd (once w)).
Proof.
  cbv zeta. destruct (ip_pk self) as [pk|] eqn:Hpk.
  - destruct (stored_ip (db w) pk) as [orig|e] eqn:Hst.
    + assert (Hget : IPAddress_objects_get pk w = (Ok orig, w))
        by now rewrite IPAddress_objects_get_run, Hst.
      destruct (remove_dns_run ROOT_DOMAIN self orig pk w Hpk Hget) as [hist H1].
      unfold bind. rewrite H1.
      match goal with |- context [IPAddress__remove_dns _ _ ?w1] =>
        assert (Hget1 : IPAddress_objects_get pk w1 = (Ok orig, w1))
          by (rewrite IPAddress_objects_get_run; cbn; now rewrite <- Hst);
        destruct (remove_dns_run ROOT_DOMAIN self orig pk w1 Hpk Hget1)
          as [hist1 H2]
      end.
      rewrite H2. cbn [fst snd db]. split; [reflexivity|].
      unfold with_records. cbn. now rewrite filter_idem.
    + assert (H1 : IPAddress__remove_dns ROOT_DOMAIN self w = (Raise e, w)).
      { unfold IPAddress__remove_dns. rewrite Hpk. unfold bind at 1.
        now rewrite IPAddress_objects_get_run, Hst. }
      unfold bind. now rewrite H1.
  - unfold IPAddress__remove_dns. rewrite Hpk. now split.
Qed.

Lemma stored_ip_unknown (d : Database) (pk : N) :
  (forall r, In r (ipaddresses d) -> iprow_pk r <> pk) ->
  stored_ip d pk = Raise (DoesNotExist "IPAddress")
  /\ filter (fun r => negb (N.eqb (iprow_pk r) pk)) (ipaddresses d)
     = ipaddresses d.
Proof.
  intros H. split.
  - unfold stored_ip, find_one. rewrite filter_nil; [reflexivity|].
    apply Forall_forall. intros r Hr. apply N.eqb_neq. now apply H.
  - rewrite <- (filter_true (ipaddresses d)) at 2. apply filter_ext_in.
    intros r Hr. apply negb_true_iff, N.eqb_neq. now apply H.
Qed.

(** X8. [Model.delete] on an assignment object whose key no row has: with
    [auto_dns] set the [pre_delete] hook looks the row up and the delete
    raises [IPAddress.DoesNotExist]; with [auto_dns] not set nothing is
    looked up and the delete returns.  The tables are untouched either
    way. *)
Theorem delete_unknown_key (self : IPAddress) (pk : N) (w : World) :
  ip_pk self = Some pk ->
  (forall r, In r (ipaddresses (db w)) -> iprow_pk r <> pk) ->
  exists w',
    db w' = db w
    /\ IPAddress_delete ROOT_DOMAIN self w
       = (if truthy_flag (ip_auto_dns self)
          then Raise (DoesNotExist "IPAddress")
          else Ok (with_pk self None), w').
Proof.
  intros Hpk Hnone.
  destruct (stored_ip_unknown (db w) pk Hnone) as [Hst Hrows].
  unfold IPAddress_delete, remote_dns_hook. rewrite Hpk.
  destruct (truthy_flag (ip_auto_dns self)).
  - eexists. split; [|unfold bind at 1; erewrite atomic_Raise; [reflexivity|]].
    + reflexivity.
    + unfold bind at 1. unfold IPAddress__remove_dns. rewrite Hpk.
      unfold bind at 1. now rewrite IPAddress_objects_get_run, Hst.
  - eexists. split; [|unfold bind at 1; erewrite atomic_Ok; [reflexivity|]].
    2:{ unfold bind. cbn [ret]. now rewrite delete_ipaddress_row_run. }
    cbn [db]. unfold with_ipaddresses. rewrite Hrows.
    destruct w as [[] ?]; reflexivity.
Qed.

End RemoveAgain.

Lemma delete_unknown_key_witness :
  (exists w', db w' = db Sample.w_5
              /\ IPAddress_delete Sample.root Sample.missing_9 Sample.w_5
                 = (Raise (DoesNotExist "IPAddress"), w'))
  /\ (exists w', db w' = db Sample.w_5
                 /\ IPAddress_delete Sample.root Sample.quiet_9 Sample.w_5
                    = (Ok (with_pk Sample.quiet_9 None), w')).
Proof.
  split.
  - apply (delete_unknown_key Sample.root Sample.missing_9 9 Sample.w_5 eq_refl).
    intros r [<-|[]]. discriminate.
  - apply (delete_unknown_key Sample.root Sample.quiet_9 9 Sample.w_5 eq_refl).
    intros r [<-|[]]. discriminate.
Defined.

(** ** The records of a new assignment *)

Section NewRecords.
Variable ROOT_DOMAIN : string.

(** [IPAddress.save] of an assignment without a key, when it returns, has
    run its two stages. *)
Lemma save_new_Ok_stages (self s' : IPAddress) (w w' : World) :
  truthy_pk (ip_pk self) = false ->
  IPAddress_save ROOT_DOMAIN self w = (Ok s', w') ->
  exists wB,
    (if truthy_flag (ip_auto_dns self)
     then IPAddress__add_dns ROOT_DOMAIN self else ret tt) w = (Ok tt, wB)
    /\ IPAddress_super_save self wB = (Ok s', w').
Proof.
  intros Hpk Hsave. unfold IPAddress_save, atomic in Hsave.
  rewrite Hpk in Hsave. unfold bind at 1 in Hsave. cbn [ret] in Hsave.
  unfold bind in Hsave.
  destruct ((if truthy_flag (ip_auto_dns self)
             then IPAddress__add_dns ROOT_DOMAIN self else ret tt) w)
    as [[[]|e] wB]; [|discriminate].
  destruct (IPAddress_super_save self wB) as [[a|e] wC] eqn:Hsup;
    [|discriminate].
  injection Hsave as <- <-. now exists wB.
Qed.

Lemma blocks_keep_wf (self : IPAddress) :
  hoare records_wf (add_forward ROOT_DOMAIN self) (fun _ => records_wf) records_wf
  /\ hoare records_wf (add_ptr ROOT_DOMAIN self) (fun _ => records_wf) records_wf.
Proof.
  split.
  - apply (add_forward_keeps ROOT_DOMAIN records_wf (fun _ => True)
             (fun w r H _ Hid => records_wf_insert r w H Hid)
             (fun w r H _ Hs => records_wf_update r w H (saved_row_patch r w Hs))
             self (fun _ _ => I)).
  - apply (add_ptr_keeps ROOT_DOMAIN records_wf (fun _ => True)
             (fun w r H _ Hid => records_wf_insert r w H Hid)
             (fun w r H _ Hs => records_wf_update r w H (saved_row_patch r w Hs))
             self (fun _ _ => I)).
Qed.

Lemma ptr_not_cname self r c :
  ptr_record_of ROOT_DOMAIN self r ->
  cname_record_of ROOT_DOMAIN self (set_content r c) -> False.
Proof.
  intros (_ & Ht & _) (_ & _ & _ & Hc & _). cbn in Hc. congruence.
Qed.

(** What [_add_dns] leaves in the table for an assignment without a key. *)
Lemma add_dns_establishes (self : IPAddress) (w wB : World) :
  truthy_pk (ip_pk self) = false ->
  records_wf w ->
  IPAddress__add_dns ROOT_DOMAIN self w = (Ok tt, wB) ->
  (exists r, In r (records (db wB)) /\ forward_of ROOT_DOMAIN self r)
  /\ (forall z, zone_for (db w) self = Ok (Some z) ->
                exists r, In r (records (db wB))
                          /\ ptr_record_of ROOT_DOMAIN self r)
  /\ (ip_primary self = true -> truthy_text (ip_interface self) = true ->
      exists r, In r (records (db wB)) /\ cname_record_of ROOT_DOMAIN self r).
Proof.
  intros Hpk Hwf Hadd.
  destruct (add_dns_Ok_stages ROOT_DOMAIN self w wB Hpk Hadd)
    as (w1 & w2 & H1 & H2 & H3).
  destruct (blocks_keep_wf self) as [Kf Kp].
  assert (Hwf1 : records_wf w1).
  { pose proof (records_wf_run _ w Kf Hwf) as H. now rewrite H1 in H. }
  assert (Hwf2 : records_wf w2).
  { pose proof (records_wf_run _ w1 Kp Hwf1) as H. now rewrite H2 in H. }
  pose proof (records_only_add_forward ROOT_DOMAIN self w) as T1.
  rewrite H1 in T1. cbn [snd] in T1. destruct T1 as (_ & _ & Hd1 & _).
  destruct (add_forward_Ok ROOT_DOMAIN self w w1 H1)
    as (_ & root & rf & _ & Hrf & _ & Hfwd).
  assert (Hf1 : has (forward_of ROOT_DOMAIN self) w1).
  { split; [exact Hwf1|now exists rf]. }
  assert (Hf2 : has (forward_of ROOT_DOMAIN self) w2).
  { pose proof (add_ptr_keeps ROOT_DOMAIN
                  (has (forward_of ROOT_DOMAIN self))
                  (ptr_record_of ROOT_DOMAIN self)
                  (has_insert _ _)
                  (has_update _ _
                     (fun r c Ht _ Hty =>
                        False_ind _ (forward_not_patched ROOT_DOMAIN _ r Ht Hty)))
                  self (fun r Hr => Hr) w1 Hf1) as H.
    now rewrite H2 in H. }
  assert (Hf3 : has (forward_of ROOT_DOMAIN self) wB).
  { pose proof (add_cname_keeps ROOT_DOMAIN
                  (has (forward_of ROOT_DOMAIN self))
                  (cname_record_of ROOT_DOMAIN self)
                  (has_insert _ _)
                  (has_update _ _
                     (fun r c Ht _ Hty =>
                        False_ind _ (forward_not_patched ROOT_DOMAIN _ r Ht Hty)))
                  self (fun r Hr => Hr) w2 Hf2) as H.
    now rewrite H3 in H. }
  split; [|split].
  - destruct Hf3 as [_ (r & Hr & Ht)]. now exists r.
  - intros z Hz.
    assert (Hz1 : zone_for (db w1) self = Ok (Some z)).
    { rewrite <- Hz. apply zone_for_domains. congruence. }
    destruct (add_ptr_Ok ROOT_DOMAIN self z w1 w2 Hz1 H2) as (rp & Hrp & Hptr).
    assert (Hp2 : has (ptr_record_of ROOT_DOMAIN self) w2).
    { split; [exact Hwf2|now exists rp]. }
    pose proof (add_cname_keeps ROOT_DOMAIN
                  (has (ptr_record_of ROOT_DOMAIN self))
                  (cname_record_of ROOT_DOMAIN self)
                  (has_insert _ _)
                  (has_update _ _
                     (fun r c Ht Hw _ => False_ind _ (ptr_not_cname self r c Ht Hw)))
                  self (fun r Hr => Hr) w2 Hp2) as H.
    rewrite H3 in H. destruct H as [_ (r & Hr & Ht)]. now exists r.
  - intros Hprim Hif.
    destruct (add_cname_Ok ROOT_DOMAIN self w2 wB Hprim Hif H3) as (rc & Hrc & Hc).
    now exists rc.
Qed.

Lemma alias_is_no_loop (self : IPAddress) :
  truthy_text (ip_interface self) = true ->
  PyStr.lower (Host_fqdn ROOT_DOMAIN (ip_host self))
  <> PyStr.lower (IPAddress_fqdn ROOT_DOMAIN self).
Proof.
  intros Hif E. destruct (fqdn_with ROOT_DOMAIN self Hif) as (i & Hi & Hf).
  apply (f_equal String.length) in E.
  rewrite !PyStrFacts.length_lower, Hf, !PyStrFacts.length_append in E.
  cbn [String.length] in E. lia.
Qed.

(** X9. [IPAddress.save] of an assignment without a key and with [auto_dns]
    set, when it returns, leaves in the record table: the forward record of
    the assignment (type A or AAAA, the lower-cased name, the text of the
    address); its PTR record when a zone was found for the reverse name;
    and, for a primary assignment with an interface, the CNAME of the host,
    whose target is the name of the forward record and differs from the
    name of the CNAME itself. *)
Theorem save_new_writes_its_records (self s' : IPAddress) (w w' : World) :
  truthy_pk (ip_pk self) = false ->
  truthy_flag (ip_auto_dns self) = true ->
  records_wf w ->
  IPAddress_save ROOT_DOMAIN self w = (Ok s', w') ->
  (exists r, In r (records (db w')) /\ forward_of ROOT_DOMAIN self r)
  /\ (forall z, zone_for (db w) self = Ok (Some z) ->
                exists r, In r (records (db w'))
                          /\ ptr_record_of ROOT_DOMAIN self r)
  /\ (ip_primary self = true -> truthy_text (ip_interface self) = true ->
      exists rc ra,
        In rc (records (db w')) /\ In ra (records (db w'))
        /\ cname_record_of ROOT_DOMAIN self rc
        /\ forward_of ROOT_DOMAIN self ra
        /\ record_content rc = record_name ra
        /\ record_name rc <> record_content rc).
Proof.
  intros Hpk Hflag Hwf Hsave.
  destruct (save_new_Ok_stages self s' w w' Hpk Hsave) as (wB & Hadd & Hsup).
  rewrite Hflag in Hadd.
  destruct (super_save_same_records self wB) as [Hrec _].
  rewrite Hsup in Hrec. cbn [snd] in Hrec. rewrite Hrec.
  destruct (add_dns_establishes self w wB Hpk Hwf Hadd) as (Hf & Hp & Hc).
  split; [exact Hf|]. split; [exact Hp|].
  intros Hprim Hif. destruct Hf as (ra & Hra & Hfa).
  destruct (Hc Hprim Hif) as (rc & Hrc & Hcn).
  exists rc, ra.
  split; [exact Hrc|]. split; [exact Hra|]. split; [exact Hcn|].
  split; [exact Hfa|].
  destruct Hcn as (_ & _ & Hn & _ & Hcont). destruct Hfa as (Hna & _).
  rewrite Hn, Hcont, Hna. split; [reflexivity|now apply alias_is_no_loop].
Qed.

End NewRecords.

Lemma save_new_writes_its_records_witness :
  exists rc ra,
    In rc (records (db (snd (IPAddress_save Sample.root Sample.new_eth0
                               Sample.w_empty))))
    /\ In ra (records (db (snd (IPAddress_save Sample.root Sample.new_eth0
                                  Sample.w_empty))))
    /\ record_name rc = "foo.example.com"
    /\ record_content rc = "eth0.foo.example.com"
    /\ record_name ra = "eth0.foo.example.com".
Proof.
  pose (w' := snd (IPAddress_save Sample.root Sample.new_eth0 Sample.w_empty)).
  assert (Hrun : IPAddress_save Sample.root Sample.new_eth0 Sample.w_empty
                 = (Ok (with_pk Sample.new_eth0 (Some 1%N)), w'))
    by (vm_compute; reflexivity).
  fold w'. clearbody w'.
  destruct (save_new_writes_its_records Sample.root Sample.new_eth0 _
              Sample.w_empty w' eq_refl eq_refl
              (conj (NoDup_nil _) (Forall_nil _)) Hrun) as (_ & _ & Hc).
  destruct (Hc eq_refl eq_refl) as (rc & ra & Hrc & Hra & Hcn & Hfa & _).
  exists rc, ra. split; [exact Hrc|]. split; [exact Hra|].
  destruct Hcn as (_ & _ & Hn & _ & Hcont). destruct Hfa as (Hna & _).
  exact (conj Hn (conj Hcont Hna)).
Defined.

(** ** Reverse names *)

Section ReverseNames.
Import IpAddr PyStr PyStrFacts IpFacts.

(** The reverse name of an IPv4 address, by its bytes. *)
Lemma generate_ptr_bytes (self : IPAddress) (n : N) (domain : bool) :
  ip_ip self = IPv4Address n ->
  IPAddress__generate_ptr self domain
  = (join "." (map of_N (if domain
                         then [byte_at n 1; byte_at n 2; byte_at n 3]
                         else [byte_at n 0; byte_at n 1; byte_at n 2; byte_at n 3]))
     ++ ".in-addr.arpa")%string.
Proof.
  intros E. unfold IPAddress__generate_ptr. rewrite E.
  unfold IpText.str, str4. rewrite split_join.
  - destruct domain; reflexivity.
  - discriminate.
  - unfold octets. repeat constructor; apply of_N_free_dot.
Qed.

Lemma join_app sep (l l' : list string) :
  l <> [] -> l' <> [] ->
  join sep (l ++ l') = (join sep l ++ sep ++ join sep l')%string.
Proof.
  intros Hl Hl'. induction l as [|p l IH]; [congruence|].
  destruct l as [|q l].
  - destruct l' as [|q' l']; [congruence|]. reflexivity.
  - change ((p :: q :: l) ++ l') with (p :: (q :: l) ++ l').
    change ((q :: l) ++ l') with (q :: l ++ l') at 1.
    rewrite !join_cons. change (q :: l ++ l') with ((q :: l) ++ l').
    rewrite IH by discriminate. now rewrite !append_assoc.
Qed.

(** X10. The reverse name of an assignment lies in the zone [_add_dns]
    looks up first: it is the name at the domain boundary with, in front of
    it, the lowest byte of an IPv4 address, or the 20 lowest nibbles of an
    IPv6 address. *)
Theorem ptr_name_in_zone (self : IPAddress) :
  match ip_ip self with
  | IPv4Address n =>
      IPAddress__generate_ptr self false
      = (of_N (byte_at n 0) ++ "." ++ IPAddress__generate_ptr self true)%string
  | IPv6Address n =>
      IPAddress__generate_ptr self false
      = (join "." (map (nibble_label n) (seq 0 20)) ++ "."
         ++ IPAddress__generate_ptr self true)%string
  end.
Proof.
  destruct (ip_ip self) as [n|n] eqn:E.
  - rewrite (generate_ptr_bytes self n false E), (generate_ptr_bytes self n true E).
    cbn [map]. rewrite join_cons. now rewrite !append_assoc.
  - rewrite (generate_ptr_v6 self n false E), (generate_ptr_v6 self n true E).
    change (seq 0 32) with (seq 0 20 ++ seq 20 12). rewrite map_app.
    rewrite join_app by discriminate. now rewrite !append_assoc.
Qed.

(** The addresses [ipaddress] builds: the integer fits the width. *)
Definition in_range (a : ip_address) : Prop :=
  match a with
  | IPv4Address n => (n < 2 ^ 32)%N
  | IPv6Address n => (n < 2 ^ 128)%N
  end.

Lemma join_inj (l l' : list string) :
  l <> [] -> l' <> [] ->
  Forall (fun p => free_of "." p = true) l ->
  Forall (fun p => free_of "." p = true) l' ->
  join "." l = join "." l' -> l = l'.
Proof.
  intros Hl Hl' Hf Hf' E.
  rewrite <- (split_join "." l Hl Hf), <- (split_join "." l' Hl' Hf').
  now rewrite E.
Qed.

Lemma of_N_byte_inj b b' :
  (b < 256)%N -> (b' < 256)%N -> of_N b = of_N b' -> b = b'.
Proof.
  intros Hb Hb' E. apply (f_equal IpNetwork._parse_octet) in E.
  rewrite !parse_octet_of_N in E by assumption. congruence.
Qed.

Lemma hex_digit_inj d d' :
  (d < 16)%N -> (d' < 16)%N -> hex_digit d = hex_digit d' -> d = d'.
Proof.
  intros Hd Hd' E.
  pose (P := fun d => match IpNetwork.hex_value (hex_digit d) with
                      | Some v => N.eqb v d
                      | None => false
                      end).
  assert (HP : forallb P (map N.of_nat (seq 0 16)) = true)
    by (vm_compute; reflexivity).
  pose proof (forall_below P 16 HP d Hd) as H.
  pose proof (forall_below P 16 HP d' Hd') as H'.
  unfold P in H, H'. rewrite E in H.
  destruct (IpNetwork.hex_value (hex_digit d')); [|discriminate].
  apply N.eqb_eq in H, H'. congruence.
Qed.

(** A number is given by its nibbles. *)
Lemma nibbles_mod (n m : N) (k : nat) :
  (forall i, (i < k)%nat ->
             ((n / 16 ^ N.of_nat i) mod 16 = (m / 16 ^ N.of_nat i) mod 16)%N) ->
  (n mod 16 ^ N.of_nat k = m mod 16 ^ N.of_nat k)%N.
Proof.
  induction k as [|k IH]; intros H.
  - cbn. now rewrite !N.mod_1_r.
  - rewrite Nat2N.inj_succ, N.pow_succ_r', (N.mul_comm 16).
    rewrite !N.Div0.mod_mul_r.
    rewrite IH by (intros i Hi; apply H; lia).
    now rewrite (H k) by lia.
Qed.

Lemma hex_digit_not_dot d : Ascii.eqb (hex_digit d) "." = false.
Proof.
  unfold hex_digit.
  destruct (N.to_nat d) as [|k]; [reflexivity|].
  do 16 (destruct k as [|k]; [reflexivity|]). reflexivity.
Qed.

Lemma nibble_labels_free n l :
  Forall (fun p => free_of "." p = true) (map (nibble_label n) l).
Proof.
  apply Forall_map, Forall_forall. intros k _. unfold nibble_label.
  cbn [free_of]. now rewrite hex_digit_not_dot.
Qed.

Lemma in_addr_is_not_ip6 (x y : string) :
  (x ++ ".in-addr.arpa")%string <> (y ++ ".ip6.arpa")%string.
Proof.
  intros E. apply (f_equal (fun s => rev (list_ascii_of_string s))) in E.
  cbv beta in E. rewrite !list_of_append, !rev_app_distr in E.
  apply (f_equal (fun l => nth 5 l " "%char)) in E. cbn in E. discriminate.
Qed.

(** X11. Two addresses with the same reverse name are the same address: the
    names of the PTR records tell the assignments apart. *)
Theorem generate_ptr_injective (a b : IPAddress) :
  in_range (ip_ip a) -> in_range (ip_ip b) ->
  IPAddress__generate_ptr a false = IPAddress__generate_ptr b false ->
  ip_ip a = ip_ip b.
Proof.
  intros Ha Hb E.
  destruct (ip_ip a) as [n|n] eqn:Ea; destruct (ip_ip b) as [m|m] eqn:Eb;
    cbn [in_range] in Ha, Hb.
  - rewrite (generate_ptr_bytes a n false Ea), (generate_ptr_bytes b m false Eb) in E.
    apply append_inv_tail in E. apply join_inj in E.
    + cbn [map] in E. injection E as E0 E1 E2 E3.
      apply of_N_byte_inj in E0, E1, E2, E3; try apply byte_at_lt.
      f_equal. rewrite <- (from_bytes_octets n Ha), <- (from_bytes_octets m Hb).
      unfold octets. congruence.
    + discriminate.
    + discriminate.
    + repeat constructor; apply of_N_free_dot.
    + repeat constructor; apply of_N_free_dot.
  - rewrite (generate_ptr_bytes a n false Ea), (generate_ptr_v6 b m false Eb) in E.
    now apply in_addr_is_not_ip6 in E.
  - rewrite (generate_ptr_v6 a n false Ea), (generate_ptr_bytes b m false Eb) in E.
    symmetry in E. now apply in_addr_is_not_ip6 in E.
  - rewrite (generate_ptr_v6 a n false Ea), (generate_ptr_v6 b m false Eb) in E.
    apply append_inv_tail in E. apply join_inj in E.
    + f_equal.
      rewrite <- (N.mod_small n (16 ^ N.of_nat 32)), <- (N.mod_small m (16 ^ N.of_nat 32))
        by assumption.
      apply nibbles_mod. intros i Hi.
      assert (Hl : nibble_label n i = nibble_label m i).
      { apply (proj1 map_ext_in_iff E). apply in_seq. lia. }
      unfold nibble_label in Hl. injection Hl as Hl.
      apply hex_digit_inj in Hl; [exact Hl| |]; apply N.mod_lt; discriminate.
    + discriminate.
    + discriminate.
    + apply nibble_labels_free.
    + apply nibble_labels_free.
Qed.

End ReverseNames.

Lemma generate_ptr_injective_witness :
  ip_ip Sample.stored_5 = ip_ip Sample.moved_5.
Proof.
  apply generate_ptr_injective; reflexivity.
Defined.

(** ** Deleting a host *)

Section HostDelete.
Variable ROOT_DOMAIN : string.

(** The rows left by the deletion of the rows [rows], one key at a time. *)
Lemma delete_rows_ipaddresses (rows : list IPAddressRow) :
  forall w,
    exists w',
      for_each rows (fun r => delete_ipaddress_row (iprow_pk r)) w = (Ok tt, w')
      /\ ipaddresses (db w')
         = filter (fun r => negb (existsb (fun row => N.eqb (iprow_pk r) (iprow_pk row))
                                    rows))
             (ipaddresses (db w))
      /\ hosts (db w') = hosts (db w)
      /\ next_host_pk (db w') = next_host_pk (db w).
Proof.
  induction rows as [|row rows IH]; intros w.
  - exists w. cbn [for_each existsb negb]. rewrite filter_true. auto.
  - cbn [for_each]. unfold bind. rewrite delete_ipaddress_row_run.
    match goal with |- context [for_each rows ?b ?w1] =>
      destruct (IH w1) as (w' & Hrun & Hi & Hh & Hn) end.
    exists w'. rewrite Hrun. split; [reflexivity|].
    rewrite Hi, Hh, Hn. cbn [db ipaddresses with_ipaddresses hosts next_host_pk].
    split; [|auto]. rewrite filter_filter. apply filter_ext. intros r.
    cbn [existsb]. now rewrite negb_orb.
Qed.

(** X12. [Model.delete] on a stored host, when the keys of the assignments
    are distinct: the delete returns, and it has removed the row of the host
    and, with it, the rows of its assignments and no other row. *)
Theorem host_delete_cascades (self : Host) (pk : N) (h : HostRow) (w : World) :
  host_pk self = Some pk ->
  stored_host (db w) pk = Ok h ->
  NoDup (map iprow_pk (ipaddresses (db w))) ->
  exists w',
    Host_delete ROOT_DOMAIN self w = (Ok (mkHost None (host_name self)), w')
    /\ hosts (db w')
       = filter (fun x => negb (N.eqb (hostrow_pk x) pk)) (hosts (db w))
    /\ ipaddresses (db w')
       = filter (fun r => negb (N.eqb (iprow_host_id r) pk)) (ipaddresses (db w)).
Proof.
  intros Hpk Hh Hnd.
  set (rows := order_by_pk
                 (filter (fun r => N.eqb (iprow_host_id r) pk)
                    (ipaddresses (db w)))).
  assert (Hrows : forall row, In row rows <->
                    In row (ipaddresses (db w)) /\ iprow_host_id row = pk).
  { intros row. unfold rows. rewrite in_order_by_pk, filter_In.
    now rewrite N.eqb_eq. }
  destruct (signals_run ROOT_DOMAIN h rows w) as [hist Hsig].
  { intros row Hin. apply Hrows in Hin as [Hin Hid].
    assert (Hl : loaded (db w) row = Ok (object_of h row)).
    { unfold loaded. now rewrite Hid, Hh. }
    split; [exact Hl|]. unfold stored_ip, find_one.
    now rewrite (filter_unique_key iprow_pk _ row Hnd Hin). }
  match type of Hsig with _ = (_, ?w1) =>
    destruct (delete_rows_ipaddresses rows w1) as (w2 & Hdel & Hi & Hhs & Hn) end.
  unfold Host_delete. rewrite Hpk. eexists. split; [|split].
  - unfold bind at 1. erewrite atomic_Ok.
    2:{ unfold bind at 1. cbn [get_db]. fold rows.
        unfold bind at 1. rewrite Hsig.
        unfold bind at 1. rewrite Hdel.
        unfold bind at 1. cbn [get_db]. reflexivity. }
    reflexivity.
  - cbn [db hosts set_hosts snd]. now rewrite Hhs.
  - cbn [db ipaddresses set_hosts snd]. rewrite Hi.
    cbn [db ipaddresses with_records]. apply filter_ext_in. intros r Hr.
    f_equal. destruct (N.eqb_spec (iprow_host_id r) pk) as [E|E].
    + apply existsb_exists. exists r. split; [|apply N.eqb_refl].
      apply Hrows. now split.
    + apply not_true_is_false. intros Hex.
      apply existsb_exists in Hex as (row & Hrow & Hk).
      apply N.eqb_eq in Hk. apply Hrows in Hrow as [Hrow Hid].
      assert (r = row).
      { apply (NoDup_map_eq iprow_pk (ipaddresses (db w))); assumption. }
      subst row. contradiction.
Qed.

End HostDelete.

Lemma host_delete_cascades_witness :
  exists w',
    Host_delete Sample.root Sample.foo Sample.w_5
    = (Ok (mkHost None "foo"), w')
    /\ hosts (db w') = [] /\ ipaddresses (db w') = [].
Proof.
  destruct (host_delete_cascades Sample.root Sample.foo 1 Sample.foo_row
              Sample.w_5 eq_refl eq_refl)
    as (w' & Hrun & Hh & Hi).
  - simpl. repeat constructor. simpl. tauto.
  - exists w'. split; [exact Hrun|]. split; [exact Hh|exact Hi].
Defined.

(** ** What [Subnet.clean] stores *)

Section CleanForms.
Import PyStr PyStrFacts IpAddr IpText IpNetwork.

(** Masking with the netmask of a prefix clears the bits below it. *)
Lemma masked_value b a p :
  (a < 2 ^ b)%N -> (p <= b)%N ->
  N.land a (_ip_int_from_prefix b p) = (a - a mod 2 ^ (b - p))%N.
Proof.
  intros Ha Hp.
  assert (E : (a - a mod 2 ^ (b - p) = N.shiftl (N.shiftr a (b - p)) (b - p))%N).
  { rewrite N.shiftl_mul_pow2, N.shiftr_div_pow2.
    assert (Hnz : (2 ^ (b - p) <> 0)%N) by (apply N.pow_nonzero; discriminate).
    rewrite (N.div_mod a (2 ^ (b - p))%N Hnz) at 1.
    rewrite N.add_sub. apply N.mul_comm. }
  rewrite E. unfold _ip_int_from_prefix, ALL_ONES.
  rewrite <- N.pred_sub, <- N.ones_equiv.
  apply N.bits_inj. intros i.
  rewrite N.land_spec, N.lxor_spec, N.shiftr_spec by apply N.le_0_l.
  destruct (N.lt_ge_cases i (b - p)) as [Hi|Hi].
  - rewrite N.shiftl_spec_low by exact Hi.
    rewrite !N.ones_spec_low by lia. apply andb_false_r.
  - rewrite N.shiftl_spec_high' by exact Hi.
    rewrite N.shiftr_spec by apply N.le_0_l.
    replace (i - (b - p) + (b - p))%N with i by lia.
    destruct (N.lt_ge_cases i b) as [Hb|Hb].
    + rewrite N.ones_spec_low by exact Hb.
      rewrite N.ones_spec_high by lia. apply andb_true_r.
    + rewrite !N.ones_spec_high by lia.
      rewrite <- (N.mod_small a (2 ^ b)) by exact Ha.
      rewrite N.mod_pow2_bits_high by exact Hb. reflexivity.
Qed.

Lemma split_addr_mask_text addr mask :
  free_of "/" addr = true -> free_of "/" mask = true ->
  _split_addr_prefix (addr ++ "/" ++ mask) = Some (addr, Some mask).
Proof.
  intros Ha Hm. unfold _split_addr_prefix.
  change (addr ++ "/" ++ mask)%string with (addr ++ String "/" mask)%string.
  rewrite split_app by exact Ha. now rewrite split_free by exact Hm.
Qed.

(** The text of an IPv4 address followed by a prefix length. *)
Lemma ip_network_v4 a p :
  (a < 2 ^ 32)%N -> (p <= 32)%N ->
  ip_network (str4 a ++ "/" ++ of_N p)
  = Some (IPv4Network (a - a mod 2 ^ (32 - p)) p).
Proof.
  intros Ha Hp. unfold ip_network, IPv4Network_of_string.
  rewrite split_addr_mask_text
    by (try apply of_N_free; try apply str4_free; reflexivity).
  unfold IPv4Address_of_string.
  rewrite mem_free, (str4_free "/" a eq_refl eq_refl). cbn [negb].
  rewrite (ip4_int_from_string_str4 a Ha). cbn [make_netmask4].
  rewrite prefix_of_N by lia. now rewrite masked_value by assumption.
Qed.

(** The text of an IPv6 address followed by a prefix length. *)
Lemma ip_network_v6 a p :
  (a < 2 ^ 128)%N -> (p <= 128)%N ->
  ip_network (str6 a ++ "/" ++ of_N p)
  = Some (IPv6Network (a - a mod 2 ^ (128 - p)) None p).
Proof.
  intros Ha Hp. destruct (str6_free a) as (_ & Hpc & Hsl).
  unfold ip_network, IPv4Network_of_string, IPv6Network_of_string.
  rewrite split_addr_mask_text by (try apply of_N_free; auto).
  unfold IPv4Address_of_string, IPv6Address_of_string.
  rewrite mem_free, Hsl. cbn [negb].
  rewrite (ip4_rejects_colon _ (str6_colon a Ha)).
  unfold _split_scope_id. rewrite (split1_free _ _ Hpc).
  rewrite (ip6_int_from_string_str6 a Ha).
  cbn [make_netmask6]. rewrite prefix_of_N by lia.
  rewrite masked_value by assumption.
  destruct (N.eqb_spec (a - a mod 2 ^ (128 - p)) a) as [E|E]; cbn [negb];
    [now rewrite E|reflexivity].
Qed.

(** X13. [Subnet.clean] on the text of an address and a prefix length keeps
    the prefix length and rounds the address down to a multiple of the size
    of the network: [a/p] becomes [(a - a mod 2^(w-p))/p], where [w] is 32
    for IPv4 and 128 for IPv6. *)
Theorem clean_rounds_the_address_down (self : Subnet) (a p : N) :
  ((a < 2 ^ 32)%N -> (p <= 32)%N ->
   subnet_network self = (str4 a ++ "/" ++ of_N p)%string ->
   Subnet_clean self
   = Ok (mkSubnet (subnet_owner self)
           (str4 (a - a mod 2 ^ (32 - p)) ++ "/" ++ of_N p)
           (subnet_notes self)))
  /\ ((a < 2 ^ 128)%N -> (p <= 128)%N ->
      subnet_network self = (str6 a ++ "/" ++ of_N p)%string ->
      Subnet_clean self
      = Ok (mkSubnet (subnet_owner self)
              (str6 (a - a mod 2 ^ (128 - p)) ++ "/" ++ of_N p)
              (subnet_notes self))).
Proof.
  split; intros Ha Hp E; unfold Subnet_clean; rewrite E.
  - now rewrite ip_network_v4.
  - now rewrite ip_network_v6.
Qed.

(** X14. [Subnet.clean] on the text of a bare address stores the network of
    that one address: the prefix length 32 is appended to an IPv4 address
    and 128 to an IPv6 address, and no bit of the address is cleared. *)
Theorem clean_bare_address (self : Subnet) (a : N) :
  ((a < 2 ^ 32)%N ->
   subnet_network self = str4 a ->
   Subnet_clean self
   = Ok (mkSubnet (subnet_owner self) (str4 a ++ "/32") (subnet_notes self)))
  /\ ((a < 2 ^ 128)%N ->
      subnet_network self = str6 a ->
      Subnet_clean self
      = Ok (mkSubnet (subnet_owner self) (str6 a ++ "/128") (subnet_notes self))).
Proof.
  split; intros Ha E; unfold Subnet_clean; rewrite E.
  - unfold ip_network, IPv4Network_of_string, _split_addr_prefix.
    rewrite split_free by (now apply str4_free).
    unfold IPv4Address_of_string.
    rewrite mem_free, (str4_free "/" a eq_refl eq_refl). cbn [negb].
    rewrite (ip4_int_from_string_str4 a Ha). cbn [make_netmask4].
    rewrite (masked_value 32 a 32 Ha (N.le_refl _)).
    change (2 ^ (32 - 32))%N with 1%N. now rewrite N.mod_1_r, N.sub_0_r.
  - destruct (str6_free a) as (_ & Hpc & Hsl).
    unfold ip_network, IPv4Network_of_string, IPv6Network_of_string,
      _split_addr_prefix.
    rewrite split_free by exact Hsl.
    unfold IPv4Address_of_string, IPv6Address_of_string.
    rewrite mem_free, Hsl. cbn [negb].
    rewrite (ip4_rejects_colon _ (str6_colon a Ha)).
    unfold _split_scope_id. rewrite (split1_free _ _ Hpc).
    rewrite (ip6_int_from_string_str6 a Ha). cbn [make_netmask6].
    rewrite (masked_value 128 a 128 Ha (N.le_refl _)).
    change (2 ^ (128 - 128))%N with 1%N. rewrite N.mod_1_r, N.sub_0_r.
    now rewrite N.eqb_refl.
Qed.

(** *** Netmasks in dotted form *)

Lemma str4_not_digits n : isdigit (str4 n) = false.
Proof.
  unfold isdigit. apply andb_false_iff. right.
  destruct (all_chars is_digit (str4 n)) eqn:E; [|reflexivity].
  pose proof (all_chars_free _ "." _ E eq_refl) as H.
  unfold str4, octets in H. cbn [map] in H. rewrite join_cons in H.
  change ("." ++ ?s)%string with (String "." s) in H.
  now rewrite free_of_append in H.
Qed.

(** The hostmask of a prefix length: the bits below the prefix. *)
Definition hostmask (p : N) : N := N.lxor (_ip_int_from_prefix 32 p) (ALL_ONES 32).

Definition netmask_read (p : N) : bool :=
  match _prefix_from_ip_int 32 (_ip_int_from_prefix 32 p) with
  | Some q => N.eqb q p
  | None => false
  end.

Definition hostmask_read (p : N) : bool :=
  (N.eqb p 0 || N.eqb p 32)
  || match _prefix_from_ip_int 32 (hostmask p),
           _prefix_from_ip_int 32 (N.lxor (hostmask p) (ALL_ONES 32)) with
     | None, Some q => N.eqb q p
     | _, _ => false
     end.

Lemma masks_read p :
  (p <= 32)%N -> netmask_read p = true /\ hostmask_read p = true.
Proof.
  intros Hp.
  assert (E : forallb (fun p => netmask_read p && hostmask_read p)
                (map N.of_nat (seq 0 33)) = true) by (vm_compute; reflexivity).
  pose proof (forall_below _ 33 E p ltac:(simpl; lia)) as H. cbv beta in H.
  now apply andb_true_iff in H.
Qed.

Lemma mask_lt p : (_ip_int_from_prefix 32 p < 2 ^ 32)%N.
Proof.
  rewrite <- netmask_width, N.land_ones. apply N.mod_lt. discriminate.
Qed.

Lemma hostmask_lt p : (hostmask p < 2 ^ 32)%N.
Proof.
  assert (E : N.land (hostmask p) (N.ones 32) = hostmask p).
  { unfold hostmask. rewrite <- netmask_width.
    change (ALL_ONES 32) with (N.ones 32).
    apply N.bits_inj. intros i.
    rewrite !N.land_spec, !N.lxor_spec, !N.land_spec.
    destruct (N.testbit (N.ones 32) i); [now rewrite !andb_true_r|].
    now rewrite !andb_false_r. }
  rewrite <- E, N.land_ones. apply N.mod_lt. discriminate.
Qed.

Lemma make_netmask4_dotted m p :
  (m < 2 ^ 32)%N ->
  match _prefix_from_ip_int 32 m with
  | Some q => q = p
  | None => _prefix_from_ip_int 32 (N.lxor m (ALL_ONES 32)) = Some p
  end ->
  make_netmask4 (Some (str4 m)) = Some p.
Proof.
  intros Hm H. cbn [make_netmask4]. unfold _prefix_from_prefix_string.
  rewrite str4_not_digits. cbn [negb]. unfold _prefix_from_ip_string.
  rewrite (ip4_int_from_string_str4 m Hm).
  destruct (_prefix_from_ip_int 32 m); congruence.
Qed.

Lemma ip_network_v4_dotted a m p :
  (a < 2 ^ 32)%N -> (p <= 32)%N ->
  make_netmask4 (Some (str4 m)) = Some p ->
  ip_network (str4 a ++ "/" ++ str4 m) = ip_network (str4 a ++ "/" ++ of_N p).
Proof.
  intros Ha Hp Hm. rewrite (ip_network_v4 a p Ha Hp).
  unfold ip_network, IPv4Network_of_string.
  rewrite split_addr_mask_text by (apply str4_free; reflexivity).
  unfold IPv4Address_of_string.
  rewrite mem_free, (str4_free "/" a eq_refl eq_refl). cbn [negb].
  rewrite (ip4_int_from_string_str4 a Ha), Hm.
  now rewrite masked_value by assumption.
Qed.

(** X15. [Subnet.clean] takes the mask of an IPv4 network in dotted form
    too: with the netmask of a prefix length [p] after the ['/'], and, for
    [p] from 1 to 31, with its hostmask, it stores what it stores for the
    prefix length itself.  The hostmasks of the lengths 0 and 32 are read
    as netmasks: [255.255.255.255] stands for 32 and [0.0.0.0] for 0. *)
Theorem clean_reads_dotted_masks (self : Subnet) (a p : N) :
  let with_mask m :=
    mkSubnet (subnet_owner self) (str4 a ++ "/" ++ m) (subnet_notes self) in
  (a < 2 ^ 32)%N -> (p <= 32)%N ->
  Subnet_clean (with_mask (str4 (_ip_int_from_prefix 32 p)))
  = Subnet_clean (with_mask (of_N p))
  /\ ((0 < p < 32)%N ->
      Subnet_clean (with_mask (str4 (hostmask p))) = Subnet_clean (with_mask (of_N p)))
  /\ Subnet_clean (with_mask "255.255.255.255") = Subnet_clean (with_mask "32")
  /\ Subnet_clean (with_mask "0.0.0.0") = Subnet_clean (with_mask "0").
Proof.
  intros with_mask Ha Hp. destruct (masks_read p Hp) as [Hn Hh].
  unfold Subnet_clean, with_mask. cbn [subnet_network subnet_owner subnet_notes].
  split; [|split; [|split]].
  - rewrite (ip_network_v4_dotted a _ p Ha Hp); [reflexivity|].
    apply make_netmask4_dotted; [apply mask_lt|].
    unfold netmask_read in Hn.
    destruct (_prefix_from_ip_int 32 (_ip_int_from_prefix 32 p)); [|discriminate].
    now apply N.eqb_eq.
  - intros Hr. rewrite (ip_network_v4_dotted a _ p Ha Hp); [reflexivity|].
    apply make_netmask4_dotted; [apply hostmask_lt|].
    unfold hostmask_read in Hh.
    destruct (N.eqb_spec p 0); [lia|]. destruct (N.eqb_spec p 32); [lia|].
    cbn [orb] in Hh.
    destruct (_prefix_from_ip_int 32 (hostmask p)); [discriminate|].
    destruct (_prefix_from_ip_int 32 (N.lxor (hostmask p) (ALL_ONES 32)));
      [|discriminate].
    apply N.eqb_eq in Hh. now subst.
  - change "255.255.255.255" with (str4 4294967295).
    change "32" with (of_N 32).
    now rewrite (ip_network_v4_dotted a 4294967295 32 Ha).
  - change "0.0.0.0" with (str4 0). change "0" with (of_N 0).
    now rewrite (ip_network_v4_dotted a 0 0 Ha).
Qed.

(** *** Texts that are refused *)

Lemma split_length_pos c s : (1 <= List.length (split c s))%nat.
Proof.
  induction s as [|a s IH]; cbn [split List.length]; [lia|].
  destruct (Ascii.eqb a c); cbn [List.length]; [lia|].
  destruct (split c s); cbn [List.length]; lia.
Qed.

Lemma split_length_app c s t :
  List.length (split c (s ++ String c t))
  = (List.length (split c s) + List.length (split c t))%nat.
Proof.
  induction s as [|a s IH].
  - cbn [append split]. rewrite Ascii.eqb_refl. reflexivity.
  - cbn [append split]. destruct (Ascii.eqb a c); cbn [List.length].
    + now rewrite IH.
    + pose proof (split_length_pos c s) as Hs.
      pose proof (split_length_pos c (s ++ String c t)) as Hst.
      destruct (split c (s ++ String c t)) as [|x xs] eqn:E1;
        destruct (split c s) as [|y ys] eqn:E2; cbn [List.length] in *; lia.
Qed.

(** X16. [Subnet.clean] refuses every text with more than one ['/']: it
    raises the [ValidationError], whatever stands between the slashes. *)
Theorem clean_refuses_two_slashes (self : Subnet) (a b c : string) :
  subnet_network self = (a ++ "/" ++ b ++ "/" ++ c)%string ->
  Subnet_clean self = Raise (ValidationError "Invalid network format.").
Proof.
  intros E. unfold Subnet_clean. rewrite E.
  assert (H : _split_addr_prefix (a ++ "/" ++ b ++ "/" ++ c) = None).
  { unfold _split_addr_prefix.
    pose proof (split_length_app "/" a (b ++ String "/" c)) as H.
    rewrite (split_length_app "/" b c) in H.
    pose proof (split_length_pos "/" a). pose proof (split_length_pos "/" b).
    pose proof (split_length_pos "/" c).
    change (a ++ "/" ++ b ++ "/" ++ c)%string
      with (a ++ String "/" (b ++ String "/" c))%string.
    destruct (split "/" (a ++ String "/" (b ++ String "/" c)))
      as [|x [|y [|z l]]]; cbn [List.length] in H; try lia. reflexivity. }
  unfold ip_network, IPv4Network_of_string, IPv6Network_of_string.
  now rewrite H.
Qed.

(** X17. The text [Subnet.clean] stores tells the networks apart: for two
    texts it accepts, the stored texts are the same exactly when the two
    texts are read as the same network. *)
Theorem clean_text_determines_network (s1 s2 s1' s2' : Subnet) (n1 n2 : network) :
  ip_network (subnet_network s1) = Some n1 ->
  ip_network (subnet_network s2) = Some n2 ->
  Subnet_clean s1 = Ok s1' -> Subnet_clean s2 = Ok s2' ->
  subnet_network s1' = subnet_network s2' <-> n1 = n2.
Proof.
  intros H1 H2. unfold Subnet_clean. rewrite H1, H2.
  intros E1 E2. injection E1 as <-. injection E2 as <-.
  cbn [subnet_network]. split; [|now intros ->].
  intros E.
  pose proof (ip_network_str n1 (ip_network_zero _ _ H1)) as R1.
  pose proof (ip_network_str n2 (ip_network_zero _ _ H2)) as R2.
  congruence.
Qed.

End CleanForms.

Lemma clean_rounds_the_address_down_witness :
  Subnet_clean Sample.slop_22 = Ok Sample.net_22.
Proof.
  exact (proj1 (clean_rounds_the_address_down Sample.slop_22 167772416 22)
           eq_refl ltac:(discriminate) eq_refl).
Defined.

Lemma clean_bare_address_witness :
  Subnet_clean (mkSubnet None "10.0.0.5" "")
  = Ok (mkSubnet None "10.0.0.5/32" "").
Proof.
  exact (proj1 (clean_bare_address (mkSubnet None "10.0.0.5" "") 167772165)
           eq_refl eq_refl).
Defined.

Lemma clean_reads_dotted_masks_witness :
  Subnet_clean (mkSubnet None "10.0.1.0/255.255.252.0" "") = Ok Sample.net_22
  /\ Subnet_clean (mkSubnet None "10.0.1.0/0.0.3.255" "") = Ok Sample.net_22.
Proof.
  destruct (clean_reads_dotted_masks (mkSubnet None "" "") 167772416 22
              eq_refl ltac:(discriminate)) as (H1 & H2 & _).
  split.
  - exact H1.
  - exact (H2 (conj eq_refl eq_refl)).
Defined.

Lemma clean_refuses_two_slashes_witness :
  Subnet_clean (mkSubnet None "10.0.0.0/24/8" "")
  = Raise (ValidationError "Invalid network format.").
Proof.
  exact (clean_refuses_two_slashes (mkSubnet None "10.0.0.0/24/8" "")
           "10.0.0.0" "24" "8" eq_refl).
Defined.

Lemma clean_text_determines_network_witness :
  subnet_network Sample.net_22 = subnet_network Sample.net_22
  <-> IpNetwork.IPv4Network 167772160 22 = IpNetwork.IPv4Network 167772160 22.
Proof.
  exact (clean_text_determines_network Sample.slop_22
           (mkSubnet None "10.0.2.7/255.255.252.0" "") Sample.net_22 Sample.net_22
           _ _ eq_refl eq_refl eq_refl eq_refl).
Defined.

(** ** The first word of the notes *)

Section NotesShort.
Import PyStr PyStrFacts IpNetwork.

Definition is_word_char (c : ascii) : bool := negb (is_space c).

(** What follows a word: nothing, or a whitespace character. *)
Definition ends_word (rest : string) : Prop :=
  match rest with
  | EmptyString => True
  | String c _ => is_space c = true
  end.

(** The scan with a word under way: the first word is that word and the
    characters up to the next whitespace. *)
Lemma split_whitespace_word (s word : string) :
  truthy word = true ->
  exists tail rest ws,
    split_whitespace word s = (word ++ tail)%string :: ws
    /\ s = (tail ++ rest)%string
    /\ all_chars is_word_char tail = true
    /\ ends_word rest.
Proof.
  revert word. induction s as [|a s IH]; intros word Hw.
  - exists "", "", []. cbn [split_whitespace]. rewrite Hw, append_nil_r.
    now repeat split.
  - cbn [split_whitespace]. destruct (is_space a) eqn:Ha.
    + rewrite Hw. exists "", (String a s), (split_whitespace "" s).
      rewrite append_nil_r. now repeat split.
    + destruct (IH (word ++ String a "")%string) as (tail & rest & ws & H1 & H2 & H3 & H4).
      { now apply truthy_app. }
      exists (String a tail), rest, ws. rewrite H1, append_assoc.
      split; [reflexivity|]. split; [cbn; now rewrite H2|].
      split; [|exact H4]. cbn [all_chars]. unfold is_word_char at 1.
      now rewrite Ha, H3.
Qed.

(** The scan from the start of a text: no word when the text is whitespace
    only, else the first word after the leading whitespace. *)
Lemma split_whitespace_first (s : string) :
  (split_whitespace "" s = [] /\ all_chars is_space s = true)
  \/ exists lead first rest ws,
       split_whitespace "" s = first :: ws
       /\ s = (lead ++ first ++ rest)%string
       /\ all_chars is_space lead = true
       /\ truthy first = true
       /\ all_chars is_word_char first = true
       /\ ends_word rest.
Proof.
  induction s as [|a s IH]; [now left|].
  cbn [split_whitespace all_chars truthy]. destruct (is_space a) eqn:Ha.
  - destruct IH as [[H1 H2]|(lead & first & rest & ws & H1 & H2 & H3 & H4 & H5 & H6)].
    + left. now split.
    + right. exists (String a lead), first, rest, ws.
      split; [exact H1|]. split; [cbn; now rewrite H2|].
      split; [cbn [all_chars]; now rewrite Ha, H3|]. now repeat split.
  - right.
    destruct (split_whitespace_word s (String a "") eq_refl)
      as (tail & rest & ws & H1 & H2 & H3 & H4).
    exists "", (String a tail), rest, ws.
    split; [exact H1|]. split; [cbn; now rewrite H2|].
    split; [reflexivity|]. split; [reflexivity|]. split; [|exact H4].
    cbn [all_chars]. unfold is_word_char at 1. now rewrite Ha, H3.
Qed.

(** X18. [Subnet.notes_short] raises [IndexError] exactly on notes that are
    not empty and hold whitespace only; on empty notes it returns them. *)
Theorem notes_short_fails_on_blank_notes (self : Subnet) :
  (Subnet_notes_short self = Raise IndexError
   <-> subnet_notes self <> "" /\ all_chars is_space (subnet_notes self) = true)
  /\ (subnet_notes self = "" -> Subnet_notes_short self = Ok "").
Proof.
  unfold Subnet_notes_short. split.
  - destruct (subnet_notes self) as [|a s] eqn:E.
    + cbn. split; [discriminate|]. intros [H _]. now elim H.
    + cbn [truthy].
      destruct (split_whitespace_first (String a s))
        as [[H1 H2]|(lead & first & rest & ws & H1 & H2 & H3 & H4 & H5 & H6)].
      * rewrite H1. split; [|reflexivity]. intros _. split; [discriminate|exact H2].
      * rewrite H1. split; [discriminate|]. intros [_ Hs].
        rewrite H2, !all_chars_app in Hs.
        apply andb_true_iff in Hs as [_ Hs]. apply andb_true_iff in Hs as [Hs _].
        destruct first as [|c first]; [discriminate|].
        cbn [all_chars] in Hs, H5. unfold is_word_char in H5.
        apply andb_true_iff in Hs as [Hc _]. rewrite Hc in H5. discriminate.
  - intros ->. reflexivity.
Qed.

(** X19. What [Subnet.notes_short] returns for notes that are not empty is
    their first word: the notes are whitespace, then the word, which has at
    least one character and no whitespace, then the end of the notes or a
    whitespace character. *)
Theorem notes_short_is_the_first_word (self : Subnet) (first : string) :
  subnet_notes self <> "" ->
  Subnet_notes_short self = Ok first ->
  exists lead rest,
    subnet_notes self = (lead ++ first ++ rest)%string
    /\ all_chars is_space lead = true
    /\ first <> ""
    /\ all_chars is_word_char first = true
    /\ ends_word rest.
Proof.
  intros Hne. unfold Subnet_notes_short.
  destruct (subnet_notes self) as [|a s] eqn:E; [now elim Hne|].
  cbn [truthy].
  destruct (split_whitespace_first (String a s))
    as [[H1 H2]|(lead & w & rest & ws & H1 & H2 & H3 & H4 & H5 & H6)];
    rewrite H1; [discriminate|].
  intros H. injection H as <-. exists lead, rest.
  split; [exact H2|]. split; [exact H3|]. split; [|now split].
  intros ->. discriminate.
Qed.

End NotesShort.

Lemma notes_short_is_the_first_word_witness :
  Subnet_notes_short (mkSubnet None "10.0.0.0/22" " core  routers") = Ok "core"
  /\ exists lead rest,
       " core  routers" = (lead ++ "core" ++ rest)%string
       /\ IpNetwork.all_chars is_space lead = true.
Proof.
  split; [reflexivity|].
  destruct (notes_short_is_the_first_word
              (mkSubnet None "10.0.0.0/22" " core  routers") "core"
              ltac:(discriminate) eq_refl) as (lead & rest & H1 & H2 & _).
  exists lead, rest. exact (conj H1 H2).
Defined.

Lemma notes_short_fails_on_blank_notes_witness :
  Subnet_notes_short (mkSubnet None "10.0.0.0/22" "  ") = Raise IndexError.
Proof.
  apply (proj2 (proj1 (notes_short_fails_on_blank_notes
                         (mkSubnet None "10.0.0.0/22" "  ")))).
  split; [discriminate|reflexivity].
Defined.

(** ** The addresses of a subnet and the assignments in use *)

Section HostsHtml.

Lemma ip_eqb_eq a b : IpAddr.eqb a b = true <-> a = b.
Proof.
  destruct a as [x|x], b as [y|y]; cbn; rewrite ?N.eqb_eq;
    split; intros H; try discriminate; congruence.
Qed.

Lemma list_index_Some x l i :
  list_index x l = Some i ->
  nth_error l i = Some x
  /\ forall j y, (j < i)%nat -> nth_error l j = Some y -> y <> x.
Proof.
  revert i. induction l as [|y l IH]; intros i H; [discriminate|].
  cbn [list_index] in H. destruct (IpAddr.eqb y x) eqn:E.
  - injection H as <-. apply ip_eqb_eq in E. subst. split; [reflexivity|].
    intros j z Hj. lia.
  - destruct (list_index x l) as [k|]; [|discriminate]. injection H as <-.
    destruct (IH k eq_refl) as [H1 H2]. split; [exact H1|].
    intros [|j] z Hj Hz.
    + cbn in Hz. injection Hz as <-. intros ->.
      rewrite (proj2 (ip_eqb_eq x x) eq_refl) in E. discriminate.
    + apply (H2 j z); [lia|exact Hz].
Qed.

Lemma list_index_None x l : list_index x l = None -> ~ In x l.
Proof.
  induction l as [|y l IH]; intros H; [tauto|].
  cbn [list_index] in H. destruct (IpAddr.eqb y x) eqn:E; [discriminate|].
  destruct (list_index x l); [discriminate|].
  intros [->|Hin]; [|now apply IH].
  rewrite (proj2 (ip_eqb_eq x x) eq_refl) in E. discriminate.
Qed.

Lemma list_set_length {A} i (v : A) l : List.length (list_set i v l) = List.length l.
Proof.
  revert i. induction l as [|y l IH]; intros [|i]; cbn; auto.
Qed.

Lemma list_set_same {A} i (v : A) l :
  (i < List.length l)%nat -> nth_error (list_set i v l) i = Some v.
Proof.
  revert i. induction l as [|y l IH]; intros [|i] H; cbn in *; try lia; auto.
  apply IH. lia.
Qed.

Lemma list_set_other {A} i j (v : A) l :
  i <> j -> nth_error (list_set i v l) j = nth_error l j.
Proof.
  revert i j. induction l as [|y l IH]; intros [|i] [|j] H; cbn; auto; try lia.
Qed.

(** The slots after the assignments [seen] were gone through. *)
Definition slots_of (addresses : list IpAddr.ip_address) (seen : list IPAddress)
    (in_use : list (option IPAddress)) : Prop :=
  List.length in_use = List.length addresses
  /\ forall i,
      (forall h, nth_error in_use i = Some (Some h) ->
                 In h seen /\ list_index (ip_ip h) addresses = Some i)
      /\ (nth_error in_use i = Some None ->
          forall h, In h seen -> list_index (ip_ip h) addresses <> Some i).

Lemma slots_fold addresses hosts :
  forall seen in_use,
    slots_of addresses seen in_use ->
    slots_of addresses (seen ++ hosts)
      (fold_left
         (fun in_use host =>
            match list_index (ip_ip host) addresses with
            | Some i => list_set i (Some host) in_use
            | None => in_use
            end) hosts in_use).
Proof.
  induction hosts as [|h0 hosts IH]; intros seen in_use Hs.
  - now rewrite app_nil_r.
  - cbn [fold_left].
    replace (seen ++ h0 :: hosts) with ((seen ++ [h0]) ++ hosts)
      by (now rewrite <- app_assoc).
    apply IH. destruct Hs as [Hlen Hs].
    destruct (list_index (ip_ip h0) addresses) as [i0|] eqn:E0.
    + split; [now rewrite list_set_length|]. intros i.
      destruct (Nat.eq_dec i0 i) as [<-|Hne].
      * assert (Hi : (i0 < List.length in_use)%nat).
        { rewrite Hlen. apply nth_error_Some.
          destruct (list_index_Some _ _ _ E0) as [H _]. congruence. }
        rewrite (list_set_same i0 (Some h0) in_use Hi). split.
        -- intros h H. injection H as <-. split; [|exact E0].
           apply in_or_app. right. now left.
        -- discriminate.
      * rewrite (list_set_other i0 i (Some h0) in_use Hne).
        destruct (Hs i) as [H1 H2]. split.
        -- intros h H. destruct (H1 h H) as [Hin Hi]. split; [|exact Hi].
           apply in_or_app. now left.
        -- intros H h Hin. apply in_app_or in Hin as [Hin|[<-|[]]].
           ++ now apply H2.
           ++ congruence.
    + split; [exact Hlen|]. intros i. destruct (Hs i) as [H1 H2]. split.
      * intros h H. destruct (H1 h H) as [Hin Hi]. split; [|exact Hi].
        apply in_or_app. now left.
      * intros H h Hin. apply in_app_or in Hin as [Hin|[<-|[]]].
        -- now apply H2.
        -- congruence.
Qed.

Lemma slots_start addresses :
  slots_of addresses [] (repeat None (List.length addresses)).
Proof.
  split; [apply repeat_length|]. intros i. split.
  - intros h H. apply nth_error_In, repeat_spec in H. discriminate.
  - intros _ h [].
Qed.

Lemma in_combine_nth {A B} (l : list A) (l' : list B) a b :
  In (a, b) (combine l l') <->
  exists i, nth_error l i = Some a /\ nth_error l' i = Some b.
Proof.
  revert l'. induction l as [|x l IH]; intros [|y l'].
  - split; [intros []|intros ([|i] & H & _); discriminate].
  - split; [intros []|intros ([|i] & H & _); discriminate].
  - split; [intros []|intros ([|i] & _ & H); discriminate].
  - cbn [combine In]. rewrite IH. split.
    + intros [E|(i & H1 & H2)].
      * injection E as -> ->. now exists 0%nat.
      * now exists (S i).
    + intros ([|i] & H1 & H2); cbn in H1, H2.
      * left. congruence.
      * right. now exists i.
Qed.

(** X20. The pairs [Subnet._hosts_html] hands to its template, for an IPv4
    network: every address of the network comes once, in order; an address
    is paired with an assignment only if that assignment is in use and has
    that address; and, the addresses of the network being distinct, an
    address is paired with nothing exactly when no assignment in use has
    it.  Assignments whose address is not in the network are passed over.
    For a network of another version nothing is rendered. *)
Theorem hosts_html_pairs (version : N) (addresses : list IpAddr.ip_address)
    (hosts : list IPAddress) :
  (version <> 4%N -> Subnet__hosts_html version addresses hosts = None)
  /\ exists pairs,
      Subnet__hosts_html 4 addresses hosts = Some pairs
      /\ map fst pairs = addresses
      /\ (forall a h, In (a, Some h) pairs -> In h hosts /\ ip_ip h = a)
      /\ (forall a, In a addresses ->
                    (forall h, In h hosts -> ip_ip h <> a) ->
                    In (a, None) pairs)
      /\ (NoDup addresses ->
          forall a h, In (a, None) pairs -> In h hosts -> ip_ip h <> a).
Proof.
  split.
  { intros H. unfold Subnet__hosts_html.
    destruct (N.eqb_spec version 4); [contradiction|reflexivity]. }
  unfold Subnet__hosts_html. cbn [N.eqb Pos.eqb].
  set (in_use := fold_left _ hosts _).
  assert (Hs : slots_of addresses hosts in_use).
  { apply (slots_fold addresses hosts [] _ (slots_start addresses)). }
  destruct Hs as [Hlen Hs].
  exists (combine addresses in_use). split; [reflexivity|].
  split; [|split; [|split]].
  - clearbody in_use. clear Hs. revert in_use Hlen.
    induction addresses as [|a l IH]; intros [|o in_use] Hlen;
      cbn in *; try lia; [reflexivity|].
    f_equal. apply IH. lia.
  - intros a h Hin. apply in_combine_nth in Hin as (i & Ha & Hi).
    destruct (proj1 (Hs i) h Hi) as [Hh Hidx]. split; [exact Hh|].
    destruct (list_index_Some _ _ _ Hidx) as [Hn _]. congruence.
  - intros a Ha Hnone. apply In_nth_error in Ha as [i Hi].
    apply in_combine_nth. exists i. split; [exact Hi|].
    assert (Hlt : (i < List.length in_use)%nat).
    { rewrite Hlen. apply nth_error_Some. congruence. }
    destruct (nth_error in_use i) as [[h|]|] eqn:E.
    + exfalso. destruct (proj1 (Hs i) h E) as [Hh Hidx].
      destruct (list_index_Some _ _ _ Hidx) as [Hn _].
      apply (Hnone h Hh). congruence.
    + reflexivity.
    + apply nth_error_None in E. lia.
  - intros Hnd a h Hin Hh E. apply in_combine_nth in Hin as (i & Ha & Hi).
    pose proof (proj2 (Hs i) Hi h Hh) as Hidx.
    destruct (list_index (ip_ip h) addresses) as [j|] eqn:Ej.
    + destruct (list_index_Some _ _ _ Ej) as [Hj _]. rewrite E in Hj.
      assert (i = j).
      { apply (proj1 (NoDup_nth_error addresses) Hnd).
        - apply nth_error_Some. congruence.
        - congruence. }
      congruence.
    + apply list_index_None in Ej. apply Ej. rewrite E.
      now apply nth_error_In with i.
Qed.

End HostsHtml.

Lemma hosts_html_pairs_witness :
  exists pairs,
    Subnet__hosts_html 4
      [IpAddr.IPv4Address 167772164; Sample.ten_5; IpAddr.IPv4Address 167772166]
      [Sample.stored_5] = Some pairs
    /\ In (IpAddr.IPv4Address 167772164, None) pairs
    /\ In (IpAddr.IPv4Address 167772166, None) pairs.
Proof.
  destruct (proj2 (hosts_html_pairs 4
                     [IpAddr.IPv4Address 167772164; Sample.ten_5;
                      IpAddr.IPv4Address 167772166] [Sample.stored_5]))
    as (pairs & Hrun & _ & _ & Hnone & _).
  exists pairs. split; [exact Hrun|]. split.
  - apply Hnone; [now left|]. intros h [<-|[]]. discriminate.
  - apply Hnone; [now right; right; left|]. intros h [<-|[]]. discriminate.
Defined.

(** ** The rows of the assignments of a renamed host *)

(** The row [b] under the key [k]. *)
Definition set_key (b : IPAddressRow) (k : N) : IPAddressRow :=
  mkIPAddressRow k (iprow_host_id b) (iprow_interface b) (iprow_ip b)
    (iprow_auto_dns b) (iprow_primary b).

(** The rows [rows] under the keys [k], [k + 1], ... *)
Fixpoint rekey (rows : list IPAddressRow) (k : N) : list IPAddressRow :=
  match rows with
  | [] => []
  | b :: rows' => set_key b k :: rekey rows' (N.succ k)
  end.

Definition key_in (rows : list IPAddressRow) (r : IPAddressRow) : bool :=
  existsb (fun c => N.eqb (iprow_pk r) (iprow_pk c)) rows.

Lemma NoDup_insert_by_ip (r : IPAddressRow) rows :
  ~ In (iprow_pk r) (map iprow_pk rows) -> NoDup (map iprow_pk rows) ->
  NoDup (map iprow_pk (insert_by_ip r rows)).
Proof.
  induction rows as [|x rows IH]; intros Hr Hnd; cbn [insert_by_ip].
  - cbn. constructor; [tauto|constructor].
  - destruct (ip_leb _ _); [cbn [map]; constructor; [exact Hr|exact Hnd]|].
    cbn [map] in *. inversion Hnd as [|? ? Hx Hnd']; subst.
    constructor.
    + intros Hin. apply in_map_iff in Hin as (y & E & Hy).
      apply in_insert_by_ip in Hy as [->|Hy].
      * apply Hr. now left.
      * apply Hx. rewrite <- E. now apply in_map.
    + apply IH; [|exact Hnd']. intros Hin. apply Hr. now right.
Qed.

Lemma NoDup_order_by_ip rows :
  NoDup (map iprow_pk rows) -> NoDup (map iprow_pk (order_by_ip rows)).
Proof.
  induction rows as [|x rows IH]; intros Hnd; [constructor|].
  cbn [order_by_ip fold_right]. inversion Hnd as [|? ? Hx Hnd']; subst.
  apply NoDup_insert_by_ip; [|now apply IH].
  intros Hin. apply Hx. apply in_map_iff in Hin as (y & E & Hy).
  apply (proj1 (in_order_by_ip y rows)) in Hy. rewrite <- E. now apply in_map.
Qed.

Section RenameRows.
Variable ROOT_DOMAIN : string.
Variable h : HostRow.

(** The table of assignments after the row [b] of the host was saved
    again. *)
Lemma resave_row (b : IPAddressRow) (s' : IPAddress) (w w' : World) :
  stored_host (db w) (hostrow_pk h) = Ok h ->
  ip_wf w -> In b (ipaddresses (db w)) -> iprow_host_id b = hostrow_pk h ->
  IPAddress_save ROOT_DOMAIN (held h b) w = (Ok s', w') ->
  ipaddresses (db w')
  = filter (fun r => negb (N.eqb (iprow_pk r) (iprow_pk b))) (ipaddresses (db w))
    ++ [set_key b (next_ip_pk (db w))]
  /\ next_ip_pk (db w') = N.succ (next_ip_pk (db w)).
Proof.
  intros Hh Hwf Hin Hid Hsave.
  pose proof (stored_row h w b Hh Hwf Hin Hid) as Hst.
  destruct Hwf as [Hnd Hlt]. rewrite Forall_forall in Hlt.
  assert (Hnz : iprow_pk b <> 0%N) by (specialize (Hlt b Hin); lia).
  destruct (save_Ok_stages ROOT_DOMAIN (held h b) (held h b) s' (iprow_pk b) w w'
              eq_refl Hnz Hst Hsave) as (wA & wB & Hdel & Hadd & Hsup).
  destruct (delete_Ok_tables ROOT_DOMAIN (held h b) _ (iprow_pk b) w wA
              eq_refl Hdel) as (_ & HiA & HnA & _ & _).
  destruct (add_stage_tables ROOT_DOMAIN (with_pk (held h b) None) wA wB
              eq_refl Hadd) as (_ & HiB & _ & _ & HnB).
  destruct (super_save_Ok (with_pk (held h b) None) s' wB w' eq_refl Hsup)
    as (host_id & Hhost & Hi & Hn & _).
  cbn in Hhost. injection Hhost as <-.
  rewrite Hi, Hn, HiB, HiA, HnB, HnA. split; [|reflexivity].
  f_equal. unfold row_of, set_key. cbn. now rewrite Hid.
Qed.

(** The second loop of [Host.save] over rows of the host. *)
Lemma resave_rows (todo : list IPAddressRow) :
  forall w w',
    stored_host (db w) (hostrow_pk h) = Ok h ->
    ip_wf w ->
    (forall c, In c todo ->
               In c (ipaddresses (db w)) /\ iprow_host_id c = hostrow_pk h) ->
    NoDup (map iprow_pk todo) ->
    for_each (map (held h) todo)
      (fun ipaddress => IPAddress_save ROOT_DOMAIN ipaddress ;;; ret tt) w
    = (Ok tt, w') ->
    ipaddresses (db w')
    = filter (fun r => negb (key_in todo r)) (ipaddresses (db w))
      ++ rekey todo (next_ip_pk (db w))
    /\ hosts (db w') = hosts (db w).
Proof.
  induction todo as [|b rest IH]; intros w w' Hh Hwf Htodo Hnd Hrun.
  - cbn in Hrun. injection Hrun as <-. cbn [rekey key_in existsb negb].
    now rewrite filter_true, app_nil_r.
  - cbn [map for_each] in Hrun.
    apply bind_inv_Ok in Hrun as ([] & wb & Hstep & Hrest).
    apply bind_inv_Ok in Hstep as (s' & wbi & Hsave & Hret).
    injection Hret as ->.
    destruct (Htodo b (or_introl eq_refl)) as [Hb Hid].
    destruct (resave_row b s' w wb Hh Hwf Hb Hid Hsave) as [Hi Hn].
    destruct (step_tables ROOT_DOMAIN h b s' w wb Hh Hwf Hb Hid Hsave)
      as (Hhosts & _ & Hwf' & Hkept).
    cbn [map] in Hnd. inversion Hnd as [|? ? Hbrest Hnd']; subst.
    destruct (IH wb w') as [Hi' Hh'].
    + now rewrite (stored_host_hosts (db wb) (db w)).
    + exact Hwf'.
    + intros c Hc. destruct (Htodo c (or_intror Hc)) as [Hcin Hcid].
      split; [|exact Hcid]. apply Hkept; [exact Hcin|].
      intros E. apply Hbrest. rewrite <- E. now apply in_map.
    + exact Hnd'.
    + exact Hrest.
    + split; [|congruence]. rewrite Hi', Hi, Hn, filter_app, filter_filter.
      cbn [rekey]. rewrite <- app_assoc. f_equal.
      * apply filter_ext. intros r. unfold key_in. cbn [existsb].
        now rewrite negb_orb.
      * cbn [filter].
        assert (E : key_in rest (set_key b (next_ip_pk (db w))) = false).
        { apply not_true_is_false. intros Hex.
          apply existsb_exists in Hex as (c & Hc & Hk). apply N.eqb_eq in Hk.
          cbn in Hk. destruct (Htodo c (or_intror Hc)) as [Hcin _].
          destruct Hwf as [_ Hlt]. rewrite Forall_forall in Hlt.
          specialize (Hlt c Hcin). lia. }
        now rewrite E.
Qed.

End RenameRows.

Section RenameRowsClaim.
Variable ROOT_DOMAIN : string.

Lemma records_only_for_each {A} (xs : list A) (body : A -> M unit) :
  (forall x, records_only (body x)) -> records_only (for_each xs body).
Proof.
  intros H. induction xs as [|x xs IH].
  - apply records_only_reads, reads_ret.
  - cbn [for_each]. apply records_only_bind; [apply H|]. intros _. exact IH.
Qed.

Lemma records_only_save_remove self :
  records_only (Host_save_remove ROOT_DOMAIN self).
Proof.
  unfold Host_save_remove.
  apply records_only_bind;
    [apply records_only_reads, reads_Host_ipaddresses_all|].
  intros ips. apply records_only_for_each. intros x.
  destruct (truthy_flag _);
    [apply records_only_remove_dns|apply records_only_reads, reads_ret].
Qed.

(** X21. [Host.save] with a new name, when it returns, has stored the new
    name and saved every assignment of the host again: the rows of the other
    hosts are where they were, and after them come the rows of the host, in
    the order of the model, each with the address, interface and flags it
    had and with a new key, counted on from the next key of the table. *)
Theorem rename_rekeys_addresses (self self' : Host) (pk : N) (h : HostRow)
    (w w' : World) :
  host_pk self = Some pk ->
  stored_host (db w) pk = Ok h ->
  name_changed (Some (hostrow_name h)) self = true ->
  ip_wf w ->
  Host_save ROOT_DOMAIN self w = (Ok self', w') ->
  stored_host (db w') pk = Ok (mkHostRow pk (host_name self))
  /\ ipaddresses (db w')
     = filter (fun r => negb (N.eqb (iprow_host_id r) pk)) (ipaddresses (db w))
       ++ rekey (owned_rows (db w) pk) (next_ip_pk (db w)).
Proof.
  intros Hpk Hh Hchanged Hipwf Hsave.
  set (rows := owned_rows (db w) pk).
  set (h' := mkHostRow pk (host_name self)).
  unfold Host_save in Hsave. rewrite Hpk in Hsave.
  apply bind_inv_Ok in Hsave as (orig_name & w1 & H1 & H2).
  unfold bind at 1 in H1. rewrite Host_objects_get_run, Hh in H1.
  rewrite Hchanged in H1.
  apply bind_inv_Ok in H1 as ([] & w1' & Hremove & Hret).
  injection Hret as <- ->.
  pose proof (records_only_save_remove self w) as T1.
  rewrite Hremove in T1. cbn [snd] in T1.
  destruct T1 as (Hh1 & Hi1 & _ & _ & Hn1).
  apply bind_inv_Ok in H2 as (s2 & w2 & Hsup & H3).
  rewrite Hchanged in H3.
  apply bind_inv_Ok in H3 as ([] & w3 & Hres & Hret).
  injection Hret as -> ->.
  assert (Hh1' : stored_host (db w1) pk = Ok h)
    by now rewrite (stored_host_hosts (db w1) (db w)).
  destruct (Host_super_save_Ok self self' pk h w1 w2 Hpk Hh1' Hsup)
    as (-> & Hh2 & Hip2 & Hn2 & _).
  assert (Hloop2 : for_each (map (held h') rows)
                     (fun ipaddress =>
                        IPAddress_save ROOT_DOMAIN ipaddress ;;; ret tt) w2
                   = (Ok tt, w')).
  { unfold Host_save_resave, bind in Hres.
    rewrite (Host_ipaddresses_all_run self pk w2 Hpk) in Hres.
    unfold owned_rows in Hres. rewrite Hip2, Hi1 in Hres.
    rewrite <- (instances_held self pk _ Hpk). exact Hres. }
  destruct (resave_rows ROOT_DOMAIN h' rows w2 w') as [Hi' Hh'].
  - exact Hh2.
  - unfold ip_wf. rewrite Hip2, Hn2, Hi1, Hn1. exact Hipwf.
  - intros c Hc. apply in_owned_rows in Hc. rewrite Hip2, Hi1. exact Hc.
  - unfold rows, owned_rows. apply NoDup_order_by_ip, NoDup_filter_map.
    apply Hipwf.
  - exact Hloop2.
  - split; [now rewrite (stored_host_hosts (db w') (db w2))|].
    rewrite Hi', Hip2, Hn2, Hi1, Hn1. f_equal.
    apply filter_ext_in. intros r Hr. f_equal. unfold key_in.
    destruct (N.eqb_spec (iprow_host_id r) pk) as [E|E].
    + apply existsb_exists. exists r. split; [|apply N.eqb_refl].
      apply in_owned_rows. now split.
    + apply not_true_is_false. intros Hex.
      apply existsb_exists in Hex as (c & Hc & Hk).
      apply N.eqb_eq in Hk. apply in_owned_rows in Hc as [Hc Hid].
      assert (r = c).
      { apply (NoDup_map_eq iprow_pk (ipaddresses (db w)));
          [apply Hipwf|exact Hr|exact Hc|exact Hk]. }
      subst c. contradiction.
Qed.

End RenameRowsClaim.

Lemma rename_rekeys_addresses_witness :
  exists w',
    Host_save Sample.root Sample.bar Sample.w_5 = (Ok Sample.bar, w')
    /\ stored_host (db w') 1 = Ok Sample.bar_row
    /\ ipaddresses (db w') = [set_key Sample.row_5 2].
Proof.
  pose (w' := snd (Host_save Sample.root Sample.bar Sample.w_5)).
  assert (Hipwf : ip_wf Sample.w_5).
  { split; simpl; repeat constructor; simpl; try tauto; lia. }
  assert (Hrun : Host_save Sample.root Sample.bar Sample.w_5
                 = (Ok Sample.bar, w')) by (vm_compute; reflexivity).
  clearbody w'.
  destruct (rename_rekeys_addresses Sample.root Sample.bar Sample.bar 1
              Sample.foo_row Sample.w_5 w' eq_refl eq_refl eq_refl Hipwf Hrun)
    as (Hh & Hi).
  exists w'. split; [exact Hrun|]. split; [exact Hh|exact Hi].
Defined.

(** ** Matches of the regular expressions *)

Section ReFacts.
Import Re.

Lemma found_iff l : found l = true <-> exists q : position, In q l.
Proof.
  destruct l as [|q l]; cbn.
  - split; [discriminate|intros [q []]].
  - split; [intros _; exists q; now left|reflexivity].
Qed.

Lemma found_false l : found l = false <-> forall q : position, ~ In q l.
Proof.
  destruct l as [|q l]; cbn.
  - split; [intros _ q []|reflexivity].
  - split; [discriminate|intros H; elim (H q); now left].
Qed.

Lemma in_seq_ends r1 r2 p q :
  In q (ends (Seq r1 r2) p) <-> exists k, In k (ends r1 p) /\ In q (ends r2 k).
Proof. cbn [ends]. apply in_flat_map. Qed.

Lemma in_take test p q :
  In q (take test p) <->
  exists a after, snd p = a :: after /\ test a = true /\ q = (a :: fst p, after).
Proof.
  destruct p as [before [|a after]]; cbn [take snd fst].
  - split; [intros []|intros (a & after & H & _); discriminate].
  - destruct (test a) eqn:E; cbn [In].
    + split.
      * intros [<-|[]]. now exists a, after.
      * intros (a' & after' & H & _ & ->). injection H as <- <-. now left.
    + split; [intros []|].
      intros (a' & after' & H & Ht & _). injection H as <- <-. congruence.
Qed.

Lemma flat_map_assoc {A B C} (f : A -> list B) (g : B -> list C) l :
  flat_map g (flat_map f l) = flat_map (fun x => flat_map g (f x)) l.
Proof.
  induction l as [|x l IH]; [reflexivity|].
  cbn [flat_map]. now rewrite flat_map_app, IH.
Qed.

Lemma times_add step n m p :
  times step (n + m) p = flat_map (times step m) (times step n p).
Proof.
  revert p. induction n as [|n IH]; intros p; cbn [times Nat.add flat_map].
  - now rewrite app_nil_r.
  - rewrite flat_map_assoc. apply flat_map_ext. intros k. apply IH.
Qed.

Lemma in_up_to step n p q :
  In q (up_to step n p) <-> exists m, (m <= n)%nat /\ In q (times step m p).
Proof.
  revert p. induction n as [|n IH]; intros p; cbn [up_to].
  - split.
    + intros [<-|[]]. exists 0%nat. split; [lia|now left].
    + intros (m & Hm & H). assert (m = 0)%nat as -> by lia. exact H.
  - split.
    + intros [<-|H].
      * exists 0%nat. split; [lia|now left].
      * apply in_flat_map in H as (k & Hk & H). apply IH in H as (m & Hm & H).
        exists (S m). split; [lia|]. cbn [times]. apply in_flat_map. now exists k.
    + intros ([|m] & Hm & H).
      * left. now destruct H.
      * right. cbn [times] in H. apply in_flat_map in H as (k & Hk & H).
        apply in_flat_map. exists k. split; [exact Hk|]. apply IH.
        exists m. split; [lia|exact H].
Qed.

(** The matches of a repetition. *)
Lemma in_rep_ends r lo hi p q :
  In q (ends (Rep r lo hi) p) <->
  exists n,
    (lo <= n)%nat
    /\ (n <= lo + match hi with
                  | Some h => h - lo
                  | None => List.length (snd p)
                  end)%nat
    /\ In q (times (ends r) n p).
Proof.
  cbn [ends]. rewrite in_flat_map. split.
  - intros (k & Hk & H). apply in_up_to in H as (m & Hm & H).
    exists (lo + m)%nat. split; [lia|]. split; [lia|].
    rewrite times_add. apply in_flat_map. now exists k.
  - intros (n & Hlo & Hhi & H).
    replace n with (lo + (n - lo))%nat in H by lia.
    rewrite times_add in H. apply in_flat_map in H as (k & Hk & H).
    exists k. split; [exact Hk|]. apply in_up_to. exists (n - lo)%nat.
    split; [lia|exact H].
Qed.

(** [n] characters in a row that pass a test. *)
Lemma in_times_take test n p q :
  In q (times (take test) n p) <->
  exists w after,
    snd p = w ++ after /\ List.length w = n /\ forallb test w = true
    /\ q = (rev w ++ fst p, after).
Proof.
  revert p. induction n as [|n IH]; intros p; cbn [times].
  - split.
    + intros [<-|[]]. exists [], (snd p). now destruct p.
    + intros (w & after & H1 & H2 & _ & ->).
      destruct w; [|discriminate]. cbn in *. left. destruct p. cbn in *.
      now subst.
  - rewrite in_flat_map. split.
    + intros (k & Hk & H). apply in_take in Hk as (a & after & H1 & H2 & ->).
      apply IH in H as (w & after' & H3 & H4 & H5 & ->). cbn [snd fst] in *.
      exists (a :: w), after'. cbn [forallb List.length rev app].
      rewrite H1, H3, H2, H5, H4, <- app_assoc. now repeat split.
    + intros (w & after & H1 & H2 & H3 & ->).
      destruct w as [|a w]; [discriminate|]. cbn [forallb] in H3.
      apply andb_true_iff in H3 as [Ha Hw].
      exists (a :: fst p, w ++ after). split.
      * apply in_take. exists a, (w ++ after). now repeat split.
      * apply IH. exists w, after. cbn [snd fst rev]. rewrite <- app_assoc.
        repeat split; auto.
Qed.

Lemma in_not_ahead r p q :
  In q (ends (NotAhead r) p) <-> q = p /\ forall k, ~ In k (ends r p).
Proof.
  cbn [ends]. destruct (found (ends r p)) eqn:E.
  - apply found_iff in E as [k Hk]. split; [intros []|].
    intros [_ H]. elim (H k Hk).
  - pose proof (proj1 (found_false _) E) as H. cbn [In]. split.
    + intros [<-|[]]. now split.
    + intros [-> _]. now left.
Qed.

Lemma in_not_behind c p q :
  In q (ends (NotBehind c) p) <-> q = p /\ forall t, fst p <> c :: t.
Proof.
  cbn [ends]. destruct p as [[|a before] after]; cbn [fst].
  - cbn [In]. split; [intros [<-|[]]; split; [reflexivity|discriminate]|].
    intros [-> _]. now left.
  - destruct (Ascii.eqb_spec a c) as [->|Hne]; cbn [In].
    + split; [intros []|]. intros [_ H]. now elim (H before).
    + split.
      * intros [<-|[]]. split; [reflexivity|]. intros t E. congruence.
      * intros [-> _]. now left.
Qed.

Lemma at_end_iff p : at_end p = true <-> snd p = [] \/ snd p = [newline].
Proof.
  unfold at_end. destruct (snd p) as [|a [|b l]].
  - split; [now left|reflexivity].
  - destruct (Ascii.eqb_spec a newline) as [->|Hne].
    + split; [now right|reflexivity].
    + split; [discriminate|]. intros [H|H]; [discriminate|congruence].
  - split; [discriminate|]. intros [H|H]; discriminate.
Qed.

Lemma in_eol p q : In q (ends Eol p) <-> q = p /\ at_end p = true.
Proof.
  cbn [ends]. destruct (at_end p); cbn [In].
  - split; [intros [<-|[]]; now split|]. intros [-> _]. now left.
  - split; [intros []|]. intros [_ H]. discriminate.
Qed.

(** A match that must start at the start of the subject. *)
Lemma positions_later r before after :
  before <> [] ->
  existsb (fun p => found (ends (Seq Bol r) p)) (positions before after) = false.
Proof.
  revert before. induction after as [|a after IH]; intros before H;
    cbn [positions existsb ends fst flat_map found].
  - destruct before; [congruence|reflexivity].
  - destruct before as [|b before]; [congruence|]. cbn [flat_map found orb].
    apply IH. discriminate.
Qed.

Lemma search_bol r subject :
  search (Seq Bol r) subject = found (ends r ([], list_ascii_of_string subject)).
Proof.
  unfold search.
  assert (E : forall after, ends (Seq Bol r) ([], after) = ends r ([], after)).
  { intros after. cbn [ends fst flat_map]. apply app_nil_r. }
  destruct (list_ascii_of_string subject) as [|a after];
    cbn [positions existsb]; rewrite E.
  - apply orb_false_r.
  - rewrite positions_later by discriminate. apply orb_false_r.
Qed.

(** A subject is cut in one way only into a part without newline and an
    end. *)
Lemma cut_unique (w w' rest rest' : list ascii) :
  w ++ rest = w' ++ rest' ->
  forallb (fun a => negb (Ascii.eqb a newline)) w = true ->
  forallb (fun a => negb (Ascii.eqb a newline)) w' = true ->
  rest = [] \/ rest = [newline] -> rest' = [] \/ rest' = [newline] ->
  w = w' /\ rest = rest'.
Proof.
  revert w'. induction w as [|a w IH]; intros [|a' w'] E Hw Hw' Hr Hr'.
  - now split.
  - cbn in E. subst rest. cbn [forallb] in Hw'.
    apply andb_true_iff in Hw' as [Ha _].
    destruct Hr as [Hn|Hn]; [discriminate|]. injection Hn as -> _.
    now rewrite Ascii.eqb_refl in Ha.
  - cbn in E. subst rest'. cbn [forallb] in Hw.
    apply andb_true_iff in Hw as [Ha _].
    destruct Hr' as [Hn|Hn]; [discriminate|]. injection Hn as -> _.
    now rewrite Ascii.eqb_refl in Ha.
  - cbn in E. injection E as <- E. cbn [forallb] in Hw, Hw'.
    apply andb_true_iff in Hw as [_ Hw]. apply andb_true_iff in Hw' as [_ Hw'].
    destruct (IH w' E Hw Hw' Hr Hr') as [-> ->]. now split.
Qed.

End ReFacts.

(** ** The texts the validators accept *)

(** The characters of [[a-zA-Z0-9-]] and of [[0-9]]. *)
Definition name_char (a : ascii) : bool :=
  existsb (Re.in_range a) [("a", "z"); ("A", "Z"); ("0", "9"); ("-", "-")]%char.
Definition digit_char (a : ascii) : bool :=
  existsb (Re.in_range a) [("0", "9")]%char.

Section Accepted.
Import Re PyStr PyStrFacts IpNetwork.

Definition no_newline (a : ascii) : bool := negb (Ascii.eqb a newline).

Lemma name_char_no_newline w :
  forallb name_char w = true -> forallb no_newline w = true.
Proof.
  intros H. rewrite forallb_forall in *. intros a Ha. specialize (H a Ha).
  unfold no_newline. destruct (Ascii.eqb_spec a newline) as [->|]; [|reflexivity].
  discriminate.
Qed.

Lemma digit_char_no_newline w :
  forallb digit_char w = true -> forallb no_newline w = true.
Proof.
  intros H. rewrite forallb_forall in *. intros a Ha. specialize (H a Ha).
  unfold no_newline. destruct (Ascii.eqb_spec a newline) as [->|]; [|reflexivity].
  discriminate.
Qed.

(** The matches of a repeated class. *)
Lemma in_rep_class ranges lo hi p q :
  In q (ends (Rep (Cls ranges) lo hi) p) <->
  exists w after,
    snd p = w ++ after
    /\ (lo <= List.length w)%nat
    /\ match hi with
       | Some h => (List.length w <= Nat.max lo h)%nat
       | None => True
       end
    /\ forallb (fun a => existsb (in_range a) ranges) w = true
    /\ q = (rev w ++ fst p, after).
Proof.
  rewrite in_rep_ends. split.
  - intros (n & Hlo & Hhi & H).
    change (ends (Cls ranges)) with (take (fun a => existsb (in_range a) ranges)) in H.
    apply in_times_take in H as (w & after & H1 & H2 & H3 & H4).
    exists w, after. subst n. repeat split; try assumption.
    destruct hi; [lia|exact I].
  - intros (w & after & H1 & H2 & H3 & H4 & H5).
    exists (List.length w). split; [exact H2|]. split.
    + destruct hi; [lia|]. rewrite H1, length_app. lia.
    + change (ends (Cls ranges)) with (take (fun a => existsb (in_range a) ranges)).
      apply in_times_take. now exists w, after.
Qed.

Lemma in_chr c p q :
  In q (ends (Chr c) p) <->
  exists after, snd p = c :: after /\ q = (c :: fst p, after).
Proof.
  change (ends (Chr c) p) with (take (Ascii.eqb c) p). rewrite in_take. split.
  - intros (a & after & H1 & H2 & ->). apply Ascii.eqb_eq in H2. subst a.
    now exists after.
  - intros (after & H1 & ->). exists c, after. rewrite Ascii.eqb_refl. auto.
Qed.

(** The texts [hostname_regex] matches, as lists of characters. *)
Definition hostname_body (w : list ascii) : Prop :=
  (List.length w <= 63)%nat
  /\ forallb name_char w = true
  /\ (forall t, w <> "-"%char :: t)
  /\ (forall t, w <> t ++ ["-"%char])
  /\ (w = [] \/ forallb digit_char w = false).

Lemma rev_head (w : list ascii) c :
  (forall t, rev w ++ [] <> c :: t) <-> (forall t, w <> t ++ [c]).
Proof.
  rewrite app_nil_r. split; intros H t E.
  - apply (H (rev t)). rewrite E, rev_app_distr. reflexivity.
  - apply (H (rev t)). rewrite <- (rev_involutive w), E. reflexivity.
Qed.

Lemma hostname_regex_matches (s : list ascii) :
  (exists q, In q (ends
     (seq_of [NotAhead (seq_of [Rep digits 1 None; Eol]);
              NotAhead (Chr "-");
              Rep name_chars 0 (Some 63);
              NotBehind "-";
              Eol]) ([], s)))
  <-> exists w rest,
        s = w ++ rest /\ (rest = [] \/ rest = [newline]) /\ hostname_body w.
Proof.
  cbn [seq_of]. split.
  - intros (q & H).
    apply in_seq_ends in H as (p1 & H1 & H).
    apply in_not_ahead in H1 as [-> Hnd].
    apply in_seq_ends in H as (p2 & H2 & H).
    apply in_not_ahead in H2 as [-> Hnh].
    apply in_seq_ends in H as (p3 & H3 & H).
    apply in_rep_class in H3 as (w & rest & Hs & _ & Hlen & Hc & ->).
    apply in_seq_ends in H as (p4 & H4 & H).
    apply in_not_behind in H4 as [-> Hnb].
    apply in_eol in H as [-> He]. apply at_end_iff in He.
    cbn [snd fst] in *. exists w, rest. split; [exact Hs|]. split; [exact He|].
    split; [lia|]. split; [exact Hc|]. split; [|split].
    + intros t ->. apply (Hnh ("-"%char :: [], t ++ rest)).
      apply in_chr. exists (t ++ rest). rewrite Hs. now split.
    + now apply rev_head.
    + destruct w as [|a w]; [now left|]. right.
      apply not_true_is_false. intros Hd.
      apply (Hnd (rev (a :: w) ++ [], rest)). apply in_seq_ends.
      exists (rev (a :: w) ++ [], rest). split.
      * apply in_rep_class. exists (a :: w), rest. cbn [snd fst].
        repeat split; auto. cbn. lia.
      * apply in_eol. split; [reflexivity|]. now apply at_end_iff.
  - intros (w & rest & Hs & He & Hlen & Hc & Hfirst & Hlast & Hd).
    exists (rev w ++ [], rest).
    apply in_seq_ends. exists ([], s). split.
    { apply in_not_ahead. split; [reflexivity|]. intros k Hk.
      apply in_seq_ends in Hk as (p & Hp & Hk).
      apply in_rep_class in Hp as (w' & rest' & Hs' & Hlen' & _ & Hc' & ->).
      apply in_eol in Hk as [_ He']. apply at_end_iff in He'. cbn [snd] in *.
      destruct (cut_unique w w' rest rest') as [<- _]; try assumption.
      - congruence.
      - now apply name_char_no_newline.
      - now apply digit_char_no_newline.
      - destruct Hd as [->|Hd]; [cbn in Hlen'; lia|].
        change (forallb digit_char w = true) in Hc'. congruence. }
    apply in_seq_ends. exists ([], s). split.
    { apply in_not_ahead. split; [reflexivity|]. intros k Hk.
      apply in_chr in Hk as (after & Ha & _). cbn [snd] in Ha.
      destruct w as [|b w].
      - cbn in Hs. subst s. destruct He as [->| ->]; discriminate.
      - rewrite Hs in Ha. injection Ha as -> _. now apply (Hfirst w). }
    apply in_seq_ends. exists (rev w ++ [], rest). split.
    { apply in_rep_class. exists w, rest. cbn [snd fst].
      repeat split; auto; lia. }
    apply in_seq_ends. exists (rev w ++ [], rest). split.
    { apply in_not_behind. split; [reflexivity|]. now apply rev_head. }
    apply in_eol. split; [reflexivity|]. now apply at_end_iff.
Qed.

(** From lists of characters to texts. *)
Lemma all_chars_forallb p s : all_chars p s = forallb p (list_ascii_of_string s).
Proof. induction s as [|a s IH]; cbn; [reflexivity|now rewrite IH]. Qed.

Lemma length_list_of s : List.length (list_ascii_of_string s) = String.length s.
Proof. induction s as [|a s IH]; cbn; [reflexivity|now rewrite IH]. Qed.

Definition nl : string := String newline "".

Lemma cut_of_text (value : string) (P : list ascii -> Prop) :
  (exists w rest,
      list_ascii_of_string value = w ++ rest
      /\ (rest = [] \/ rest = [newline]) /\ P w)
  <-> exists body,
        (value = body \/ value = (body ++ nl)%string)
        /\ P (list_ascii_of_string body).
Proof.
  split.
  - intros (w & rest & E & Hr & HP). exists (string_of_list_ascii w).
    rewrite list_ascii_of_string_of_list_ascii. split; [|exact HP].
    destruct Hr as [-> | ->].
    + left. rewrite app_nil_r in E. rewrite <- E.
      now rewrite string_of_list_ascii_of_string.
    + right. apply list_of_string_inj.
      now rewrite E, list_of_append, list_ascii_of_string_of_list_ascii.
  - intros (body & Hv & HP). exists (list_ascii_of_string body).
    destruct Hv as [-> | ->].
    + exists []. rewrite app_nil_r. auto.
    + exists [newline]. rewrite list_of_append. auto.
Qed.

Lemma starts_of_text body c :
  (forall t, list_ascii_of_string body <> c :: t)
  <-> (forall t, body <> String c t).
Proof.
  split; intros H t E.
  - apply (H (list_ascii_of_string t)). now rewrite E.
  - apply (H (string_of_list_ascii t)). apply list_of_string_inj.
    cbn. now rewrite list_ascii_of_string_of_list_ascii.
Qed.

Lemma ends_of_text body c :
  (forall t, list_ascii_of_string body <> t ++ [c])
  <-> (forall t, body <> (t ++ String c "")%string).
Proof.
  split; intros H t E.
  - apply (H (list_ascii_of_string t)). now rewrite E, list_of_append.
  - apply (H (string_of_list_ascii t)). apply list_of_string_inj.
    now rewrite list_of_append, list_ascii_of_string_of_list_ascii.
Qed.

Lemma validator_accepts r message value :
  RegexValidator (Seq Bol r) message value = Ok tt
  <-> exists q, In q (ends r ([], list_ascii_of_string value)).
Proof.
  unfold RegexValidator. rewrite search_bol, <- found_iff.
  destruct (found _); split; congruence.
Qed.

(** X22. [hostname_validator] accepts a text exactly when the text, or the
    text without one newline at its end, has at most 63 characters, all of
    them letters, digits or hyphens, neither begins nor ends with a hyphen,
    and is not a run of digits.  So it accepts the empty text, letters of
    both cases, and a name followed by a newline. *)
Theorem hostname_validator_accepts (value : string) :
  hostname_validator value = Ok tt
  <-> exists body,
        (value = body \/ value = (body ++ nl)%string)
        /\ (String.length body <= 63)%nat
        /\ all_chars name_char body = true
        /\ (forall t, body <> String "-" t)
        /\ (forall t, body <> (t ++ "-")%string)
        /\ (body = "" \/ all_chars digit_char body = false).
Proof.
  unfold hostname_validator, hostname_regex.
  change (seq_of (Bol :: ?l)) with (Seq Bol (seq_of l)).
  rewrite validator_accepts, hostname_regex_matches, cut_of_text.
  split; intros (body & Hv & H); exists body; (split; [exact Hv|]);
    unfold hostname_body in *;
    rewrite length_list_of, <- !all_chars_forallb, starts_of_text, ends_of_text in *.
  - destruct H as (H1 & H2 & H3 & H4 & H5). repeat split; try assumption.
    destruct H5 as [H5|H5]; [left|now right].
    destruct body; [reflexivity|discriminate].
  - destruct H as (H1 & H2 & H3 & H4 & H5). repeat split; try assumption.
    destruct H5 as [->|H5]; [now left|now right].
Qed.

End Accepted.

Lemma hostname_validator_accepts_witness :
  hostname_validator "" = Ok tt
  /\ hostname_validator "Core-1" = Ok tt
  /\ hostname_validator (String.append "core" nl) = Ok tt.
Proof.
  split; [|split].
  - apply (proj2 (hostname_validator_accepts "")). exists "".
    split; [now left|].
    split; [simpl; lia|]. split; [reflexivity|].
    split; [discriminate|]. split; [|now left].
    intros [|a t]; discriminate.
  - apply (proj2 (hostname_validator_accepts "Core-1")). exists "Core-1".
    split; [now left|].
    split; [simpl; lia|]. split; [reflexivity|].
    split; [discriminate|]. split; [|now right].
    intros t E. apply (f_equal PyStr.reverse) in E.
    unfold PyStr.reverse in E. rewrite PyStrFacts.list_of_append, rev_app_distr in E.
    discriminate E.
  - apply (proj2 (hostname_validator_accepts (String.append "core" nl))).
    exists "core". split; [now right|].
    split; [simpl; lia|]. split; [reflexivity|].
    split; [discriminate|]. split; [|now right].
    intros t E. apply (f_equal PyStr.reverse) in E.
    unfold PyStr.reverse in E. rewrite PyStrFacts.list_of_append, rev_app_distr in E.
    discriminate E.
Defined.
(** *** The texts [domain_validator] accepts *)

Section AcceptedDomain.
Import Re PyStr PyStrFacts IpNetwork.

Lemma in_ahead r p q :
  In q (ends (Ahead r) p) <-> q = p /\ exists k, In k (ends r p).
Proof.
  cbn [ends]. destruct (found (ends r p)) eqn:E.
  - apply found_iff in E. cbn [In]. split.
    + intros [<-|[]]. now split.
    + intros [-> _]. now left.
  - pose proof (proj1 (found_false _) E) as H. split; [intros []|].
    intros [_ [k Hk]]. elim (H k Hk).
Qed.

Lemma in_bol p q : In q (ends Bol p) <-> q = p /\ fst p = [].
Proof.
  cbn [ends]. destruct (fst p); cbn [In].
  - split; [intros [<-|[]]; now split|]. intros [-> _]. now left.
  - split; [intros []|]. intros [_ H]. discriminate.
Qed.

Lemma in_rep_any lo hi p q :
  In q (ends (Rep Any lo (Some hi)) p) <->
  exists w after,
    snd p = w ++ after
    /\ (lo <= List.length w <= Nat.max lo hi)%nat
    /\ forallb no_newline w = true
    /\ q = (rev w ++ fst p, after).
Proof.
  rewrite in_rep_ends. split.
  - intros (n & Hlo & Hhi & H).
    change (ends Any) with (take no_newline) in H.
    apply in_times_take in H as (w & after & H1 & H2 & H3 & H4).
    exists w, after. subst n. repeat split; try assumption; lia.
  - intros (w & after & H1 & H2 & H3 & H4).
    exists (List.length w). split; [lia|]. split; [lia|].
    change (ends Any) with (take no_newline).
    apply in_times_take. now exists w, after.
Qed.

(** A label before a dot, and the last label. *)
Definition last_label (w : list ascii) : Prop :=
  (1 <= List.length w <= 63)%nat /\ forallb name_char w = true.

Definition inner_label (w : list ascii) : Prop :=
  last_label w /\ (forall t, w <> "-"%char :: t) /\ (forall t, w <> t ++ ["-"%char]).

(** The labels, each followed by its dot. *)
Definition dotted (labels : list (list ascii)) : list ascii :=
  concat (map (fun w => w ++ ["."%char]) labels).

Definition label_and_dot : regex :=
  seq_of [NotAhead (Chr "-"); Rep name_chars 1 (Some 63); NotBehind "-"; Chr "."].

Lemma rev_head_app (w b : list ascii) c :
  w <> [] ->
  (forall t, rev w ++ b <> c :: t) <-> (forall t, w <> t ++ [c]).
Proof.
  intros Hw. split; intros H t E.
  - apply (H (rev t ++ b)). rewrite E, rev_app_distr. reflexivity.
  - destruct (rev w) as [|a l] eqn:Er.
    + apply Hw. rewrite <- (rev_involutive w), Er. reflexivity.
    + cbn in E. injection E as -> _. apply (H (rev l)).
      rewrite <- (rev_involutive w), Er. reflexivity.
Qed.

Lemma in_label_and_dot p q :
  In q (ends label_and_dot p) <->
  exists w after,
    snd p = (w ++ ["."%char]) ++ after /\ inner_label w
    /\ q = (rev (w ++ ["."%char]) ++ fst p, after).
Proof.
  unfold label_and_dot. cbn [seq_of]. split.
  - intros H.
    apply in_seq_ends in H as (p1 & H1 & H).
    apply in_not_ahead in H1 as [-> Hnh].
    apply in_seq_ends in H as (p2 & H2 & H).
    apply in_rep_class in H2 as (w & rest & Hs & Hlo & Hhi & Hc & ->).
    apply in_seq_ends in H as (p3 & H3 & H).
    apply in_not_behind in H3 as [-> Hnb].
    apply in_chr in H as (after & Hr & ->). cbn [snd fst] in *.
    assert (Hw : w <> []) by (intros ->; cbn in Hlo; lia).
    exists w, after. split; [|split].
    + rewrite Hs, Hr, <- app_assoc. reflexivity.
    + split; [split; [lia|exact Hc]|]. split.
      * intros t ->. apply (Hnh ("-"%char :: fst p, t ++ rest)).
        apply in_chr. exists (t ++ rest). now rewrite Hs.
      * now apply (rev_head_app w (fst p)).
    + now rewrite rev_app_distr.
  - intros (w & after & Hs & ((Hlen & Hc) & Hfirst & Hlast) & ->).
    assert (Hw : w <> []) by (intros ->; cbn in Hlen; lia).
    rewrite <- app_assoc in Hs. cbn [app] in Hs.
    apply in_seq_ends. exists p. split.
    { apply in_not_ahead. split; [reflexivity|]. intros k Hk.
      apply in_chr in Hk as (after' & Ha & _). rewrite Hs in Ha.
      destruct w as [|b w]; [congruence|]. injection Ha as -> _.
      now apply (Hfirst w). }
    apply in_seq_ends. exists (rev w ++ fst p, "."%char :: after). split.
    { apply in_rep_class. exists w, ("."%char :: after).
      repeat split; auto; lia. }
    apply in_seq_ends. exists (rev w ++ fst p, "."%char :: after). split.
    { apply in_not_behind. split; [reflexivity|]. cbn [fst].
      now apply (rev_head_app w (fst p)). }
    apply in_chr. exists after. cbn [snd fst]. split; [reflexivity|].
    now rewrite rev_app_distr.
Qed.

(** [n] labels with their dots in a row. *)
Lemma in_times_labels n p q :
  In q (times (ends label_and_dot) n p) <->
  exists labels after,
    List.length labels = n
    /\ snd p = dotted labels ++ after /\ Forall inner_label labels
    /\ q = (rev (dotted labels) ++ fst p, after).
Proof.
  revert p. induction n as [|n IH]; intros p; cbn [times].
  - split.
    + intros [<-|[]]. exists [], (snd p). destruct p. now repeat split.
    + intros (labels & after & H1 & H2 & _ & ->).
      destruct labels; [|discriminate]. cbn in *. left. destruct p. cbn in *.
      now subst.
  - rewrite in_flat_map. split.
    + intros (k & Hk & H).
      apply in_label_and_dot in Hk as (w & after & H1 & H2 & ->).
      apply IH in H as (labels & after' & H3 & H4 & H5 & ->). cbn [snd fst] in *.
      exists (w :: labels), after'. unfold dotted in *. cbn [map concat List.length].
      split; [now rewrite H3|]. split; [now rewrite H1, H4, <- !app_assoc|].
      split; [now constructor|].
      now rewrite (rev_app_distr (w ++ ["."%char])), <- !app_assoc.
    + intros (labels & after & H1 & H2 & H3 & ->).
      destruct labels as [|w labels]; [discriminate|].
      inversion H3 as [|? ? Hw Hl]; subst. unfold dotted in *.
      cbn [map concat] in *. rewrite <- app_assoc in H2.
      exists (rev (w ++ ["."%char]) ++ fst p,
              concat (map (fun w => w ++ ["."%char]) labels) ++ after).
      split.
      * apply in_label_and_dot.
        exists w, (concat (map (fun w => w ++ ["."%char]) labels) ++ after).
        split; [exact H2|]. split; [exact Hw|reflexivity].
      * apply IH. exists labels, after. cbn [snd fst].
        split; [now injection H1|]. split; [reflexivity|]. split; [exact Hl|].
        now rewrite (rev_app_distr (w ++ ["."%char])), <- !app_assoc.
Qed.

Lemma dotted_length labels :
  (List.length labels <= List.length (dotted labels))%nat.
Proof.
  induction labels as [|w labels IH]; [cbn; lia|].
  unfold dotted in *. cbn [map concat List.length].
  rewrite !length_app. cbn [List.length]. lia.
Qed.

Lemma in_star_labels p q :
  In q (ends (Rep label_and_dot 0 None) p) <->
  exists labels after,
    snd p = dotted labels ++ after /\ Forall inner_label labels
    /\ q = (rev (dotted labels) ++ fst p, after).
Proof.
  rewrite in_rep_ends. split.
  - intros (n & _ & _ & H). apply in_times_labels in H as (labels & after & _ & H).
    now exists labels, after.
  - intros (labels & after & H1 & H2 & H3). exists (List.length labels).
    split; [lia|]. split.
    + rewrite H1, length_app. pose proof (dotted_length labels). lia.
    + apply in_times_labels. now exists labels, after.
Qed.

Lemma body_no_newline labels last :
  Forall inner_label labels -> last_label last ->
  forallb no_newline (dotted labels ++ last) = true.
Proof.
  intros Hl [_ Hlast]. rewrite forallb_app. apply andb_true_iff. split.
  - induction Hl as [|w labels [[_ Hw] _] _ IH]; [reflexivity|].
    unfold dotted in *. cbn [map concat]. rewrite !forallb_app, IH.
    rewrite (name_char_no_newline w Hw). reflexivity.
  - now apply name_char_no_newline.
Qed.

(** The texts [domain_regex] matches, as lists of characters. *)
Definition domain_body (w : list ascii) : Prop :=
  (List.length w <= 253)%nat
  /\ exists labels last,
      w = dotted labels ++ last
      /\ Forall inner_label labels /\ last_label last.

Lemma domain_regex_matches (s : list ascii) :
  (exists q, In q (ends
     (seq_of
        [Ahead (seq_of [Bol; Rep Any 1 (Some 253); Eol]);
         seq_of [Bol; Rep label_and_dot 0 None; Rep name_chars 1 (Some 63); Eol];
         Eol]) ([], s)))
  <-> exists w rest,
        s = w ++ rest /\ (rest = [] \/ rest = [newline]) /\ domain_body w.
Proof.
  cbn [seq_of]. split.
  - intros (q & H).
    apply in_seq_ends in H as (p1 & H1 & H).
    apply in_ahead in H1 as [-> (k & Hk)].
    apply in_seq_ends in Hk as (k1 & Hk1 & Hk).
    apply in_bol in Hk1 as [-> _].
    apply in_seq_ends in Hk as (k2 & Hk2 & Hk).
    apply in_rep_any in Hk2 as (w' & rest' & Hs' & Hlen' & Hc' & ->).
    apply in_eol in Hk as [_ He']. apply at_end_iff in He'.
    apply in_seq_ends in H as (p2 & H2 & H).
    apply in_seq_ends in H2 as (p3 & H3 & H2).
    apply in_bol in H3 as [-> _].
    apply in_seq_ends in H2 as (p4 & H4 & H2).
    apply in_star_labels in H4 as (labels & after & Hs & Hl & ->).
    apply in_seq_ends in H2 as (p5 & H5 & H2).
    apply in_rep_class in H5 as (last & rest & Ha & Hlo & Hhi & Hc & ->).
    apply in_eol in H2 as [-> He]. apply at_end_iff in He.
    cbn [snd fst] in *.
    assert (Hlast : last_label last) by (split; [lia|exact Hc]).
    assert (E : s = (dotted labels ++ last) ++ rest)
      by (rewrite Hs, Ha, <- app_assoc; reflexivity).
    destruct (cut_unique (dotted labels ++ last) w' rest rest') as [<- _];
      try assumption.
    + congruence.
    + now apply body_no_newline.
    + exists (dotted labels ++ last), rest. split; [exact E|].
      split; [exact He|]. split; [lia|]. now exists labels, last.
  - intros (w & rest & Hs & He & Hlen & labels & last & -> & Hl & Hlast).
    pose proof Hlast as [Hlen1 Hc].
    set (body := dotted labels ++ last) in *.
    exists (rev last ++ rev (dotted labels) ++ [], rest).
    apply in_seq_ends. exists ([], s). split.
    { apply in_ahead. split; [reflexivity|].
      exists (rev body ++ [], rest).
      apply in_seq_ends. exists ([], s). split; [now apply in_bol|].
      apply in_seq_ends. exists (rev body ++ [], rest). split.
      - apply in_rep_any. exists body, rest. cbn [snd fst].
        split; [exact Hs|]. split; [|split; [|reflexivity]].
        + unfold body in *. rewrite length_app in *. lia.
        + now apply body_no_newline.
      - apply in_eol. split; [reflexivity|]. now apply at_end_iff. }
    apply in_seq_ends. exists (rev last ++ rev (dotted labels) ++ [], rest). split.
    { apply in_seq_ends. exists ([], s). split; [now apply in_bol|].
      apply in_seq_ends. exists (rev (dotted labels) ++ [], last ++ rest). split.
      - apply in_star_labels. exists labels, (last ++ rest). cbn [snd fst].
        split; [|now split]. unfold body in Hs. now rewrite Hs, app_assoc.
      - apply in_seq_ends. exists (rev last ++ rev (dotted labels) ++ [], rest).
        split.
        + apply in_rep_class. exists last, rest. cbn [snd fst].
          repeat split; auto; lia.
        + apply in_eol. split; [reflexivity|]. now apply at_end_iff. }
    apply in_eol. split; [reflexivity|]. now apply at_end_iff.
Qed.

(** *** From lists of characters to texts *)

Definition last_label_text (l : string) : Prop :=
  (1 <= String.length l <= 63)%nat /\ all_chars name_char l = true.

Definition inner_label_text (l : string) : Prop :=
  last_label_text l
  /\ (forall t, l <> String "-" t) /\ (forall t, l <> (t ++ "-")%string).

Lemma last_label_of_text l :
  last_label (list_ascii_of_string l) <-> last_label_text l.
Proof.
  unfold last_label, last_label_text.
  now rewrite length_list_of, all_chars_forallb.
Qed.

Lemma inner_label_of_text l :
  inner_label (list_ascii_of_string l) <-> inner_label_text l.
Proof.
  unfold inner_label, inner_label_text.
  now rewrite last_label_of_text, starts_of_text, ends_of_text.
Qed.

Lemma split_nonempty c s : split c s <> [].
Proof.
  destruct s as [|a s]; cbn [split]; [discriminate|].
  destruct (Ascii.eqb a c); [discriminate|]. destruct (split c s); discriminate.
Qed.

Lemma join_split c s : join (String c "") (split c s) = s.
Proof.
  induction s as [|a s IH]; [reflexivity|]. cbn [split].
  pose proof (split_nonempty c s) as Hne.
  destruct (Ascii.eqb_spec a c) as [->|Hac];
    (destruct (split c s) as [|w ws]; [congruence|]).
  - rewrite join_cons, IH. reflexivity.
  - rewrite <- IH. destruct ws; reflexivity.
Qed.

Lemma list_of_join_dotted inner last :
  list_ascii_of_string (join "." (inner ++ [last]))
  = dotted (map list_ascii_of_string inner) ++ list_ascii_of_string last.
Proof.
  induction inner as [|l inner IH]; [reflexivity|].
  change ((l :: inner) ++ [last]) with (l :: inner ++ [last]).
  destruct (inner ++ [last]) as [|x xs] eqn:E.
  - destruct inner; discriminate.
  - rewrite join_cons, !list_of_append, IH. unfold dotted. cbn [map concat].
    now rewrite <- !app_assoc.
Qed.

Lemma name_chars_free_dot l : all_chars name_char l = true -> free_of "." l = true.
Proof. intros H. now apply (all_chars_free name_char "." l H). Qed.

Lemma domain_body_of_text body :
  domain_body (list_ascii_of_string body)
  <-> (String.length body <= 253)%nat
      /\ exists inner last,
          split "." body = inner ++ [last]
          /\ Forall inner_label_text inner /\ last_label_text last.
Proof.
  unfold domain_body. rewrite length_list_of. split.
  - intros (Hlen & labels & last & E & Hl & Hlast). split; [exact Hlen|].
    exists (map string_of_list_ascii labels), (string_of_list_ascii last).
    assert (Hin : Forall inner_label_text (map string_of_list_ascii labels)).
    { apply Forall_map. revert Hl. apply Forall_impl. intros w Hw.
      apply inner_label_of_text. now rewrite list_ascii_of_string_of_list_ascii. }
    assert (Hla : last_label_text (string_of_list_ascii last)).
    { apply last_label_of_text. now rewrite list_ascii_of_string_of_list_ascii. }
    split; [|now split].
    assert (Eb : body = join "." (map string_of_list_ascii labels
                                   ++ [string_of_list_ascii last])).
    { apply list_of_string_inj. rewrite list_of_join_dotted, E, map_map.
      rewrite list_ascii_of_string_of_list_ascii. f_equal. f_equal.
      rewrite <- (map_id labels) at 1. apply map_ext. intros w.
      now rewrite list_ascii_of_string_of_list_ascii. }
    rewrite Eb at 1. apply split_join.
    + destruct (map string_of_list_ascii labels); discriminate.
    + apply Forall_app. split.
      * revert Hin. apply Forall_impl. intros l [[_ H] _].
        now apply name_chars_free_dot.
      * constructor; [|constructor]. now apply name_chars_free_dot, Hla.
  - intros (Hlen & inner & last & E & Hin & Hla). split; [exact Hlen|].
    exists (map list_ascii_of_string inner), (list_ascii_of_string last).
    split; [|split].
    + rewrite <- list_of_join_dotted, <- E. now rewrite join_split.
    + apply Forall_map. revert Hin. apply Forall_impl. intros l Hl.
      now apply inner_label_of_text.
    + now apply last_label_of_text.
Qed.

(** X23. [domain_validator] accepts a text exactly when the text, or the
    text without one newline at its end, has at most 253 characters and is
    made of labels joined by dots, each label of 1 to 63 letters, digits or
    hyphens, and every label but the last neither beginning nor ending with
    a hyphen.  The last label may begin or end with a hyphen, and a newline
    after the name is let through. *)
Theorem domain_validator_accepts (value : string) :
  domain_validator value = Ok tt
  <-> exists body,
        (value = body \/ value = (body ++ nl)%string)
        /\ (String.length body <= 253)%nat
        /\ exists inner last,
            split "." body = inner ++ [last]
            /\ Forall inner_label_text inner /\ last_label_text last.
Proof.
  unfold domain_validator, domain_regex.
  change (seq_of (Bol :: ?l)) with (Seq Bol (seq_of l)).
  rewrite validator_accepts.
  change (seq_of [NotAhead (Chr "-"); Rep name_chars 1 (Some 63);
                  NotBehind "-"; Chr "."]) with label_and_dot.
  rewrite domain_regex_matches, cut_of_text.
  split; intros (body & Hv & H); exists body; (split; [exact Hv|]);
    now apply domain_body_of_text.
Qed.

End AcceptedDomain.

Lemma domain_validator_accepts_witness :
  domain_validator "foo.example.com" = Ok tt
  /\ domain_validator "-org-" = Ok tt
  /\ domain_validator "foo-.com" <> Ok tt.
Proof.
  split; [|split].
  - apply (proj2 (domain_validator_accepts "foo.example.com")).
    exists "foo.example.com". split; [now left|]. split; [simpl; lia|].
    exists ["foo"; "example"], "com". split; [reflexivity|]. split.
    + repeat constructor; simpl; try lia; try discriminate;
        intros t E; apply (f_equal PyStr.reverse) in E;
        unfold PyStr.reverse in E;
        rewrite PyStrFacts.list_of_append, rev_app_distr in E; discriminate E.
    + split; [simpl; lia|reflexivity].
  - apply (proj2 (domain_validator_accepts "-org-")).
    exists "-org-". split; [now left|]. split; [simpl; lia|].
    exists [], "-org-". split; [reflexivity|]. split; [constructor|].
    split; [simpl; lia|reflexivity].
  - intros H. apply (proj1 (domain_validator_accepts "foo-.com")) in H.
    destruct H as (body & Hv & _ & inner & last & E & Hin & _).
    assert (Eb : body = "foo-.com").
    { destruct Hv as [Hv|Hv]; [now symmetry|].
      apply (f_equal PyStr.reverse) in Hv. unfold PyStr.reverse in Hv.
      rewrite PyStrFacts.list_of_append, rev_app_distr in Hv. discriminate Hv. }
    subst body. change (PyStr.split "." "foo-.com") with ["foo-"; "com"] in E.
    destruct inner as [|l [|l' [|l'' inner]]]; try discriminate E.
    injection E as <- _. inversion Hin as [|? ? [_ [_ Hend]] _]; subst.
    now apply (Hend "foo").
Defined.
